(** * Inventory ledger of the bodega application

    A shallow embedding of the ledger engine of
    [inventario-bodega/src/App.jsx]: the event handler
    [handleProcessEvent] (ingreso, venta, devolucion), the targeted
    reversal [handleUndoSale] and the batch return [handleReturn],
    together with the IndexedDB object stores they read and write.

    Conventions of the embedding.
    - A JavaScript number is an exact rational ([Q]); equality of
      numbers is [Qeq] ([==]).  Rounding and infinities are outside the
      model, and so is [NaN], except in the plain objects the views
      accumulate their figures in ([Val]) and where a computation is
      repeated on binary64 numbers ([Legacy.venta64]).
    - A JavaScript string is a [string]; the empty string stands for
      every falsy value of a string-valued field ([undefined], [null],
      [""]), which is all that [||] and [!] observe.
    - An ISO-8601 timestamp produced by [nowISO()] is represented by the
      instant it denotes, in milliseconds ([Z]); [new Date(s)] recovers
      that instant.  One handler invocation reads the clock once
      ([now]).
    - An object store is the list of its records in ascending key order,
      which is the order [getAll()] returns them in, together with the
      current value of its key generator when keys are auto-incremented.
    - A handler runs inside one IndexedDB transaction: it returns the
      store after commit, or the store it started from when it returns
      early without a write or when a request fails and the transaction
      aborts. *)

From Stdlib Require Import ZArith QArith Qabs Qround Qminmax List String Ascii Bool.
From Stdlib Require Import Lia Lqa DecimalString Permutation Sorted Floats.
Import ListNotations.

Open Scope string_scope.
Open Scope Q_scope.

(** ** JavaScript operators used by the handlers *)

(** [`${n}`] for an integer [n]. *)
Definition string_of_Z (z : Z) : string := NilZero.string_of_int (Z.to_int z).

(** Truthiness of a string-valued field. *)
Definition truthy (s : string) : bool := negb (s =? "")%string.

(** [a || b] on string-valued fields. *)
Definition or_str (a b : string) : string := if truthy a then a else b.

(** [a || b] where [a] is a possibly missing number: [undefined] and [0]
    are falsy. *)
Definition or_num (a : option Q) (b : Q) : Q :=
  match a with
  | Some q => if Qeq_bool q 0 then b else q
  | None => b
  end.

(** [a || b] on possibly missing timestamps. *)
Definition or_time (a : option Z) (b : Z) : Z :=
  match a with Some t => t | None => b end.

(** [x > y] and [x <= y] on numbers. *)
Definition Qgtb (x y : Q) : bool := negb (Qle_bool x y).
Definition Qleb (x y : Q) : bool := Qle_bool x y.

(** [lot?.startsWith(p)]. *)
Definition startsWith (p s : string) : bool := String.prefix p s.

(** Keys of an object store: numbers sort before strings. *)
Inductive Key : Type :=
| KNum (n : Z)
| KStr (s : string).

Definition key_eqb (a b : Key) : bool :=
  match a, b with
  | KNum x, KNum y => (x =? y)%Z
  | KStr x, KStr y => (x =? y)%string
  | _, _ => false
  end.

Definition key_ltb (a b : Key) : bool :=
  match a, b with
  | KNum x, KNum y => (x <? y)%Z
  | KNum _, KStr _ => true
  | KStr _, KNum _ => false
  | KStr x, KStr y => String.ltb x y
  end.

(** ** Records of the object stores *)

Module Product.
Record t : Type := mk {
    sku : string;
    name : string;
    category : string;
    default_purchase_price : Q;
    default_sale_price : Q;
    created_at : Z
  }.
End Product.

Module Batch.
(** [id] is the auto-incremented key; [expiry], [status] are empty when
      absent, [return_id] is [None] when absent. *)
Record t : Type := mk {
    id : Z;
    product_sku : string;
    lot : string;
    expiry : string;
    quantity : Q;
    purchase_price : Q;
    created_at : Z;
    return_id : option Z;
    status : string
  }.

Definition set_id (k : Z) (b : t) : t :=
    mk k (product_sku b) (lot b) (expiry b) (quantity b) (purchase_price b)
       (created_at b) (return_id b) (status b).

Definition set_quantity (q : Q) (b : t) : t :=
    mk (id b) (product_sku b) (lot b) (expiry b) q (purchase_price b)
       (created_at b) (return_id b) (status b).
End Batch.

(** One entry of [batches_used]. *)
Module BatchUse.
Record t : Type := mk {
    batchId : Z;
    quantity : Q;
    purchase_price : Q
  }.
End BatchUse.

Module Sale.
Record t : Type := mk {
    id : Key;
    timestamp : Z;
    sku : string;
    product_name : string;
    quantity : Q;
    sale_price : Q;
    total : Q;
    operator : string;
    device_id : string;
    status : string;
    batches_used : list BatchUse.t;
    bodega : string;
    lot : string;
    type : string
  }.

Definition set_status (s : string) (x : t) : t :=
    mk (id x) (timestamp x) (sku x) (product_name x) (quantity x)
       (sale_price x) (total x) (operator x) (device_id x) s
       (batches_used x) (bodega x) (lot x) (type x).
End Sale.

Module Movement.
(** The record written to [movements]; [id] is assigned by [add],
      [sale_id], [return_id] are [None] and [batches_used] is empty when
      the property is absent. *)
Record t : Type := mk {
    id : Z;
    type : string;
    sku : string;
    name : string;
    quantity : Q;
    price : Q;
    lot : string;
    expiry : string;
    timestamp : Z;
    device_id : string;
    operator : string;
    bodega : string;
    sale_id : option Key;
    return_id : option Z;
    batches_used : list BatchUse.t
  }.

Definition set_id (k : Z) (m : t) : t :=
    mk k (type m) (sku m) (name m) (quantity m) (price m) (lot m) (expiry m)
       (timestamp m) (device_id m) (operator m) (bodega m) (sale_id m)
       (return_id m) (batches_used m).

Definition set_type (ty : string) (m : t) : t :=
    mk (id m) ty (sku m) (name m) (quantity m) (price m) (lot m) (expiry m)
       (timestamp m) (device_id m) (operator m) (bodega m) (sale_id m)
       (return_id m) (batches_used m).

Definition set_price (p : Q) (m : t) : t :=
    mk (id m) (type m) (sku m) (name m) (quantity m) p (lot m) (expiry m)
       (timestamp m) (device_id m) (operator m) (bodega m) (sale_id m)
       (return_id m) (batches_used m).

Definition set_sale_id (k : Key) (m : t) : t :=
    mk (id m) (type m) (sku m) (name m) (quantity m) (price m) (lot m)
       (expiry m) (timestamp m) (device_id m) (operator m) (bodega m)
       (Some k) (return_id m) (batches_used m).

Definition set_return_id (k : Z) (m : t) : t :=
    mk (id m) (type m) (sku m) (name m) (quantity m) (price m) (lot m)
       (expiry m) (timestamp m) (device_id m) (operator m) (bodega m)
       (sale_id m) (Some k) (batches_used m).

Definition set_batches_used (u : list BatchUse.t) (m : t) : t :=
    mk (id m) (type m) (sku m) (name m) (quantity m) (price m) (lot m)
       (expiry m) (timestamp m) (device_id m) (operator m) (bodega m)
       (sale_id m) (return_id m) u.
End Movement.

Module Return.
(** A record of [returns].  The generic devolucion stores a copy of the
      movement (so [type], [lot], [expiry], [bodega] are present); the
      other writers leave those properties out. *)
Record t : Type := mk {
    id : Z;
    type : string;
    sku : string;
    name : string;
    quantity : Q;
    price : Q;
    lot : string;
    expiry : string;
    timestamp : Z;
    device_id : string;
    operator : string;
    bodega : string;
    original_sale_id : option Key;
    original_batch_id : option Z;
    status : string
  }.

Definition set_id (k : Z) (r : t) : t :=
    mk k (type r) (sku r) (name r) (quantity r) (price r) (lot r) (expiry r)
       (timestamp r) (device_id r) (operator r) (bodega r)
       (original_sale_id r) (original_batch_id r) (status r).
End Return.

(** The event payload handed to [handleProcessEvent]. *)
Module Payload.
Record t : Type := mk {
    event : string;
    sku : string;
    barcode : string;
    name : string;
    quantity : option Q;
    purchase_price : option Q;
    sale_price : option Q;
    lot : string;
    expiry : string;
    category : string;
    timestamp : option Z;
    device_id : string;
    operator : string;
    bodega : string
  }.
End Payload.

(** An entry of the events feed, the argument of [handleUndoSale]. *)
Module FeedEvent.
Record t : Type := mk {
    id : Key;
    type : string;
    sku : string;
    name : string;
    quantity : Q;
    device_id : string;
    operator : string;
    timestamp : Z
  }.
End FeedEvent.

(** The component state the handlers read besides the database, and the
    clock. *)
Record Env : Type := mkEnv {
  db_open : bool;
  connected : bool;
  salesSensorConnected : bool;
  selectedDevice_id : string;
  selectedDevice_operator : string;
  settings_user : string;
  settings_bodega : string;
  now : Z
}.

(** ** The database *)

Record DB : Type := mkDB {
  products : list Product.t;
  batches : list Batch.t;
  batches_key : Z;
  sales : list Sale.t;
  returns : list Return.t;
  returns_key : Z;
  movements : list Movement.t;
  movements_key : Z
}.

(** A fresh database: empty stores, key generators at 1. *)
Definition empty_db : DB := mkDB [] [] 1 [] [] 1 [] 1.

Definition with_products (v : list Product.t) (db : DB) : DB :=
  mkDB v (batches db) (batches_key db) (sales db) (returns db)
       (returns_key db) (movements db) (movements_key db).

Definition with_batches (v : list Batch.t) (db : DB) : DB :=
  mkDB (products db) v (batches_key db) (sales db) (returns db)
       (returns_key db) (movements db) (movements_key db).

Definition with_sales (v : list Sale.t) (db : DB) : DB :=
  mkDB (products db) (batches db) (batches_key db) v (returns db)
       (returns_key db) (movements db) (movements_key db).

(** *** [products], keyed by [sku] *)

Definition products_get (sku : string) (l : list Product.t) : option Product.t :=
  find (fun p => (Product.sku p =? sku)%string) l.

Fixpoint products_put (p : Product.t) (l : list Product.t) : list Product.t :=
  match l with
  | [] => [p]
  | x :: r =>
      if (Product.sku x =? Product.sku p)%string then p :: r
      else if String.ltb (Product.sku p) (Product.sku x) then p :: l
      else x :: products_put p r
  end.

(** *** [batches], auto-incremented key [id] *)

Definition batches_get (k : Z) (l : list Batch.t) : option Batch.t :=
  find (fun b => (Batch.id b =? k)%Z) l.

(** [put] of a record whose key is [Batch.id b]: replaces the record
    stored under that key, or stores a new one at its place in key
    order. *)
Fixpoint batches_put (b : Batch.t) (l : list Batch.t) : list Batch.t :=
  match l with
  | [] => [b]
  | x :: r =>
      if (Batch.id x =? Batch.id b)%Z then b :: r
      else if (Batch.id b <? Batch.id x)%Z then b :: l
      else x :: batches_put b r
  end.

(** [add] of a record without key: the key generator supplies the key,
    which is returned. *)
Definition batches_add (b : Batch.t) (db : DB) : Z * DB :=
  let k := batches_key db in
  (k, mkDB (products db) (batches db ++ [Batch.set_id k b]) (k + 1)
           (sales db) (returns db) (returns_key db)
           (movements db) (movements_key db)).

(** *** [sales]: [keyPath: 'id'], the handlers supply the key *)

Definition sales_get (k : Key) (l : list Sale.t) : option Sale.t :=
  find (fun s => key_eqb (Sale.id s) k) l.

Fixpoint sales_insert (s : Sale.t) (l : list Sale.t) : list Sale.t :=
  match l with
  | [] => [s]
  | x :: r =>
      if key_ltb (Sale.id s) (Sale.id x) then s :: l
      else x :: sales_insert s r
  end.

(** [add] fails (ConstraintError) when the key is already present. *)
Definition sales_add (s : Sale.t) (l : list Sale.t) : option (list Sale.t) :=
  if existsb (fun x => key_eqb (Sale.id x) (Sale.id s)) l then None
  else Some (sales_insert s l).

Definition sales_put (s : Sale.t) (l : list Sale.t) : list Sale.t :=
  if existsb (fun x => key_eqb (Sale.id x) (Sale.id s)) l
  then map (fun x => if key_eqb (Sale.id x) (Sale.id s) then s else x) l
  else sales_insert s l.

(** *** [returns] and [movements], auto-incremented key [id] *)

Definition returns_add (r : Return.t) (db : DB) : Z * DB :=
  let k := returns_key db in
  (k, mkDB (products db) (batches db) (batches_key db) (sales db)
           (returns db ++ [Return.set_id k r]) (k + 1)
           (movements db) (movements_key db)).

Definition movements_add (m : Movement.t) (db : DB) : DB :=
  let k := movements_key db in
  mkDB (products db) (batches db) (batches_key db) (sales db)
       (returns db) (returns_key db)
       (movements db ++ [Movement.set_id k m]) (k + 1).

(** ** Results of a handler *)

(** The error notifications the handlers raise. *)
Inductive EventError : Type :=
| DbUnavailable            (* 'Base de datos no disponible' *)
| DeviceNotConnected       (* 'Dispositivo no conectado' *)
| MissingIdentifier        (* 'Se requiere SKU o código de barras' *)
| MissingName              (* 'Se requiere nombre del producto' *)
| SensorsRequired          (* pulsera and sales sensor must be connected *)
| ProductNotFound          (* 'Producto no encontrado en la base de datos' *)
| InsufficientStock        (* 'Venta denegada' *)
| OverReturn               (* 'Devolución denegada' *)
| SaleNotFoundOrCancelled  (* 'No se encontró la venta o ya fue anulada' *)
| BatchNotFound            (* 'Lote no encontrado' *)
| AlreadyReturned          (* 'Este lote ya fue devuelto' *)
| StorageError.            (* a request failed: the catch block *)

(** [Applied]: the transaction committed its writes.  [Rejected e]: the
    handler notified [e] and wrote nothing.  [Ignored]: the handler
    returned without a notification and without a write. *)
Inductive Outcome : Type :=
| Applied
| Rejected (e : EventError)
| Ignored.

(** ** [handleProcessEvent] *)

(** The base movement record built from the payload. *)
Definition base_movement (env : Env) (payload : Payload.t) : Movement.t :=
  {| Movement.id := 0;
     Movement.type := Payload.event payload;
     Movement.sku := or_str (Payload.sku payload) (Payload.barcode payload);
     Movement.name := Payload.name payload;
     Movement.quantity := Qmax 1 (or_num (Payload.quantity payload) 0);
     Movement.price :=
       Qmax 0 (or_num (Payload.purchase_price payload)
                      (or_num (Payload.sale_price payload) 0));
     Movement.lot :=
       or_str (Payload.lot payload) ("LOT-" ++ string_of_Z (now env));
     Movement.expiry := Payload.expiry payload;
     Movement.timestamp := or_time (Payload.timestamp payload) (now env);
     Movement.device_id :=
       or_str (Payload.device_id payload) (selectedDevice_id env);
     Movement.operator :=
       or_str (Payload.operator payload)
              (or_str (selectedDevice_operator env)
                      (or_str (settings_user env) "Operador"));
     Movement.bodega :=
       or_str (Payload.bodega payload)
              (or_str (settings_bodega env) "Bodega Principal");
     Movement.sale_id := None;
     Movement.return_id := None;
     Movement.batches_used := [] |}.

(** *** ingreso *)

Definition process_ingreso (env : Env) (db : DB) (payload : Payload.t)
    (movement : Movement.t) : Outcome * DB :=
  let db1 :=
    match products_get (Movement.sku movement) (products db) with
    | Some _ => db
    | None =>
        with_products
          (products_put
             {| Product.sku := Movement.sku movement;
                Product.name := Movement.name movement;
                Product.category :=
                  or_str (Payload.category payload) "Sin categoría";
                Product.default_purchase_price := Movement.price movement;
                Product.default_sale_price :=
                  or_num (Payload.sale_price payload)
                         (Movement.price movement * 1.5);
                Product.created_at := now env |}
             (products db)) db
    end in
  let '(_, db2) :=
    batches_add
      {| Batch.id := 0;
         Batch.product_sku := Movement.sku movement;
         Batch.lot :=
           or_str (Movement.lot movement) ("INIT-" ++ string_of_Z (now env));
         Batch.expiry := Movement.expiry movement;
         Batch.quantity := Movement.quantity movement;
         Batch.purchase_price := Movement.price movement;
         Batch.created_at := now env;
         Batch.return_id := None;
         Batch.status := "" |} db1 in
  (Applied, movements_add (Movement.set_type "ingreso_inventario" movement) db2).

(** *** venta *)

(** [b.product_sku === sku && !b.lot?.startsWith('DEV-')]. *)
Definition in_stock (sku : string) (b : Batch.t) : bool :=
  (Batch.product_sku b =? sku)%string && negb (startsWith "DEV-" (Batch.lot b)).

(** [allBatches.filter(...).reduce((s, b) => s + (b.quantity || 0), 0)]. *)
Definition totalStock (allBatches : list Batch.t) (sku : string) : Q :=
  fold_left (fun s b => s + or_num (Some (Batch.quantity b)) 0)
            (filter (in_stock sku) allBatches) 0.

(** The filter of [productBatches]. *)
Definition eligible (sku : string) (batch : Batch.t) : bool :=
  (Batch.product_sku batch =? sku)%string
  && Qgtb (Batch.quantity batch) 0
  && negb (startsWith "DEV-" (Batch.lot batch)).

(** [Array.prototype.sort] with the comparator
    [(a, b) => new Date(a.created_at) - new Date(b.created_at)]: the sort
    is stable, so it is the insertion of each element before the first
    later element that does not precede it. *)
Fixpoint insert_by_created (a : Batch.t) (l : list Batch.t) : list Batch.t :=
  match l with
  | [] => [a]
  | b :: r =>
      if (Batch.created_at a <=? Batch.created_at b)%Z then a :: l
      else b :: insert_by_created a r
  end.

Fixpoint sort_by_created (l : list Batch.t) : list Batch.t :=
  match l with
  | [] => []
  | a :: r => insert_by_created a (sort_by_created r)
  end.

(** The FIFO loop: [store] is the [batches] store the loop [put]s into,
    [used] the array [batchesUsed]. *)
Fixpoint fifo_loop (productBatches : list Batch.t) (remaining : Q)
    (store : list Batch.t) (used : list BatchUse.t)
    : list Batch.t * list BatchUse.t * Q :=
  match productBatches with
  | [] => (store, used, remaining)
  | batch :: rest =>
      if Qleb remaining 0 then (store, used, remaining)
      else
        let take := Qmin (Batch.quantity batch) remaining in
        let batch' := Batch.set_quantity (Batch.quantity batch - take) batch in
        fifo_loop rest (remaining - take) (batches_put batch' store)
          (used ++ [ {| BatchUse.batchId := Batch.id batch;
                        BatchUse.quantity := take;
                        BatchUse.purchase_price := Batch.purchase_price batch |} ])
  end.

(** The record [saleData] of a venta. *)
Definition saleData (env : Env) (movement : Movement.t)
    (batchesUsed : list BatchUse.t) : Sale.t :=
  {| Sale.id := KStr ("SALE-" ++ string_of_Z (now env));
     Sale.timestamp := Movement.timestamp movement;
     Sale.sku := Movement.sku movement;
     Sale.product_name := Movement.name movement;
     Sale.quantity := Movement.quantity movement;
     Sale.sale_price := Movement.price movement;
     Sale.total := Movement.quantity movement * Movement.price movement;
     Sale.operator := Movement.operator movement;
     Sale.device_id := Movement.device_id movement;
     Sale.status := "completed";
     Sale.batches_used := batchesUsed;
     Sale.bodega := Movement.bodega movement;
     Sale.lot := "SALE-" ++ string_of_Z (now env);
     Sale.type := "venta" |}.

(** [movement.price = product.default_sale_price || movement.price]. *)
Definition with_product_price (product : Product.t) (movement : Movement.t)
    : Movement.t :=
  Movement.set_price
    (or_num (Some (Product.default_sale_price product)) (Movement.price movement))
    movement.

Definition process_venta (env : Env) (db : DB) (movement0 : Movement.t)
    : Outcome * DB :=
  if negb (connected env) || negb (salesSensorConnected env)
  then (Rejected SensorsRequired, db)
  else
    match products_get (Movement.sku movement0) (products db) with
    | None => (Rejected ProductNotFound, db)
    | Some product =>
        let movement := with_product_price product movement0 in
        let allBatches := batches db in
        let total := totalStock allBatches (Movement.sku movement) in
        if Qgtb (Movement.quantity movement) total
        then (Rejected InsufficientStock, db)
        else
          let productBatches :=
            sort_by_created (filter (eligible (Movement.sku movement)) allBatches) in
          let '(store, batchesUsed, _) :=
            fifo_loop productBatches (Movement.quantity movement) allBatches [] in
          let sale := saleData env movement batchesUsed in
          match sales_add sale (sales db) with
          | None => (Rejected StorageError, db)
          | Some sales' =>
              (Applied,
               movements_add
                 (Movement.set_type "venta"
                    (Movement.set_batches_used batchesUsed
                       (Movement.set_sale_id (Sale.id sale) movement)))
                 (with_sales sales' (with_batches store db)))
          end
    end.

(** *** devolucion *)

Definition soldTotal (sales : list Sale.t) (sku : string) : Q :=
  fold_left (fun sum s => sum + Sale.quantity s)
    (filter (fun s => (Sale.sku s =? sku)%string
                      && (Sale.status s =? "completed")%string) sales) 0.

Definition returnedTotal (returns : list Return.t) (sku : string) : Q :=
  fold_left (fun sum r => sum + Return.quantity r)
    (filter (fun r => (Return.sku r =? sku)%string) returns) 0.

Definition process_devolucion (env : Env) (db : DB) (movement : Movement.t)
    : Outcome * DB :=
  let sold := soldTotal (sales db) (Movement.sku movement) in
  let returned := returnedTotal (returns db) (Movement.sku movement) in
  if Qgtb (Movement.quantity movement) (sold - returned)
  then (Rejected OverReturn, db)
  else
    let '(returnId, db1) :=
      returns_add
        {| Return.id := 0;
           Return.type := Movement.type movement;
           Return.sku := Movement.sku movement;
           Return.name := Movement.name movement;
           Return.quantity := Movement.quantity movement;
           Return.price := Movement.price movement;
           Return.lot := Movement.lot movement;
           Return.expiry := Movement.expiry movement;
           Return.timestamp := Movement.timestamp movement;
           Return.device_id := Movement.device_id movement;
           Return.operator := Movement.operator movement;
           Return.bodega := Movement.bodega movement;
           Return.original_sale_id := None;
           Return.original_batch_id := None;
           Return.status := "completed" |} db in
    let '(_, db2) :=
      batches_add
        {| Batch.id := 0;
           Batch.product_sku := Movement.sku movement;
           Batch.lot := "DEV-" ++ string_of_Z returnId;
           Batch.expiry := Movement.expiry movement;
           Batch.quantity := Movement.quantity movement;
           Batch.purchase_price := Movement.price movement;
           Batch.created_at := now env;
           Batch.return_id := Some returnId;
           Batch.status := "" |} db1 in
    (Applied,
     movements_add
       (Movement.set_return_id returnId
          (Movement.set_type "devolucion_venta" movement)) db2).

Definition handleProcessEvent (env : Env) (db : DB) (payload : Payload.t)
    : Outcome * DB :=
  if negb (db_open env) then (Rejected DbUnavailable, db)
  else if negb (connected env) then (Rejected DeviceNotConnected, db)
  else if negb (truthy (Payload.sku payload))
          && negb (truthy (Payload.barcode payload))
  then (Rejected MissingIdentifier, db)
  else if negb (truthy (Payload.name payload))
  then (Rejected MissingName, db)
  else
    let movement := base_movement env payload in
    if (Payload.event payload =? "ingreso")%string
    then process_ingreso env db payload movement
    else if (Payload.event payload =? "venta")%string
    then process_venta env db movement
    else if (Payload.event payload =? "devolucion")%string
    then process_devolucion env db movement
    else (Ignored, db).

(** [eventType]: the type under which an event of [handleProcessEvent]
    is filed. *)
Definition eventType (payload : Payload.t) : string :=
  if (Payload.event payload =? "ingreso")%string then "ingreso_inventario"
  else if (Payload.event payload =? "venta")%string then "venta"
  else "devolucion_venta".

(** The entry [setEvents] pushes on the feed once an event is processed:
    [{ id: Date.now(), ...movement, type: eventType, timestamp: nowISO() }]. *)
Definition feed_event (env : Env) (payload : Payload.t) : FeedEvent.t :=
  let movement := base_movement env payload in
  {| FeedEvent.id := KNum (now env);
     FeedEvent.type := eventType payload;
     FeedEvent.sku := Movement.sku movement;
     FeedEvent.name := Movement.name movement;
     FeedEvent.quantity := Movement.quantity movement;
     FeedEvent.device_id := Movement.device_id movement;
     FeedEvent.operator := Movement.operator movement;
     FeedEvent.timestamp := now env |}.

(** ** [handleUndoSale] *)

(** [sale.batches_used?.[0]?.purchase_price || 0]. *)
Definition original_purchase_price (sale : Sale.t) : Q :=
  match Sale.batches_used sale with
  | u :: _ => or_num (Some (BatchUse.purchase_price u)) 0
  | [] => 0
  end.

(** [sale.price || 0]: a Sale record has no [price] property. *)
Definition sale_price_property (sale : Sale.t) : Q := or_num None 0.

Definition handleUndoSale (env : Env) (db : DB) (saleEvent : FeedEvent.t)
    : Outcome * DB :=
  if negb (db_open env) then (Ignored, db)
  else
    match sales_get (FeedEvent.id saleEvent) (sales db) with
    | None => (Rejected SaleNotFoundOrCancelled, db)
    | Some sale =>
        if (Sale.status sale =? "cancelled")%string
        then (Rejected SaleNotFoundOrCancelled, db)
        else
          let operator :=
            or_str (settings_user env) "Usuario" ++ " (anulación)" in
          let '(returnId, db1) :=
            returns_add
              {| Return.id := 0;
                 Return.type := "";
                 Return.sku := FeedEvent.sku saleEvent;
                 Return.name := FeedEvent.name saleEvent;
                 Return.quantity := FeedEvent.quantity saleEvent;
                 Return.price := sale_price_property sale;
                 Return.lot := "";
                 Return.expiry := "";
                 Return.timestamp := now env;
                 Return.device_id := FeedEvent.device_id saleEvent;
                 Return.operator := operator;
                 Return.bodega := "";
                 Return.original_sale_id := Some (FeedEvent.id saleEvent);
                 Return.original_batch_id := None;
                 Return.status := "completed" |} db in
          let '(_, db2) :=
            batches_add
              {| Batch.id := 0;
                 Batch.product_sku := FeedEvent.sku saleEvent;
                 Batch.lot := "UNDO-" ++ string_of_Z returnId;
                 Batch.expiry := "";
                 Batch.quantity := FeedEvent.quantity saleEvent;
                 Batch.purchase_price := original_purchase_price sale;
                 Batch.created_at := now env;
                 Batch.return_id := Some returnId;
                 Batch.status := "" |} db1 in
          let db3 :=
            with_sales (sales_put (Sale.set_status "cancelled" sale) (sales db2))
                       db2 in
          (Applied,
           movements_add
             {| Movement.id := 0;
                Movement.type := "anulacion_venta";
                Movement.sku := FeedEvent.sku saleEvent;
                Movement.name := FeedEvent.name saleEvent;
                Movement.quantity := FeedEvent.quantity saleEvent;
                Movement.price := sale_price_property sale;
                Movement.lot := "";
                Movement.expiry := "";
                Movement.timestamp := now env;
                Movement.device_id := FeedEvent.device_id saleEvent;
                Movement.operator := operator;
                Movement.bodega := "";
                Movement.sale_id := Some (FeedEvent.id saleEvent);
                Movement.return_id := Some returnId;
                Movement.batches_used := [] |} db3)
    end.

(** ** [handleReturn] *)

(** [(products.find(p => p.sku === sku) || {}).name || sku]; the
    component's [products] mirrors the [products] store. *)
Definition product_name_or_sku (db : DB) (sku : string) : string :=
  match products_get sku (products db) with
  | Some p => or_str (Product.name p) sku
  | None => sku
  end.

(** [selectedDevice?.operator || settings?.user || 'Usuario']. *)
Definition return_operator (env : Env) : string :=
  or_str (selectedDevice_operator env) (or_str (settings_user env) "Usuario").

(** [mode === 'ventas']: a sale is returned, its units come back as a
    new batch. *)
Definition return_venta (env : Env) (db : DB) (batch : Batch.t) : Outcome * DB :=
  let name := product_name_or_sku db (Batch.product_sku batch) in
  let '(returnId, db1) :=
    returns_add
      {| Return.id := 0;
         Return.type := "";
         Return.sku := Batch.product_sku batch;
         Return.name := name;
         Return.quantity := Batch.quantity batch;
         Return.price := Batch.purchase_price batch;
         Return.lot := "";
         Return.expiry := "";
         Return.timestamp := now env;
         Return.device_id := selectedDevice_id env;
         Return.operator := return_operator env;
         Return.bodega := "";
         Return.original_sale_id := None;
         Return.original_batch_id := Some (Batch.id batch);
         Return.status := "completed" |} db in
  let '(_, db2) :=
    batches_add
      {| Batch.id := 0;
         Batch.product_sku := Batch.product_sku batch;
         Batch.lot := "DEV-SALE-" ++ string_of_Z returnId;
         Batch.expiry := Batch.expiry batch;
         Batch.quantity := Batch.quantity batch;
         Batch.purchase_price := Batch.purchase_price batch;
         Batch.created_at := now env;
         Batch.return_id := Some returnId;
         Batch.status := "returned" |} db1 in
  (Applied,
   movements_add
     {| Movement.id := 0;
        Movement.type := "devolucion_venta";
        Movement.sku := Batch.product_sku batch;
        Movement.name := name;
        Movement.quantity := Batch.quantity batch;
        Movement.price := Batch.purchase_price batch;
        Movement.lot := "DEV-SALE-" ++ string_of_Z returnId;
        Movement.expiry := "";
        Movement.timestamp := now env;
        Movement.device_id := selectedDevice_id env;
        Movement.operator := return_operator env;
        Movement.bodega := "";
        Movement.sale_id := None;
        Movement.return_id := Some returnId;
        Movement.batches_used := [] |} db2).

(** The other mode: a purchase batch is returned upstream.  The stored
    record [existing] is mutated in place before it is [put] back, and
    the movement is built from the mutated record. *)
Definition return_inventario (env : Env) (db : DB) (batch : Batch.t)
    : Outcome * DB :=
  match batches_get (Batch.id batch) (batches db) with
  | None => (Rejected BatchNotFound, db)
  | Some existing =>
      if (Batch.status existing =? "returned")%string
      then (Rejected AlreadyReturned, db)
      else
        let name := product_name_or_sku db (Batch.product_sku existing) in
        let '(returnId, db1) :=
          returns_add
            {| Return.id := 0;
               Return.type := "inventory_return";
               Return.sku := Batch.product_sku existing;
               Return.name := name;
               Return.quantity := Batch.quantity existing;
               Return.price := Batch.purchase_price existing;
               Return.lot := "";
               Return.expiry := "";
               Return.timestamp := now env;
               Return.device_id := selectedDevice_id env;
               Return.operator := return_operator env;
               Return.bodega := "";
               Return.original_sale_id := None;
               Return.original_batch_id := Some (Batch.id batch);
               Return.status := "completed" |} db in
        let existing' :=
          {| Batch.id := Batch.id existing;
             Batch.product_sku := Batch.product_sku existing;
             Batch.lot := "DEV-INV-" ++ string_of_Z returnId;
             Batch.expiry := Batch.expiry existing;
             Batch.quantity := 0;
             Batch.purchase_price := Batch.purchase_price existing;
             Batch.created_at := Batch.created_at existing;
             Batch.return_id := Some returnId;
             Batch.status := "returned" |} in
        let db2 := with_batches (batches_put existing' (batches db1)) db1 in
        (Applied,
         movements_add
           {| Movement.id := 0;
              Movement.type := "devolucion_inventario";
              Movement.sku := Batch.product_sku existing';
              Movement.name := name;
              Movement.quantity := Batch.quantity existing';
              Movement.price := Batch.purchase_price existing';
              Movement.lot := Batch.lot existing';
              Movement.expiry := "";
              Movement.timestamp := now env;
              Movement.device_id := selectedDevice_id env;
              Movement.operator := return_operator env;
              Movement.bodega := "";
              Movement.sale_id := None;
              Movement.return_id := Some returnId;
              Movement.batches_used := [] |} db2)
  end.

Definition handleReturn (env : Env) (db : DB) (batch : Batch.t) (mode : string)
    : Outcome * DB :=
  if negb (db_open env) then (Ignored, db)
  else if (mode =? "ventas")%string then return_venta env db batch
  else return_inventario env db batch.

(** ** Sequences of events *)

(** The store after a sequence of events, each processed with the
    component state and clock of its moment. *)
Definition run_events (db : DB) (events : list (Env * Payload.t)) : DB :=
  fold_left (fun d ev => snd (handleProcessEvent (fst ev) d (snd ev))) events db.

(** ** The three handlers together *)

(** What the user interface can ask of the ledger. *)
Inductive Action : Type :=
| ProcessEvent (payload : Payload.t)
| UndoSale (saleEvent : FeedEvent.t)
| ReturnBatch (batch : Batch.t) (mode : string).

Definition perform (env : Env) (db : DB) (a : Action) : Outcome * DB :=
  match a with
  | ProcessEvent payload => handleProcessEvent env db payload
  | UndoSale saleEvent => handleUndoSale env db saleEvent
  | ReturnBatch batch mode => handleReturn env db batch mode
  end.

Definition run (db : DB) (steps : list (Env * Action)) : DB :=
  fold_left (fun d st => snd (perform (fst st) d (snd st))) steps db.

(** ** Predicates on stores *)

(** No batch holds a negative quantity. *)
Definition batches_nonneg (l : list Batch.t) : Prop :=
  Forall (fun b => 0 <= Batch.quantity b) l.

(** The [batches] store lists its records in strictly ascending key
    order. *)
Definition keys_ascending (l : list Batch.t) : Prop :=
  StronglySorted (fun a b => (Batch.id a < Batch.id b)%Z) l.

(** ... and every key is below the key generator, so that the next
    [add] keeps the order. *)
Definition well_keyed (db : DB) : Prop :=
  keys_ascending (batches db)
  /\ Forall (fun b => (Batch.id b < batches_key db)%Z) (batches db).

(** FIFO order as the specification words it: ascending [created_at],
    ties broken by ascending [id]. *)
Definition fifo_before (a b : Batch.t) : Prop :=
  (Batch.created_at a < Batch.created_at b)%Z
  \/ (Batch.created_at a = Batch.created_at b /\ (Batch.id a < Batch.id b)%Z).

(** The walk as the specification words it: take
    [min(batch.remaining, stillNeeded)] from each batch until
    [stillNeeded] is 0. *)
Fixpoint fifo_walk (l : list Batch.t) (stillNeeded : Q) : list (Batch.t * Q) :=
  match l with
  | [] => []
  | b :: r =>
      if Qeq_bool stillNeeded 0 then []
      else
        let take := Qmin (Batch.quantity b) stillNeeded in
        (b, take) :: fifo_walk r (stillNeeded - take)
  end.

Definition use_of (bt : Batch.t * Q) : BatchUse.t :=
  {| BatchUse.batchId := Batch.id (fst bt);
     BatchUse.quantity := snd bt;
     BatchUse.purchase_price := Batch.purchase_price (fst bt) |}.

(** Sum of a numeric field over a list. *)
Fixpoint qsum {A : Type} (f : A -> Q) (l : list A) : Q :=
  match l with
  | [] => 0
  | x :: r => f x + qsum f r
  end.

(** The quantity an event carries: a missing quantity counts as 0. *)
Definition input_quantity (payload : Payload.t) : Q :=
  match Payload.quantity payload with
  | Some q => q
  | None => 0
  end.

(** The [put]s that persist a walk, one per batch walked. *)
Definition persist_walk (w : list (Batch.t * Q)) (store : list Batch.t)
    : list Batch.t :=
  fold_left
    (fun st bt =>
       batches_put
         (Batch.set_quantity (Batch.quantity (fst bt) - snd bt) (fst bt)) st)
    w store.

(** The quantity a walk takes from the batch stored under key [k]. *)
Fixpoint taken (w : list (Batch.t * Q)) (k : Z) : option Q :=
  match w with
  | [] => None
  | (b, t) :: r => if (Batch.id b =? k)%Z then Some t else taken r k
  end.

(** A stored batch once the walk is persisted. *)
Definition after_walk (w : list (Batch.t * Q)) (b : Batch.t) : Batch.t :=
  match taken w (Batch.id b) with
  | Some t => Batch.set_quantity (Batch.quantity b - t) b
  | None => b
  end.

(** Every Sale is stored under a string key. *)
Definition sales_string_keyed (db : DB) : Prop :=
  Forall (fun s => exists k, Sale.id s = KStr k) (sales db).

(** The filter of [soldTotal]. *)
Definition completed_of (sku : string) (s : Sale.t) : bool :=
  (Sale.sku s =? sku)%string && (Sale.status s =? "completed")%string.

(** The return balance of the specification: for every sku the returned
    quantities do not exceed the quantities of the completed sales. *)
Definition balanced (db : DB) : Prop :=
  forall sku, returnedTotal (returns db) sku <= soldTotal (sales db) sku.

(** ** [handleAddProduct] *)

(** The payload of the quick-add form.  A numeric field holds what
    [Number(field)] reads from it, [None] when it reads no number. *)
Module ProductPayload.
Record t : Type := mk {
    sku : string;
    name : string;
    category : string;
    quantity : option Q;
    purchase_price : option Q;
    sale_price : option Q;
    lot : string;
    expiry : string
  }.
End ProductPayload.

Inductive AddProductResult : Type :=
| ProductAdded                 (* 'Producto agregado' *)
| AddProductDbNotReady         (* 'BD no lista' *)
| AddProductInvalidPrice.      (* 'Precio inválido' *)

Definition handleAddProduct (env : Env) (db : DB)
    (productPayload : ProductPayload.t) : AddProductResult * DB :=
  if negb (db_open env) then (AddProductDbNotReady, db)
  else
    let purchase := or_num (ProductPayload.purchase_price productPayload) 0 in
    let sale := or_num (ProductPayload.sale_price productPayload) 0 in
    if Qleb sale purchase then (AddProductInvalidPrice, db)
    else
      let db1 :=
        with_products
          (products_put
             {| Product.sku := ProductPayload.sku productPayload;
                Product.name := ProductPayload.name productPayload;
                Product.category :=
                  or_str (ProductPayload.category productPayload) "Sin categoría";
                Product.default_purchase_price :=
                  or_num (ProductPayload.purchase_price productPayload) 0;
                Product.default_sale_price :=
                  or_num (ProductPayload.sale_price productPayload) 0;
                Product.created_at := now env |}
             (products db)) db in
      let '(_, db2) :=
        batches_add
          {| Batch.id := 0;
             Batch.product_sku := ProductPayload.sku productPayload;
             Batch.lot :=
               or_str (ProductPayload.lot productPayload)
                      ("INIT-" ++ string_of_Z (now env));
             Batch.expiry := ProductPayload.expiry productPayload;
             Batch.quantity := or_num (ProductPayload.quantity productPayload) 0;
             Batch.purchase_price :=
               or_num (ProductPayload.purchase_price productPayload) 0;
             Batch.created_at := now env;
             Batch.return_id := None;
             Batch.status := "" |} db1 in
      (ProductAdded, db2).

(** ** Everything that writes to the store *)

Inductive Op : Type :=
| Handler (a : Action)
| AddProduct (productPayload : ProductPayload.t).

Definition apply_op (env : Env) (db : DB) (op : Op) : DB :=
  match op with
  | Handler a => snd (perform env db a)
  | AddProduct productPayload => snd (handleAddProduct env db productPayload)
  end.

Definition run_ops (db : DB) (ops : list (Env * Op)) : DB :=
  fold_left (fun d st => apply_op (fst st) d (snd st)) ops db.

(** The return allowance of a sku: what the guard of the generic
    devolucion compares the quantity with. *)
Definition return_allowance (db : DB) (sku : string) : Q :=
  soldTotal (sales db) sku - returnedTotal (returns db) sku.

(** The keys of [sales] are pairwise different. *)
Definition sales_unique (db : DB) : Prop :=
  NoDup (map Sale.id (sales db)).

(** The movement ledger numbers its records 1, 2, 3, ... *)
Definition ledger_numbered (db : DB) : Prop :=
  map Movement.id (movements db)
  = map Z.of_nat (seq 1 (List.length (movements db)))
  /\ movements_key db = Z.of_nat (S (List.length (movements db))).

(** The types the handlers file movements under. *)
Definition ledger_types : list string :=
  ["ingreso_inventario"; "venta"; "devolucion_venta"; "anulacion_venta";
   "devolucion_inventario"].

Definition ledger_typed (movements : list Movement.t) : Prop :=
  Forall (fun m => In (Movement.type m) ledger_types) movements.


(** One step of the ledger: nothing, or one record appended under the
    next key. *)
Definition ledger_step (db db' : DB) : Prop :=
  (movements db' = movements db /\ movements_key db' = movements_key db)
  \/ exists m,
       movements db' = (movements db ++ [m])%list
       /\ Movement.id m = movements_key db
       /\ movements_key db' = (movements_key db + 1)%Z
       /\ In (Movement.type m) ledger_types.


(** ** What the stores keep *)

(** [db'] still holds every record of [db]: each product under its sku,
    each batch under its key with its sku, purchase price and creation
    time, each Sale under its key with its sku, quantity and total and
    with the status it had or [cancelled], and the Returns and Movements
    of [db] as the first records of their stores. *)
Definition keeps (db db' : DB) : Prop :=
  (forall sku p,
      products_get sku (products db) = Some p ->
      exists p', products_get sku (products db') = Some p')
  /\ (forall b,
         In b (batches db) ->
         exists b',
           In b' (batches db')
           /\ Batch.id b' = Batch.id b
           /\ Batch.product_sku b' = Batch.product_sku b
           /\ Batch.purchase_price b' = Batch.purchase_price b
           /\ Batch.created_at b' = Batch.created_at b)
  /\ (forall s,
         In s (sales db) ->
         exists s',
           In s' (sales db')
           /\ Sale.id s' = Sale.id s
           /\ Sale.sku s' = Sale.sku s
           /\ Sale.quantity s' = Sale.quantity s
           /\ Sale.total s' = Sale.total s
           /\ (Sale.status s' = Sale.status s \/ Sale.status s' = "cancelled"))
  /\ (exists added, returns db' = (returns db ++ added)%list)
  /\ (exists added, movements db' = (movements db ++ added)%list).

(** ** The events feed *)

(** [setEvents(prev => [entry, ...prev.slice(0, 19)])]. *)
Definition push_event (entry : FeedEvent.t) (events : list FeedEvent.t)
    : list FeedEvent.t :=
  entry :: firstn 19 events.

(** [handleProcessEvent] together with the feed: a run that reaches the
    end of the handler pushes its entry, a run that returns early or
    throws leaves the feed. *)
Definition processEvent_feed (env : Env) (db : DB) (events : list FeedEvent.t)
    (payload : Payload.t) : DB * list FeedEvent.t :=
  match handleProcessEvent env db payload with
  | (Rejected _, db') => (db', events)
  | (_, db') => (db', push_event (feed_event env payload) events)
  end.

(** The store and the feed of the component. *)
Record AppState : Type := mkAppState {
  app_db : DB;
  app_events : list FeedEvent.t
}.

Definition app_step (env : Env) (st : AppState) (op : Op) : AppState :=
  match op with
  | Handler (ProcessEvent payload) =>
      let '(db', events') :=
        processEvent_feed env (app_db st) (app_events st) payload in
      mkAppState db' events'
  | _ => mkAppState (apply_op env (app_db st) op) (app_events st)
  end.

Definition app_run (st : AppState) (ops : list (Env * Op)) : AppState :=
  fold_left (fun s eo => app_step (fst eo) s (snd eo)) ops st.

(** [EventFeed] renders the undo button on the entries of type [venta]. *)
Definition undo_offered (event : FeedEvent.t) : bool :=
  (FeedEvent.type event =? "venta")%string.

(** Every entry of the feed carries a number as its [id]. *)
Definition feed_numbered (events : list FeedEvent.t) : Prop :=
  Forall (fun e => exists n, FeedEvent.id e = KNum n) events.

(** ** [InventoryTable] *)

(** [batch.lot?.startsWith('DEV-') || batch.lot?.startsWith('UNDO-')]. *)
Definition isReturned (batch : Batch.t) : bool :=
  startsWith "DEV-" (Batch.lot batch) || startsWith "UNDO-" (Batch.lot batch).

(** The filter of [sectionBatches], applied once more to each row. *)
Definition in_section (sectionMode : string) (batch : Batch.t) : bool :=
  if (sectionMode =? "inventario")%string
  then negb (startsWith "DEV-" (Batch.lot batch))
       && negb (startsWith "UNDO-" (Batch.lot batch))
  else startsWith "DEV-SALE-" (Batch.lot batch)
       || startsWith "UNDO-" (Batch.lot batch).

Definition sectionBatches (sectionMode : string) (batches : list Batch.t)
    : list Batch.t :=
  filter (in_section sectionMode) batches.

(** The return button of a row:
    [!isReturned && !batch.lot?.startsWith('INIT-')]. *)
Definition return_offered (batch : Batch.t) : bool :=
  negb (isReturned batch) && negb (startsWith "INIT-" (Batch.lot batch)).

(** The calls [onReturn(batch, sectionMode)] the table of a section can
    make: one per row that shows the button. *)
Definition table_returns (sectionMode : string) (batches : list Batch.t)
    : list (Batch.t * string) :=
  map (fun batch => (batch, sectionMode))
      (filter return_offered (sectionBatches sectionMode batches)).

(** *** Columns *)

Module Column.
Record t : Type := mk {
    key : string;
    label : string;
    required : bool
  }.
End Column.

Definition DEFAULT_COLUMNS : list Column.t :=
  [ Column.mk "sku" "SKU" true;
    Column.mk "name" "Nombre" true;
    Column.mk "category" "Categoría" false;
    Column.mk "lot" "Lote" false;
    Column.mk "expiry" "Caducidad" false;
    Column.mk "quantity" "Cantidad" true;
    Column.mk "purchase_price" "Precio Compra" false;
    Column.mk "sale_price" "Precio Venta" false ].

(** [columns.includes(key)]. *)
Definition includes (key : string) (columns : list string) : bool :=
  existsb (fun k => (k =? key)%string) columns.

(** [Onboarding]: [prev.columns.includes(key) ?
    prev.columns.filter(k => k !== key) : [...prev.columns, key]]. *)
Definition handleColumnToggle (key : string) (columns : list string)
    : list string :=
  if includes key columns
  then filter (fun k => negb (k =? key)%string) columns
  else (columns ++ [key])%list.

(** [DEFAULT_COLUMNS.filter(col =>
    settings?.columns?.includes(col.key) || col.required)]. *)
Definition visibleColumns (columns : list string) : list Column.t :=
  filter (fun col => includes (Column.key col) columns || Column.required col)
         DEFAULT_COLUMNS.

(** *** [checkExpiry] *)

Inductive ExpiryStatus : Type :=
| normal
| expiring_soon
| expired.

(** [parse] stands for [new Date(dateStr).getTime()], [None] for an
    invalid date (NaN, for which both comparisons are false); [now] is
    the clock in milliseconds. *)
Definition checkExpiry (parse : string -> option Z) (now : Z) (dateStr : string)
    : ExpiryStatus :=
  if negb (truthy dateStr) then normal
  else
    match parse dateStr with
    | None => normal
    | Some d =>
        let diff := inject_Z (d - now) / inject_Z (1000 * 60 * 60 * 24) in
        if Qgtb 0 diff then expired
        else if Qleb diff 15 then expiring_soon
        else normal
    end.

(** How severe a status is. *)
Definition severity (s : ExpiryStatus) : nat :=
  match s with
  | normal => 0
  | expiring_soon => 1
  | expired => 2
  end.

(** ** The quick-add form *)

Definition with_prices (purchase sale : option Q) (form : ProductPayload.t)
    : ProductPayload.t :=
  {| ProductPayload.sku := ProductPayload.sku form;
     ProductPayload.name := ProductPayload.name form;
     ProductPayload.category := ProductPayload.category form;
     ProductPayload.quantity := ProductPayload.quantity form;
     ProductPayload.purchase_price := purchase;
     ProductPayload.sale_price := sale;
     ProductPayload.lot := ProductPayload.lot form;
     ProductPayload.expiry := ProductPayload.expiry form |}.

(** [submit] of [AddProductForm]: the payload handed to [onAdd], if any.
    [trim] is [String.prototype.trim]; [swap] is the answer to the
    [confirm] dialog that offers to exchange the two prices. *)
Definition AddProductForm_submit (trim : string -> string)
    (form : ProductPayload.t) (swap : bool) : option ProductPayload.t :=
  if negb (truthy (trim (ProductPayload.sku form)))
     || negb (truthy (trim (ProductPayload.name form)))
  then None
  else
    let purchase := or_num (ProductPayload.purchase_price form) 0 in
    let sale := or_num (ProductPayload.sale_price form) 0 in
    if Qgtb purchase 0 && Qgtb sale 0 && Qleb sale purchase
    then
      if swap then Some (with_prices (Some sale) (Some purchase) form)
      else None
    else Some form.

(** The form and the handler behind it. *)
Definition quick_add (trim : string -> string) (env : Env) (db : DB)
    (form : ProductPayload.t) (swap : bool) : option AddProductResult * DB :=
  match AddProductForm_submit trim form swap with
  | None => (None, db)
  | Some productPayload =>
      let '(r, db') := handleAddProduct env db productPayload in
      (Some r, db')
  end.

(** ** [SimulatePanel] *)

(** The fields of the event form; a numeric field holds what
    [parseFloat] reads from it, [None] for NaN. *)
Module FormData.
Record t : Type := mk {
    type : string;
    barcode : string;
    name : string;
    quantity : option Q;
    purchasePrice : option Q;
    salePrice : option Q;
    lot : string;
    expiry : string;
    category : string;
    operator : string
  }.
End FormData.

(** [handleFormSubmit]: the payload handed to [onProcessEvent], if any.
    The panel's [device] is the selected device. *)
Definition handleFormSubmit (env : Env) (formData : FormData.t)
    : option Payload.t :=
  if negb (connected env) then None
  else
    let purchase := or_num (FormData.purchasePrice formData) 0 in
    let sale := or_num (FormData.salePrice formData) 0 in
    if Qleb purchase 0 then None
    else if negb (FormData.type formData =? "devolucion")%string
            && Qleb sale purchase
    then None
    else
      Some
        {| Payload.event := FormData.type formData;
           Payload.sku :=
             or_str (FormData.barcode formData)
                    ("SKU-" ++ string_of_Z (now env));
           Payload.barcode := FormData.barcode formData;
           Payload.name := FormData.name formData;
           Payload.quantity := Some (or_num (FormData.quantity formData) 1);
           Payload.purchase_price :=
             Some (or_num (FormData.purchasePrice formData) 0);
           Payload.sale_price := Some (or_num (FormData.salePrice formData) 0);
           Payload.lot := FormData.lot formData;
           Payload.expiry := FormData.expiry formData;
           Payload.category := FormData.category formData;
           Payload.timestamp := Some (now env);
           Payload.device_id := or_str (selectedDevice_id env) "BRZ-001";
           Payload.operator :=
             or_str (FormData.operator formData)
                    (or_str (selectedDevice_operator env) (settings_user env));
           Payload.bodega := or_str (settings_bodega env) "Bodega Central" |}.

(** ** Plain objects used as maps *)

(** The simulation panel, the inventory view and the reports accumulate
    their figures in plain objects [{}] indexed by an sku or by an
    operator.  Such an object has its own properties, kept here in the
    order of their creation, and inherits the properties of
    [Object.prototype]. *)
Fixpoint obj_get {A : Type} (k : string) (o : list (string * A)) : option A :=
  match o with
  | [] => None
  | (k', v) :: r => if (k' =? k)%string then Some v else obj_get k r
  end.

Fixpoint obj_set {A : Type} (k : string) (v : A) (o : list (string * A))
    : list (string * A) :=
  match o with
  | [] => [(k, v)]
  | (k', v') :: r =>
      if (k' =? k)%string then (k, v) :: r else (k', v') :: obj_set k v r
  end.

(** The properties of [Object.prototype]: functions, and the accessor
    [__proto__], which reads as the prototype itself.  All of them read
    as truthy. *)
Definition inherited_keys : list string :=
  [ "constructor"; "__proto__"; "hasOwnProperty"; "isPrototypeOf";
    "propertyIsEnumerable"; "toLocaleString"; "toString"; "valueOf";
    "__defineGetter__"; "__defineSetter__"; "__lookupGetter__";
    "__lookupSetter__" ].

Definition inherited (k : string) : bool :=
  existsb (fun k' => (k' =? k)%string) inherited_keys.

(** What an accumulator holds: a number, NaN, or the text that [+]
    makes of a function or an object and a number. *)
Inductive Val : Type :=
| VNum (q : Q)
| VNaN
| VText.

(** [o[k]]: an own property, an inherited one, or [undefined]. *)
Inductive Got : Type :=
| Own (v : Val)
| Inherited
| Undefined.

Definition js_get (k : string) (o : list (string * Val)) : Got :=
  match obj_get k o with
  | Some v => Own v
  | None => if inherited k then Inherited else Undefined
  end.

(** [o[k] = v] for a number or a text [v]: the own property is created
    or replaced, except under [__proto__], whose setter ignores a value
    that is no object. *)
Definition js_set (k : string) (v : Val) (o : list (string * Val))
    : list (string * Val) :=
  if (k =? "__proto__")%string then o else obj_set k v o.

(** [!x]. *)
Definition falsy (g : Got) : bool :=
  match g with
  | Own (VNum q) => Qeq_bool q 0
  | Own VNaN => true
  | Own VText => false
  | Inherited => false
  | Undefined => true
  end.

(** [x + n] and [x - n] for a number [n]. *)
Definition val_add (g : Got) (n : Q) : Val :=
  match g with
  | Own (VNum q) => VNum (q + n)
  | Own VNaN => VNaN
  | Own VText => VText
  | Inherited => VText
  | Undefined => VNaN
  end.

Definition val_sub (g : Got) (n : Q) : Val :=
  match g with
  | Own (VNum q) => VNum (q - n)
  | _ => VNaN
  end.

(** [x >= n] for a number [n]. *)
Definition at_least (n : Q) (g : Got) : bool :=
  match g with
  | Own (VNum q) => Qleb n q
  | _ => false
  end.

(** [x || 0] when that is a number, [None] when it is not. *)
Definition or_zero (g : Got) : option Q :=
  match g with
  | Own (VNum q) => Some q
  | Own VNaN => Some 0
  | Undefined => Some 0
  | Own VText => None
  | Inherited => None
  end.

(** [if (!o[k]) o[k] = 0], [o[k] += n] and [o[k] -= n]. *)
Definition reset_falsy (k : string) (o : list (string * Val))
    : list (string * Val) :=
  if falsy (js_get k o) then js_set k (VNum 0) o else o.

Definition add_at (k : string) (n : Q) (o : list (string * Val))
    : list (string * Val) :=
  js_set k (val_add (js_get k o) n) o.

Definition sub_at (k : string) (n : Q) (o : list (string * Val))
    : list (string * Val) :=
  js_set k (val_sub (js_get k o) n) o.

(** The number an object holds under [k], 0 when it holds none. *)
Definition figure (k : string) (o : list (string * Val)) : Q :=
  match obj_get k o with
  | Some (VNum q) => q
  | _ => 0
  end.

(** An object that holds under [k] a number or nothing, and one that
    holds under [k] a text or nothing. *)
Definition numeric (k : string) (o : list (string * Val)) : Prop :=
  match obj_get k o with
  | Some (VNum _) => True
  | Some _ => False
  | None => True
  end.

Definition textual (k : string) (o : list (string * Val)) : Prop :=
  match obj_get k o with
  | Some VText => True
  | Some _ => False
  | None => True
  end.

(** *** [handleSimulateScan] *)

Module SampleProduct.
Record t : Type := mk {
    sku : string;
    name : string;
    category : string
  }.
End SampleProduct.

Definition SAMPLE_PRODUCTS : list SampleProduct.t :=
  [ SampleProduct.mk "GALX-001" "Galletas X" "Panadería";
    SampleProduct.mk "LECH-001" "Leche Entera" "Lácteos";
    SampleProduct.mk "PAN-001" "Pan Bimbo" "Panadería" ].

(** The batches the scan counts:
    [!batch.lot?.startsWith('DEV-') && !batch.lot?.startsWith('UNDO-')]. *)
Definition scan_counts (batch : Batch.t) : bool :=
  negb (startsWith "DEV-" (Batch.lot batch))
  && negb (startsWith "UNDO-" (Batch.lot batch)).

(** The object [stockByProduct] the scan builds from the batches. *)
Definition stockByProduct_step (stockByProduct : list (string * Val))
    (batch : Batch.t) : list (string * Val) :=
  if scan_counts batch
  then add_at (Batch.product_sku batch) (Batch.quantity batch)
              (reset_falsy (Batch.product_sku batch) stockByProduct)
  else stockByProduct.

Definition stockByProduct (batches : list Batch.t) : list (string * Val) :=
  fold_left stockByProduct_step batches [].

(** [Object.values(stockByProduct).some(stock => stock >= 5)]. *)
Definition hasStock (batches : list Batch.t) : bool :=
  existsb (fun entry => at_least 5 (Own (snd entry))) (stockByProduct batches).

(** [SAMPLE_PRODUCTS.filter(p => stockByProduct[p.sku] &&
    stockByProduct[p.sku] >= 5)]. *)
Definition availableProducts (batches : list Batch.t) : list SampleProduct.t :=
  filter
    (fun p =>
       negb (falsy (js_get (SampleProduct.sku p) (stockByProduct batches)))
       && at_least 5 (js_get (SampleProduct.sku p) (stockByProduct batches)))
    SAMPLE_PRODUCTS.

(** [l[Math.floor(r * l.length)]] for a draw [r] of [Math.random()]. *)
Definition random_of {A : Type} (r : Q) (l : list A) : option A :=
  let i := Qfloor (r * inject_Z (Z.of_nat (List.length l))) in
  if (i <? 0)%Z then None else nth_error l (Z.to_nat i).

(** The draws of [Math.random()] that decide the event, in the order the
    scan makes them. *)
Module Draws.
Record t : Type := mk {
    product : Q;
    event : Q;
    selected : Q;
    quantity : Q
  }.
End Draws.

(** The event kind, the product and the quantity of the simulated
    payload; the quantity is [None] when it is NaN.  (The result is
    [None] for an index outside the list, on which the scan throws; it
    does not happen for draws in [0, 1).) *)
Definition simulated_event (simSinceReset : Z) (batches : list Batch.t)
    (draws : Draws.t) : option (string * SampleProduct.t * option Q) :=
  match random_of (Draws.product draws) SAMPLE_PRODUCTS with
  | None => None
  | Some randomProduct =>
      let randomEvent :=
        if (simSinceReset <? 10)%Z then "ingreso"
        else if negb (hasStock batches) then "ingreso"
        else if Qgtb (6 # 10) (Draws.event draws) then "venta"
        else "ingreso" in
      let choice :=
        if (randomEvent =? "venta")%string
        then
          match availableProducts batches with
          | [] =>
              match random_of (Draws.selected draws) SAMPLE_PRODUCTS with
              | Some p => Some ("ingreso", p)
              | None => None
              end
          | _ :: _ =>
              match random_of (Draws.selected draws)
                              (availableProducts batches) with
              | Some p => Some ("venta", p)
              | None => None
              end
          end
        else Some (randomEvent, randomProduct) in
      match choice with
      | None => None
      | Some (randomEvent, selectedProduct) =>
          let quantity :=
            if (randomEvent =? "ingreso")%string
            then Some (inject_Z (Qfloor (Draws.quantity draws * 41)) + 10)
            else
              match or_zero (js_get (SampleProduct.sku selectedProduct)
                                    (stockByProduct batches)) with
              | Some stock =>
                  let maxVenta := Qmin 5 stock in
                  Some (inject_Z (Qfloor (Draws.quantity draws * maxVenta)) + 1)
              | None => None
              end in
          Some (randomEvent, selectedProduct, quantity)
      end
  end.

(** ** Statistics and reports *)

(** [netSales] of the statistics cards of [InventoryTable]. *)
Definition netSales_step (netSales : list (string * Val)) (m : Movement.t)
    : list (string * Val) :=
  if negb (truthy (Movement.sku m)) then netSales
  else
    let n0 := reset_falsy (Movement.sku m) netSales in
    let n1 :=
      if (Movement.type m =? "venta")%string
      then add_at (Movement.sku m) (Movement.quantity m) n0
      else n0 in
    if (Movement.type m =? "devolucion")%string
    then sub_at (Movement.sku m) (Movement.quantity m) n1
    else n1.

Definition netSales (movements : list Movement.t) : list (string * Val) :=
  fold_left netSales_step movements [].

(** [operatorStats] of [handleDailyReport]. *)
Module OperatorStats.
Record t : Type := mk {
    device : string;
    ventas : Q;
    compras : Q;
    devoluciones : Q
  }.
End OperatorStats.

(** The three [+=] on the entry of an operator. *)
Definition count_movement (mov : Movement.t) (stats : OperatorStats.t)
    : OperatorStats.t :=
  if (Movement.type mov =? "venta")%string
  then OperatorStats.mk (OperatorStats.device stats)
         (OperatorStats.ventas stats + Movement.quantity mov)
         (OperatorStats.compras stats) (OperatorStats.devoluciones stats)
  else if (Movement.type mov =? "ingreso")%string
  then OperatorStats.mk (OperatorStats.device stats)
         (OperatorStats.ventas stats)
         (OperatorStats.compras stats + Movement.quantity mov)
         (OperatorStats.devoluciones stats)
  else if (Movement.type mov =? "devolucion")%string
  then OperatorStats.mk (OperatorStats.device stats)
         (OperatorStats.ventas stats) (OperatorStats.compras stats)
         (OperatorStats.devoluciones stats + Movement.quantity mov)
  else stats.

(** Under an operator named like an inherited property
    [!operatorStats[mov.operator]] is false: no entry is made, and the
    [+=] lands on the inherited function or object, not on the report. *)
Definition operatorStats_step (operatorStats : list (string * OperatorStats.t))
    (mov : Movement.t) : list (string * OperatorStats.t) :=
  match obj_get (Movement.operator mov) operatorStats with
  | Some stats =>
      obj_set (Movement.operator mov) (count_movement mov stats) operatorStats
  | None =>
      if inherited (Movement.operator mov) then operatorStats
      else
        obj_set (Movement.operator mov)
                (count_movement mov
                   (OperatorStats.mk (Movement.device_id mov) 0 0 0))
                operatorStats
  end.

(** The statistics over [todayMovements], taken in the order in which
    the report walks them. *)
Definition operatorStats (todayMovements : list Movement.t)
    : list (string * OperatorStats.t) :=
  fold_left operatorStats_step todayMovements [].

(** [productSummary] of [handleExportInventory], each entry with its
    [totalStock]: the batches with [quantity > 0], whatever their lot.
    Under an sku named like an inherited property no entry is made and
    the export has no row. *)
Definition productSummary_step (productSummary : list (string * Q))
    (batch : Batch.t) : list (string * Q) :=
  if Qgtb (Batch.quantity batch) 0
  then
    match obj_get (Batch.product_sku batch) productSummary with
    | Some totalStock =>
        obj_set (Batch.product_sku batch) (totalStock + Batch.quantity batch)
                productSummary
    | None =>
        if inherited (Batch.product_sku batch) then productSummary
        else obj_set (Batch.product_sku batch) (0 + Batch.quantity batch)
                     productSummary
    end
  else productSummary.

Definition productSummary_totalStock (batches : list Batch.t)
    : list (string * Q) :=
  fold_left productSummary_step batches [].

(** The "Stock Total" of the row of a sku, 0 without a row. *)
Definition row_stock (sku : string) (productSummary : list (string * Q)) : Q :=
  match obj_get sku productSummary with
  | Some totalStock => totalStock
  | None => 0
  end.

Definition exported_stock (batches : list Batch.t) (sku : string) : Q :=
  row_stock sku (productSummary_totalStock batches).

(** The ledger and the [sales] store agree on what was sold: for every
    sku the units of the Movements of type [venta] are the units of the
    Sales, whatever their status. *)
Definition ledger_matches_sales (db : DB) : Prop :=
  forall sku,
    qsum Movement.quantity
         (filter (fun m => (Movement.type m =? "venta")%string
                           && (Movement.sku m =? sku)%string)
                 (movements db))
    == qsum Sale.quantity
            (filter (fun s => (Sale.sku s =? sku)%string) (sales db)).


(** ** The earlier variant of the event handler *)

(** [src/unnamed/part_002] (and, line for line, [part_000]) holds an
    earlier [handleProcessEvent] and [handleUndoSale], over the stores
    [products], [batches] and [movements] only.  The Movement is added
    first; every path then ends in [await tx.done], which commits. *)
Module Legacy.

(** What the handler notifies. *)
Inductive Notice : Type :=
| NotRun                          (* [!db || !connected]: silent return *)
| IngresoProcessed                (* 'Ingreso procesado' *)
| VentaDenied                     (* 'Venta denegada' *)
| VentaPartial (remaining : Q)    (* 'Stock insuficiente ... parcialmente' *)
| VentaProcessed                  (* 'Venta procesada' *)
| DevolucionDenied                (* 'Devolución denegada' *)
| DevolucionProcessed             (* 'Devolución procesada' *)
| NoNotice.                       (* another kind of event *)

Definition movement_of (env : Env) (payload : Payload.t) : Movement.t :=
  {| Movement.id := 0;
     Movement.type := Payload.event payload;
     Movement.sku := or_str (Payload.sku payload) (Payload.barcode payload);
     Movement.name := or_str (Payload.name payload) "Producto sin nombre";
     Movement.quantity := or_num (Payload.quantity payload) 1;
     Movement.price :=
       or_num (Payload.purchase_price payload)
              (or_num (Payload.sale_price payload) 0);
     Movement.lot := or_str (Payload.lot payload) "";
     Movement.expiry := Payload.expiry payload;
     Movement.timestamp := or_time (Payload.timestamp payload) (now env);
     Movement.device_id :=
       or_str (Payload.device_id payload) (selectedDevice_id env);
     Movement.operator :=
       or_str (Payload.operator payload) (or_str (settings_user env) "Operador");
     Movement.bodega :=
       or_str (Payload.bodega payload) (or_str (settings_bodega env) "Bodega");
     Movement.sale_id := None;
     Movement.return_id := None;
     Movement.batches_used := [] |}.

(** [allBatches.filter(b => b.product_sku === movement.sku)
    .reduce((s, b) => s + (b.quantity || 0), 0)]. *)
Definition totalStock (allBatches : list Batch.t) (sku : string) : Q :=
  fold_left (fun s b => s + or_num (Some (Batch.quantity b)) 0)
            (filter (fun b => (Batch.product_sku b =? sku)%string) allBatches) 0.

(** [batch.product_sku === movement.sku && batch.quantity > 0]. *)
Definition eligible (sku : string) (batch : Batch.t) : bool :=
  (Batch.product_sku batch =? sku)%string && Qgtb (Batch.quantity batch) 0.

(** [movStoreAll.filter(m => m.sku === sku && m.type === type)
    .reduce((s, m) => s + (m.quantity || 0), 0)]. *)
Definition moved (type sku : string) (movStoreAll : list Movement.t) : Q :=
  fold_left (fun s m => s + or_num (Some (Movement.quantity m)) 0)
            (filter (fun m => (Movement.sku m =? sku)%string
                              && (Movement.type m =? type)%string)
                    movStoreAll) 0.

(** The loop of the venta branch is the loop [fifo_loop] of the later
    variant, which also fills [batchesUsed]; that array is dropped here.
    The numbers are exact rationals: the handler is the code's as long
    as the doubles of the code do not round, which is the case when the
    quantities are whole numbers ([whole], [venta64] below). *)
Definition handleProcessEvent (env : Env) (db : DB) (payload : Payload.t)
    : Notice * DB :=
  if negb (db_open env) || negb (connected env) then (NotRun, db)
  else
    let movement := movement_of env payload in
    let db1 := movements_add movement db in
    if (Payload.event payload =? "ingreso")%string
    then
      let db2 :=
        match products_get (Movement.sku movement) (products db1) with
        | Some _ => db1
        | None =>
            with_products
              (products_put
                 {| Product.sku := Movement.sku movement;
                    Product.name := Movement.name movement;
                    Product.category :=
                      or_str (Payload.category payload) "Sin categoría";
                    Product.default_purchase_price := Movement.price movement;
                    Product.default_sale_price :=
                      or_num (Payload.sale_price payload)
                             (Movement.price movement * 1.5);
                    Product.created_at := now env |}
                 (products db1)) db1
        end in
      let '(_, db3) :=
        batches_add
          {| Batch.id := 0;
             Batch.product_sku := Movement.sku movement;
             Batch.lot :=
               or_str (Movement.lot movement) ("AUTO-" ++ string_of_Z (now env));
             Batch.expiry := Movement.expiry movement;
             Batch.quantity := Movement.quantity movement;
             Batch.purchase_price := Movement.price movement;
             Batch.created_at := now env;
             Batch.return_id := None;
             Batch.status := "" |} db2 in
      (IngresoProcessed, db3)
    else if (Payload.event payload =? "venta")%string
    then
      let allBatches := batches db1 in
      let total := totalStock allBatches (Movement.sku movement) in
      if Qgtb (Movement.quantity movement) total then (VentaDenied, db1)
      else
        let productBatches :=
          sort_by_created (filter (eligible (Movement.sku movement)) allBatches) in
        let '(store, _, remaining) :=
          fifo_loop productBatches (Movement.quantity movement) allBatches [] in
        (if Qgtb remaining 0 then VentaPartial remaining else VentaProcessed,
         with_batches store db1)
    else if (Payload.event payload =? "devolucion")%string
    then
      let movStoreAll := movements db1 in
      let sold := moved "venta" (Movement.sku movement) movStoreAll in
      let returned := moved "devolucion" (Movement.sku movement) movStoreAll in
      if Qgtb (returned + Movement.quantity movement) sold
      then (DevolucionDenied, db1)
      else
        let '(_, db2) :=
          batches_add
            {| Batch.id := 0;
               Batch.product_sku := Movement.sku movement;
               Batch.lot :=
                 or_str (Movement.lot movement)
                        ("DEV-" ++ string_of_Z (now env));
               Batch.expiry := Movement.expiry movement;
               Batch.quantity := Movement.quantity movement;
               Batch.purchase_price := Movement.price movement;
               Batch.created_at := now env;
               Batch.return_id := None;
               Batch.status := "" |} db1 in
        (DevolucionProcessed, db2)
    else (NoNotice, db1).

(** *** The venta branch on binary64 numbers *)

(** A whole number of magnitude at most 2^53: doubles hold such numbers,
    and add, subtract and compare them, without rounding as long as the
    results stay in that range. *)
Definition whole (q : Q) : Prop :=
  exists n : Z, q == inject_Z n /\ (Z.abs n <= 2 ^ 53)%Z.

(** The batches of a store hold whole quantities whose magnitudes add up
    to at most 2^53, so that no sum or difference of the venta branch
    leaves the range. *)
Definition whole_stock (allBatches : list Batch.t) : Prop :=
  Forall (fun b => whole (Batch.quantity b)) allBatches
  /\ qsum (fun b => Qabs (Batch.quantity b)) allBatches <= inject_Z (2 ^ 53).

(** On other quantities the doubles round.  The stock check and the loop
    of the venta branch are repeated here on [float], for the batches of
    the sku of the movement, in the order of the store. *)
Module Batch64.
Record t : Type := mk {
    created_at : Z;
    quantity : float
  }.
End Batch64.

Definition is_nan (x : float) : bool := negb (PrimFloat.eqb x x).

(** [x || 0]. *)
Definition or_zero64 (x : float) : float :=
  if is_nan x || PrimFloat.eqb x 0%float then 0%float else x.

(** [Math.min(a, b)]: NaN when an argument is, and -0 below +0. *)
Definition Math_min (a b : float) : float :=
  if is_nan a then a
  else if is_nan b then b
  else if PrimFloat.ltb a b then a
  else if PrimFloat.ltb b a then b
  else match PrimFloat.classify a with
       | NZero => a
       | _ => b
       end.

(** [allBatches.reduce((s, b) => s + (b.quantity || 0), 0)]. *)
Definition totalStock64 (allBatches : list Batch64.t) : float :=
  fold_left (fun s b => PrimFloat.add s (or_zero64 (Batch64.quantity b)))
            allBatches 0%float.

Fixpoint insert64 (a : Batch64.t) (l : list Batch64.t) : list Batch64.t :=
  match l with
  | [] => [a]
  | b :: r =>
      if (Batch64.created_at a <=? Batch64.created_at b)%Z then a :: l
      else b :: insert64 a r
  end.

Fixpoint sort64 (l : list Batch64.t) : list Batch64.t :=
  match l with
  | [] => []
  | a :: r => insert64 a (sort64 r)
  end.

(** The loop, for [remaining] alone. *)
Fixpoint loop64 (productBatches : list Batch64.t) (remaining : float) : float :=
  match productBatches with
  | [] => remaining
  | batch :: rest =>
      if PrimFloat.leb remaining 0%float then remaining
      else
        let take := Math_min (Batch64.quantity batch) remaining in
        loop64 rest (PrimFloat.sub remaining take)
  end.

Inductive Notice64 : Type :=
| VentaDenied64
| VentaPartial64 (remaining : float)
| VentaProcessed64.

Definition venta64 (allBatches : list Batch64.t) (quantity : float)
    : Notice64 :=
  if PrimFloat.ltb (totalStock64 allBatches) quantity then VentaDenied64
  else
    let productBatches :=
      sort64 (filter (fun b => PrimFloat.ltb 0%float (Batch64.quantity b))
                     allBatches) in
    let remaining := loop64 productBatches quantity in
    if PrimFloat.ltb 0%float remaining then VentaPartial64 remaining
    else VentaProcessed64.

(** [handleUndoSale]: the undo is a devolucion event built from the feed
    entry. *)
Definition returnPayload (env : Env) (saleEvent : FeedEvent.t) : Payload.t :=
  {| Payload.event := "devolucion";
     Payload.sku := FeedEvent.sku saleEvent;
     Payload.barcode := "";
     Payload.name := FeedEvent.name saleEvent;
     Payload.quantity := Some (FeedEvent.quantity saleEvent);
     Payload.purchase_price := Some 0;
     Payload.sale_price := None;
     Payload.lot := "UNDO-" ++ string_of_Z (now env);
     Payload.expiry := "";
     Payload.category := "";
     Payload.timestamp := Some (now env);
     Payload.device_id := FeedEvent.device_id saleEvent;
     Payload.operator :=
       or_str (settings_user env) "Usuario" ++ " (deshacer venta)";
     Payload.bodega := "" |}.

Definition handleUndoSale (env : Env) (db : DB) (saleEvent : FeedEvent.t)
    : Notice * DB :=
  if negb (db_open env) then (NotRun, db)
  else handleProcessEvent env db (returnPayload env saleEvent).

End Legacy.


(** ** The later variant of the feed and of the undo *)

(** [src/unnamed/part_001] holds a later variant of the component.  Its
    [handleProcessEvent] is the one above but for its first guard (the
    database is opened on demand; when that fails the handler returns
    without a notification) and for the feed entry, which carries the
    key of the Sale of a venta; its [handleUndoSale] looks the Sale up
    by that key. *)
Module Later.

(** An entry of the feed: the properties of the entry of the other
    variant and, on a venta, [sale_id]. *)
Record Entry : Type := mkEntry {
  entry : FeedEvent.t;
  sale_id : option Key
}.

Definition handleProcessEvent (env : Env) (db : DB) (payload : Payload.t)
    : Outcome * DB :=
  if negb (db_open env) then (Ignored, db)
  else handleProcessEvent env db payload.

Definition feedType (payload : Payload.t) : string :=
  if (Payload.event payload =? "ingreso")%string then "ingreso"
  else if (Payload.event payload =? "venta")%string then "venta"
  else "devolucion".

(** [{ id: Date.now(), ...movement, type: feedType, timestamp: nowISO(),
    ...(feedType === 'venta' ? { sale_id: movement.sale_id || undefined }
    : {}) }], where the venta branch has set [movement.sale_id] to the
    key of the Sale it added. *)
Definition feed_event (env : Env) (payload : Payload.t) : Entry :=
  let movement := base_movement env payload in
  {| entry :=
       {| FeedEvent.id := KNum (now env);
          FeedEvent.type := feedType payload;
          FeedEvent.sku := Movement.sku movement;
          FeedEvent.name := Movement.name movement;
          FeedEvent.quantity := Movement.quantity movement;
          FeedEvent.device_id := Movement.device_id movement;
          FeedEvent.operator := Movement.operator movement;
          FeedEvent.timestamp := now env |};
     sale_id :=
       if (feedType payload =? "venta")%string
       then Some (KStr ("SALE-" ++ string_of_Z (now env)))
       else None |}.

Definition processEvent_feed (env : Env) (db : DB) (events : list Entry)
    (payload : Payload.t) : DB * list Entry :=
  if negb (db_open env) then (db, events)
  else
    match handleProcessEvent env db payload with
    | (Rejected _, db') => (db', events)
    | (_, db') => (db', feed_event env payload :: firstn 19 events)
    end.

(** A key as a condition: [0] and the empty string are falsy. *)
Definition key_truthy (k : Key) : bool :=
  match k with
  | KNum n => negb (n =? 0)%Z
  | KStr s => truthy s
  end.

(** [saleEvent?.sale_id || saleEvent?.id]. *)
Definition lookupId (saleEvent : Entry) : Key :=
  match sale_id saleEvent with
  | Some k => if key_truthy k then k else FeedEvent.id (entry saleEvent)
  | None => FeedEvent.id (entry saleEvent)
  end.

Definition handleUndoSale (env : Env) (db : DB) (saleEvent : Entry)
    : Outcome * DB :=
  if negb (db_open env) then (Ignored, db)
  else
    match sales_get (lookupId saleEvent) (sales db) with
    | None => (Rejected SaleNotFoundOrCancelled, db)
    | Some sale =>
        if (Sale.status sale =? "cancelled")%string
        then (Rejected SaleNotFoundOrCancelled, db)
        else
          let operator :=
            or_str (settings_user env) "Usuario" ++ " (anulación)" in
          let '(returnId, db1) :=
            returns_add
              {| Return.id := 0;
                 Return.type := "";
                 Return.sku := FeedEvent.sku (entry saleEvent);
                 Return.name := FeedEvent.name (entry saleEvent);
                 Return.quantity := FeedEvent.quantity (entry saleEvent);
                 Return.price := sale_price_property sale;
                 Return.lot := "";
                 Return.expiry := "";
                 Return.timestamp := now env;
                 Return.device_id := FeedEvent.device_id (entry saleEvent);
                 Return.operator := operator;
                 Return.bodega := "";
                 Return.original_sale_id := Some (FeedEvent.id (entry saleEvent));
                 Return.original_batch_id := None;
                 Return.status := "completed" |} db in
          let '(_, db2) :=
            batches_add
              {| Batch.id := 0;
                 Batch.product_sku := FeedEvent.sku (entry saleEvent);
                 Batch.lot := "UNDO-" ++ string_of_Z returnId;
                 Batch.expiry := "";
                 Batch.quantity := FeedEvent.quantity (entry saleEvent);
                 Batch.purchase_price := original_purchase_price sale;
                 Batch.created_at := now env;
                 Batch.return_id := Some returnId;
                 Batch.status := "" |} db1 in
          let db3 :=
            with_sales (sales_put (Sale.set_status "cancelled" sale) (sales db2))
                       db2 in
          (Applied,
           movements_add
             {| Movement.id := 0;
                Movement.type := "anulacion_venta";
                Movement.sku := FeedEvent.sku (entry saleEvent);
                Movement.name := FeedEvent.name (entry saleEvent);
                Movement.quantity := FeedEvent.quantity (entry saleEvent);
                Movement.price := sale_price_property sale;
                Movement.lot := "";
                Movement.expiry := "";
                Movement.timestamp := now env;
                Movement.device_id := FeedEvent.device_id (entry saleEvent);
                Movement.operator := operator;
                Movement.bodega := "";
                Movement.sale_id := Some (FeedEvent.id (entry saleEvent));
                Movement.return_id := Some returnId;
                Movement.batches_used := [] |} db3)
    end.

End Later.


(** ** Scenarios *)

Definition env_at (t : Z) : Env :=
  mkEnv true true true "PUL-001" "Ana" "Ana" "Bodega Central" t.

Definition payload_of (ev sku name : string) (q pp sp : option Q) : Payload.t :=
  Payload.mk ev sku "" name q pp sp "" "" "" None "" "" "".

(** Scenario 7 of the specification: a first ingreso of GALX-001. *)
Definition galx_ingreso : Payload.t :=
  payload_of "ingreso" "GALX-001" "Galletas X" (Some 12) (Some 1.45) (Some 2.5).

Definition galx_venta (q : Q) : Payload.t :=
  payload_of "venta" "GALX-001" "Galletas X" (Some q) None None.

Definition galx_devolucion (q : Q) : Payload.t :=
  payload_of "devolucion" "GALX-001" "Galletas X" (Some q) None None.

Definition db_galx_12 : DB :=
  snd (handleProcessEvent (env_at 1000) empty_db galx_ingreso).

Definition db_galx_7 : DB :=
  snd (handleProcessEvent (env_at 2000) db_galx_12 (galx_venta 5)).

(** A product received without prices, then sold with a price on the
    payload. *)
Definition db_muestra : DB :=
  snd (handleProcessEvent (env_at 1000) empty_db
         (payload_of "ingreso" "MUESTRA-001" "Muestra" (Some 4) None None)).

Definition muestra_venta : Payload.t :=
  payload_of "venta" "MUESTRA-001" "Muestra" (Some 2) None (Some 3).

(** An ingreso of two and a half units. *)
Definition fractional_ingreso : Payload.t :=
  payload_of "ingreso" "GALX-001" "Galletas X" (Some 2.5) (Some 1.45) (Some 2.5).

(** Scenario 7 followed by a devolucion of the five units sold. *)
Definition db_galx_returned : DB :=
  snd (handleProcessEvent (env_at 3000) db_galx_7 (galx_devolucion 5)).

(** The batch of scenario 7 as the inventory table shows it, and the
    store after it is sent back to the supplier. *)
Definition galx_batch : Batch.t :=
  Batch.mk 1 "GALX-001" "LOT-1000" "" 12 1.45 1000 None "".

Definition db_galx_sent_back : DB :=
  snd (handleReturn (env_at 2000) db_galx_12 galx_batch "inventario").

(** The sale of scenario 7 as an event that names the Sale by its key,
    and the store after that sale is undone. *)
Definition galx_sale_event : FeedEvent.t :=
  FeedEvent.mk (KStr "SALE-2000") "venta" "GALX-001" "Galletas X" 5
               "PUL-001" "Ana" 2000.

Definition db_galx_undone : DB :=
  snd (handleUndoSale (env_at 3000) db_galx_7 galx_sale_event).

(** Scenario 9: three units sold, none returned. *)
Definition db_galx_sold_3 : DB :=
  snd (handleProcessEvent (env_at 2000) db_galx_12 (galx_venta 3)).

(** The events of scenario 7 followed by a devolucion of two units. *)
Definition galx_events : list (Env * Payload.t) :=
  [ (env_at 1000, galx_ingreso);
    (env_at 2000, galx_venta 5);
    (env_at 3000, galx_devolucion 2) ].

(** Property 2 of the specification: two lots of five units, the
    second created after the first, and a venta of seven. *)
Definition lot_ingreso : Payload.t :=
  payload_of "ingreso" "GALX-001" "Galletas X" (Some 5) (Some 1) (Some 2).

Definition db_two_lots : DB :=
  run_events empty_db [(env_at 1000, lot_ingreso); (env_at 2000, lot_ingreso)].

Definition db_two_lots_sold : DB :=
  snd (handleProcessEvent (env_at 3000) db_two_lots (galx_venta 7)).

(** Two lots stamped with the same instant. *)
Definition db_twin_lots : DB :=
  run_events empty_db [(env_at 1000, lot_ingreso); (env_at 1000, lot_ingreso)].

(** Two lots of which the one stored second carries the earlier
    [created_at]. *)
Definition db_swapped_lots : DB :=
  run_events empty_db [(env_at 2000, lot_ingreso); (env_at 1000, lot_ingreso)].

(** Scenario 10: ten units received at 1.00, four sold, the sale
    undone. *)
Definition ten_ingreso : Payload.t :=
  payload_of "ingreso" "GALX-001" "Galletas X" (Some 10) (Some 1) None.

Definition db_ten : DB :=
  snd (handleProcessEvent (env_at 1000) empty_db ten_ingreso).

Definition db_ten_sold : DB :=
  snd (handleProcessEvent (env_at 2000) db_ten (galx_venta 4)).

Definition ten_sale_event : FeedEvent.t :=
  FeedEvent.mk (KStr "SALE-2000") "venta" "GALX-001" "Galletas X" 4
               "PUL-001" "Ana" 2000.

Definition db_ten_undone : DB :=
  snd (handleUndoSale (env_at 3000) db_ten_sold ten_sale_event).

(** The quick-add form filled in for a second product, and for a
    product whose two prices were typed in each other's field. *)
Definition leche_form : ProductPayload.t :=
  ProductPayload.mk "LECH-001" "Leche Entera" "Lácteos" (Some 6)
                    (Some 3) (Some 4.5) "" "".

Definition pan_form_swapped : ProductPayload.t :=
  ProductPayload.mk "PAN-001" "Pan Bimbo" "Panadería" (Some 8)
                    (Some 4) (Some 2.5) "" "".

(** A correction typed into the quick-add form: minus three units of
    GALX-001, at new prices. *)
Definition galx_correction : ProductPayload.t :=
  ProductPayload.mk "GALX-001" "Galletas" "" (Some (-3)) (Some 2) (Some 3) "" "".

(** On the store of scenario 7: the sale is undone, the batch is sent
    back to the supplier, a product is quick-added. *)
Definition galx_ops : list (Env * Op) :=
  [ (env_at 3000, Handler (UndoSale galx_sale_event));
    (env_at 4000, Handler (ReturnBatch galx_batch "inventario"));
    (env_at 5000, AddProduct leche_form) ].


(** The component after scenario 7, its feed showing the venta and the
    ingreso, and the entry of the venta. *)
Definition app_galx_7 : AppState :=
  app_run (mkAppState empty_db [])
          [ (env_at 1000, Handler (ProcessEvent galx_ingreso));
            (env_at 2000, Handler (ProcessEvent (galx_venta 5))) ].

Definition galx_feed_entry : FeedEvent.t :=
  feed_event (env_at 2000) (galx_venta 5).

(** An event of a kind the handler does not know. *)
Definition galx_ajuste : Payload.t :=
  payload_of "ajuste" "GALX-001" "Galletas X" (Some 2) None None.


(** The store of scenario 7 after a devolucion of two units and the undo
    of the sale: a purchase lot of 7, a [DEV-] lot of 2 and an [UNDO-]
    lot of 5. *)
Definition db_three_lots : DB :=
  snd (handleUndoSale (env_at 4000)
         (snd (handleProcessEvent (env_at 3000) db_galx_7 (galx_devolucion 2)))
         galx_sale_event).

(** The draws of a simulated scan that sells. *)
Definition venta_draws : Draws.t := Draws.mk (1 # 2) (1 # 4) (1 # 3) (7 # 10).


(** A product whose sku is the name of a property every object
    inherits: twelve units received, five sold. *)
Definition constructor_ops : list (Env * Op) :=
  [ (env_at 1000,
     Handler (ProcessEvent
                (payload_of "ingreso" "constructor" "Caja"
                            (Some 12) (Some 1.45) (Some 2.5))));
    (env_at 2000,
     Handler (ProcessEvent
                (payload_of "venta" "constructor" "Caja" (Some 5) None None))) ].

(** Scenario 7 and the undo of its sale, from the empty store. *)
Definition galx_undo_ops : list (Env * Op) :=
  [ (env_at 1000, Handler (ProcessEvent galx_ingreso));
    (env_at 2000, Handler (ProcessEvent (galx_venta 5)));
    (env_at 3000, Handler (UndoSale galx_sale_event)) ].


(** The event form filled in for a first ingreso of milk, without
    barcode. *)
Definition leche_formData : FormData.t :=
  FormData.mk "ingreso" "" "Leche Entera" (Some 6) (Some 3) (Some 4.5)
              "" "" "Lácteos" "".

(** Expiry dates as day numbers, for a clock in milliseconds. *)
Definition parse_days (dateStr : string) : option Z :=
  if (dateStr =? "day-10")%string then Some (10 * 86400000)%Z
  else if (dateStr =? "day-40")%string then Some (40 * 86400000)%Z
  else None.


(** Two lots of 1 and 1.2 units and a venta of 2.2 units, as binary64
    numbers: [0x1.3333333333333p+0] is the double of 1.2 and
    [0x1.199999999999ap+1] the double of 2.2. *)
Definition lots_1_and_1_2 : list Legacy.Batch64.t :=
  [ Legacy.Batch64.mk 1000 1%float;
    Legacy.Batch64.mk 2000 0x1.3333333333333p+0%float ].

Definition venta_2_2 : float := 0x1.199999999999ap+1%float.

(** The earlier variant on scenario 10: ten units received, four sold. *)
Definition legacy_ten_sold : DB :=
  snd (Legacy.handleProcessEvent (env_at 2000)
         (snd (Legacy.handleProcessEvent (env_at 1000) empty_db ten_ingreso))
         (galx_venta 4)).


(** * Properties *)

(** ** Numbers *)

Lemma Qgtb_true (x y : Q) : Qgtb x y = true <-> y < x.
Proof.
  unfold Qgtb. rewrite negb_true_iff. split; intro H.
  - apply Qnot_le_lt. intro L. apply Qle_bool_iff in L. congruence.
  - destruct (Qle_bool x y) eqn:E; [|reflexivity].
    apply Qle_bool_iff in E. exfalso. apply (Qlt_not_le _ _ H E).
Qed.

Lemma Qgtb_false (x y : Q) : Qgtb x y = false <-> x <= y.
Proof.
  unfold Qgtb. rewrite negb_false_iff. apply Qle_bool_iff.
Qed.

Lemma Qleb_true (x y : Q) : Qleb x y = true <-> x <= y.
Proof. apply Qle_bool_iff. Qed.

Lemma Qleb_false (x y : Q) : Qleb x y = false <-> y < x.
Proof.
  unfold Qleb. split; intro H.
  - apply Qnot_le_lt. intro L. apply Qle_bool_iff in L. congruence.
  - destruct (Qle_bool x y) eqn:E; [|reflexivity].
    apply Qle_bool_iff in E. exfalso. apply (Qlt_not_le _ _ H E).
Qed.

Lemma or_num_some_0 (q : Q) : or_num (Some q) 0 == q.
Proof.
  unfold or_num. destruct (Qeq_bool q 0) eqn:E; [|reflexivity].
  apply Qeq_bool_iff in E. symmetry. exact E.
Qed.

Lemma Qmax_lower (x y : Q) : x <= Qmax x y.
Proof. apply Q.le_max_l. Qed.

Lemma Qmin_le_l (x y : Q) : Qmin x y <= x.
Proof. apply Q.le_min_l. Qed.

Lemma Qmin_le_r (x y : Q) : Qmin x y <= y.
Proof. apply Q.le_min_r. Qed.

Lemma Qmin_pos (x y : Q) : 0 < x -> 0 < y -> 0 < Qmin x y.
Proof.
  intros Hx Hy. destruct (Q.min_spec x y) as [[_ E]|[_ E]]; rewrite E; assumption.
Qed.

Lemma movement_quantity_ge_1 (env : Env) (payload : Payload.t) :
  1 <= Movement.quantity (base_movement env payload).
Proof. simpl. apply Qmax_lower. Qed.

(** ** Rejected ventas *)

Lemma truthy_or_str (a b : string) :
  truthy (or_str a b) = truthy a || truthy b.
Proof. unfold or_str. destruct (truthy a) eqn:E; simpl; [exact E | reflexivity]. Qed.

Lemma process_venta_insufficient (env : Env) (db : DB) (m : Movement.t) :
  totalStock (batches db) (Movement.sku m) < Movement.quantity m ->
  exists e, process_venta env db m = (Rejected e, db)
    /\ (connected env = true -> salesSensorConnected env = true ->
        products_get (Movement.sku m) (products db) <> None ->
        e = InsufficientStock).
Proof.
  intro Hlt. unfold process_venta.
  destruct (negb (connected env) || negb (salesSensorConnected env)) eqn:Hc.
  - exists SensorsRequired. split; [reflexivity|].
    intros H1 H2 _. rewrite H1, H2 in Hc. discriminate.
  - destruct (products_get (Movement.sku m) (products db)) as [product|].
    + cbn [with_product_price Movement.set_price Movement.sku Movement.quantity].
      apply Qgtb_true in Hlt. rewrite Hlt.
      exists InsufficientStock. split; [reflexivity | intros; reflexivity].
    + exists ProductNotFound. split; [reflexivity|]. intros _ _ H. congruence.
Qed.

(** C1. A venta that asks for more than the total stock of its sku is
    rejected and the store is left exactly as it was: no batch quantity
    changes, no Sale and no Movement record is written.  When the event
    passes the checks that precede the stock check (database open,
    devices connected, identifier and name present, product known), the
    rejection is the insufficient-stock one. *)
Theorem venta_insufficient_stock_no_mutation
    (env : Env) (db : DB) (payload : Payload.t) :
  Payload.event payload = "venta" ->
  totalStock (batches db) (Movement.sku (base_movement env payload))
    < Movement.quantity (base_movement env payload) ->
  (exists e, handleProcessEvent env db payload = (Rejected e, db))
  /\ (db_open env = true -> connected env = true ->
      salesSensorConnected env = true ->
      truthy (Movement.sku (base_movement env payload)) = true ->
      truthy (Payload.name payload) = true ->
      products_get (Movement.sku (base_movement env payload)) (products db)
        <> None ->
      handleProcessEvent env db payload = (Rejected InsufficientStock, db)).
Proof.
  intros Hev Hlt.
  destruct (process_venta_insufficient env db _ Hlt) as [e [He Hkind]].
  unfold handleProcessEvent. rewrite Hev.
  change (("venta" =? "ingreso")%string) with false.
  change (("venta" =? "venta")%string) with true.
  cbv iota. split.
  - destruct (negb (db_open env)); [eexists; reflexivity|].
    destruct (negb (connected env)); [eexists; reflexivity|].
    destruct (negb (truthy (Payload.sku payload))
              && negb (truthy (Payload.barcode payload)));
      [eexists; reflexivity|].
    destruct (negb (truthy (Payload.name payload))); [eexists; reflexivity|].
    exists e. exact He.
  - intros Hdb Hconn Hsens Hid Hname Hprod.
    rewrite Hdb, Hconn, Hname. cbn [negb].
    cbn [base_movement Movement.sku] in Hid. rewrite truthy_or_str in Hid.
    replace (negb (truthy (Payload.sku payload))
             && negb (truthy (Payload.barcode payload))) with false
      by (rewrite <- negb_orb, Hid; reflexivity).
    rewrite He. f_equal. f_equal. apply Hkind; assumption.
Qed.

(** The rejected venta of scenario 8: ten units asked, seven in stock. *)
Lemma venta_insufficient_stock_no_mutation_witness :
  handleProcessEvent (env_at 3000) db_galx_7 (galx_venta 10)
  = (Rejected InsufficientStock, db_galx_7).
Proof.
  apply (venta_insufficient_stock_no_mutation (env_at 3000) db_galx_7 (galx_venta 10));
    try reflexivity.
  discriminate.
Defined.

(** ** Ingreso *)

Lemma process_ingreso_existing (env : Env) (db : DB) (payload : Payload.t)
    (m : Movement.t) (product : Product.t) :
  products_get (Movement.sku m) (products db) = Some product ->
  process_ingreso env db payload m
  = (Applied,
     mkDB (products db)
          (batches db
           ++ [ {| Batch.id := batches_key db;
                   Batch.product_sku := Movement.sku m;
                   Batch.lot :=
                     or_str (Movement.lot m) ("INIT-" ++ string_of_Z (now env));
                   Batch.expiry := Movement.expiry m;
                   Batch.quantity := Movement.quantity m;
                   Batch.purchase_price := Movement.price m;
                   Batch.created_at := now env;
                   Batch.return_id := None;
                   Batch.status := "" |} ])
          (batches_key db + 1) (sales db) (returns db) (returns_key db)
          (movements db
           ++ [ Movement.set_id (movements_key db)
                  (Movement.set_type "ingreso_inventario" m) ])
          (movements_key db + 1)).
Proof.
  intro H. unfold process_ingreso. rewrite H. destruct db; reflexivity.
Qed.

(** C10. An ingreso for a sku that already has a Product record leaves
    the [products] store, and so that record, unchanged; [sales] and
    [returns] are untouched too.  When the guards of the handler pass
    (database open, device connected, a sku or a barcode, a name) the
    event is applied and exactly one Batch and one Movement are added:
    the batch under the next key of [batches], for the sku and the
    quantity of the event, the movement of type [ingreso_inventario]
    under the next key of [movements].  When a guard fails the event is
    not applied and nothing changes. *)
Theorem ingreso_keeps_existing_product
    (env : Env) (db : DB) (payload : Payload.t) (product : Product.t) :
  Payload.event payload = "ingreso" ->
  products_get (Movement.sku (base_movement env payload)) (products db)
    = Some product ->
  let r := handleProcessEvent env db payload in
  products (snd r) = products db
  /\ products_get (Product.sku product) (products (snd r))
     = products_get (Product.sku product) (products db)
  /\ sales (snd r) = sales db
  /\ returns (snd r) = returns db
  /\ (db_open env = true ->
      connected env = true ->
      truthy (Payload.sku payload) = true
      \/ truthy (Payload.barcode payload) = true ->
      truthy (Payload.name payload) = true ->
      exists b m,
        fst r = Applied
        /\ batches (snd r) = (batches db ++ [b])%list
        /\ movements (snd r) = (movements db ++ [m])%list
        /\ Batch.id b = batches_key db
        /\ Batch.product_sku b = Movement.sku (base_movement env payload)
        /\ Batch.quantity b = Movement.quantity (base_movement env payload)
        /\ Movement.id m = movements_key db
        /\ Movement.type m = "ingreso_inventario"
        /\ Movement.sku m = Movement.sku (base_movement env payload)
        /\ Movement.quantity m = Movement.quantity (base_movement env payload))
  /\ (db_open env = false
      \/ connected env = false
      \/ (truthy (Payload.sku payload) = false
          /\ truthy (Payload.barcode payload) = false)
      \/ truthy (Payload.name payload) = false ->
      fst r <> Applied /\ snd r = db).
Proof.
  intros Hev Hget r.
  assert (Hr : r = handleProcessEvent env db payload) by reflexivity.
  clearbody r.
  unfold handleProcessEvent in Hr. rewrite Hev in Hr.
  change (("ingreso" =? "ingreso")%string) with true in Hr. cbv iota in Hr.
  rewrite (process_ingreso_existing env db payload _ product Hget) in Hr.
  destruct (db_open env); cbn [negb] in Hr;
    [|subst r; cbn [fst snd]; repeat (split; [reflexivity|]); split;
      [discriminate | intros _; split; [discriminate | reflexivity]]].
  destruct (connected env); cbn [negb] in Hr;
    [|subst r; cbn [fst snd]; repeat (split; [reflexivity|]); split;
      [intros _; discriminate
      | intros _; split; [discriminate | reflexivity]]].
  destruct (truthy (Payload.sku payload)),
           (truthy (Payload.barcode payload)),
           (truthy (Payload.name payload));
    cbn [negb andb] in Hr; subst r;
    cbn [fst snd products sales returns batches movements];
    repeat (split; [reflexivity|]);
    (split;
     [ intros _ _ Hk Hname;
       first [ discriminate Hname
             | destruct Hk; discriminate
             | eexists; eexists; repeat split ]
     | intros [H|[H|[[H1 H2]|H]]];
       first [ discriminate | split; [discriminate | reflexivity] ] ]).
Qed.

(** A second ingreso of GALX-001 on the store of scenario 7: the Product
    record stays, a second batch of twelve units and a second movement
    are added. *)
Lemma ingreso_keeps_existing_product_witness :
  products (snd (handleProcessEvent (env_at 2000) db_galx_12 galx_ingreso))
  = products db_galx_12
  /\ exists b m,
       fst (handleProcessEvent (env_at 2000) db_galx_12 galx_ingreso) = Applied
       /\ batches (snd (handleProcessEvent (env_at 2000) db_galx_12
                          galx_ingreso))
          = (batches db_galx_12 ++ [b])%list
       /\ movements (snd (handleProcessEvent (env_at 2000) db_galx_12
                            galx_ingreso))
          = (movements db_galx_12 ++ [m])%list
       /\ Batch.id b = batches_key db_galx_12
       /\ Batch.product_sku b = "GALX-001"
       /\ Batch.quantity b = 12
       /\ Movement.id m = movements_key db_galx_12
       /\ Movement.type m = "ingreso_inventario"
       /\ Movement.sku m = "GALX-001"
       /\ Movement.quantity m = 12.
Proof.
  destruct (ingreso_keeps_existing_product (env_at 2000) db_galx_12
              galx_ingreso
              (Product.mk "GALX-001" "Galletas X" "Sin categoría" 1.45 2.5 1000)
              eq_refl eq_refl)
    as (Hp & _ & _ & _ & Happlied & _).
  split; [exact Hp|].
  apply Happlied; [reflexivity | reflexivity | left; reflexivity | reflexivity].
Defined.

(** ** Quantity coercion *)

Lemma movement_quantity_max (env : Env) (payload : Payload.t) :
  Movement.quantity (base_movement env payload) == Qmax 1 (input_quantity payload).
Proof.
  cbn [base_movement Movement.quantity]. unfold input_quantity, or_num.
  destruct (Payload.quantity payload) as [q|]; [|reflexivity].
  destruct (Qeq_bool q 0) eqn:E; [|reflexivity].
  apply Qeq_bool_iff in E. rewrite E. reflexivity.
Qed.

Lemma handleProcessEvent_ingreso_applied
    (env : Env) (db : DB) (payload : Payload.t) :
  Payload.event payload = "ingreso" ->
  db_open env = true -> connected env = true ->
  truthy (Movement.sku (base_movement env payload)) = true ->
  truthy (Payload.name payload) = true ->
  handleProcessEvent env db payload
  = process_ingreso env db payload (base_movement env payload)
  /\ fst (handleProcessEvent env db payload) = Applied.
Proof.
  intros Hev Hdb Hconn Hid Hname.
  unfold handleProcessEvent. rewrite Hev, Hdb, Hconn, Hname.
  cbn [base_movement Movement.sku] in Hid. rewrite truthy_or_str in Hid.
  replace (negb (truthy (Payload.sku payload))
           && negb (truthy (Payload.barcode payload))) with false
    by (rewrite <- negb_orb, Hid; reflexivity).
  change (("ingreso" =? "ingreso")%string) with true. cbn [negb].
  split; [reflexivity|].
  unfold process_ingreso.
  destruct (products_get _ _); reflexivity.
Qed.

(** C5, as the code has it.  The quantity the engine uses is
    [max(1, input)], a missing input counting as 0: it is never below 1,
    it is 1 for a missing, zero or negative input, and an input of at
    least 1 is used as it is, without rounding down.  For a whole-number
    input this is [max(1, floor(input))].  The quantity never causes a
    rejection: an ingreso that passes the identifier checks is applied
    whatever its quantity. *)
Theorem quantity_is_max_1_without_floor (env : Env) (payload : Payload.t) :
  let used := Movement.quantity (base_movement env payload) in
  let input := input_quantity payload in
  used == Qmax 1 input
  /\ 1 <= used
  /\ (input <= 1 -> used == 1)
  /\ (1 <= input -> used == input)
  /\ (forall z : Z, input == inject_Z z ->
        used == inject_Z (Z.max 1 (Qfloor input)))
  /\ (forall db : DB,
        Payload.event payload = "ingreso" ->
        db_open env = true -> connected env = true ->
        truthy (Movement.sku (base_movement env payload)) = true ->
        truthy (Payload.name payload) = true ->
        fst (handleProcessEvent env db payload) = Applied).
Proof.
  intros used input.
  assert (Hmax : used == Qmax 1 input) by apply movement_quantity_max.
  split; [exact Hmax|].
  split; [apply movement_quantity_ge_1|].
  split; [intro H; rewrite Hmax; apply Q.max_l; exact H|].
  split; [intro H; rewrite Hmax; apply Q.max_r; exact H|].
  split.
  - intros z Hz. rewrite Hmax, Hz, Qfloor_Z.
    destruct (Z.max_spec 1 z) as [[Hlt E]|[Hle E]]; rewrite E.
    + apply Q.max_r. change 1 with (inject_Z 1). rewrite <- Zle_Qle. lia.
    + apply Q.max_l. change 1 with (inject_Z 1). rewrite <- Zle_Qle. lia.
  - intros db Hev Hdb Hconn Hid Hname.
    apply (handleProcessEvent_ingreso_applied env db payload); assumption.
Qed.

(** ** Accepted events *)

(** An event is applied only past the guards of [handleProcessEvent],
    and then by the branch of its kind. *)
Lemma handleProcessEvent_applied_inv
    (env : Env) (db db' : DB) (payload : Payload.t) :
  handleProcessEvent env db payload = (Applied, db') ->
  db_open env = true /\ connected env = true
  /\ truthy (Movement.sku (base_movement env payload)) = true
  /\ truthy (Payload.name payload) = true
  /\ ((Payload.event payload = "ingreso"
       /\ process_ingreso env db payload (base_movement env payload) = (Applied, db'))
      \/ (Payload.event payload = "venta"
          /\ process_venta env db (base_movement env payload) = (Applied, db'))
      \/ (Payload.event payload = "devolucion"
          /\ process_devolucion env db (base_movement env payload) = (Applied, db'))).
Proof.
  unfold handleProcessEvent. intro H.
  destruct (db_open env); [|discriminate].
  destruct (connected env); [|discriminate].
  cbn [negb] in H.
  destruct (negb (truthy (Payload.sku payload))
            && negb (truthy (Payload.barcode payload))) eqn:Hid; [discriminate|].
  destruct (truthy (Payload.name payload)); [|discriminate].
  cbn [negb] in H.
  split; [reflexivity|]. split; [reflexivity|]. split.
  { cbn [base_movement Movement.sku]. rewrite truthy_or_str.
    rewrite <- negb_orb in Hid. apply negb_false_iff in Hid. exact Hid. }
  split; [reflexivity|].
  destruct (String.eqb_spec (Payload.event payload) "ingreso") as [E|_];
    [left; split; assumption|].
  destruct (String.eqb_spec (Payload.event payload) "venta") as [E|_];
    [right; left; split; assumption|].
  destruct (String.eqb_spec (Payload.event payload) "devolucion") as [E|_];
    [right; right; split; assumption|].
  discriminate.
Qed.

(** What an applied venta wrote. *)
Lemma process_venta_applied_inv (env : Env) (db db' : DB) (m0 : Movement.t) :
  process_venta env db m0 = (Applied, db') ->
  exists product store used rest,
    products_get (Movement.sku m0) (products db) = Some product
    /\ connected env = true /\ salesSensorConnected env = true
    /\ Movement.quantity m0 <= totalStock (batches db) (Movement.sku m0)
    /\ fifo_loop
         (sort_by_created (filter (eligible (Movement.sku m0)) (batches db)))
         (Movement.quantity m0) (batches db) [] = (store, used, rest)
    /\ sales_add (saleData env (with_product_price product m0) used) (sales db)
       = Some (sales db')
    /\ products db' = products db
    /\ batches db' = store
    /\ batches_key db' = batches_key db
    /\ returns db' = returns db
    /\ returns_key db' = returns_key db
    /\ movements db'
       = (movements db
          ++ [ Movement.set_id (movements_key db)
                 (Movement.set_type "venta"
                    (Movement.set_batches_used used
                       (Movement.set_sale_id
                          (KStr ("SALE-" ++ string_of_Z (now env)))
                          (with_product_price product m0)))) ])%list.
Proof.
  unfold process_venta. intro H.
  destruct (connected env); [|discriminate].
  destruct (salesSensorConnected env); [|discriminate].
  cbn [negb orb] in H.
  destruct (products_get (Movement.sku m0) (products db)) as [product|];
    [|discriminate].
  cbn [with_product_price Movement.set_price Movement.sku Movement.quantity] in H.
  destruct (Qgtb (Movement.quantity m0) (totalStock (batches db) (Movement.sku m0)))
    eqn:Hq; [discriminate|].
  apply Qgtb_false in Hq.
  destruct (fifo_loop _ _ _ _) as [[store used] rest] eqn:Hloop.
  destruct (sales_add _ (sales db)) as [sales'|] eqn:Hadd; [|discriminate].
  injection H as <-.
  exists product, store, used, rest.
  cbn [movements_add with_sales with_batches products batches batches_key
       sales returns returns_key movements movements_key].
  repeat split; try assumption.
Qed.

(** The price a venta sells at: the product's [default_sale_price], or
    the price of the payload when that default is 0. *)
Lemma with_product_price_price (product : Product.t) (m : Movement.t) :
  (~ Product.default_sale_price product == 0 ->
   Movement.price (with_product_price product m)
   = Product.default_sale_price product)
  /\ (Product.default_sale_price product == 0 ->
      Movement.price (with_product_price product m) = Movement.price m).
Proof.
  cbn [with_product_price Movement.set_price Movement.price or_num].
  destruct (Qeq_bool (Product.default_sale_price product) 0) eqn:E.
  - apply Qeq_bool_iff in E. split; [intro N; contradiction | reflexivity].
  - split; [reflexivity|]. intro Z0. apply Qeq_bool_iff in Z0. congruence.
Qed.

(** C9, as the code has it.  An accepted venta adds one Sale with status
    completed and [total = quantity * sale_price]; the sale price is the
    product's [default_sale_price] when that is not 0, and the price of
    the payload when the product's [default_sale_price] is 0. *)
Theorem venta_sale_total (env : Env) (db db' : DB) (payload : Payload.t) :
  Payload.event payload = "venta" ->
  handleProcessEvent env db payload = (Applied, db') ->
  exists product sale,
    products_get (Movement.sku (base_movement env payload)) (products db)
      = Some product
    /\ sales_add sale (sales db) = Some (sales db')
    /\ Sale.status sale = "completed"
    /\ Sale.sku sale = Movement.sku (base_movement env payload)
    /\ Sale.quantity sale = Movement.quantity (base_movement env payload)
    /\ Sale.total sale = Sale.quantity sale * Sale.sale_price sale
    /\ (~ Product.default_sale_price product == 0 ->
        Sale.sale_price sale = Product.default_sale_price product)
    /\ (Product.default_sale_price product == 0 ->
        Sale.sale_price sale = Movement.price (base_movement env payload)).
Proof.
  intros Hev H.
  apply handleProcessEvent_applied_inv in H.
  destruct H as (_ & _ & _ & _ & [[E _]|[[_ H]|[E _]]]); try congruence.
  apply process_venta_applied_inv in H.
  destruct H as (product & store & used & rest & Hget & _ & _ & _ & _ & Hadd & _).
  exists product, (saleData env (with_product_price product (base_movement env payload)) used).
  split; [exact Hget|]. split; [exact Hadd|].
  split; [reflexivity|]. split; [reflexivity|]. split; [reflexivity|].
  split; [reflexivity|].
  apply with_product_price_price.
Qed.

(** Scenario 7: five units of GALX-001 at 2.50 make a total of 12.50. *)
Lemma venta_sale_total_witness :
  exists product sale,
    products_get "GALX-001" (products db_galx_12) = Some product
    /\ sales_add sale (sales db_galx_12) = Some (sales db_galx_7)
    /\ Sale.status sale = "completed"
    /\ Sale.sku sale = "GALX-001"
    /\ Sale.quantity sale = 5
    /\ Sale.total sale = Sale.quantity sale * Sale.sale_price sale
    /\ (~ Product.default_sale_price product == 0 ->
        Sale.sale_price sale = Product.default_sale_price product)
    /\ (Product.default_sale_price product == 0 ->
        Sale.sale_price sale = 0).
Proof.
  exact (venta_sale_total (env_at 2000) db_galx_12 db_galx_7 (galx_venta 5)
           eq_refl eq_refl).
Defined.

Lemma galx_sale_total :
  map Sale.total (sales db_galx_7) = [12.5]
  /\ map Sale.status (sales db_galx_7) = ["completed"].
Proof. split; reflexivity. Qed.

(** C9 fails as stated: MUESTRA-001 has a Product record whose
    [default_sale_price] is 0, and a venta of 2 units carrying
    [sale_price = 3] is sold for 6, not for 2 * 0. *)
Lemma venta_sale_total_counterexample :
  exists product sale,
    products_get "MUESTRA-001" (products db_muestra) = Some product
    /\ handleProcessEvent (env_at 2000) db_muestra muestra_venta
       = (Applied, snd (handleProcessEvent (env_at 2000) db_muestra muestra_venta))
    /\ sales (snd (handleProcessEvent (env_at 2000) db_muestra muestra_venta))
       = [sale]
    /\ Sale.total sale == 6
    /\ ~ Sale.total sale == Sale.quantity sale * Product.default_sale_price product.
Proof.
  eexists. eexists.
  split; [reflexivity|]. split; [reflexivity|]. split; [reflexivity|].
  split; [reflexivity|]. discriminate.
Qed.

(** C5 fails as stated: an input of 2.5 is used as 2.5, while
    [max(1, floor(2.5))] is 2; the batch is stored with 2.5 units. *)
Lemma quantity_is_max_1_without_floor_counterexample :
  Movement.quantity (base_movement (env_at 1000) fractional_ingreso) == 2.5
  /\ ~ Movement.quantity (base_movement (env_at 1000) fractional_ingreso)
       == inject_Z (Z.max 1 (Qfloor (input_quantity fractional_ingreso)))
  /\ map Batch.quantity
       (batches (snd (handleProcessEvent (env_at 1000) empty_db fractional_ingreso)))
     = [2.5].
Proof.
  split; [reflexivity|]. split; [discriminate | reflexivity].
Qed.

Lemma quantity_is_max_1_without_floor_witness :
  Movement.quantity (base_movement (env_at 1000) (galx_venta (-3))) == 1
  /\ Movement.quantity (base_movement (env_at 1000) fractional_ingreso) == 2.5
  /\ Movement.quantity (base_movement (env_at 1000) galx_ingreso)
     == inject_Z (Z.max 1 (Qfloor 12))
  /\ fst (handleProcessEvent (env_at 1000) empty_db fractional_ingreso) = Applied.
Proof.
  split.
  { apply (proj1 (proj2 (proj2
      (quantity_is_max_1_without_floor (env_at 1000) (galx_venta (-3)))))).
    discriminate. }
  split.
  { apply (proj1 (proj2 (proj2 (proj2
      (quantity_is_max_1_without_floor (env_at 1000) fractional_ingreso))))).
    discriminate. }
  split.
  { apply (proj1 (proj2 (proj2 (proj2 (proj2
      (quantity_is_max_1_without_floor (env_at 1000) galx_ingreso))))) 12%Z).
    reflexivity. }
  apply (proj2 (proj2 (proj2 (proj2 (proj2
      (quantity_is_max_1_without_floor (env_at 1000) fractional_ingreso)))))
      empty_db); reflexivity.
Defined.

(** ** Devolucion *)

(** What an applied generic devolucion wrote. *)
Lemma process_devolucion_applied_inv (env : Env) (db db' : DB) (m : Movement.t) :
  process_devolucion env db m = (Applied, db') ->
  Movement.quantity m
    <= soldTotal (sales db) (Movement.sku m) - returnedTotal (returns db) (Movement.sku m)
  /\ products db' = products db
  /\ sales db' = sales db
  /\ batches db'
     = (batches db
        ++ [ {| Batch.id := batches_key db;
                Batch.product_sku := Movement.sku m;
                Batch.lot := "DEV-" ++ string_of_Z (returns_key db);
                Batch.expiry := Movement.expiry m;
                Batch.quantity := Movement.quantity m;
                Batch.purchase_price := Movement.price m;
                Batch.created_at := now env;
                Batch.return_id := Some (returns_key db);
                Batch.status := "" |} ])%list
  /\ batches_key db' = (batches_key db + 1)%Z
  /\ (exists r, returns db' = (returns db ++ [r])%list
                /\ Return.id r = returns_key db
                /\ Return.sku r = Movement.sku m
                /\ Return.quantity r = Movement.quantity m
                /\ Return.original_sale_id r = None)
  /\ movements db'
     = (movements db
        ++ [ Movement.set_id (movements_key db)
               (Movement.set_return_id (returns_key db)
                  (Movement.set_type "devolucion_venta" m)) ])%list.
Proof.
  unfold process_devolucion. intro H.
  destruct (Qgtb _ _) eqn:Hq; [discriminate|].
  apply Qgtb_false in Hq.
  cbn [returns_add batches_add movements_add products batches batches_key
       sales returns returns_key movements movements_key] in H.
  injection H as <-.
  cbn [products batches batches_key sales returns returns_key movements
       movements_key].
  repeat split; try assumption.
  eexists. repeat split.
Qed.

Lemma startsWith_DEV (s : string) : startsWith "DEV-" ("DEV-" ++ s) = true.
Proof.
  unfold startsWith. cbn [append prefix].
  repeat rewrite Ascii.eqb_refl. cbn. destruct s; reflexivity.
Qed.

Lemma filter_app_false {A : Type} (f : A -> bool) (l : list A) (x : A) :
  f x = false -> filter f (l ++ [x]) = filter f l.
Proof.
  intro H. rewrite filter_app. cbn [filter]. rewrite H. apply app_nil_r.
Qed.

(** C8, as the code has it.  An accepted generic devolucion appends one
    batch tagged [DEV-{returnId}] holding the returned quantity.  The
    venta path skips lots that start with [DEV-]: the new batch is not
    counted in the stock total a later venta checks and is not among the
    batches that venta may consume, so the stock total of every sku is
    what it was before the devolucion. *)
Theorem devolucion_batch_not_saleable
    (env : Env) (db db' : DB) (payload : Payload.t) :
  Payload.event payload = "devolucion" ->
  handleProcessEvent env db payload = (Applied, db') ->
  exists b returnId,
    batches db' = (batches db ++ [b])%list
    /\ returnId = returns_key db
    /\ Batch.lot b = "DEV-" ++ string_of_Z returnId
    /\ Batch.return_id b = Some returnId
    /\ Batch.product_sku b = Movement.sku (base_movement env payload)
    /\ Batch.quantity b = Movement.quantity (base_movement env payload)
    /\ (forall sku, in_stock sku b = false)
    /\ (forall sku, eligible sku b = false)
    /\ (forall sku, totalStock (batches db') sku = totalStock (batches db) sku)
    /\ (forall sku,
          filter (eligible sku) (batches db') = filter (eligible sku) (batches db)).
Proof.
  intros Hev H.
  apply handleProcessEvent_applied_inv in H.
  destruct H as (_ & _ & _ & _ & [[E _]|[[E _]|[_ H]]]); try congruence.
  apply process_devolucion_applied_inv in H.
  destruct H as (_ & _ & _ & Hb & _).
  eexists. exists (returns_key db).
  split; [exact Hb|].
  assert (Hin : forall sku,
    in_stock sku
      {| Batch.id := batches_key db;
         Batch.product_sku := Movement.sku (base_movement env payload);
         Batch.lot := "DEV-" ++ string_of_Z (returns_key db);
         Batch.expiry := Movement.expiry (base_movement env payload);
         Batch.quantity := Movement.quantity (base_movement env payload);
         Batch.purchase_price := Movement.price (base_movement env payload);
         Batch.created_at := now env;
         Batch.return_id := Some (returns_key db);
         Batch.status := "" |} = false).
  { intro sku. unfold in_stock. cbn [Batch.lot].
    rewrite startsWith_DEV. apply andb_false_r. }
  assert (Hel : forall sku,
    eligible sku
      {| Batch.id := batches_key db;
         Batch.product_sku := Movement.sku (base_movement env payload);
         Batch.lot := "DEV-" ++ string_of_Z (returns_key db);
         Batch.expiry := Movement.expiry (base_movement env payload);
         Batch.quantity := Movement.quantity (base_movement env payload);
         Batch.purchase_price := Movement.price (base_movement env payload);
         Batch.created_at := now env;
         Batch.return_id := Some (returns_key db);
         Batch.status := "" |} = false).
  { intro sku. unfold eligible. cbn [Batch.lot].
    rewrite startsWith_DEV. apply andb_false_r. }
  repeat split; try assumption.
  - intro sku. unfold totalStock. rewrite Hb.
    rewrite (filter_app_false _ _ _ (Hin sku)). reflexivity.
  - intro sku. rewrite Hb. apply filter_app_false. apply Hel.
Qed.

(** C8 fails as stated: after the ingreso of 12, the venta of 5 and the
    devolucion of those 5, the store holds 7 + 5 units of GALX-001, yet
    the stock a venta sees is 7 and a venta of 8 is denied. *)
Lemma devolucion_batch_not_saleable_counterexample :
  map (fun b => (Batch.lot b, Batch.quantity b)) (batches db_galx_returned)
    = [("LOT-1000", 7); ("DEV-1", 5)]
  /\ totalStock (batches db_galx_returned) "GALX-001" = 7
  /\ map Batch.lot (filter (eligible "GALX-001") (batches db_galx_returned))
     = ["LOT-1000"]
  /\ handleProcessEvent (env_at 4000) db_galx_returned (galx_venta 8)
     = (Rejected InsufficientStock, db_galx_returned).
Proof. repeat split. Qed.

Lemma devolucion_batch_not_saleable_witness :
  exists b returnId,
    batches db_galx_returned = (batches db_galx_7 ++ [b])%list
    /\ returnId = 1%Z
    /\ Batch.lot b = "DEV-" ++ string_of_Z returnId
    /\ Batch.return_id b = Some returnId
    /\ Batch.product_sku b = "GALX-001"
    /\ Batch.quantity b = 5
    /\ (forall sku, in_stock sku b = false)
    /\ (forall sku, eligible sku b = false)
    /\ (forall sku,
          totalStock (batches db_galx_returned) sku
          = totalStock (batches db_galx_7) sku)
    /\ (forall sku,
          filter (eligible sku) (batches db_galx_returned)
          = filter (eligible sku) (batches db_galx_7)).
Proof.
  exact (devolucion_batch_not_saleable (env_at 3000) db_galx_7 db_galx_returned
           (galx_devolucion 5) eq_refl eq_refl).
Defined.

(** ** Undo of a sale and batch returns *)

(** What an applied undo wrote. *)
Lemma handleUndoSale_applied_inv (env : Env) (db db' : DB) (saleEvent : FeedEvent.t) :
  handleUndoSale env db saleEvent = (Applied, db') ->
  exists sale,
    sales_get (FeedEvent.id saleEvent) (sales db) = Some sale
    /\ Sale.status sale <> "cancelled"
    /\ products db' = products db
    /\ batches db'
       = (batches db
          ++ [ {| Batch.id := batches_key db;
                  Batch.product_sku := FeedEvent.sku saleEvent;
                  Batch.lot := "UNDO-" ++ string_of_Z (returns_key db);
                  Batch.expiry := "";
                  Batch.quantity := FeedEvent.quantity saleEvent;
                  Batch.purchase_price := original_purchase_price sale;
                  Batch.created_at := now env;
                  Batch.return_id := Some (returns_key db);
                  Batch.status := "" |} ])%list
    /\ batches_key db' = (batches_key db + 1)%Z
    /\ sales db' = sales_put (Sale.set_status "cancelled" sale) (sales db)
    /\ (exists r, returns db' = (returns db ++ [r])%list
                  /\ Return.sku r = FeedEvent.sku saleEvent
                  /\ Return.quantity r = FeedEvent.quantity saleEvent
                  /\ Return.original_sale_id r = Some (FeedEvent.id saleEvent))
    /\ (exists m, movements db' = (movements db ++ [m])%list
                  /\ Movement.type m = "anulacion_venta"
                  /\ Movement.sku m = FeedEvent.sku saleEvent
                  /\ Movement.quantity m = FeedEvent.quantity saleEvent
                  /\ Movement.sale_id m = Some (FeedEvent.id saleEvent)).
Proof.
  unfold handleUndoSale. intro H.
  destruct (db_open env); [|discriminate]. cbn [negb] in H.
  destruct (sales_get (FeedEvent.id saleEvent) (sales db)) as [sale|];
    [|discriminate].
  destruct (String.eqb_spec (Sale.status sale) "cancelled") as [|Hst];
    [discriminate|].
  cbn [returns_add batches_add movements_add with_sales products batches
       batches_key sales returns returns_key movements movements_key] in H.
  injection H as <-.
  exists sale.
  cbn [products batches batches_key sales returns returns_key movements
       movements_key].
  repeat split; try assumption; eexists; repeat split.
Qed.

(** What an applied return wrote to [movements]. *)
Lemma handleReturn_applied_inv
    (env : Env) (db db' : DB) (batch : Batch.t) (mode : string) :
  handleReturn env db batch mode = (Applied, db') ->
  exists m,
    movements db' = (movements db ++ [m])%list
    /\ ((mode = "ventas"
         /\ Movement.type m = "devolucion_venta"
         /\ Movement.sku m = Batch.product_sku batch
         /\ Movement.quantity m = Batch.quantity batch)
        \/ (mode <> "ventas"
            /\ exists existing,
                 batches_get (Batch.id batch) (batches db) = Some existing
                 /\ Batch.status existing <> "returned"
                 /\ Movement.type m = "devolucion_inventario"
                 /\ Movement.sku m = Batch.product_sku existing
                 /\ Movement.quantity m = 0)).
Proof.
  unfold handleReturn. intro H.
  destruct (db_open env); [|discriminate]. cbn [negb] in H.
  destruct (String.eqb_spec mode "ventas") as [Hm|Hm].
  - unfold return_venta in H.
    cbn [returns_add batches_add movements_add products batches batches_key
         sales returns returns_key movements movements_key] in H.
    injection H as <-. eexists. split; [reflexivity|].
    left. repeat split. exact Hm.
  - unfold return_inventario in H.
    destruct (batches_get (Batch.id batch) (batches db)) as [existing|];
      [|discriminate].
    destruct (String.eqb_spec (Batch.status existing) "returned") as [|Hst];
      [discriminate|].
    cbn [returns_add batches_add movements_add with_batches products batches
         batches_key sales returns returns_key movements movements_key] in H.
    injection H as <-. eexists. split; [reflexivity|].
    right. split; [exact Hm|]. exists existing. repeat split. exact Hst.
Qed.

(** C6, as the code has it.  Every accepted mutating event appends
    exactly one Movement record in its transaction.  For ingreso, venta
    and devolucion the record carries the sku and the quantity of the
    event and is filed under [eventType]: [ingreso_inventario], [venta]
    or [devolucion_venta].  The undo of a sale files one
    [anulacion_venta] with the sku and quantity of the undone event, the
    return of a sale one [devolucion_venta] with the sku and quantity of
    the batch, the return of a purchase batch one
    [devolucion_inventario] with the sku of the stored batch. *)
Theorem accepted_event_appends_one_movement :
  (forall env db db' payload,
     handleProcessEvent env db payload = (Applied, db') ->
     exists m,
       movements db' = (movements db ++ [m])%list
       /\ Movement.sku m = Movement.sku (base_movement env payload)
       /\ Movement.quantity m = Movement.quantity (base_movement env payload)
       /\ Movement.type m = eventType payload)
  /\ (forall env db db' saleEvent,
        handleUndoSale env db saleEvent = (Applied, db') ->
        exists m,
          movements db' = (movements db ++ [m])%list
          /\ Movement.sku m = FeedEvent.sku saleEvent
          /\ Movement.quantity m = FeedEvent.quantity saleEvent
          /\ Movement.type m = "anulacion_venta")
  /\ (forall env db db' batch mode,
        handleReturn env db batch mode = (Applied, db') ->
        exists m,
          movements db' = (movements db ++ [m])%list
          /\ ((mode = "ventas"
               /\ Movement.sku m = Batch.product_sku batch
               /\ Movement.quantity m = Batch.quantity batch
               /\ Movement.type m = "devolucion_venta")
              \/ (mode <> "ventas"
                  /\ (exists existing,
                        batches_get (Batch.id batch) (batches db) = Some existing
                        /\ Movement.sku m = Batch.product_sku existing)
                  /\ Movement.type m = "devolucion_inventario"))).
Proof.
  split; [|split].
  - intros env db db' payload H.
    apply handleProcessEvent_applied_inv in H.
    destruct H as (_ & _ & _ & _ & [[E H]|[[E H]|[E H]]]).
    + unfold process_ingreso in H.
      destruct (products_get _ _);
        cbn [batches_add movements_add with_products products batches
             batches_key sales returns returns_key movements movements_key] in H;
        injection H as <-; eexists; (split; [reflexivity|]);
        unfold eventType; rewrite E; repeat split.
    + apply process_venta_applied_inv in H.
      destruct H as (product & store & used & rest & H).
      decompose [and] H. eexists. split; [eassumption|].
      unfold eventType. rewrite E. repeat split.
    + apply process_devolucion_applied_inv in H.
      decompose [and] H. eexists. split; [eassumption|].
      unfold eventType. rewrite E. repeat split.
  - intros env db db' saleEvent H.
    apply handleUndoSale_applied_inv in H.
    destruct H as (sale & _ & _ & _ & _ & _ & _ & _ & m & Hm & Ht & Hs & Hq & _).
    exists m. repeat split; assumption.
  - intros env db db' batch mode H.
    apply handleReturn_applied_inv in H.
    destruct H as (m & Hm & [(Hmode & Ht & Hs & Hq)
                            |(Hmode & existing & Hget & _ & Ht & Hs & _)]).
    + exists m. split; [exact Hm|]. left. repeat split; assumption.
    + exists m. split; [exact Hm|]. right. split; [exact Hmode|].
      split; [|exact Ht]. exists existing. split; assumption.
Qed.

(** C6 fails as stated: the ingreso of 12 units is filed under
    [ingreso_inventario], not under the type [ingreso] of the event; and
    the return of a purchase batch that holds 12 units is filed with
    quantity 0 (the Return record of the same transaction says 12). *)
Lemma accepted_event_appends_one_movement_counterexample :
  handleProcessEvent (env_at 1000) empty_db galx_ingreso = (Applied, db_galx_12)
  /\ Payload.event galx_ingreso = "ingreso"
  /\ map (fun m => (Movement.type m, Movement.quantity m)) (movements db_galx_12)
     = [("ingreso_inventario", 12)]
  /\ "ingreso_inventario" <> Payload.event galx_ingreso
  /\ batches_get 1 (batches db_galx_12) = Some galx_batch
  /\ Batch.quantity galx_batch = 12
  /\ handleReturn (env_at 2000) db_galx_12 galx_batch "inventario"
     = (Applied, db_galx_sent_back)
  /\ map (fun m => (Movement.type m, Movement.quantity m))
         (movements db_galx_sent_back)
     = [("ingreso_inventario", 12); ("devolucion_inventario", 0)]
  /\ map (fun r => (Return.type r, Return.quantity r)) (returns db_galx_sent_back)
     = [("inventory_return", 12)].
Proof.
  repeat split. discriminate.
Qed.

Lemma accepted_event_appends_one_movement_witness :
  (exists m,
     movements db_galx_7 = (movements db_galx_12 ++ [m])%list
     /\ Movement.sku m = "GALX-001"
     /\ Movement.quantity m = 5
     /\ Movement.type m = "venta")
  /\ (exists m,
        movements db_galx_undone = (movements db_galx_7 ++ [m])%list
        /\ Movement.sku m = "GALX-001"
        /\ Movement.quantity m = 5
        /\ Movement.type m = "anulacion_venta")
  /\ (exists m,
        movements db_galx_sent_back = (movements db_galx_12 ++ [m])%list
        /\ (("inventario" = "ventas"
             /\ Movement.sku m = Batch.product_sku galx_batch
             /\ Movement.quantity m = Batch.quantity galx_batch
             /\ Movement.type m = "devolucion_venta")
            \/ ("inventario" <> "ventas"
                /\ (exists existing,
                      batches_get (Batch.id galx_batch) (batches db_galx_12)
                        = Some existing
                      /\ Movement.sku m = Batch.product_sku existing)
                /\ Movement.type m = "devolucion_inventario"))).
Proof.
  split; [|split].
  - exact (proj1 accepted_event_appends_one_movement
             (env_at 2000) db_galx_12 db_galx_7 (galx_venta 5) eq_refl).
  - exact (proj1 (proj2 accepted_event_appends_one_movement)
             (env_at 3000) db_galx_7 db_galx_undone galx_sale_event eq_refl).
  - exact (proj2 (proj2 accepted_event_appends_one_movement)
             (env_at 2000) db_galx_12 db_galx_sent_back galx_batch "inventario"
             eq_refl).
Defined.

(** ** Sums *)

Lemma fold_left_qsum {A : Type} (f : A -> Q) (l : list A) (a : Q) :
  fold_left (fun s x => s + f x) l a == a + qsum f l.
Proof.
  revert a. induction l as [|x l IH]; intro a; cbn [fold_left qsum].
  - lra.
  - rewrite IH. lra.
Qed.

Lemma qsum_app {A : Type} (f : A -> Q) (l1 l2 : list A) :
  qsum f (l1 ++ l2) == qsum f l1 + qsum f l2.
Proof.
  induction l1 as [|x l1 IH]; cbn [app qsum]; [lra | rewrite IH; lra].
Qed.

Lemma qsum_nonneg {A : Type} (f : A -> Q) (l : list A) :
  Forall (fun x => 0 <= f x) l -> 0 <= qsum f l.
Proof.
  induction 1 as [|x l Hx _ IH]; cbn [qsum]; lra.
Qed.

Lemma qsum_ext {A : Type} (f g : A -> Q) (l : list A) :
  Forall (fun x => f x == g x) l -> qsum f l == qsum g l.
Proof.
  induction 1 as [|x l Hx _ IH]; cbn [qsum]; [lra | rewrite Hx, IH; lra].
Qed.

Lemma qsum_perm {A : Type} (f : A -> Q) (l1 l2 : list A) :
  Permutation l1 l2 -> qsum f l1 == qsum f l2.
Proof.
  induction 1; cbn [qsum]; lra.
Qed.

Lemma soldTotal_qsum (l : list Sale.t) (sku : string) :
  soldTotal l sku == qsum Sale.quantity (filter (completed_of sku) l).
Proof.
  unfold soldTotal. rewrite fold_left_qsum. fold (completed_of sku). lra.
Qed.

Lemma returnedTotal_qsum (l : list Return.t) (sku : string) :
  returnedTotal l sku
  == qsum Return.quantity (filter (fun r => (Return.sku r =? sku)%string) l).
Proof.
  unfold returnedTotal. rewrite fold_left_qsum. lra.
Qed.

Lemma totalStock_qsum (l : list Batch.t) (sku : string) :
  totalStock l sku == qsum Batch.quantity (filter (in_stock sku) l).
Proof.
  unfold totalStock. rewrite fold_left_qsum.
  rewrite (qsum_ext (fun b => or_num (Some (Batch.quantity b)) 0) Batch.quantity).
  - lra.
  - apply Forall_forall. intros b _. apply or_num_some_0.
Qed.

Lemma qsum_filter_sales_insert (p : Sale.t -> bool) (s : Sale.t) (l : list Sale.t) :
  qsum Sale.quantity (filter p (sales_insert s l))
  == (if p s then Sale.quantity s else 0) + qsum Sale.quantity (filter p l).
Proof.
  induction l as [|x l IH]; cbn [sales_insert filter].
  - destruct (p s); cbn [qsum]; lra.
  - destruct (key_ltb (Sale.id s) (Sale.id x)); cbn [filter].
    + destruct (p s); cbn [qsum]; lra.
    + destruct (p x); cbn [qsum]; rewrite IH; lra.
Qed.

Lemma soldTotal_sales_add (s : Sale.t) (l l' : list Sale.t) (sku : string) :
  sales_add s l = Some l' ->
  soldTotal l' sku
  == (if completed_of sku s then Sale.quantity s else 0) + soldTotal l sku.
Proof.
  unfold sales_add. destruct (existsb _ l); [discriminate|].
  intro H. injection H as <-.
  rewrite !soldTotal_qsum. apply qsum_filter_sales_insert.
Qed.

Lemma returnedTotal_app (l : list Return.t) (r : Return.t) (sku : string) :
  returnedTotal (l ++ [r]) sku
  == returnedTotal l sku
     + (if (Return.sku r =? sku)%string then Return.quantity r else 0).
Proof.
  rewrite !returnedTotal_qsum, filter_app, qsum_app. cbn [filter].
  destruct (Return.sku r =? sku)%string; cbn [qsum]; lra.
Qed.

(** ** The return balance *)

(** What an ingreso wrote. *)
Lemma process_ingreso_inv (env : Env) (db db' : DB) (payload : Payload.t)
    (m : Movement.t) :
  process_ingreso env db payload m = (Applied, db') ->
  sales db' = sales db
  /\ returns db' = returns db
  /\ returns_key db' = returns_key db
  /\ batches_key db' = (batches_key db + 1)%Z
  /\ batches db'
     = (batches db
        ++ [ {| Batch.id := batches_key db;
                Batch.product_sku := Movement.sku m;
                Batch.lot :=
                  or_str (Movement.lot m) ("INIT-" ++ string_of_Z (now env));
                Batch.expiry := Movement.expiry m;
                Batch.quantity := Movement.quantity m;
                Batch.purchase_price := Movement.price m;
                Batch.created_at := now env;
                Batch.return_id := None;
                Batch.status := "" |} ])%list.
Proof.
  unfold process_ingreso. intro H.
  destruct (products_get _ _);
    cbn [batches_add movements_add with_products products batches batches_key
         sales returns returns_key movements movements_key] in H;
    injection H as <-; repeat split.
Qed.

(** An event that is not applied leaves the store as it was. *)
Lemma handleProcessEvent_not_applied (env : Env) (db : DB) (payload : Payload.t) :
  fst (handleProcessEvent env db payload) <> Applied ->
  snd (handleProcessEvent env db payload) = db.
Proof.
  unfold handleProcessEvent.
  destruct (negb (db_open env)); [reflexivity|].
  destruct (negb (connected env)); [reflexivity|].
  destruct (_ && _); [reflexivity|].
  destruct (negb (truthy (Payload.name payload))); [reflexivity|].
  destruct (Payload.event payload =? "ingreso")%string.
  { unfold process_ingreso. destruct (products_get _ _); cbn; congruence. }
  destruct (Payload.event payload =? "venta")%string.
  { unfold process_venta.
    destruct (_ || _); [reflexivity|].
    destruct (products_get _ _); [|reflexivity].
    destruct (Qgtb _ _); [reflexivity|].
    destruct (fifo_loop _ _ _ _) as [[store used] rest].
    destruct (sales_add _ _); [cbn; congruence | reflexivity]. }
  destruct (Payload.event payload =? "devolucion")%string; [|reflexivity].
  unfold process_devolucion.
  destruct (Qgtb _ _); [reflexivity | cbn; congruence].
Qed.

(** Every step of [handleProcessEvent]: either the store is unchanged
    or the event was applied. *)
Lemma handleProcessEvent_cases (env : Env) (db : DB) (payload : Payload.t) :
  snd (handleProcessEvent env db payload) = db
  \/ handleProcessEvent env db payload
     = (Applied, snd (handleProcessEvent env db payload)).
Proof.
  pose proof (handleProcessEvent_not_applied env db payload) as H.
  destruct (handleProcessEvent env db payload) as [o d].
  cbn [fst snd] in *.
  destruct o; [right; reflexivity | left | left]; apply H; discriminate.
Qed.

Lemma balanced_step (env : Env) (db : DB) (payload : Payload.t) :
  balanced db -> balanced (snd (handleProcessEvent env db payload)).
Proof.
  intro Hb.
  destruct (handleProcessEvent_cases env db payload) as [E|E];
    [rewrite E; exact Hb|].
  set (db' := snd (handleProcessEvent env db payload)) in *.
  apply handleProcessEvent_applied_inv in E.
  destruct E as (_ & _ & _ & _ & [[_ H]|[[_ H]|[_ H]]]).
  - apply process_ingreso_inv in H. destruct H as (Hs & Hr & _).
    intro sku. rewrite Hs, Hr. apply Hb.
  - apply process_venta_applied_inv in H.
    destruct H as (product & store & used & rest & _ & _ & _ & _ & _ & Hadd
                   & _ & _ & _ & Hr & _).
    intro sku. rewrite Hr, (soldTotal_sales_add _ _ _ sku Hadd).
    specialize (Hb sku).
    destruct (completed_of sku _); [|lra].
    cbn [saleData Sale.quantity with_product_price Movement.set_price
         Movement.quantity].
    pose proof (movement_quantity_ge_1 env payload). lra.
  - apply process_devolucion_applied_inv in H.
    destruct H as (Hq & _ & Hs & _ & _ & (r & Hr & _ & Hrs & Hrq & _) & _).
    intro sku. rewrite Hs, Hr, returnedTotal_app. specialize (Hb sku).
    destruct (String.eqb_spec (Return.sku r) sku) as [E|_]; [|lra].
    rewrite Hrq. rewrite Hrs in E. rewrite E in Hq. lra.
Qed.

Lemma process_devolucion_over_return (env : Env) (db : DB) (m : Movement.t) :
  soldTotal (sales db) (Movement.sku m)
    < Movement.quantity m + returnedTotal (returns db) (Movement.sku m) ->
  process_devolucion env db m = (Rejected OverReturn, db).
Proof.
  intro H. unfold process_devolucion.
  replace (Qgtb _ _) with true; [reflexivity|].
  symmetry. apply Qgtb_true. lra.
Qed.

(** C4, as the code has it.  A generic devolucion with
    [requestedQty + returnedTotal > soldTotal] is rejected and leaves the
    store unchanged, with the over-return notification once the event is
    past the connection and identifier checks.  Under ingreso, venta and
    generic devolucion events the balance
    [returnedTotal(sku) <= soldTotal(sku)] is kept for every sku. *)
Theorem return_balance_under_events :
  (forall env db payload,
     Payload.event payload = "devolucion" ->
     soldTotal (sales db) (Movement.sku (base_movement env payload))
       < Movement.quantity (base_movement env payload)
         + returnedTotal (returns db) (Movement.sku (base_movement env payload)) ->
     (exists e, handleProcessEvent env db payload = (Rejected e, db))
     /\ (db_open env = true -> connected env = true ->
         truthy (Movement.sku (base_movement env payload)) = true ->
         truthy (Payload.name payload) = true ->
         handleProcessEvent env db payload = (Rejected OverReturn, db)))
  /\ (forall db events, balanced db -> balanced (run_events db events)).
Proof.
  split.
  - intros env db payload Hev Hlt.
    pose proof (process_devolucion_over_return env db _ Hlt) as Hrej.
    unfold handleProcessEvent. rewrite Hev, Hrej.
    change (("devolucion" =? "ingreso")%string) with false.
    change (("devolucion" =? "venta")%string) with false.
    change (("devolucion" =? "devolucion")%string) with true.
    cbv iota. split.
    + destruct (negb (db_open env)); [eexists; reflexivity|].
      destruct (negb (connected env)); [eexists; reflexivity|].
      destruct (_ && _); [eexists; reflexivity|].
      destruct (negb (truthy (Payload.name payload))); eexists; reflexivity.
    + intros Hdb Hconn Hid Hname. rewrite Hdb, Hconn, Hname. cbn [negb].
      cbn [base_movement Movement.sku] in Hid. rewrite truthy_or_str in Hid.
      replace (negb (truthy (Payload.sku payload))
               && negb (truthy (Payload.barcode payload))) with false
        by (rewrite <- negb_orb, Hid; reflexivity).
      reflexivity.
  - intros db events. revert db.
    induction events as [|[env payload] events IH]; intros db Hb.
    + exact Hb.
    + cbn [run_events fold_left fst snd]. apply IH. apply balanced_step. exact Hb.
Qed.

(** C4 fails as stated: undoing the sale of scenario 7 writes a Return
    of 5 units and cancels the Sale, so 5 units are returned against 0
    units of completed sales; and sending the batch of 12 back to the
    supplier writes a Return of 12 units for a sku without any sale. *)
Lemma return_balance_counterexample :
  db_galx_undone
  = run empty_db [ (env_at 1000, ProcessEvent galx_ingreso);
                   (env_at 2000, ProcessEvent (galx_venta 5));
                   (env_at 3000, UndoSale galx_sale_event) ]
  /\ db_galx_sent_back
     = run empty_db [ (env_at 1000, ProcessEvent galx_ingreso);
                      (env_at 2000, ReturnBatch galx_batch "inventario") ]
  /\ handleUndoSale (env_at 3000) db_galx_7 galx_sale_event
     = (Applied, db_galx_undone)
  /\ returnedTotal (returns db_galx_undone) "GALX-001" = 5
  /\ soldTotal (sales db_galx_undone) "GALX-001" = 0
  /\ ~ balanced db_galx_undone
  /\ handleReturn (env_at 2000) db_galx_12 galx_batch "inventario"
     = (Applied, db_galx_sent_back)
  /\ returnedTotal (returns db_galx_sent_back) "GALX-001" = 12
  /\ soldTotal (sales db_galx_sent_back) "GALX-001" = 0
  /\ ~ balanced db_galx_sent_back.
Proof.
  assert (Hnot : forall db,
            soldTotal (sales db) "GALX-001" < returnedTotal (returns db) "GALX-001" ->
            ~ balanced db).
  { intros db Hlt Hb. specialize (Hb "GALX-001"). lra. }
  split; [vm_compute; reflexivity|]. split; [vm_compute; reflexivity|].
  split; [reflexivity|]. split; [reflexivity|]. split; [reflexivity|].
  split; [apply Hnot; reflexivity|].
  split; [reflexivity|]. split; [reflexivity|]. split; [reflexivity|].
  apply Hnot; reflexivity.
Qed.

Lemma balanced_empty : balanced empty_db.
Proof. intro sku. apply Qle_refl. Qed.

(** Scenario 9 (a devolucion of 5 against 3 sold is denied), and the
    balance after the events of scenario 7 and a devolucion of 2. *)
Lemma return_balance_under_events_witness :
  handleProcessEvent (env_at 3000) db_galx_sold_3 (galx_devolucion 5)
    = (Rejected OverReturn, db_galx_sold_3)
  /\ balanced (run_events empty_db galx_events).
Proof.
  split.
  - apply (proj1 return_balance_under_events (env_at 3000) db_galx_sold_3
             (galx_devolucion 5)); reflexivity.
  - apply (proj2 return_balance_under_events empty_db galx_events).
    exact balanced_empty.
Defined.

(** ** The order of consumption *)

Lemma insert_by_created_perm (a : Batch.t) (l : list Batch.t) :
  Permutation (insert_by_created a l) (a :: l).
Proof.
  induction l as [|b l IH]; cbn [insert_by_created].
  - apply Permutation_refl.
  - destruct (Batch.created_at a <=? Batch.created_at b)%Z.
    + apply Permutation_refl.
    + apply perm_trans with (b :: a :: l).
      * apply perm_skip. exact IH.
      * apply perm_swap.
Qed.

Lemma sort_by_created_perm (l : list Batch.t) :
  Permutation (sort_by_created l) l.
Proof.
  induction l as [|a l IH]; cbn [sort_by_created].
  - apply perm_nil.
  - apply perm_trans with (a :: sort_by_created l).
    + apply insert_by_created_perm.
    + apply perm_skip. exact IH.
Qed.

Lemma fifo_before_created (a b : Batch.t) :
  fifo_before a b -> (Batch.created_at a <= Batch.created_at b)%Z.
Proof. unfold fifo_before. lia. Qed.

Lemma insert_by_created_sorted (a : Batch.t) (s : list Batch.t) :
  StronglySorted fifo_before s ->
  Forall (fun x => (Batch.id a < Batch.id x)%Z) s ->
  StronglySorted fifo_before (insert_by_created a s).
Proof.
  induction 1 as [|b s Hs IH Hb]; intro Hid; cbn [insert_by_created].
  - constructor; constructor.
  - inversion Hid as [|? ? Hab Hid']; subst.
    destruct (Z.leb_spec (Batch.created_at a) (Batch.created_at b)) as [Hle|Hgt].
    + constructor; [constructor; assumption|].
      constructor.
      * unfold fifo_before. lia.
      * rewrite Forall_forall in *. intros x Hx.
        pose proof (fifo_before_created _ _ (Hb x Hx)).
        pose proof (Hid' x Hx). unfold fifo_before. lia.
    + constructor; [apply IH; assumption|].
      apply (Permutation_Forall (x := a :: s)).
      * apply Permutation_sym, insert_by_created_perm.
      * constructor; [unfold fifo_before; lia | assumption].
Qed.

Lemma sort_by_created_sorted (l : list Batch.t) :
  keys_ascending l -> StronglySorted fifo_before (sort_by_created l).
Proof.
  induction 1 as [|a l Hl IH Ha]; cbn [sort_by_created].
  - constructor.
  - apply insert_by_created_sorted; [exact IH|].
    apply (Permutation_Forall (x := l)); [|exact Ha].
    apply Permutation_sym, sort_by_created_perm.
Qed.

Lemma keys_ascending_filter (f : Batch.t -> bool) (l : list Batch.t) :
  keys_ascending l -> keys_ascending (filter f l).
Proof.
  induction 1 as [|a l Hl IH Ha]; cbn [filter]; [constructor|].
  destruct (f a); [|exact IH].
  constructor; [exact IH|].
  rewrite Forall_forall in *. intros x Hx.
  apply filter_In in Hx. apply Ha. tauto.
Qed.

Lemma keys_ascending_NoDup (l : list Batch.t) :
  keys_ascending l -> NoDup (map Batch.id l).
Proof.
  induction 1 as [|a l Hl IH Ha]; cbn [map]; constructor; [|exact IH].
  intro Hin. apply in_map_iff in Hin. destruct Hin as (x & Hx & Hin).
  rewrite Forall_forall in Ha. specialize (Ha x Hin). lia.
Qed.

(** The batches a venta walks: exactly the eligible ones, in FIFO
    order. *)
Lemma productBatches_fifo (sku : string) (allBatches : list Batch.t) :
  keys_ascending allBatches ->
  StronglySorted fifo_before
    (sort_by_created (filter (eligible sku) allBatches))
  /\ forall b,
       In b (sort_by_created (filter (eligible sku) allBatches))
       <-> In b allBatches /\ eligible sku b = true.
Proof.
  intro Hk. split.
  - apply sort_by_created_sorted, keys_ascending_filter, Hk.
  - intro b. rewrite <- filter_In. split; apply Permutation_in.
    + apply sort_by_created_perm.
    + apply Permutation_sym, sort_by_created_perm.
Qed.

(** ** The FIFO loop and the walk of the specification *)

Lemma Qleb_Qeq_bool_nonneg (x : Q) : 0 <= x -> Qleb x 0 = Qeq_bool x 0.
Proof.
  intro H. destruct (Qeq_bool x 0) eqn:E.
  - apply Qeq_bool_iff in E. apply Qleb_true. lra.
  - apply Qleb_false. apply Qeq_bool_neq in E. lra.
Qed.

(** The loop of the code is the walk of the specification: it [put]s
    the walked batches and records them in walk order. *)
Lemma fifo_loop_walk (l : list Batch.t) :
  forall (remaining : Q) (store : list Batch.t) (used : list BatchUse.t),
    0 <= remaining ->
    exists rest,
      fifo_loop l remaining store used
      = (persist_walk (fifo_walk l remaining) store,
         (used ++ map use_of (fifo_walk l remaining))%list,
         rest)
      /\ rest == remaining - qsum snd (fifo_walk l remaining)
      /\ 0 <= rest.
Proof.
  induction l as [|b l IH]; intros remaining store used Hrem;
    cbn [fifo_loop fifo_walk].
  - exists remaining. cbn [persist_walk fold_left map qsum].
    rewrite app_nil_r. repeat split; lra.
  - rewrite (Qleb_Qeq_bool_nonneg _ Hrem).
    destruct (Qeq_bool remaining 0) eqn:E.
    + exists remaining. cbn [persist_walk fold_left map qsum].
      rewrite app_nil_r. repeat split; lra.
    + pose proof (Qmin_le_r (Batch.quantity b) remaining) as Hmin.
      destruct (IH (remaining - Qmin (Batch.quantity b) remaining)
                   (batches_put
                      (Batch.set_quantity
                         (Batch.quantity b - Qmin (Batch.quantity b) remaining) b)
                      store)
                   (used ++ [use_of (b, Qmin (Batch.quantity b) remaining)])%list)
        as (rest & Hloop & Hrest & Hpos); [lra|].
      exists rest. split; [|split; [|exact Hpos]].
      * unfold use_of in Hloop at 1. cbn [fst snd] in Hloop. rewrite Hloop.
        cbn [persist_walk fold_left map fst snd].
        rewrite <- app_assoc. reflexivity.
      * cbn [qsum snd]. lra.
Qed.

(** The walk covers what is asked whenever the batches hold enough. *)
Lemma fifo_walk_covers (l : list Batch.t) :
  forall needed : Q,
    0 <= needed -> needed <= qsum Batch.quantity l ->
    qsum snd (fifo_walk l needed) == needed.
Proof.
  induction l as [|b l IH]; intros needed H0 Hle; cbn [fifo_walk qsum] in *.
  - lra.
  - destruct (Qeq_bool needed 0) eqn:E.
    + apply Qeq_bool_iff in E. cbn [qsum]. lra.
    + cbn [qsum snd].
      destruct (Q.min_spec (Batch.quantity b) needed) as [[Hlt Hm]|[Hge Hm]].
      * rewrite IH; rewrite ?Hm; lra.
      * assert (Hz : needed - Qmin (Batch.quantity b) needed == 0)
          by (rewrite Hm; lra).
        destruct l as [|c l]; cbn [fifo_walk qsum].
        -- rewrite Hm. lra.
        -- apply Qeq_bool_iff in Hz. rewrite Hz. cbn [qsum]. rewrite Hm. lra.
Qed.

(** Each take is bounded by what the batch holds and, for a batch that
    holds something, is positive; a batch is walked only once, and only
    after the batches before it. *)
Lemma fifo_walk_takes (l : list Batch.t) :
  forall needed : Q,
    0 <= needed ->
    Forall (fun bt => In (fst bt) l
                      /\ snd bt <= Batch.quantity (fst bt)
                      /\ (0 < Batch.quantity (fst bt) -> 0 < snd bt))
           (fifo_walk l needed)
    /\ exists n, map fst (fifo_walk l needed) = firstn n l.
Proof.
  induction l as [|b l IH]; intros needed H0; cbn [fifo_walk].
  - split; [constructor | exists O; reflexivity].
  - destruct (Qeq_bool needed 0) eqn:E.
    + split; [constructor | exists O; reflexivity].
    + apply Qeq_bool_neq in E.
      pose proof (Qmin_le_r (Batch.quantity b) needed) as Hr.
      destruct (IH (needed - Qmin (Batch.quantity b) needed)) as [Hall [n Hn]];
        [lra|].
      split.
      * constructor.
        -- cbn [fst snd]. split; [left; reflexivity|].
           split; [apply Qmin_le_l|].
           intro Hq. apply Qmin_pos; [exact Hq | lra].
        -- eapply Forall_impl; [|exact Hall].
           intros bt (Hin & Hb). split; [right; exact Hin | exact Hb].
      * exists (S n). cbn [map fst firstn]. rewrite Hn. reflexivity.
Qed.

(** While another batch follows in the walk, the batch before it is
    taken whole. *)
Lemma fifo_walk_exhausts (l : list Batch.t) :
  forall needed : Q,
    0 <= needed ->
    Forall (fun bt => snd bt == Batch.quantity (fst bt))
           (removelast (fifo_walk l needed)).
Proof.
  induction l as [|b l IH]; intros needed H0; cbn [fifo_walk].
  - constructor.
  - destruct (Qeq_bool needed 0) eqn:E; [constructor|].
    pose proof (Qmin_le_r (Batch.quantity b) needed) as Hr.
    specialize (IH (needed - Qmin (Batch.quantity b) needed)).
    destruct (fifo_walk l (needed - Qmin (Batch.quantity b) needed))
      as [|bt w] eqn:Ew; [constructor|].
    cbn [removelast]. constructor; [|apply IH; lra].
    cbn [fst snd].
    destruct (Q.min_spec (Batch.quantity b) needed) as [[_ Hm]|[_ Hm]];
      [exact Hm|].
    exfalso. destruct l as [|c l]; cbn [fifo_walk] in Ew; [discriminate|].
    assert (Hz : needed - Qmin (Batch.quantity b) needed == 0)
      by (rewrite Hm; lra).
    apply Qeq_bool_iff in Hz. rewrite Hz in Ew. discriminate.
Qed.

(** ** [put] on a store in key order *)

Lemma map_replace_above (b b' : Batch.t) (l : list Batch.t) :
  Forall (fun x => (Batch.id b < Batch.id x)%Z) l ->
  map (fun x => if (Batch.id x =? Batch.id b)%Z then b' else x) l = l.
Proof.
  induction 1 as [|x l Hx _ IH]; cbn [map]; [reflexivity|].
  rewrite IH. destruct (Z.eqb_spec (Batch.id x) (Batch.id b)); [lia|reflexivity].
Qed.

(** A [put] under a key the store holds replaces the record stored
    there and nothing else. *)
Lemma batches_put_existing (b b' : Batch.t) (store : list Batch.t) :
  keys_ascending store -> In b store -> Batch.id b' = Batch.id b ->
  batches_put b' store
  = map (fun x => if (Batch.id x =? Batch.id b)%Z then b' else x) store.
Proof.
  intros Hk Hin Hid. induction Hk as [|x l Hl IH Hx];
    [contradiction|]. cbn [batches_put map]. rewrite Hid.
  destruct Hin as [->|Hin].
  - rewrite Z.eqb_refl. f_equal. symmetry. apply map_replace_above. exact Hx.
  - rewrite Forall_forall in Hx. pose proof (Hx b Hin).
    destruct (Z.eqb_spec (Batch.id x) (Batch.id b)); [lia|].
    destruct (Z.ltb_spec (Batch.id b) (Batch.id x)); [lia|].
    f_equal. apply IH. exact Hin.
Qed.

Lemma keys_ascending_map (f : Batch.t -> Batch.t) (l : list Batch.t) :
  (forall x, Batch.id (f x) = Batch.id x) ->
  keys_ascending l -> keys_ascending (map f l).
Proof.
  intros Hf. induction 1 as [|a l Hl IH Ha]; cbn [map]; constructor;
    [exact IH|].
  rewrite Forall_forall in *. intros y Hy.
  apply in_map_iff in Hy. destruct Hy as (x & <- & Hx).
  rewrite !Hf. apply Ha. exact Hx.
Qed.

Lemma keys_ascending_same_key (a b : Batch.t) (l : list Batch.t) :
  keys_ascending l -> In a l -> In b l -> Batch.id a = Batch.id b -> a = b.
Proof.
  induction 1 as [|x l Hl IH Hx]; [contradiction|].
  rewrite Forall_forall in Hx.
  intros [->|Ha] [->|Hb] E; try reflexivity.
  - specialize (Hx b Hb). lia.
  - specialize (Hx a Ha). lia.
  - apply IH; assumption.
Qed.

Lemma taken_none (w : list (Batch.t * Q)) (k : Z) :
  ~ In k (map (fun bt => Batch.id (fst bt)) w) -> taken w k = None.
Proof.
  induction w as [|[b t] w IH]; cbn [taken map fst]; [reflexivity|].
  intro H. destruct (Z.eqb_spec (Batch.id b) k) as [E|_].
  - exfalso. apply H. left. exact E.
  - apply IH. intro Hin. apply H. right. exact Hin.
Qed.

(** Persisting a walk over batches of the store changes each walked
    batch by its take and leaves every other record as it is. *)
Lemma persist_walk_map (w : list (Batch.t * Q)) :
  forall store : list Batch.t,
    keys_ascending store ->
    (forall bt, In bt w -> In (fst bt) store) ->
    NoDup (map (fun bt => Batch.id (fst bt)) w) ->
    persist_walk w store = map (after_walk w) store.
Proof.
  induction w as [|[b t] w IH]; intros store Hk Hin Hnd.
  - cbn [persist_walk fold_left]. symmetry.
    rewrite <- (map_id store) at 2. apply map_ext. intro x. reflexivity.
  - cbn [persist_walk fold_left fst snd]. fold (persist_walk w).
    cbn [map fst] in Hnd. inversion Hnd as [|? ? Hnotin Hnd']; subst.
    set (b' := Batch.set_quantity (Batch.quantity b - t) b).
    assert (Hb : In b store) by (apply (Hin (b, t)); left; reflexivity).
    rewrite (batches_put_existing b b' store Hk Hb eq_refl).
    rewrite IH; [| | |exact Hnd'].
    + rewrite map_map. apply map_ext_in. intros x Hx.
      unfold after_walk at 2. cbn [taken].
      destruct (Z.eqb_spec (Batch.id x) (Batch.id b)) as [E|N].
      * rewrite Z.eqb_sym, E, Z.eqb_refl.
        assert (x = b) by (apply (keys_ascending_same_key x b store); assumption).
        subst x. unfold after_walk. rewrite (taken_none w); [reflexivity|].
        exact Hnotin.
      * rewrite Z.eqb_sym. destruct (Z.eqb_spec (Batch.id x) (Batch.id b));
          [contradiction|]. reflexivity.
    + apply keys_ascending_map; [|exact Hk].
      intro x. destruct (Z.eqb_spec (Batch.id x) (Batch.id b)) as [E|_];
        [rewrite E; reflexivity | reflexivity].
    + intros bt Hbt. apply in_map_iff. exists (fst bt).
      assert (Hne : Batch.id (fst bt) <> Batch.id b).
      { intro E. apply Hnotin. rewrite <- E.
        apply (in_map (fun bt => Batch.id (fst bt))). exact Hbt. }
      destruct (Z.eqb_spec (Batch.id (fst bt)) (Batch.id b)); [contradiction|].
      split; [reflexivity|]. apply Hin. right. exact Hbt.
Qed.

(** ** Stock after a venta *)

Lemma eligible_in_stock (sku : string) (b : Batch.t) :
  eligible sku b = in_stock sku b && Qgtb (Batch.quantity b) 0.
Proof.
  unfold eligible, in_stock.
  destruct (Batch.product_sku b =? sku)%string,
           (Qgtb (Batch.quantity b) 0),
           (startsWith "DEV-" (Batch.lot b)); reflexivity.
Qed.

Lemma eligible_positive (sku : string) (b : Batch.t) :
  eligible sku b = true ->
  in_stock sku b = true /\ 0 < Batch.quantity b
  /\ Batch.product_sku b = sku /\ startsWith "DEV-" (Batch.lot b) = false.
Proof.
  intro H. pose proof H as H'. rewrite eligible_in_stock in H'.
  apply andb_true_iff in H'. destruct H' as [Hs Hq].
  apply Qgtb_true in Hq. unfold in_stock in Hs.
  apply andb_true_iff in Hs. destruct Hs as [Hsku Hlot].
  apply String.eqb_eq in Hsku. apply negb_true_iff in Hlot.
  repeat split; try assumption.
  unfold in_stock. rewrite Hsku, String.eqb_refl, Hlot. reflexivity.
Qed.

(** The eligible batches hold at least the stock total. *)
Lemma stock_le_eligible (sku : string) (l : list Batch.t) :
  qsum Batch.quantity (filter (in_stock sku) l)
  <= qsum Batch.quantity (filter (eligible sku) l).
Proof.
  induction l as [|b l IH]; cbn [filter qsum]; [lra|].
  rewrite eligible_in_stock.
  destruct (in_stock sku b); cbn [andb]; [|exact IH].
  destruct (Qgtb (Batch.quantity b) 0) eqn:E; cbn [qsum]; [lra|].
  apply Qgtb_false in E. lra.
Qed.

Lemma qsum_filter_replace (sku : string) (b b' : Batch.t) (store : list Batch.t) :
  keys_ascending store -> In b store ->
  in_stock sku b' = in_stock sku b ->
  qsum Batch.quantity
       (filter (in_stock sku)
          (map (fun x => if (Batch.id x =? Batch.id b)%Z then b' else x) store))
  == qsum Batch.quantity (filter (in_stock sku) store)
     + (if in_stock sku b then Batch.quantity b' - Batch.quantity b else 0).
Proof.
  intros Hk Hin Hs. induction Hk as [|x l Hl IH Hx]; [contradiction|].
  cbn [map]. destruct Hin as [->|Hin].
  - rewrite Z.eqb_refl, (map_replace_above b b' l Hx). cbn [filter].
    rewrite Hs. destruct (in_stock sku b); cbn [qsum]; lra.
  - rewrite Forall_forall in Hx. pose proof (Hx b Hin).
    destruct (Z.eqb_spec (Batch.id x) (Batch.id b)); [lia|].
    cbn [filter]. destruct (in_stock sku x); cbn [qsum]; rewrite (IH Hin); lra.
Qed.

(** One step of persisting a walk keeps the store in key order and
    keeps the batches still to be walked in the store. *)
Lemma persist_step (b : Batch.t) (t : Q) (w : list (Batch.t * Q))
    (store : list Batch.t) :
  keys_ascending store ->
  (forall bt, In bt ((b, t) :: w) -> In (fst bt) store) ->
  NoDup (map (fun bt => Batch.id (fst bt)) ((b, t) :: w)) ->
  let b' := Batch.set_quantity (Batch.quantity b - t) b in
  batches_put b' store
  = map (fun x => if (Batch.id x =? Batch.id b)%Z then b' else x) store
  /\ keys_ascending (batches_put b' store)
  /\ (forall bt, In bt w -> In (fst bt) (batches_put b' store))
  /\ NoDup (map (fun bt => Batch.id (fst bt)) w).
Proof.
  intros Hk Hin Hnd b'.
  cbn [map fst] in Hnd. inversion Hnd as [|? ? Hnotin Hnd']; subst.
  assert (Hb : In b store) by (apply (Hin (b, t)); left; reflexivity).
  pose proof (batches_put_existing b b' store Hk Hb eq_refl) as Hput.
  split; [exact Hput|]. rewrite Hput.
  split; [|split; [|exact Hnd']].
  - apply keys_ascending_map; [|exact Hk].
    intro x. destruct (Z.eqb_spec (Batch.id x) (Batch.id b)) as [E|_];
      [rewrite E; reflexivity | reflexivity].
  - intros bt Hbt. apply in_map_iff. exists (fst bt).
    assert (Hne : Batch.id (fst bt) <> Batch.id b).
    { intro E. apply Hnotin. rewrite <- E.
      apply (in_map (fun bt => Batch.id (fst bt))). exact Hbt. }
    destruct (Z.eqb_spec (Batch.id (fst bt)) (Batch.id b)); [contradiction|].
    split; [reflexivity|]. apply Hin. right. exact Hbt.
Qed.

(** Persisting a walk lowers the stock total of a sku by what the walk
    took from the batches counted for that sku. *)
Lemma persist_walk_stock (sku : string) (w : list (Batch.t * Q)) :
  forall store : list Batch.t,
    keys_ascending store ->
    (forall bt, In bt w -> In (fst bt) store) ->
    NoDup (map (fun bt => Batch.id (fst bt)) w) ->
    totalStock (persist_walk w store) sku
    == totalStock store sku
       - qsum snd (filter (fun bt => in_stock sku (fst bt)) w).
Proof.
  induction w as [|[b t] w IH]; intros store Hk Hin Hnd.
  - cbn [persist_walk fold_left filter qsum]. lra.
  - destruct (persist_step b t w store Hk Hin Hnd) as (Hput & Hk' & Hin' & Hnd').
    cbn [persist_walk fold_left fst snd]. fold (persist_walk w).
    rewrite (IH _ Hk' Hin' Hnd'). rewrite Hput.
    rewrite !totalStock_qsum.
    rewrite (qsum_filter_replace sku b _ store Hk);
      [|apply (Hin (b, t)); left; reflexivity | reflexivity].
    cbn [filter fst].
    destruct (in_stock sku b); cbn [qsum snd Batch.set_quantity Batch.quantity];
      lra.
Qed.

Lemma NoDup_firstn {A : Type} (n : nat) (l : list A) :
  NoDup l -> NoDup (firstn n l).
Proof.
  intro H. rewrite <- (firstn_skipn n l) in H.
  apply NoDup_app_remove_r in H. exact H.
Qed.

(** The walk of a venta over the store it reads: the walked batches are
    eligible batches of the store, each walked once, and the takes add
    up to the quantity asked. *)
Lemma venta_walk_facts (sku : string) (store : list Batch.t) (quantity : Q) :
  keys_ascending store ->
  0 <= quantity ->
  quantity <= totalStock store sku ->
  let w := fifo_walk (sort_by_created (filter (eligible sku) store)) quantity in
  (forall bt, In bt w -> In (fst bt) store /\ eligible sku (fst bt) = true)
  /\ NoDup (map (fun bt => Batch.id (fst bt)) w)
  /\ qsum snd w == quantity.
Proof.
  intros Hk H0 Hle w.
  set (l := sort_by_created (filter (eligible sku) store)) in *.
  destruct (fifo_walk_takes l quantity H0) as [Hall [n Hn]]. fold w in Hall, Hn.
  assert (Hl : forall b, In b l -> In b store /\ eligible sku b = true).
  { intros b Hb. apply (proj2 (productBatches_fifo sku store Hk) b). exact Hb. }
  split; [|split].
  - intros bt Hbt. rewrite Forall_forall in Hall.
    apply Hl. apply (Hall bt Hbt).
  - rewrite <- (map_map fst Batch.id), Hn. rewrite <- firstn_map.
    apply NoDup_firstn.
    apply (Permutation_NoDup (l := map Batch.id (filter (eligible sku) store))).
    + apply Permutation_map, Permutation_sym, sort_by_created_perm.
    + apply keys_ascending_NoDup, keys_ascending_filter, Hk.
  - apply fifo_walk_covers; [exact H0|].
    rewrite (qsum_perm Batch.quantity l (filter (eligible sku) store)
               (sort_by_created_perm _)).
    rewrite totalStock_qsum in Hle.
    pose proof (stock_le_eligible sku store). lra.
Qed.

(** What an applied venta did, in terms of the walk. *)
Lemma venta_applied_effect (env : Env) (db db' : DB) (m0 : Movement.t) :
  keys_ascending (batches db) ->
  1 <= Movement.quantity m0 ->
  process_venta env db m0 = (Applied, db') ->
  let w :=
    fifo_walk (sort_by_created (filter (eligible (Movement.sku m0)) (batches db)))
              (Movement.quantity m0) in
  exists product,
    products_get (Movement.sku m0) (products db) = Some product
    /\ sales_add (saleData env (with_product_price product m0) (map use_of w))
                 (sales db) = Some (sales db')
    /\ batches db' = map (after_walk w) (batches db)
    /\ batches_key db' = batches_key db
    /\ returns db' = returns db
    /\ returns_key db' = returns_key db
    /\ qsum snd w == Movement.quantity m0
    /\ totalStock (batches db') (Movement.sku m0)
       == totalStock (batches db) (Movement.sku m0) - Movement.quantity m0.
Proof.
  intros Hk Hq H w.
  apply process_venta_applied_inv in H.
  destruct H as (product & store & used & rest & Hget & _ & _ & Hle & Hloop
                 & Hadd & _ & Hb & Hbk & Hr & Hrk & _).
  assert (H0 : 0 <= Movement.quantity m0) by lra.
  destruct (fifo_loop_walk
              (sort_by_created (filter (eligible (Movement.sku m0)) (batches db)))
              (Movement.quantity m0) (batches db) [] H0)
    as (rest' & Hloop' & _ & _).
  fold w in Hloop'. rewrite Hloop in Hloop'. cbn [app] in Hloop'.
  injection Hloop' as Hstore Hused _.
  destruct (venta_walk_facts (Movement.sku m0) (batches db)
              (Movement.quantity m0) Hk H0 Hle) as (Hin & Hnd & Hsum).
  fold w in Hin, Hnd, Hsum.
  assert (Hin' : forall bt, In bt w -> In (fst bt) (batches db))
    by (intros bt Hbt; apply (Hin bt Hbt)).
  exists product. rewrite Hb, Hstore. subst used.
  repeat split; try assumption.
  - apply persist_walk_map; assumption.
  - rewrite (persist_walk_stock _ w (batches db) Hk Hin' Hnd).
    rewrite forallb_filter_id; [lra|].
    apply forallb_forall. intros bt Hbt.
    apply (eligible_positive (Movement.sku m0) (fst bt)). apply (Hin bt Hbt).
Qed.

(** C2. An accepted venta walks exactly the eligible batches of its sku
    (same sku, quantity above 0, lot not starting with [DEV-]) in
    ascending order of [created_at], ties broken by ascending [id]; it
    takes [min(batch.quantity, stillNeeded)] from each until nothing is
    needed any more, which covers the quantity asked; the Sale records
    the takes in that order and every walked batch is stored with its
    quantity lowered by its take, every other batch as it was. *)
Theorem venta_consumes_fifo (env : Env) (db db' : DB) (payload : Payload.t) :
  keys_ascending (batches db) ->
  Payload.event payload = "venta" ->
  handleProcessEvent env db payload = (Applied, db') ->
  let sku := Movement.sku (base_movement env payload) in
  let quantity := Movement.quantity (base_movement env payload) in
  exists productBatches sale,
    (forall b, In b productBatches <-> In b (batches db) /\ eligible sku b = true)
    /\ StronglySorted fifo_before productBatches
    /\ sales_add sale (sales db) = Some (sales db')
    /\ Sale.batches_used sale = map use_of (fifo_walk productBatches quantity)
    /\ qsum snd (fifo_walk productBatches quantity) == quantity
    /\ Forall (fun bt => snd bt == Batch.quantity (fst bt))
              (removelast (fifo_walk productBatches quantity))
    /\ batches db' = map (after_walk (fifo_walk productBatches quantity)) (batches db).
Proof.
  intros Hk Hev H sku quantity.
  apply handleProcessEvent_applied_inv in H.
  destruct H as (_ & _ & _ & _ & [[E _]|[[_ H]|[E _]]]); try congruence.
  pose proof (movement_quantity_ge_1 env payload) as Hq.
  destruct (venta_applied_effect env db db' _ Hk Hq H)
    as (product & _ & Hadd & Hb & _ & _ & _ & Hsum & _).
  destruct (productBatches_fifo sku (batches db) Hk) as [Hsorted Hin].
  exists (sort_by_created (filter (eligible sku) (batches db))).
  eexists. split; [exact Hin|]. split; [exact Hsorted|].
  split; [exact Hadd|]. split; [reflexivity|]. split; [exact Hsum|].
  split; [|exact Hb].
  apply fifo_walk_exhausts. fold quantity in Hq. lra.
Qed.

Lemma keys_ascending_two_lots :
  keys_ascending (batches db_two_lots)
  /\ keys_ascending (batches db_twin_lots)
  /\ keys_ascending (batches db_swapped_lots).
Proof.
  repeat split; repeat (constructor; try reflexivity).
Qed.

(** Property 2 at work: of two lots of five, a venta of seven empties
    the one created first and leaves three in the other, and
    [batches_used] lists them in that order, also when both carry the
    same [created_at] (the smaller [id] goes first) and when the earlier
    lot is stored under the larger key. *)
Lemma fifo_two_lots_scenario :
  map (fun b => (Batch.id b, Batch.created_at b, Batch.quantity b))
      (batches db_two_lots)
  = [(1%Z, 1000%Z, 5); (2%Z, 2000%Z, 5)]
  /\ handleProcessEvent (env_at 3000) db_two_lots (galx_venta 7)
     = (Applied, db_two_lots_sold)
  /\ map (fun b => (Batch.id b, Batch.quantity b)) (batches db_two_lots_sold)
     = [(1%Z, 0); (2%Z, 3)]
  /\ map (fun s => map (fun u => (BatchUse.batchId u, BatchUse.quantity u))
                       (Sale.batches_used s))
         (sales db_two_lots_sold)
     = [[(1%Z, 5); (2%Z, 2)]]
  /\ map (fun s => map (fun u => (BatchUse.batchId u, BatchUse.quantity u))
                       (Sale.batches_used s))
         (sales (snd (handleProcessEvent (env_at 3000) db_twin_lots (galx_venta 7))))
     = [[(1%Z, 5); (2%Z, 2)]]
  /\ map (fun b => (Batch.id b, Batch.created_at b, Batch.quantity b))
         (batches (snd (handleProcessEvent (env_at 3000) db_swapped_lots
                          (galx_venta 7))))
     = [(1%Z, 2000%Z, 3); (2%Z, 1000%Z, 0)]
  /\ map (fun s => map (fun u => (BatchUse.batchId u, BatchUse.quantity u))
                       (Sale.batches_used s))
         (sales (snd (handleProcessEvent (env_at 3000) db_swapped_lots
                        (galx_venta 7))))
     = [[(2%Z, 5); (1%Z, 2)]].
Proof. repeat split. Qed.

Lemma venta_consumes_fifo_witness :
  exists productBatches sale,
    (forall b, In b productBatches
               <-> In b (batches db_two_lots) /\ eligible "GALX-001" b = true)
    /\ StronglySorted fifo_before productBatches
    /\ sales_add sale (sales db_two_lots) = Some (sales db_two_lots_sold)
    /\ Sale.batches_used sale = map use_of (fifo_walk productBatches 7)
    /\ qsum snd (fifo_walk productBatches 7) == 7
    /\ Forall (fun bt => snd bt == Batch.quantity (fst bt))
              (removelast (fifo_walk productBatches 7))
    /\ batches db_two_lots_sold
       = map (after_walk (fifo_walk productBatches 7)) (batches db_two_lots).
Proof.
  exact (venta_consumes_fifo (env_at 3000) db_two_lots db_two_lots_sold
           (galx_venta 7) (proj1 keys_ascending_two_lots) eq_refl eq_refl).
Defined.

(** ** The [sales] store *)

Lemma key_eqb_refl (k : Key) : key_eqb k k = true.
Proof. destruct k; cbn; [apply Z.eqb_refl | apply String.eqb_refl]. Qed.

Lemma key_eqb_eq (a b : Key) : key_eqb a b = true -> a = b.
Proof.
  destruct a, b; cbn; try discriminate; intro H.
  - apply Z.eqb_eq in H. congruence.
  - apply String.eqb_eq in H. congruence.
Qed.

Lemma sales_get_key (k : Key) (l : list Sale.t) (s : Sale.t) :
  sales_get k l = Some s -> Sale.id s = k.
Proof.
  unfold sales_get. intro H. apply find_some in H.
  apply key_eqb_eq. apply H.
Qed.

Lemma sales_get_insert (s : Sale.t) (l : list Sale.t) :
  existsb (fun x => key_eqb (Sale.id x) (Sale.id s)) l = false ->
  sales_get (Sale.id s) (sales_insert s l) = Some s.
Proof.
  unfold sales_get. induction l as [|x l IH]; cbn [existsb sales_insert find].
  - rewrite key_eqb_refl. reflexivity.
  - intro H. apply orb_false_iff in H. destruct H as [Hx Hl].
    destruct (key_ltb (Sale.id s) (Sale.id x)); cbn [find].
    + rewrite key_eqb_refl. reflexivity.
    + rewrite Hx. apply IH. exact Hl.
Qed.

Lemma sales_get_add (s : Sale.t) (l l' : list Sale.t) :
  sales_add s l = Some l' -> sales_get (Sale.id s) l' = Some s.
Proof.
  unfold sales_add. destruct (existsb _ l) eqn:E; [discriminate|].
  intro H. injection H as <-. apply sales_get_insert. exact E.
Qed.

(** A [put] under the key of a stored Sale replaces that record: the
    store keeps its length and answers the key with the new record. *)
Lemma sales_put_existing (k : Key) (s s' : Sale.t) (l : list Sale.t) :
  sales_get k l = Some s -> Sale.id s' = k ->
  sales_get k (sales_put s' l) = Some s'
  /\ List.length (sales_put s' l) = List.length l.
Proof.
  intros Hget Hid. unfold sales_put.
  assert (Hex : existsb (fun x => key_eqb (Sale.id x) (Sale.id s')) l = true).
  { apply existsb_exists. exists s. unfold sales_get in Hget.
    apply find_some in Hget. rewrite Hid. exact Hget. }
  rewrite Hex. split; [|apply length_map].
  unfold sales_get in *. rewrite Hid. clear Hex.
  induction l as [|x l IH]; cbn [find map] in *; [discriminate|].
  destruct (key_eqb (Sale.id x) k) eqn:E.
  - cbn [find]. rewrite Hid, key_eqb_refl. reflexivity.
  - cbn [find]. rewrite E. apply IH. exact Hget.
Qed.

Lemma startsWith_UNDO (s : string) : startsWith "DEV-" ("UNDO-" ++ s) = false.
Proof. reflexivity. Qed.

Lemma totalStock_app (l : list Batch.t) (b : Batch.t) (sku : string) :
  totalStock (l ++ [b]) sku
  == totalStock l sku + (if in_stock sku b then Batch.quantity b else 0).
Proof.
  rewrite !totalStock_qsum, filter_app, qsum_app. cbn [filter].
  destruct (in_stock sku b); cbn [qsum]; lra.
Qed.

(** ** Undo of a sale *)

Lemma handleUndoSale_live (env : Env) (db : DB) (saleEvent : FeedEvent.t)
    (sale : Sale.t) :
  db_open env = true ->
  sales_get (FeedEvent.id saleEvent) (sales db) = Some sale ->
  Sale.status sale <> "cancelled" ->
  handleUndoSale env db saleEvent
  = (Applied, snd (handleUndoSale env db saleEvent)).
Proof.
  intros Hdb Hget Hst. unfold handleUndoSale. rewrite Hdb, Hget. cbn [negb].
  destruct (String.eqb_spec (Sale.status sale) "cancelled"); [contradiction|].
  reflexivity.
Qed.

Lemma handleUndoSale_cancelled (env : Env) (db : DB) (saleEvent : FeedEvent.t)
    (sale : Sale.t) :
  db_open env = true ->
  sales_get (FeedEvent.id saleEvent) (sales db) = Some sale ->
  Sale.status sale = "cancelled" ->
  handleUndoSale env db saleEvent = (Rejected SaleNotFoundOrCancelled, db).
Proof.
  intros Hdb Hget Hst. unfold handleUndoSale.
  rewrite Hdb, Hget, Hst. reflexivity.
Qed.

Lemma original_purchase_price_head (sale : Sale.t) (u : BatchUse.t) :
  hd_error (Sale.batches_used sale) = Some u ->
  original_purchase_price sale == BatchUse.purchase_price u.
Proof.
  unfold original_purchase_price.
  destruct (Sale.batches_used sale) as [|v l]; cbn [hd_error]; [discriminate|].
  intro H. injection H as ->. apply or_num_some_0.
Qed.

(** C7. The undo of a sale, given the key of the Sale and the sku and
    quantity of the sold event, succeeds once: the stock total of the
    sku is again what it was before the venta, the Sale is still stored
    and its status is cancelled, and a compensating batch [UNDO-...] of
    the sold quantity is added at the purchase price recorded first in
    [batches_used].  A second undo of the same Sale is rejected (sale
    not found or already cancelled) and changes nothing. *)
Theorem undo_sale_restores_stock_once
    (env env2 env3 : Env) (db db1 : DB) (payload : Payload.t)
    (saleEvent : FeedEvent.t) :
  keys_ascending (batches db) ->
  Payload.event payload = "venta" ->
  handleProcessEvent env db payload = (Applied, db1) ->
  FeedEvent.id saleEvent = KStr ("SALE-" ++ string_of_Z (now env)) ->
  FeedEvent.sku saleEvent = Movement.sku (base_movement env payload) ->
  FeedEvent.quantity saleEvent = Movement.quantity (base_movement env payload) ->
  db_open env2 = true ->
  db_open env3 = true ->
  let sku := Movement.sku (base_movement env payload) in
  exists sale db2 b u,
    sales_get (FeedEvent.id saleEvent) (sales db1) = Some sale
    /\ Sale.status sale = "completed"
    /\ handleUndoSale env2 db1 saleEvent = (Applied, db2)
    /\ totalStock (batches db2) sku == totalStock (batches db) sku
    /\ sales_get (FeedEvent.id saleEvent) (sales db2)
       = Some (Sale.set_status "cancelled" sale)
    /\ List.length (sales db2) = List.length (sales db1)
    /\ batches db2 = (batches db1 ++ [b])%list
    /\ Batch.lot b = "UNDO-" ++ string_of_Z (returns_key db1)
    /\ Batch.product_sku b = sku
    /\ Batch.quantity b = Movement.quantity (base_movement env payload)
    /\ hd_error (Sale.batches_used sale) = Some u
    /\ Batch.purchase_price b == BatchUse.purchase_price u
    /\ handleUndoSale env3 db2 saleEvent
       = (Rejected SaleNotFoundOrCancelled, db2).
Proof.
  intros Hk Hev H Hid Hsku Hqty Hdb2 Hdb3 sku.
  apply handleProcessEvent_applied_inv in H.
  destruct H as (_ & _ & _ & _ & [[E _]|[[_ H]|[E _]]]); try congruence.
  pose proof (movement_quantity_ge_1 env payload) as Hq.
  destruct (venta_applied_effect env db db1 _ Hk Hq H)
    as (product & _ & Hadd & Hb & _ & _ & _ & Hsum & Hstock).
  set (w := fifo_walk
              (sort_by_created
                 (filter (eligible (Movement.sku (base_movement env payload)))
                         (batches db)))
              (Movement.quantity (base_movement env payload))) in *.
  set (sale := saleData env (with_product_price product (base_movement env payload))
                        (map use_of w)) in *.
  assert (Hget : sales_get (FeedEvent.id saleEvent) (sales db1) = Some sale).
  { rewrite Hid. apply (sales_get_add sale (sales db) (sales db1) Hadd). }
  assert (Hlive : Sale.status sale <> "cancelled") by discriminate.
  pose proof (handleUndoSale_live env2 db1 saleEvent sale Hdb2 Hget Hlive) as Hundo.
  set (db2 := snd (handleUndoSale env2 db1 saleEvent)) in *.
  destruct (handleUndoSale_applied_inv env2 db1 db2 saleEvent Hundo)
    as (sale' & Hget' & _ & _ & Hb2 & _ & Hs2 & _ & _).
  assert (sale' = sale) by congruence. subst sale'.
  destruct (sales_put_existing (FeedEvent.id saleEvent) sale
              (Sale.set_status "cancelled" sale) (sales db1) Hget)
    as [Hget2 Hlen]; [rewrite Hid; reflexivity|].
  rewrite <- Hs2 in Hget2, Hlen.
  assert (Hw : exists bt w', w = bt :: w').
  { destruct w as [|bt w']; [|exists bt, w'; reflexivity].
    cbn [qsum] in Hsum. lra. }
  destruct Hw as (bt & w' & Hw).
  exists sale, db2. eexists. exists (use_of bt).
  split; [exact Hget|]. split; [reflexivity|]. split; [exact Hundo|].
  split.
  { rewrite Hb2, totalStock_app. cbn [Batch.quantity Batch.lot Batch.product_sku in_stock].
    unfold in_stock. cbn [Batch.lot Batch.product_sku].
    rewrite Hsku. fold sku. rewrite String.eqb_refl, startsWith_UNDO.
    cbn [negb andb]. rewrite Hqty. fold sku in Hstock. rewrite Hstock. lra. }
  split; [exact Hget2|]. split; [exact Hlen|]. split; [exact Hb2|].
  split; [reflexivity|]. split; [exact Hsku|]. split; [exact Hqty|].
  assert (Hhd : hd_error (Sale.batches_used sale) = Some (use_of bt)).
  { unfold sale. cbn [saleData Sale.batches_used]. rewrite Hw. reflexivity. }
  split; [exact Hhd|].
  split; [cbn [Batch.purchase_price]; apply original_purchase_price_head, Hhd|].
  apply (handleUndoSale_cancelled env3 db2 saleEvent _ Hdb3 Hget2). reflexivity.
Qed.

(** Scenario 10 of the specification. *)
Lemma undo_ten_scenario :
  totalStock (batches db_ten) "GALX-001" = 10
  /\ handleProcessEvent (env_at 2000) db_ten (galx_venta 4) = (Applied, db_ten_sold)
  /\ totalStock (batches db_ten_sold) "GALX-001" = 6
  /\ handleUndoSale (env_at 3000) db_ten_sold ten_sale_event
     = (Applied, db_ten_undone)
  /\ totalStock (batches db_ten_undone) "GALX-001" == 10
  /\ map (fun s => (Sale.id s, Sale.status s)) (sales db_ten_undone)
     = [(KStr "SALE-2000", "cancelled")]
  /\ map (fun b => (Batch.lot b, Batch.quantity b, Batch.purchase_price b))
         (batches db_ten_undone)
     = [("LOT-1000", 6, 1); ("UNDO-1", 4, 1)]
  /\ handleUndoSale (env_at 4000) db_ten_undone ten_sale_event
     = (Rejected SaleNotFoundOrCancelled, db_ten_undone).
Proof. repeat split. Qed.

Lemma undo_sale_restores_stock_once_witness :
  exists sale db2 b u,
    sales_get (KStr "SALE-2000") (sales db_ten_sold) = Some sale
    /\ Sale.status sale = "completed"
    /\ handleUndoSale (env_at 3000) db_ten_sold ten_sale_event = (Applied, db2)
    /\ totalStock (batches db2) "GALX-001" == totalStock (batches db_ten) "GALX-001"
    /\ sales_get (KStr "SALE-2000") (sales db2)
       = Some (Sale.set_status "cancelled" sale)
    /\ List.length (sales db2) = List.length (sales db_ten_sold)
    /\ batches db2 = (batches db_ten_sold ++ [b])%list
    /\ Batch.lot b = "UNDO-" ++ string_of_Z (returns_key db_ten_sold)
    /\ Batch.product_sku b = "GALX-001"
    /\ Batch.quantity b = 4
    /\ hd_error (Sale.batches_used sale) = Some u
    /\ Batch.purchase_price b == BatchUse.purchase_price u
    /\ handleUndoSale (env_at 4000) db2 ten_sale_event
       = (Rejected SaleNotFoundOrCancelled, db2).
Proof.
  refine (undo_sale_restores_stock_once (env_at 2000) (env_at 3000) (env_at 4000)
            db_ten db_ten_sold (galx_venta 4) ten_sale_event
            _ eq_refl eq_refl eq_refl eq_refl eq_refl eq_refl eq_refl).
  repeat (constructor; try reflexivity).
Defined.

(** ** Non-negative stock *)

Lemma batches_put_Forall (P : Batch.t -> Prop) (b : Batch.t) (l : list Batch.t) :
  P b -> Forall P l -> Forall P (batches_put b l).
Proof.
  intros Hb. induction 1 as [|x l Hx Hl IH]; cbn [batches_put].
  - constructor; [exact Hb | constructor].
  - destruct (Batch.id x =? Batch.id b)%Z; [constructor; assumption|].
    destruct (Batch.id b <? Batch.id x)%Z.
    + constructor; [exact Hb|]. constructor; assumption.
    + constructor; assumption.
Qed.

(** The loop never stores a negative quantity: a take is at most what
    the batch holds. *)
Lemma fifo_loop_nonneg (l : list Batch.t) :
  forall (remaining : Q) (store : list Batch.t) (used : list BatchUse.t),
    batches_nonneg store ->
    batches_nonneg (fst (fst (fifo_loop l remaining store used))).
Proof.
  induction l as [|b l IH]; intros remaining store used Hs; cbn [fifo_loop].
  - exact Hs.
  - destruct (Qleb remaining 0); [exact Hs|].
    apply IH. apply batches_put_Forall; [|exact Hs].
    cbn [Batch.set_quantity Batch.quantity].
    pose proof (Qmin_le_l (Batch.quantity b) remaining). lra.
Qed.

Lemma batches_nonneg_step (env : Env) (db : DB) (payload : Payload.t) :
  batches_nonneg (batches db) ->
  batches_nonneg (batches (snd (handleProcessEvent env db payload))).
Proof.
  intro Hb.
  destruct (handleProcessEvent_cases env db payload) as [E|E];
    [rewrite E; exact Hb|].
  set (db' := snd (handleProcessEvent env db payload)) in *.
  pose proof (movement_quantity_ge_1 env payload) as Hq.
  apply handleProcessEvent_applied_inv in E.
  destruct E as (_ & _ & _ & _ & [[_ H]|[[_ H]|[_ H]]]).
  - apply process_ingreso_inv in H. destruct H as (_ & _ & _ & _ & Hbs).
    rewrite Hbs. apply Forall_app. split; [exact Hb|].
    constructor; [cbn [Batch.quantity]; lra | constructor].
  - apply process_venta_applied_inv in H.
    destruct H as (product & store & used & rest & _ & _ & _ & _ & Hloop & _
                   & _ & Hbs & _).
    rewrite Hbs.
    pose proof (fifo_loop_nonneg
                  (sort_by_created
                     (filter (eligible (Movement.sku (base_movement env payload)))
                             (batches db)))
                  (Movement.quantity (base_movement env payload))
                  (batches db) [] Hb) as Hn.
    rewrite Hloop in Hn. exact Hn.
  - apply process_devolucion_applied_inv in H.
    destruct H as (_ & _ & _ & Hbs & _).
    rewrite Hbs. apply Forall_app. split; [exact Hb|].
    constructor; [cbn [Batch.quantity]; lra | constructor].
Qed.

Lemma totalStock_nonneg (l : list Batch.t) (sku : string) :
  batches_nonneg l -> 0 <= totalStock l sku.
Proof.
  intro H. rewrite totalStock_qsum. apply qsum_nonneg.
  apply Forall_forall. intros b Hb. apply filter_In in Hb.
  unfold batches_nonneg in H. rewrite Forall_forall in H. apply H. tauto.
Qed.

(** C3. From a store without negative batches, after every sequence of
    events of [handleProcessEvent] (ingreso, venta, devolucion) no batch
    holds a negative quantity and the stock total of every sku is
    non-negative; and every take an accepted venta records is positive
    and at most what the batch it is taken from held. *)
Theorem stock_never_negative (db : DB) (events : list (Env * Payload.t)) :
  batches_nonneg (batches db) ->
  batches_nonneg (batches (run_events db events))
  /\ (forall sku, 0 <= totalStock (batches (run_events db events)) sku)
  /\ (forall env payload db' sale,
        Payload.event payload = "venta" ->
        handleProcessEvent env (run_events db events) payload = (Applied, db') ->
        sales_get (KStr ("SALE-" ++ string_of_Z (now env))) (sales db') = Some sale ->
        Forall (fun u =>
                  exists b,
                    In b (batches (run_events db events))
                    /\ Batch.id b = BatchUse.batchId u
                    /\ 0 < BatchUse.quantity u
                    /\ BatchUse.quantity u <= Batch.quantity b)
               (Sale.batches_used sale)).
Proof.
  intro Hb.
  assert (Hrun : batches_nonneg (batches (run_events db events))).
  { revert db Hb. induction events as [|[env payload] events IH]; intros db Hb.
    - exact Hb.
    - cbn [run_events fold_left fst snd]. apply IH.
      apply batches_nonneg_step. exact Hb. }
  split; [exact Hrun|]. split.
  - intro sku. apply totalStock_nonneg. exact Hrun.
  - intros env payload db' sale Hev H Hsale.
    set (d := run_events db events) in *.
    apply handleProcessEvent_applied_inv in H.
    destruct H as (_ & _ & _ & _ & [[E _]|[[_ H]|[E _]]]); try congruence.
    pose proof (movement_quantity_ge_1 env payload) as Hq.
    apply process_venta_applied_inv in H.
    destruct H as (product & store & used & rest & _ & _ & _ & _ & Hloop & Hadd & _).
    pose proof (sales_get_add _ _ _ Hadd) as Hg.
    cbn [saleData Sale.id] in Hg. rewrite Hg in Hsale. injection Hsale as <-.
    cbn [saleData Sale.batches_used].
    set (l := sort_by_created
                (filter (eligible (Movement.sku (base_movement env payload)))
                        (batches d))) in *.
    assert (H0 : 0 <= Movement.quantity (base_movement env payload)) by lra.
    destruct (fifo_loop_walk l _ (batches d) [] H0) as (rest' & Hloop' & _).
    rewrite Hloop in Hloop'. cbn [app] in Hloop'. injection Hloop' as _ -> _.
    destruct (fifo_walk_takes l _ H0) as [Hall _].
    apply Forall_map. eapply Forall_impl; [|exact Hall].
    intros bt (Hin & Hle & Hpos). cbn [use_of BatchUse.batchId BatchUse.quantity].
    apply Permutation_in with (l' := filter (eligible (Movement.sku (base_movement env payload))) (batches d)) in Hin;
      [|apply sort_by_created_perm].
    apply filter_In in Hin. destruct Hin as [Hin Hel].
    exists (fst bt). split; [exact Hin|]. split; [reflexivity|].
    split; [|exact Hle]. apply Hpos.
    apply (eligible_positive _ _ Hel).
Qed.

Lemma stock_never_negative_witness :
  batches_nonneg (batches (run_events empty_db galx_events))
  /\ (forall sku, 0 <= totalStock (batches (run_events empty_db galx_events)) sku)
  /\ exists sale,
       sales_get (KStr "SALE-2000") (sales db_galx_7) = Some sale
       /\ Forall (fun u =>
                    exists b,
                      In b (batches db_galx_12)
                      /\ Batch.id b = BatchUse.batchId u
                      /\ 0 < BatchUse.quantity u
                      /\ BatchUse.quantity u <= Batch.quantity b)
                 (Sale.batches_used sale).
Proof.
  assert (H0 : batches_nonneg (batches empty_db)) by constructor.
  split; [exact (proj1 (stock_never_negative empty_db galx_events H0))|].
  split; [exact (proj1 (proj2 (stock_never_negative empty_db galx_events H0)))|].
  eexists. split; [reflexivity|].
  exact (proj2 (proj2 (stock_never_negative empty_db
                         [(env_at 1000, galx_ingreso)] H0))
           (env_at 2000) (galx_venta 5) db_galx_7 _ eq_refl eq_refl eq_refl).
Defined.

(** ** Key order is kept by every handler *)

Lemma batches_get_In (k : Z) (l : list Batch.t) (b : Batch.t) :
  batches_get k l = Some b -> In b l /\ Batch.id b = k.
Proof.
  unfold batches_get. intro H. apply find_some in H.
  destruct H as [Hin Hk]. apply Z.eqb_eq in Hk. split; assumption.
Qed.

Lemma well_keyed_append (db : DB) (l : list Batch.t) (k : Z) (b : Batch.t) :
  well_keyed db ->
  l = (batches db ++ [b])%list -> Batch.id b = batches_key db ->
  k = (batches_key db + 1)%Z ->
  keys_ascending l /\ Forall (fun x => (Batch.id x < k)%Z) l.
Proof.
  intros [Hk Hlt] -> Hid ->. split.
  - unfold keys_ascending in *.
    induction (batches db) as [|x l IH]; cbn [app].
    + constructor; constructor.
    + inversion Hk; inversion Hlt; subst.
      constructor; [apply IH; assumption|].
      apply Forall_app. split; [assumption|].
      constructor; [lia | constructor].
  - apply Forall_app. split.
    + eapply Forall_impl; [|exact Hlt]. cbn beta. intros; lia.
    + constructor; [lia | constructor].
Qed.

Lemma well_keyed_replace (db : DB) (l : list Batch.t) (f : Batch.t -> Batch.t) :
  well_keyed db ->
  (forall x, Batch.id (f x) = Batch.id x) ->
  l = map f (batches db) ->
  keys_ascending l /\ Forall (fun x => (Batch.id x < batches_key db)%Z) l.
Proof.
  intros [Hk Hlt] Hf ->. split.
  - apply keys_ascending_map; assumption.
  - apply Forall_map. eapply Forall_impl; [|exact Hlt].
    cbn beta. intros x Hx. rewrite Hf. exact Hx.
Qed.

Lemma after_walk_id (w : list (Batch.t * Q)) (b : Batch.t) :
  Batch.id (after_walk w b) = Batch.id b.
Proof. unfold after_walk. destruct (taken w (Batch.id b)); reflexivity. Qed.

Lemma well_keyed_handleProcessEvent (env : Env) (db : DB) (payload : Payload.t) :
  well_keyed db -> well_keyed (snd (handleProcessEvent env db payload)).
Proof.
  intro Hw.
  destruct (handleProcessEvent_cases env db payload) as [E|E];
    [rewrite E; exact Hw|].
  set (db' := snd (handleProcessEvent env db payload)) in *.
  apply handleProcessEvent_applied_inv in E.
  destruct E as (_ & _ & _ & _ & [[_ H]|[[_ H]|[_ H]]]).
  - apply process_ingreso_inv in H. destruct H as (_ & _ & _ & Hkey & Hbs).
    unfold well_keyed.
    apply (well_keyed_append db _ _ _ Hw Hbs); [reflexivity | exact Hkey].
  - pose proof (movement_quantity_ge_1 env payload) as Hq.
    destruct (venta_applied_effect env db db' _ (proj1 Hw) Hq H)
      as (product & _ & _ & Hbs & Hkey & _).
    unfold well_keyed. rewrite Hkey.
    apply (well_keyed_replace db _ _ Hw (after_walk_id _) Hbs).
  - apply process_devolucion_applied_inv in H.
    destruct H as (_ & _ & _ & Hbs & Hkey & _).
    unfold well_keyed.
    apply (well_keyed_append db _ _ _ Hw Hbs); [reflexivity | exact Hkey].
Qed.

Lemma handleUndoSale_cases (env : Env) (db : DB) (saleEvent : FeedEvent.t) :
  snd (handleUndoSale env db saleEvent) = db
  \/ handleUndoSale env db saleEvent
     = (Applied, snd (handleUndoSale env db saleEvent)).
Proof.
  unfold handleUndoSale.
  destruct (negb (db_open env)); [left; reflexivity|].
  destruct (sales_get _ _); [|left; reflexivity].
  destruct (_ =? _)%string; [left; reflexivity | right; reflexivity].
Qed.

Lemma well_keyed_handleUndoSale (env : Env) (db : DB) (saleEvent : FeedEvent.t) :
  well_keyed db -> well_keyed (snd (handleUndoSale env db saleEvent)).
Proof.
  intro Hw.
  destruct (handleUndoSale_cases env db saleEvent) as [E|E];
    [rewrite E; exact Hw|].
  apply handleUndoSale_applied_inv in E.
  destruct E as (sale & _ & _ & _ & Hbs & Hkey & _).
  unfold well_keyed.
  apply (well_keyed_append db _ _ _ Hw Hbs); [reflexivity | exact Hkey].
Qed.

Lemma well_keyed_handleReturn (env : Env) (db : DB) (batch : Batch.t)
    (mode : string) :
  well_keyed db -> well_keyed (snd (handleReturn env db batch mode)).
Proof.
  intro Hw. unfold handleReturn.
  destruct (negb (db_open env)); [exact Hw|].
  destruct (mode =? "ventas")%string.
  - unfold return_venta, well_keyed.
    cbn [returns_add batches_add movements_add snd products batches batches_key
         sales returns returns_key movements movements_key].
    eapply (well_keyed_append db); [exact Hw | reflexivity | reflexivity
                                   | reflexivity].
  - unfold return_inventario.
    destruct (batches_get (Batch.id batch) (batches db)) as [existing|] eqn:Hget;
      [|exact Hw].
    destruct (Batch.status existing =? "returned")%string; [exact Hw|].
    apply batches_get_In in Hget. destruct Hget as [Hin Hid].
    unfold well_keyed.
    cbn [returns_add with_batches movements_add snd products batches batches_key
         sales returns returns_key movements movements_key].
    erewrite (batches_put_existing existing);
      [|exact (proj1 Hw) | exact Hin | reflexivity].
    eapply (well_keyed_replace db); [exact Hw | | reflexivity].
    intro x. cbn beta.
    destruct (Z.eqb_spec (Batch.id x) (Batch.id existing)) as [->|_]; reflexivity.
Qed.

(** Every store the handlers can produce from the fresh database lists
    its batches in strictly ascending key order. *)
Lemma well_keyed_run (steps : list (Env * Action)) (db : DB) :
  well_keyed db -> well_keyed (run db steps).
Proof.
  revert db. induction steps as [|[env a] steps IH]; intros db Hw; [exact Hw|].
  cbn [run fold_left fst snd]. apply IH.
  destruct a as [payload|saleEvent|batch mode]; cbn [perform].
  - apply well_keyed_handleProcessEvent, Hw.
  - apply well_keyed_handleUndoSale, Hw.
  - apply well_keyed_handleReturn, Hw.
Qed.

Lemma well_keyed_empty : well_keyed empty_db.
Proof. split; constructor. Qed.

(** ** The feed entry of a venta *)

Lemma sales_insert_Forall (P : Sale.t -> Prop) (s : Sale.t) (l : list Sale.t) :
  P s -> Forall P l -> Forall P (sales_insert s l).
Proof.
  intro Hs. induction 1 as [|x l Hx Hl IH]; cbn [sales_insert].
  - constructor; [exact Hs | constructor].
  - destruct (key_ltb (Sale.id s) (Sale.id x)).
    + constructor; [exact Hs|]. constructor; assumption.
    + constructor; assumption.
Qed.

Lemma sales_string_keyed_perform (env : Env) (db : DB) (a : Action) :
  sales_string_keyed db -> sales_string_keyed (snd (perform env db a)).
Proof.
  intro Hs. destruct a as [payload|saleEvent|batch mode]; cbn [perform].
  - destruct (handleProcessEvent_cases env db payload) as [E|E];
      [rewrite E; exact Hs|].
    apply handleProcessEvent_applied_inv in E.
    destruct E as (_ & _ & _ & _ & [[_ H]|[[_ H]|[_ H]]]).
    + apply process_ingreso_inv in H. destruct H as (H & _).
      unfold sales_string_keyed. rewrite H. exact Hs.
    + apply process_venta_applied_inv in H.
      destruct H as (product & store & used & rest & _ & _ & _ & _ & _ & Hadd & _).
      unfold sales_string_keyed, sales_add in *.
      destruct (existsb _ _); [discriminate|]. injection Hadd as <-.
      apply sales_insert_Forall; [|exact Hs]. eexists. reflexivity.
    + apply process_devolucion_applied_inv in H. destruct H as (_ & _ & H & _).
      unfold sales_string_keyed. rewrite H. exact Hs.
  - destruct (handleUndoSale_cases env db saleEvent) as [E|E];
      [rewrite E; exact Hs|].
    apply handleUndoSale_applied_inv in E.
    destruct E as (sale & Hget & _ & _ & _ & _ & Hsales & _).
    unfold sales_string_keyed in *. rewrite Hsales. unfold sales_put.
    assert (Hk : exists k, Sale.id sale = KStr k).
    { unfold sales_get in Hget. apply find_some in Hget.
      rewrite Forall_forall in Hs. apply Hs. apply Hget. }
    destruct (existsb _ _).
    + apply Forall_map. eapply Forall_impl; [|exact Hs].
      intros x Hx. cbn beta.
      destruct (key_eqb _ _); [exact Hk | exact Hx].
    + apply sales_insert_Forall; [exact Hk | exact Hs].
  - unfold handleReturn.
    destruct (negb (db_open env)); [exact Hs|].
    destruct (mode =? "ventas")%string; [exact Hs|].
    unfold return_inventario.
    destruct (batches_get _ _); [|exact Hs].
    destruct (_ =? _)%string; exact Hs.
Qed.

(** The entries of the events feed carry [Date.now()] as their [id],
    the Sales are stored under the string [SALE-...]: handed a feed
    entry as it is, [handleUndoSale] finds no Sale and writes nothing.
    The undo applies once it is given the key of the Sale (see
    [undo_sale_restores_stock_once]). *)
Remark undo_of_feed_entry_finds_no_sale
    (steps : list (Env * Action)) (env env' : Env) (payload : Payload.t) :
  exists o,
    handleUndoSale env' (run empty_db steps) (feed_event env payload)
    = (o, run empty_db steps)
    /\ o <> Applied.
Proof.
  assert (Hs : sales_string_keyed (run empty_db steps)).
  { assert (H0 : sales_string_keyed empty_db) by constructor.
    revert H0. generalize empty_db.
    induction steps as [|[e a] steps IH]; intros db H0; [exact H0|].
    cbn [run fold_left fst snd]. apply IH.
    apply sales_string_keyed_perform. exact H0. }
  unfold handleUndoSale.
  destruct (negb (db_open env')); [exists Ignored; split; [reflexivity|discriminate]|].
  replace (sales_get (FeedEvent.id (feed_event env payload))
                     (sales (run empty_db steps))) with (@None Sale.t).
  - exists (Rejected SaleNotFoundOrCancelled). split; [reflexivity|discriminate].
  - symmetry. unfold sales_get. cbn [feed_event FeedEvent.id].
    unfold sales_string_keyed in Hs.
    induction Hs as [|s l [k Hk] _ IH]; cbn [find]; [reflexivity|].
    rewrite Hk. cbn [key_eqb]. exact IH.
Qed.

(** ** Non-negative batches under every handler *)

(** The undo of a sale and the return of a batch store the quantity
    they are handed: with a non-negative quantity in the event or batch
    handed over, they too leave no negative batch. *)
Lemma batches_nonneg_perform (env : Env) (db : DB) (a : Action) :
  batches_nonneg (batches db) ->
  match a with
  | ProcessEvent _ => True
  | UndoSale saleEvent => 0 <= FeedEvent.quantity saleEvent
  | ReturnBatch batch _ => 0 <= Batch.quantity batch
  end ->
  batches_nonneg (batches (snd (perform env db a))).
Proof.
  intros Hb Ha. destruct a as [payload|saleEvent|batch mode]; cbn [perform].
  - apply batches_nonneg_step. exact Hb.
  - destruct (handleUndoSale_cases env db saleEvent) as [E|E];
      [rewrite E; exact Hb|].
    apply handleUndoSale_applied_inv in E.
    destruct E as (sale & _ & _ & _ & Hbs & _).
    rewrite Hbs. apply Forall_app. split; [exact Hb|].
    constructor; [exact Ha | constructor].
  - unfold handleReturn.
    destruct (negb (db_open env)); [exact Hb|].
    destruct (mode =? "ventas")%string.
    + unfold return_venta.
      cbn [returns_add batches_add movements_add snd products batches
           batches_key sales returns returns_key movements movements_key].
      apply Forall_app. split; [exact Hb|].
      constructor; [exact Ha | constructor].
    + unfold return_inventario.
      destruct (batches_get _ _); [|exact Hb].
      destruct (_ =? _)%string; [exact Hb|].
      cbn [returns_add with_batches movements_add snd products batches
           batches_key sales returns returns_key movements movements_key].
      apply batches_put_Forall; [|exact Hb].
      cbn [Batch.quantity]. lra.
Qed.

(** * Further properties of the handlers *)

(** ** Nothing is written unless the handler applies *)

Lemma handleReturn_cases (env : Env) (db : DB) (batch : Batch.t) (mode : string) :
  snd (handleReturn env db batch mode) = db
  \/ handleReturn env db batch mode
     = (Applied, snd (handleReturn env db batch mode)).
Proof.
  unfold handleReturn.
  destruct (negb (db_open env)); [left; reflexivity|].
  destruct (mode =? "ventas")%string; [right; reflexivity|].
  unfold return_inventario.
  destruct (batches_get _ _); [|left; reflexivity].
  destruct (_ =? _)%string; [left; reflexivity | right; reflexivity].
Qed.

Lemma perform_cases (env : Env) (db : DB) (a : Action) :
  snd (perform env db a) = db
  \/ perform env db a = (Applied, snd (perform env db a)).
Proof.
  destruct a as [payload|saleEvent|batch mode]; cbn [perform].
  - apply handleProcessEvent_cases.
  - apply handleUndoSale_cases.
  - apply handleReturn_cases.
Qed.

(** X1. Whichever of the three handlers runs, a run that does not end
    as applied (a rejection with a notification, a key collision caught
    by the handler, a silent return) leaves all five stores exactly as
    they were. *)
Theorem handlers_write_nothing_unless_applied (env : Env) (db : DB) (a : Action) :
  fst (perform env db a) <> Applied ->
  snd (perform env db a) = db.
Proof.
  intro H. destruct (perform_cases env db a) as [E|E]; [exact E|].
  rewrite E in H. cbn [fst] in H. contradiction.
Qed.

Lemma handlers_write_nothing_unless_applied_witness :
  snd (perform (env_at 3000) db_galx_7 (ProcessEvent (galx_venta 10))) = db_galx_7.
Proof.
  apply (handlers_write_nothing_unless_applied (env_at 3000) db_galx_7
           (ProcessEvent (galx_venta 10))).
  vm_compute. discriminate.
Defined.

(** ** Return of a purchase batch *)

(** Replacing the record of one key changes the stock total by what
    the old record counted and what the new one counts. *)
Lemma qsum_filter_replace_any (sku : string) (b b' : Batch.t)
    (store : list Batch.t) :
  keys_ascending store -> In b store ->
  qsum Batch.quantity
       (filter (in_stock sku)
          (map (fun x => if (Batch.id x =? Batch.id b)%Z then b' else x) store))
  == qsum Batch.quantity (filter (in_stock sku) store)
     - (if in_stock sku b then Batch.quantity b else 0)
     + (if in_stock sku b' then Batch.quantity b' else 0).
Proof.
  intros Hk Hin. induction Hk as [|x l Hl IH Hx]; [contradiction|].
  cbn [map]. destruct Hin as [->|Hin].
  - rewrite Z.eqb_refl, (map_replace_above b b' l Hx). cbn [filter].
    destruct (in_stock sku b), (in_stock sku b'); cbn [qsum]; lra.
  - rewrite Forall_forall in Hx. pose proof (Hx b Hin).
    destruct (Z.eqb_spec (Batch.id x) (Batch.id b)); [lia|].
    cbn [filter]. destruct (in_stock sku x); cbn [qsum]; rewrite (IH Hin); lra.
Qed.

Lemma batches_get_replace (k : Z) (b b' : Batch.t) (store : list Batch.t) :
  batches_get k store = Some b -> Batch.id b' = Batch.id b ->
  batches_get k
    (map (fun x => if (Batch.id x =? Batch.id b)%Z then b' else x) store)
  = Some b'.
Proof.
  intros Hget Hid. pose proof (batches_get_In _ _ _ Hget) as [_ Hk].
  unfold batches_get in *.
  induction store as [|x l IH]; cbn [find map] in *; [discriminate|].
  destruct (Z.eqb_spec (Batch.id x) k) as [E|N].
  - injection Hget as ->. rewrite Z.eqb_refl. cbn [find].
    rewrite Hid, Hk, Z.eqb_refl. reflexivity.
  - destruct (Z.eqb_spec (Batch.id x) (Batch.id b)) as [E|_]; [congruence|].
    cbn [find]. destruct (Z.eqb_spec (Batch.id x) k); [contradiction|].
    apply IH. exact Hget.
Qed.

Lemma startsWith_DEV_INV (s : string) : startsWith "DEV-" ("DEV-INV-" ++ s) = true.
Proof. reflexivity. Qed.

(** X2. Returning a stored purchase batch that is not yet returned
    applies: the batch, and no other, is rewritten with quantity 0, status
    returned and the tag [DEV-INV-{returnId}]; the Return records the
    quantity it held; the stock total of every sku drops by what the
    batch counted for it.  A second return of the same batch is rejected
    as already returned and changes nothing. *)
Theorem inventory_return_once
    (env env2 : Env) (db : DB) (batch existing : Batch.t) (mode : string) :
  keys_ascending (batches db) ->
  db_open env = true -> db_open env2 = true ->
  mode <> "ventas" ->
  batches_get (Batch.id batch) (batches db) = Some existing ->
  Batch.status existing <> "returned" ->
  exists db1 existing' r,
    handleReturn env db batch mode = (Applied, db1)
    /\ batches db1
       = map (fun x => if (Batch.id x =? Batch.id existing)%Z then existing' else x)
             (batches db)
    /\ Batch.quantity existing' = 0
    /\ Batch.status existing' = "returned"
    /\ Batch.lot existing' = "DEV-INV-" ++ string_of_Z (returns_key db)
    /\ Batch.product_sku existing' = Batch.product_sku existing
    /\ returns db1 = (returns db ++ [r])%list
    /\ Return.quantity r = Batch.quantity existing
    /\ Return.sku r = Batch.product_sku existing
    /\ Return.original_batch_id r = Some (Batch.id batch)
    /\ (forall sku,
          totalStock (batches db1) sku
          == totalStock (batches db) sku
             - (if in_stock sku existing then Batch.quantity existing else 0))
    /\ handleReturn env2 db1 batch mode = (Rejected AlreadyReturned, db1).
Proof.
  intros Hk Hdb Hdb2 Hmode Hget Hst.
  pose proof (batches_get_In _ _ _ Hget) as [Hin Hid].
  apply String.eqb_neq in Hmode. apply String.eqb_neq in Hst.
  set (existing' :=
         {| Batch.id := Batch.id existing;
            Batch.product_sku := Batch.product_sku existing;
            Batch.lot := "DEV-INV-" ++ string_of_Z (returns_key db);
            Batch.expiry := Batch.expiry existing;
            Batch.quantity := 0;
            Batch.purchase_price := Batch.purchase_price existing;
            Batch.created_at := Batch.created_at existing;
            Batch.return_id := Some (returns_key db);
            Batch.status := "returned" |}).
  pose proof (batches_put_existing existing existing' (batches db) Hk Hin eq_refl)
    as Hput.
  assert (Hrun : handleReturn env db batch mode
                 = (Applied, snd (handleReturn env db batch mode))
                 /\ batches (snd (handleReturn env db batch mode))
                    = batches_put existing' (batches db)
                 /\ exists r,
                      returns (snd (handleReturn env db batch mode))
                      = (returns db ++ [r])%list
                      /\ Return.quantity r = Batch.quantity existing
                      /\ Return.sku r = Batch.product_sku existing
                      /\ Return.original_batch_id r = Some (Batch.id batch)).
  { unfold handleReturn, return_inventario.
    rewrite Hdb, Hmode, Hget, Hst. cbn [negb].
    cbn [returns_add with_batches movements_add fst snd products batches
         batches_key sales returns returns_key movements movements_key].
    split; [reflexivity|]. split; [reflexivity|].
    eexists. repeat split. }
  destruct Hrun as (Hrun & Hbs & r & Hr & Hrq & Hrs & Hrb).
  set (db1 := snd (handleReturn env db batch mode)) in *.
  rewrite Hput in Hbs.
  exists db1, existing', r.
  split; [exact Hrun|]. split; [exact Hbs|].
  split; [reflexivity|]. split; [reflexivity|]. split; [reflexivity|].
  split; [reflexivity|]. split; [exact Hr|]. split; [exact Hrq|].
  split; [exact Hrs|]. split; [exact Hrb|]. split.
  - intro sku. rewrite !totalStock_qsum, Hbs.
    rewrite (qsum_filter_replace_any sku existing existing' (batches db) Hk Hin).
    replace (in_stock sku existing') with false.
    + destruct (in_stock sku existing); lra.
    + unfold in_stock, existing'. cbn [Batch.lot].
      rewrite startsWith_DEV_INV. symmetry. apply andb_false_r.
  - unfold handleReturn, return_inventario. rewrite Hdb2, Hmode. cbn [negb].
    rewrite Hbs.
    rewrite (batches_get_replace (Batch.id batch) existing existing' (batches db)
               Hget eq_refl).
    reflexivity.
Qed.

Lemma inventory_return_once_witness :
  exists db1 existing' r,
    handleReturn (env_at 2000) db_galx_12 galx_batch "inventario" = (Applied, db1)
    /\ batches db1
       = map (fun x => if (Batch.id x =? Batch.id galx_batch)%Z then existing' else x)
             (batches db_galx_12)
    /\ Batch.quantity existing' = 0
    /\ Batch.status existing' = "returned"
    /\ Batch.lot existing' = "DEV-INV-" ++ string_of_Z (returns_key db_galx_12)
    /\ Batch.product_sku existing' = Batch.product_sku galx_batch
    /\ returns db1 = (returns db_galx_12 ++ [r])%list
    /\ Return.quantity r = Batch.quantity galx_batch
    /\ Return.sku r = Batch.product_sku galx_batch
    /\ Return.original_batch_id r = Some (Batch.id galx_batch)
    /\ (forall sku,
          totalStock (batches db1) sku
          == totalStock (batches db_galx_12) sku
             - (if in_stock sku galx_batch then Batch.quantity galx_batch else 0))
    /\ handleReturn (env_at 3000) db1 galx_batch "inventario"
       = (Rejected AlreadyReturned, db1).
Proof.
  refine (inventory_return_once (env_at 2000) (env_at 3000) db_galx_12
            galx_batch galx_batch "inventario" _ eq_refl eq_refl _ eq_refl _).
  - repeat (constructor; try reflexivity).
  - discriminate.
  - discriminate.
Defined.

(** ** Return of a sale from the inventory table *)

Lemma startsWith_DEV_SALE (s : string) : startsWith "DEV-" ("DEV-SALE-" ++ s) = true.
Proof. reflexivity. Qed.

(** X3. In mode [ventas] [handleReturn] applies to whatever batch it is
    handed, stored or not: it writes a Return of the batch's quantity and
    appends a batch [DEV-SALE-{returnId}] with that quantity and status
    returned.  No stored batch is changed, and since the venta path
    skips lots that start with [DEV-], the stock total and the eligible
    batches of every sku are what they were. *)
Theorem sale_return_leaves_stock (env : Env) (db : DB) (batch : Batch.t) :
  db_open env = true ->
  exists db1 b r,
    handleReturn env db batch "ventas" = (Applied, db1)
    /\ batches db1 = (batches db ++ [b])%list
    /\ Batch.lot b = "DEV-SALE-" ++ string_of_Z (returns_key db)
    /\ Batch.status b = "returned"
    /\ Batch.product_sku b = Batch.product_sku batch
    /\ Batch.quantity b = Batch.quantity batch
    /\ returns db1 = (returns db ++ [r])%list
    /\ Return.quantity r = Batch.quantity batch
    /\ Return.original_batch_id r = Some (Batch.id batch)
    /\ sales db1 = sales db
    /\ (forall sku, totalStock (batches db1) sku = totalStock (batches db) sku)
    /\ (forall sku,
          filter (eligible sku) (batches db1) = filter (eligible sku) (batches db)).
Proof.
  intro Hdb.
  set (b := {| Batch.id := batches_key db;
               Batch.product_sku := Batch.product_sku batch;
               Batch.lot := "DEV-SALE-" ++ string_of_Z (returns_key db);
               Batch.expiry := Batch.expiry batch;
               Batch.quantity := Batch.quantity batch;
               Batch.purchase_price := Batch.purchase_price batch;
               Batch.created_at := now env;
               Batch.return_id := Some (returns_key db);
               Batch.status := "returned" |}).
  assert (Hrun : exists db1 r,
            handleReturn env db batch "ventas" = (Applied, db1)
            /\ batches db1 = (batches db ++ [b])%list
            /\ returns db1 = (returns db ++ [r])%list
            /\ Return.quantity r = Batch.quantity batch
            /\ Return.original_batch_id r = Some (Batch.id batch)
            /\ sales db1 = sales db).
  { unfold handleReturn, return_venta. rewrite Hdb.
    cbn [negb String.eqb Ascii.eqb Bool.eqb].
    cbn [returns_add batches_add movements_add products batches batches_key
         sales returns returns_key movements movements_key].
    eexists. eexists. split; [reflexivity|].
    cbn [products batches batches_key sales returns returns_key movements
         movements_key].
    repeat split. }
  destruct Hrun as (db1 & r & Hrun & Hbs & Hrs & Hrq & Hrb & Hsales).
  assert (Hin : forall sku, in_stock sku b = false).
  { intro sku. unfold in_stock, b. cbn [Batch.lot].
    rewrite startsWith_DEV_SALE. apply andb_false_r. }
  assert (Hel : forall sku, eligible sku b = false).
  { intro sku. unfold eligible, b. cbn [Batch.lot].
    rewrite startsWith_DEV_SALE. apply andb_false_r. }
  exists db1, b, r.
  split; [exact Hrun|]. split; [exact Hbs|].
  split; [reflexivity|]. split; [reflexivity|]. split; [reflexivity|].
  split; [reflexivity|]. split; [exact Hrs|]. split; [exact Hrq|].
  split; [exact Hrb|]. split; [exact Hsales|]. split.
  - intro sku. unfold totalStock. rewrite Hbs, (filter_app_false _ _ _ (Hin sku)).
    reflexivity.
  - intro sku. rewrite Hbs. apply filter_app_false, Hel.
Qed.

Lemma sale_return_leaves_stock_witness :
  exists db1 b r,
    handleReturn (env_at 3000) db_galx_7 galx_batch "ventas" = (Applied, db1)
    /\ batches db1 = (batches db_galx_7 ++ [b])%list
    /\ Batch.lot b = "DEV-SALE-" ++ string_of_Z (returns_key db_galx_7)
    /\ Batch.status b = "returned"
    /\ Batch.product_sku b = Batch.product_sku galx_batch
    /\ Batch.quantity b = Batch.quantity galx_batch
    /\ returns db1 = (returns db_galx_7 ++ [r])%list
    /\ Return.quantity r = Batch.quantity galx_batch
    /\ Return.original_batch_id r = Some (Batch.id galx_batch)
    /\ sales db1 = sales db_galx_7
    /\ (forall sku,
          totalStock (batches db1) sku = totalStock (batches db_galx_7) sku)
    /\ (forall sku,
          filter (eligible sku) (batches db1)
          = filter (eligible sku) (batches db_galx_7)).
Proof.
  exact (sale_return_leaves_stock (env_at 3000) db_galx_7 galx_batch eq_refl).
Defined.

(** ** Ingreso and the stock a venta sees *)

Lemma or_str_truthy (a b : string) : truthy a = true -> or_str a b = a.
Proof. unfold or_str. intros ->. reflexivity. Qed.

Lemma movement_lot_truthy (env : Env) (payload : Payload.t) :
  truthy (Movement.lot (base_movement env payload)) = true.
Proof.
  cbn [base_movement Movement.lot]. rewrite truthy_or_str.
  destruct (truthy (Payload.lot payload)); reflexivity.
Qed.

Lemma startsWith_truthy (p s : string) :
  truthy p = true -> startsWith p s = true -> truthy s = true.
Proof.
  unfold startsWith. destruct p as [|c p]; [discriminate|].
  destruct s as [|d s]; [discriminate | reflexivity].
Qed.

(** X4. An accepted ingreso appends one batch tagged with the lot of the
    payload, or [LOT-{now}] when the payload has none (the [INIT-]
    fallback of the batch is never used).  The stock total of the sku
    grows by the quantity of the event unless that lot starts with
    [DEV-]: such a batch is stored but never counted, so the stock
    total of every sku stays what it was. *)
Theorem ingreso_stock_effect (env : Env) (db db' : DB) (payload : Payload.t) :
  Payload.event payload = "ingreso" ->
  handleProcessEvent env db payload = (Applied, db') ->
  exists b,
    batches db' = (batches db ++ [b])%list
    /\ Batch.lot b
       = (if truthy (Payload.lot payload) then Payload.lot payload
          else "LOT-" ++ string_of_Z (now env))
    /\ Batch.product_sku b = Movement.sku (base_movement env payload)
    /\ Batch.quantity b = Movement.quantity (base_movement env payload)
    /\ (forall sku,
          totalStock (batches db') sku
          == totalStock (batches db) sku
             + (if in_stock sku b then Batch.quantity b else 0))
    /\ (startsWith "DEV-" (Payload.lot payload) = false ->
        totalStock (batches db') (Movement.sku (base_movement env payload))
        == totalStock (batches db) (Movement.sku (base_movement env payload))
           + Movement.quantity (base_movement env payload))
    /\ (startsWith "DEV-" (Payload.lot payload) = true ->
        forall sku, totalStock (batches db') sku == totalStock (batches db) sku).
Proof.
  intros Hev H.
  apply handleProcessEvent_applied_inv in H.
  destruct H as (_ & _ & _ & _ & [[_ H]|[[E _]|[E _]]]); try congruence.
  apply process_ingreso_inv in H. destruct H as (_ & _ & _ & _ & Hbs).
  rewrite (or_str_truthy _ _ (movement_lot_truthy env payload)) in Hbs.
  eexists. split; [exact Hbs|].
  split; [reflexivity|]. split; [reflexivity|]. split; [reflexivity|].
  split; [|split].
  - intro sku. rewrite Hbs. apply totalStock_app.
  - intro Hlot. rewrite Hbs, totalStock_app.
    unfold in_stock. cbn [Batch.product_sku Batch.lot Batch.quantity].
    rewrite String.eqb_refl.
    replace (startsWith "DEV-" (Movement.lot (base_movement env payload)))
      with false; [cbn [negb andb]; lra|].
    cbn [base_movement Movement.lot]. unfold or_str.
    destruct (truthy (Payload.lot payload)); [congruence | reflexivity].
  - intros Hlot sku. rewrite Hbs, totalStock_app.
    unfold in_stock. cbn [Batch.product_sku Batch.lot Batch.quantity].
    replace (startsWith "DEV-" (Movement.lot (base_movement env payload)))
      with true; [rewrite andb_false_r; lra|].
    cbn [base_movement Movement.lot].
    rewrite (or_str_truthy (Payload.lot payload));
      [congruence | exact (startsWith_truthy "DEV-" _ eq_refl Hlot)].
Qed.

Lemma ingreso_stock_effect_witness :
  exists b,
    batches db_galx_12 = (batches empty_db ++ [b])%list
    /\ Batch.lot b = "LOT-" ++ string_of_Z 1000
    /\ Batch.product_sku b = "GALX-001"
    /\ Batch.quantity b = 12
    /\ (forall sku,
          totalStock (batches db_galx_12) sku
          == totalStock (batches empty_db) sku
             + (if in_stock sku b then Batch.quantity b else 0))
    /\ (startsWith "DEV-" "" = false ->
        totalStock (batches db_galx_12) "GALX-001"
        == totalStock (batches empty_db) "GALX-001" + 12)
    /\ (startsWith "DEV-" "" = true ->
        forall sku,
          totalStock (batches db_galx_12) sku == totalStock (batches empty_db) sku).
Proof.
  exact (ingreso_stock_effect (env_at 1000) empty_db db_galx_12 galx_ingreso
           eq_refl eq_refl).
Defined.

(** ** An ingreso makes the sku saleable *)

Lemma ingreso_adds_stock (env : Env) (db db' : DB) (payload : Payload.t) :
  process_ingreso env db payload (base_movement env payload) = (Applied, db') ->
  startsWith "DEV-" (Payload.lot payload) = false ->
  totalStock (batches db') (Movement.sku (base_movement env payload))
  == totalStock (batches db) (Movement.sku (base_movement env payload))
     + Movement.quantity (base_movement env payload).
Proof.
  intros H Hlot.
  apply process_ingreso_inv in H. destruct H as (_ & _ & _ & _ & Hbs).
  rewrite (or_str_truthy _ _ (movement_lot_truthy env payload)) in Hbs.
  rewrite Hbs, totalStock_app.
  unfold in_stock. cbn [Batch.product_sku Batch.lot Batch.quantity].
  rewrite String.eqb_refl.
  replace (startsWith "DEV-" (Movement.lot (base_movement env payload)))
    with false; [cbn [negb andb]; lra|].
  cbn [base_movement Movement.lot]. unfold or_str.
  destruct (truthy (Payload.lot payload)); [congruence | reflexivity].
Qed.

Lemma products_get_put (p : Product.t) (l : list Product.t) :
  products_get (Product.sku p) (products_put p l) = Some p.
Proof.
  unfold products_get.
  induction l as [|x l IH]; cbn [products_put find].
  - rewrite String.eqb_refl. reflexivity.
  - destruct (String.eqb_spec (Product.sku x) (Product.sku p)) as [E|N].
    + cbn [find]. rewrite String.eqb_refl. reflexivity.
    + destruct (String.ltb (Product.sku p) (Product.sku x)); cbn [find].
      * rewrite String.eqb_refl. reflexivity.
      * destruct (String.eqb_spec (Product.sku x) (Product.sku p));
          [contradiction | exact IH].
Qed.

Lemma sales_add_fresh (s : Sale.t) (l : list Sale.t) :
  sales_get (Sale.id s) l = None -> sales_add s l = Some (sales_insert s l).
Proof.
  intro H. unfold sales_add.
  replace (existsb (fun x => key_eqb (Sale.id x) (Sale.id s)) l) with false;
    [reflexivity|].
  symmetry. unfold sales_get in H.
  induction l as [|x l IH]; cbn [existsb find] in *; [reflexivity|].
  destruct (key_eqb (Sale.id x) (Sale.id s)); [discriminate|].
  cbn [orb]. apply IH. exact H.
Qed.

Lemma process_venta_applies (env : Env) (db : DB) (m : Movement.t)
    (product : Product.t) :
  connected env = true -> salesSensorConnected env = true ->
  products_get (Movement.sku m) (products db) = Some product ->
  Movement.quantity m <= totalStock (batches db) (Movement.sku m) ->
  sales_get (KStr ("SALE-" ++ string_of_Z (now env))) (sales db) = None ->
  fst (process_venta env db m) = Applied.
Proof.
  intros Hc Hs Hp Hq Hfresh. unfold process_venta.
  rewrite Hc, Hs, Hp. cbn [negb orb].
  cbn [with_product_price Movement.set_price Movement.sku Movement.quantity].
  apply Qgtb_false in Hq. rewrite Hq.
  destruct (fifo_loop _ _ _ _) as [[store used] rest].
  rewrite sales_add_fresh; [reflexivity | exact Hfresh].
Qed.

(** X5. After an accepted ingreso whose lot does not start with [DEV-],
    a venta of the same sku for at most the quantity received is applied,
    provided the devices are connected, the payload names the product and
    no Sale is yet stored under the key [SALE-{now}] of the venta: the
    ingreso has left a Product record for the sku and a stock total of at
    least its quantity (the store holding no negative batch). *)
Theorem ingreso_then_venta_applies
    (env1 env2 : Env) (db db1 : DB) (p1 p2 : Payload.t) :
  batches_nonneg (batches db) ->
  Payload.event p1 = "ingreso" ->
  handleProcessEvent env1 db p1 = (Applied, db1) ->
  startsWith "DEV-" (Payload.lot p1) = false ->
  Payload.event p2 = "venta" ->
  Movement.sku (base_movement env2 p2) = Movement.sku (base_movement env1 p1) ->
  Movement.quantity (base_movement env2 p2)
    <= Movement.quantity (base_movement env1 p1) ->
  truthy (Payload.name p2) = true ->
  db_open env2 = true -> connected env2 = true ->
  salesSensorConnected env2 = true ->
  sales_get (KStr ("SALE-" ++ string_of_Z (now env2))) (sales db) = None ->
  fst (handleProcessEvent env2 db1 p2) = Applied.
Proof.
  intros Hnn Hev1 H1 Hlot Hev2 Hsku Hq Hname Hdb Hconn Hsens Hfresh.
  pose proof H1 as H1'.
  apply handleProcessEvent_applied_inv in H1'.
  destruct H1' as (_ & _ & Hid1 & _ & [[_ Hing]|[[E _]|[E _]]]); try congruence.
  pose proof (process_ingreso_inv _ _ _ _ _ Hing) as (Hsales & _).
  assert (Hprod : exists product,
            products_get (Movement.sku (base_movement env1 p1)) (products db1)
            = Some product).
  { unfold process_ingreso in Hing.
    destruct (products_get (Movement.sku (base_movement env1 p1)) (products db))
      as [p|] eqn:Hg;
      cbn [batches_add movements_add with_products products batches batches_key
           sales returns returns_key movements movements_key] in Hing;
      injection Hing as <-; cbn [products].
    - exists p. exact Hg.
    - eexists.
      exact (products_get_put
               {| Product.sku := Movement.sku (base_movement env1 p1);
                  Product.name := Movement.name (base_movement env1 p1);
                  Product.category := or_str (Payload.category p1) "Sin categoría";
                  Product.default_purchase_price :=
                    Movement.price (base_movement env1 p1);
                  Product.default_sale_price :=
                    or_num (Payload.sale_price p1)
                           (Movement.price (base_movement env1 p1) * 1.5);
                  Product.created_at := now env1 |} (products db)). }
  destruct Hprod as [product Hprod].
  pose proof (ingreso_adds_stock env1 db db1 p1 Hing Hlot) as Hstock.
  pose proof (totalStock_nonneg (batches db)
                (Movement.sku (base_movement env1 p1)) Hnn) as H0.
  unfold handleProcessEvent. rewrite Hdb, Hconn, Hname, Hev2.
  rewrite <- Hsku in Hid1.
  cbn [base_movement Movement.sku] in Hid1. rewrite truthy_or_str in Hid1.
  replace (negb (truthy (Payload.sku p2)) && negb (truthy (Payload.barcode p2)))
    with false by (rewrite <- negb_orb, Hid1; reflexivity).
  change (("venta" =? "ingreso")%string) with false.
  change (("venta" =? "venta")%string) with true.
  cbn [negb]. cbv iota.
  apply (process_venta_applies env2 db1 _ product Hconn Hsens).
  - rewrite Hsku. exact Hprod.
  - rewrite Hsku, Hstock. lra.
  - rewrite Hsales. exact Hfresh.
Qed.

Lemma ingreso_then_venta_applies_witness :
  fst (handleProcessEvent (env_at 2000) db_galx_12 (galx_venta 5)) = Applied.
Proof.
  apply (ingreso_then_venta_applies (env_at 1000) (env_at 2000) empty_db
           db_galx_12 galx_ingreso (galx_venta 5));
    try reflexivity.
  - constructor.
  - vm_compute. discriminate.
Defined.

(** ** What a venta leaves alone *)

Lemma filter_const {A : Type} (f : A -> bool) (c : bool) (l : list A) :
  (forall x, In x l -> f x = c) -> filter f l = if c then l else [].
Proof.
  induction l as [|x l IH]; intro H; cbn [filter].
  - destruct c; reflexivity.
  - rewrite (H x (or_introl eq_refl)), IH by (intros y Hy; apply H; right; exact Hy).
    destruct c; reflexivity.
Qed.

Lemma taken_In (w : list (Batch.t * Q)) (k : Z) (t : Q) :
  taken w k = Some t -> exists b0, In (b0, t) w /\ Batch.id b0 = k.
Proof.
  induction w as [|[b0 t0] w IH]; cbn [taken]; [discriminate|].
  destruct (Z.eqb_spec (Batch.id b0) k) as [E|_]; intro Ht.
  - injection Ht as ->. exists b0. split; [left; reflexivity | exact E].
  - destruct (IH Ht) as (b1 & Hb1 & E1). exists b1. split; [right|]; assumption.
Qed.

Lemma venta_stock_every_sku (env : Env) (db db' : DB) (m0 : Movement.t) :
  keys_ascending (batches db) ->
  1 <= Movement.quantity m0 ->
  process_venta env db m0 = (Applied, db') ->
  forall sku,
    totalStock (batches db') sku
    == totalStock (batches db) sku
       - (if (Movement.sku m0 =? sku)%string then Movement.quantity m0 else 0).
Proof.
  intros Hk Hq H sku.
  apply process_venta_applied_inv in H.
  destruct H as (product & store & used & rest & _ & _ & _ & Hle & Hloop
                 & _ & _ & Hb & _).
  assert (H0 : 0 <= Movement.quantity m0) by lra.
  set (w := fifo_walk
              (sort_by_created (filter (eligible (Movement.sku m0)) (batches db)))
              (Movement.quantity m0)).
  destruct (fifo_loop_walk
              (sort_by_created (filter (eligible (Movement.sku m0)) (batches db)))
              (Movement.quantity m0) (batches db) [] H0)
    as (rest' & Hloop' & _ & _).
  fold w in Hloop'. rewrite Hloop in Hloop'. injection Hloop' as Hstore _ _.
  destruct (venta_walk_facts (Movement.sku m0) (batches db)
              (Movement.quantity m0) Hk H0 Hle) as (Hin & Hnd & Hsum).
  fold w in Hin, Hnd, Hsum.
  assert (Hin' : forall bt, In bt w -> In (fst bt) (batches db))
    by (intros bt Hbt; apply (Hin bt Hbt)).
  rewrite Hb, Hstore.
  rewrite (persist_walk_stock sku w (batches db) Hk Hin' Hnd).
  rewrite (filter_const (fun bt => in_stock sku (fst bt))
             ((Movement.sku m0 =? sku)%string) w).
  - destruct (Movement.sku m0 =? sku)%string; cbn [qsum]; lra.
  - intros bt Hbt.
    destruct (eligible_positive _ _ (proj2 (Hin bt Hbt))) as (_ & _ & Hs & Hl).
    unfold in_stock. rewrite Hs, Hl. apply andb_true_r.
Qed.

(** X6. An accepted venta touches the batches of its own sku only: the
    stock total of the sku drops by the quantity sold and the stock total
    of every other sku is unchanged; no batch is added or removed, the
    [products] and [returns] stores are untouched, and [sales] gains
    exactly one record. *)
Theorem venta_frame (env : Env) (db db' : DB) (payload : Payload.t) :
  keys_ascending (batches db) ->
  Payload.event payload = "venta" ->
  handleProcessEvent env db payload = (Applied, db') ->
  (forall sku,
     totalStock (batches db') sku
     == totalStock (batches db) sku
        - (if (Movement.sku (base_movement env payload) =? sku)%string
           then Movement.quantity (base_movement env payload) else 0))
  /\ map Batch.id (batches db') = map Batch.id (batches db)
  /\ (forall b', In b' (batches db') ->
        Batch.product_sku b' <> Movement.sku (base_movement env payload) ->
        In b' (batches db))
  /\ products db' = products db
  /\ returns db' = returns db
  /\ List.length (sales db') = S (List.length (sales db)).
Proof.
  intros Hk Hev H.
  apply handleProcessEvent_applied_inv in H.
  destruct H as (_ & _ & _ & _ & [[E _]|[[_ H]|[E _]]]); try congruence.
  pose proof (movement_quantity_ge_1 env payload) as Hq.
  split; [exact (venta_stock_every_sku env db db' _ Hk Hq H)|].
  destruct (venta_applied_effect env db db' _ Hk Hq H)
    as (product & _ & Hadd & Hb & _ & Hr & _).
  pose proof (process_venta_applied_inv env db db' _ H)
    as (_ & _ & _ & _ & _ & _ & _ & Hle & _ & _ & Hp & _).
  assert (H0 : 0 <= Movement.quantity (base_movement env payload)) by lra.
  destruct (venta_walk_facts _ (batches db) _ Hk H0 Hle) as (Hin & _ & _).
  split; [|split; [|split; [exact Hp|split; [exact Hr|]]]].
  - rewrite Hb, map_map. apply map_ext. intro b. apply after_walk_id.
  - intros b' Hb' Hsku. rewrite Hb in Hb'. apply in_map_iff in Hb'.
    destruct Hb' as (b & <- & Hbin). unfold after_walk in *.
    destruct (taken _ (Batch.id b)) as [t|] eqn:Ht; [|exact Hbin].
    exfalso. apply Hsku. cbn [Batch.set_quantity Batch.product_sku].
    clear Hsku.
    destruct (taken_In _ _ _ Ht) as (b0 & Hb0 & Eid).
    destruct (Hin (b0, t) Hb0) as [Hb0in Hel]. cbn [fst] in *.
    rewrite <- (keys_ascending_same_key b0 b (batches db) Hk Hb0in Hbin Eid).
    apply (eligible_positive _ _ Hel).
  - unfold sales_add in Hadd. destruct (existsb _ _); [discriminate|].
    injection Hadd as <-. clear.
    induction (sales db) as [|x l IH]; cbn [sales_insert]; [reflexivity|].
    destruct (key_ltb _ _); cbn [List.length]; [reflexivity | rewrite IH; reflexivity].
Qed.

Lemma venta_frame_witness :
  (forall sku,
     totalStock (batches db_galx_7) sku
     == totalStock (batches db_galx_12) sku
        - (if ("GALX-001" =? sku)%string then 5 else 0))
  /\ map Batch.id (batches db_galx_7) = map Batch.id (batches db_galx_12)
  /\ (forall b', In b' (batches db_galx_7) ->
        Batch.product_sku b' <> "GALX-001" -> In b' (batches db_galx_12))
  /\ products db_galx_7 = products db_galx_12
  /\ returns db_galx_7 = returns db_galx_12
  /\ List.length (sales db_galx_7) = S (List.length (sales db_galx_12)).
Proof.
  refine (venta_frame (env_at 2000) db_galx_12 db_galx_7 (galx_venta 5)
            _ eq_refl eq_refl).
  repeat (constructor; try reflexivity).
Defined.

(** ** Two ventas in the same millisecond *)

(** X7. The key of a Sale is [SALE-{Date.now()}].  A venta that passes
    every check, stock included, at an instant for which a Sale is
    already stored fails on the [add] of its Sale: the handler reports a
    storage error and, the transaction being aborted, no batch is
    decremented and nothing is recorded. *)
Theorem venta_at_taken_sale_key
    (env : Env) (db : DB) (payload : Payload.t) (product : Product.t)
    (sale : Sale.t) :
  Payload.event payload = "venta" ->
  db_open env = true -> connected env = true ->
  salesSensorConnected env = true ->
  truthy (Movement.sku (base_movement env payload)) = true ->
  truthy (Payload.name payload) = true ->
  products_get (Movement.sku (base_movement env payload)) (products db)
    = Some product ->
  Movement.quantity (base_movement env payload)
    <= totalStock (batches db) (Movement.sku (base_movement env payload)) ->
  sales_get (KStr ("SALE-" ++ string_of_Z (now env))) (sales db) = Some sale ->
  handleProcessEvent env db payload = (Rejected StorageError, db).
Proof.
  intros Hev Hdb Hconn Hsens Hid Hname Hprod Hq Hsale.
  unfold handleProcessEvent. rewrite Hdb, Hconn, Hname, Hev.
  cbn [base_movement Movement.sku] in Hid. rewrite truthy_or_str in Hid.
  replace (negb (truthy (Payload.sku payload))
           && negb (truthy (Payload.barcode payload))) with false
    by (rewrite <- negb_orb, Hid; reflexivity).
  change (("venta" =? "ingreso")%string) with false.
  change (("venta" =? "venta")%string) with true.
  cbn [negb]. cbv iota.
  unfold process_venta. rewrite Hconn, Hsens, Hprod. cbn [negb orb].
  cbn [with_product_price Movement.set_price Movement.sku Movement.quantity].
  apply Qgtb_false in Hq. rewrite Hq.
  destruct (fifo_loop _ _ _ _) as [[store used] rest].
  unfold sales_add. cbn [saleData Sale.id].
  replace (existsb _ (sales db)) with true; [reflexivity|].
  symmetry. apply existsb_exists. exists sale.
  unfold sales_get in Hsale. apply find_some in Hsale. exact Hsale.
Qed.

Lemma venta_at_taken_sale_key_witness :
  handleProcessEvent (env_at 2000) db_galx_7 (galx_venta 1)
  = (Rejected StorageError, db_galx_7).
Proof.
  eapply (venta_at_taken_sale_key (env_at 2000) db_galx_7 (galx_venta 1));
    try reflexivity.
  vm_compute. discriminate.
Defined.

(** ** The undo of a sale and the return allowance *)

Lemma sales_get_None_key (k : Key) (l : list Sale.t) :
  ~ In k (map Sale.id l) -> sales_get k l = None.
Proof.
  unfold sales_get. induction l as [|x l IH]; cbn [map find]; [reflexivity|].
  intro H. destruct (key_eqb (Sale.id x) k) eqn:E.
  - exfalso. apply H. left. apply key_eqb_eq. exact E.
  - apply IH. intro Hin. apply H. right. exact Hin.
Qed.

Lemma sales_replace_absent (k : Key) (s' : Sale.t) (l : list Sale.t) :
  ~ In k (map Sale.id l) ->
  map (fun x => if key_eqb (Sale.id x) k then s' else x) l = l.
Proof.
  induction l as [|x l IH]; cbn [map]; [reflexivity|].
  intro H. destruct (key_eqb (Sale.id x) k) eqn:E.
  - exfalso. apply H. left. apply key_eqb_eq. exact E.
  - f_equal. apply IH. intro Hin. apply H. right. exact Hin.
Qed.

(** Cancelling a stored Sale takes its quantity out of the completed
    total of its sku, and of no other. *)
Lemma soldTotal_put_cancelled (k : Key) (sale : Sale.t) (l : list Sale.t)
    (sku : string) :
  NoDup (map Sale.id l) ->
  sales_get k l = Some sale ->
  soldTotal (sales_put (Sale.set_status "cancelled" sale) l) sku
  == soldTotal l sku - (if completed_of sku sale then Sale.quantity sale else 0).
Proof.
  intros Hnd Hget.
  pose proof (sales_get_key _ _ _ Hget) as Hk.
  unfold sales_put. cbn [Sale.set_status Sale.id]. rewrite Hk.
  replace (existsb (fun x => key_eqb (Sale.id x) k) l) with true.
  2:{ symmetry. apply existsb_exists. exists sale.
      unfold sales_get in Hget. apply find_some in Hget. exact Hget. }
  rewrite !soldTotal_qsum.
  unfold sales_get in Hget.
  induction l as [|x l IH]; cbn [find map] in *; [discriminate|].
  inversion Hnd as [|? ? Hnotin Hnd']; subst.
  destruct (key_eqb (Sale.id x) (Sale.id sale)) eqn:E.
  - injection Hget as ->.
    rewrite sales_replace_absent by exact Hnotin.
    cbn [filter].
    replace (completed_of sku (Sale.set_status "cancelled" sale)) with false.
    + destruct (completed_of sku sale); cbn [qsum]; lra.
    + unfold completed_of. cbn [Sale.set_status Sale.status Sale.sku].
      symmetry. apply andb_false_r.
  - cbn [filter]. destruct (completed_of sku x); cbn [qsum];
      rewrite (IH Hnd' Hget); lra.
Qed.

(** X8. An applied undo of a completed Sale both cancels the Sale and
    writes a Return: the return allowance of a sku (completed sales minus
    returns, what the generic devolucion checks) drops by the quantity of
    the Sale for the sku of the Sale and again by the quantity of the
    event for the sku of the event.  Undoing a sale of q units with its
    own sku and quantity lowers the allowance of that sku by 2q. *)
Theorem undo_lowers_return_allowance_twice
    (env : Env) (db db' : DB) (saleEvent : FeedEvent.t) (sale : Sale.t) :
  sales_unique db ->
  handleUndoSale env db saleEvent = (Applied, db') ->
  sales_get (FeedEvent.id saleEvent) (sales db) = Some sale ->
  Sale.status sale = "completed" ->
  (forall sku,
     return_allowance db' sku
     == return_allowance db sku
        - (if (Sale.sku sale =? sku)%string then Sale.quantity sale else 0)
        - (if (FeedEvent.sku saleEvent =? sku)%string
           then FeedEvent.quantity saleEvent else 0))
  /\ (FeedEvent.sku saleEvent = Sale.sku sale ->
      FeedEvent.quantity saleEvent = Sale.quantity sale ->
      return_allowance db' (Sale.sku sale)
      == return_allowance db (Sale.sku sale) - 2 * Sale.quantity sale).
Proof.
  intros Hu H Hget Hst.
  apply handleUndoSale_applied_inv in H.
  destruct H as (sale' & Hget' & _ & _ & _ & _ & Hsales
                 & (r & Hr & Hrs & Hrq & _) & _).
  assert (sale' = sale) by congruence. subst sale'.
  assert (Hall : forall sku,
     return_allowance db' sku
     == return_allowance db sku
        - (if (Sale.sku sale =? sku)%string then Sale.quantity sale else 0)
        - (if (FeedEvent.sku saleEvent =? sku)%string
           then FeedEvent.quantity saleEvent else 0)).
  { intro sku. unfold return_allowance.
    rewrite Hsales, Hr, returnedTotal_app.
    rewrite (soldTotal_put_cancelled _ sale (sales db) sku Hu Hget).
    unfold completed_of. rewrite Hst, Hrs, Hrq.
    change (("completed" =? "completed")%string) with true.
    rewrite andb_true_r.
    destruct (Sale.sku sale =? sku)%string,
             (FeedEvent.sku saleEvent =? sku)%string; lra. }
  split; [exact Hall|].
  intros Hs Hq. rewrite (Hall (Sale.sku sale)), Hs, Hq, String.eqb_refl. lra.
Qed.

Lemma undo_lowers_return_allowance_twice_witness :
  return_allowance db_galx_undone "GALX-001"
  == return_allowance db_galx_7 "GALX-001" - 2 * 5.
Proof.
  refine (proj2 (undo_lowers_return_allowance_twice (env_at 3000) db_galx_7
                   db_galx_undone galx_sale_event
                   (saleData (env_at 2000)
                      (with_product_price
                         (Product.mk "GALX-001" "Galletas X" "Sin categoría"
                                     1.45 2.5 1000)
                         (base_movement (env_at 2000) (galx_venta 5)))
                      [BatchUse.mk 1 5 1.45])
                   _ eq_refl eq_refl eq_refl) eq_refl eq_refl).
  repeat constructor. intros [].
Defined.

(** ** The quick-add of a product *)

Lemma handleAddProduct_added_inv (env : Env) (db db' : DB)
    (p : ProductPayload.t) :
  handleAddProduct env db p = (ProductAdded, db') ->
  db_open env = true
  /\ or_num (ProductPayload.purchase_price p) 0
     < or_num (ProductPayload.sale_price p) 0
  /\ products db'
     = products_put
         {| Product.sku := ProductPayload.sku p;
            Product.name := ProductPayload.name p;
            Product.category := or_str (ProductPayload.category p) "Sin categoría";
            Product.default_purchase_price :=
              or_num (ProductPayload.purchase_price p) 0;
            Product.default_sale_price := or_num (ProductPayload.sale_price p) 0;
            Product.created_at := now env |} (products db)
  /\ batches db'
     = (batches db
        ++ [ {| Batch.id := batches_key db;
                Batch.product_sku := ProductPayload.sku p;
                Batch.lot :=
                  or_str (ProductPayload.lot p) ("INIT-" ++ string_of_Z (now env));
                Batch.expiry := ProductPayload.expiry p;
                Batch.quantity := or_num (ProductPayload.quantity p) 0;
                Batch.purchase_price := or_num (ProductPayload.purchase_price p) 0;
                Batch.created_at := now env;
                Batch.return_id := None;
                Batch.status := "" |} ])%list
  /\ batches_key db' = (batches_key db + 1)%Z
  /\ sales db' = sales db
  /\ returns db' = returns db
  /\ returns_key db' = returns_key db
  /\ movements db' = movements db
  /\ movements_key db' = movements_key db.
Proof.
  unfold handleAddProduct. intro H.
  destruct (db_open env); [|discriminate]. cbn [negb] in H.
  destruct (Qleb _ _) eqn:Hq; [discriminate|].
  apply Qleb_false in Hq.
  cbn [batches_add with_products products batches batches_key sales returns
       returns_key movements movements_key] in H.
  injection H as <-. repeat split. exact Hq.
Qed.

Lemma handleAddProduct_cases (env : Env) (db : DB) (p : ProductPayload.t) :
  snd (handleAddProduct env db p) = db
  \/ handleAddProduct env db p = (ProductAdded, snd (handleAddProduct env db p)).
Proof.
  unfold handleAddProduct.
  destruct (negb (db_open env)); [left; reflexivity|].
  destruct (Qleb _ _); [left; reflexivity | right; reflexivity].
Qed.

(** ** The movement ledger *)

Lemma ledger_step_perform (env : Env) (db : DB) (a : Action) :
  ledger_step db (snd (perform env db a)).
Proof.
  destruct (perform_cases env db a) as [E|E];
    [rewrite E; left; split; reflexivity|].
  right. destruct a as [payload|saleEvent|batch mode]; cbn [perform] in *.
  - set (db' := snd (handleProcessEvent env db payload)) in *.
    apply handleProcessEvent_applied_inv in E.
    destruct E as (_ & _ & _ & _ & [[_ H]|[[_ H]|[_ H]]]).
    + unfold process_ingreso in H.
      destruct (products_get _ _);
        cbn [batches_add movements_add with_products products batches
             batches_key sales returns returns_key movements movements_key] in H;
        injection H as <-; eexists; repeat split;
        cbn [Movement.set_id Movement.set_type Movement.type]; cbn; tauto.
    + unfold process_venta in H.
      destruct (_ || _); [discriminate|].
      destruct (products_get _ _); [|discriminate].
      destruct (Qgtb _ _); [discriminate|].
      destruct (fifo_loop _ _ _ _) as [[store used] rest].
      destruct (sales_add _ _); [|discriminate].
      cbn [movements_add with_sales with_batches products batches batches_key
           sales returns returns_key movements movements_key] in H.
      injection H as <-. eexists. repeat split. cbn. tauto.
    + unfold process_devolucion in H.
      destruct (Qgtb _ _); [discriminate|].
      cbn [returns_add batches_add movements_add products batches batches_key
           sales returns returns_key movements movements_key] in H.
      injection H as <-. eexists. repeat split. cbn. tauto.
  - unfold handleUndoSale in E |- *.
    destruct (negb (db_open env)); [discriminate|].
    destruct (sales_get _ _); [|discriminate].
    destruct (_ =? _)%string; [discriminate|].
    cbn [returns_add batches_add movements_add with_sales products batches
         batches_key sales returns returns_key movements movements_key snd].
    eexists. repeat split. cbn. tauto.
  - unfold handleReturn in E |- *.
    destruct (negb (db_open env)); [discriminate|].
    destruct (mode =? "ventas")%string.
    + unfold return_venta.
      cbn [returns_add batches_add movements_add products batches batches_key
           sales returns returns_key movements movements_key snd].
      eexists. repeat split. cbn. tauto.
    + unfold return_inventario in E |- *.
      destruct (batches_get _ _); [|discriminate].
      destruct (_ =? _)%string; [discriminate|].
      cbn [returns_add with_batches movements_add products batches batches_key
           sales returns returns_key movements movements_key snd].
      eexists. repeat split. cbn. tauto.
Qed.

Lemma ledger_step_apply_op (env : Env) (db : DB) (op : Op) :
  ledger_step db (apply_op env db op).
Proof.
  destruct op as [a|p]; cbn [apply_op].
  - apply ledger_step_perform.
  - left. destruct (handleAddProduct_cases env db p) as [E|E];
      [rewrite E; split; reflexivity|].
    apply handleAddProduct_added_inv in E. tauto.
Qed.

Lemma ledger_numbered_step (db db' : DB) :
  ledger_step db db' -> ledger_numbered db -> ledger_numbered db'.
Proof.
  intros [[Hm Hk]|(m & Hm & Hid & Hk & _)] [Hn Hkey]; unfold ledger_numbered.
  - rewrite Hm, Hk. split; assumption.
  - rewrite Hm, Hk, length_app, map_app, Hn. cbn [List.length map].
    rewrite Nat.add_1_r, seq_S, map_app. cbn [map].
    split; [rewrite Hid, Hkey; reflexivity | rewrite Hkey; lia].
Qed.

Lemma ledger_typed_step (db db' : DB) :
  ledger_step db db' -> ledger_typed (movements db) -> ledger_typed (movements db').
Proof.
  unfold ledger_typed.
  intros [[Hm _]|(m & Hm & _ & _ & Ht)] H; rewrite Hm; [exact H|].
  apply Forall_app. split; [exact H|]. constructor; [exact Ht | constructor].
Qed.

(** X9. The movement ledger is append-only and gap-free under every
    handler and the quick-add: a sequence of operations leaves the
    movements that were stored as a prefix of the ledger, every movement
    it adds is filed under one of the five ledger types, and the keys of
    the ledger stay the consecutive numbers 1, 2, 3, ... up to the key
    generator. *)
Theorem ledger_append_only (db : DB) (ops : list (Env * Op)) :
  ledger_numbered db ->
  ledger_numbered (run_ops db ops)
  /\ exists added,
       movements (run_ops db ops) = (movements db ++ added)%list
       /\ (List.length added <= List.length ops)%nat
       /\ ledger_typed added.
Proof.
  revert db. induction ops as [|[env op] ops IH]; intros db Hn.
  - split; [exact Hn|]. exists []. rewrite app_nil_r.
    split; [reflexivity|]. split; [apply Nat.le_refl | constructor].
  - cbn [run_ops fold_left fst snd]. fold (run_ops (apply_op env db op) ops).
    pose proof (ledger_step_apply_op env db op) as Hstep.
    destruct (IH _ (ledger_numbered_step _ _ Hstep Hn))
      as (Hn' & added & Hm & Hlen & Hty).
    split; [exact Hn'|].
    destruct Hstep as [[Hm0 _]|(m & Hm0 & _ & _ & Ht)].
    + exists added. rewrite Hm, Hm0.
      split; [reflexivity|]. split; [cbn [List.length]; lia | exact Hty].
    + exists (m :: added). rewrite Hm, Hm0, <- app_assoc.
      split; [reflexivity|]. split; [cbn [List.length]; lia|].
      constructor; assumption.
Qed.

Lemma ledger_numbered_empty : ledger_numbered empty_db.
Proof. split; reflexivity. Qed.

(** ** What the stores keep *)

Lemma well_keyed_apply_op (env : Env) (db : DB) (op : Op) :
  well_keyed db -> well_keyed (apply_op env db op).
Proof.
  intro Hw. destruct op as [[payload|saleEvent|batch mode]|p];
    cbn [apply_op perform].
  - apply well_keyed_handleProcessEvent, Hw.
  - apply well_keyed_handleUndoSale, Hw.
  - apply well_keyed_handleReturn, Hw.
  - destruct (handleAddProduct_cases env db p) as [E|E]; [rewrite E; exact Hw|].
    apply handleAddProduct_added_inv in E.
    destruct E as (_ & _ & _ & Hb & Hk & _).
    unfold well_keyed.
    eapply (well_keyed_append db); [exact Hw | exact Hb | reflexivity | exact Hk].
Qed.

Lemma sales_insert_perm (s : Sale.t) (l : list Sale.t) :
  Permutation (s :: l) (sales_insert s l).
Proof.
  induction l as [|x r IH]; cbn [sales_insert]; [reflexivity|].
  destruct (key_ltb _ _); [reflexivity|].
  apply perm_trans with (x :: s :: r); [apply perm_swap | apply perm_skip, IH].
Qed.

Lemma existsb_key_false (k : Key) (l : list Sale.t) :
  existsb (fun x => key_eqb (Sale.id x) k) l = false -> ~ In k (map Sale.id l).
Proof.
  induction l as [|x r IH]; cbn [existsb map In]; [tauto|].
  intros H [Hx|Hin]; apply orb_false_iff in H; destruct H as [H1 H2].
  - rewrite Hx, key_eqb_refl in H1. discriminate.
  - exact (IH H2 Hin).
Qed.

Lemma sales_add_perm (s : Sale.t) (l l' : list Sale.t) :
  sales_add s l = Some l' ->
  Permutation (s :: l) l' /\ ~ In (Sale.id s) (map Sale.id l).
Proof.
  unfold sales_add. destruct (existsb _ _) eqn:E; [discriminate|].
  intro H. injection H as <-.
  split; [apply sales_insert_perm | apply existsb_key_false, E].
Qed.

Lemma sales_put_found (k : Key) (sale s' : Sale.t) (l : list Sale.t) :
  sales_get k l = Some sale -> Sale.id s' = k ->
  sales_put s' l = map (fun x => if key_eqb (Sale.id x) k then s' else x) l.
Proof.
  intros Hg Hk. unfold sales_put. rewrite Hk.
  replace (existsb (fun x => key_eqb (Sale.id x) k) l) with true; [reflexivity|].
  symmetry. apply existsb_exists. exists sale.
  unfold sales_get in Hg. apply find_some in Hg. exact Hg.
Qed.

Lemma sales_replace_ids (k : Key) (s' : Sale.t) (l : list Sale.t) :
  Sale.id s' = k ->
  map Sale.id (map (fun x => if key_eqb (Sale.id x) k then s' else x) l)
  = map Sale.id l.
Proof.
  intro Hk. rewrite map_map. apply map_ext_in. intros x _.
  destruct (key_eqb (Sale.id x) k) eqn:E; [|reflexivity].
  apply key_eqb_eq in E. congruence.
Qed.

Lemma handleReturn_frame (env : Env) (db : DB) (batch : Batch.t) (mode : string) :
  products (snd (handleReturn env db batch mode)) = products db
  /\ sales (snd (handleReturn env db batch mode)) = sales db
  /\ exists added,
       returns (snd (handleReturn env db batch mode))
       = (returns db ++ added)%list.
Proof.
  unfold handleReturn.
  destruct (negb (db_open env));
    [cbn [snd]; repeat split; exists []; rewrite app_nil_r; reflexivity|].
  destruct (mode =? "ventas")%string.
  - unfold return_venta.
    cbn [returns_add batches_add movements_add products batches batches_key
         sales returns returns_key movements movements_key snd].
    repeat split. eexists. reflexivity.
  - unfold return_inventario.
    destruct (batches_get _ _);
      [|cbn [snd]; repeat split; exists []; rewrite app_nil_r; reflexivity].
    destruct (_ =? _)%string;
      [cbn [snd]; repeat split; exists []; rewrite app_nil_r; reflexivity|].
    cbn [returns_add with_batches movements_add products batches batches_key
         sales returns returns_key movements movements_key snd].
    repeat split. eexists. reflexivity.
Qed.

Lemma sales_unique_apply_op (env : Env) (db : DB) (op : Op) :
  sales_unique db -> sales_unique (apply_op env db op).
Proof.
  unfold sales_unique. intro Hu.
  destruct op as [[payload|saleEvent|batch mode]|p]; cbn [apply_op perform].
  - destruct (handleProcessEvent_cases env db payload) as [E|E];
      [rewrite E; exact Hu|].
    set (db' := snd (handleProcessEvent env db payload)) in *.
    apply handleProcessEvent_applied_inv in E.
    destruct E as (_ & _ & _ & _ & [[_ H]|[[_ H]|[_ H]]]).
    + apply process_ingreso_inv in H. destruct H as (Hs & _). rewrite Hs. exact Hu.
    + apply process_venta_applied_inv in H.
      destruct H as (product & store & used & rest & _ & _ & _ & _ & _ & Hadd & _).
      apply sales_add_perm in Hadd. destruct Hadd as [Hp Hfresh].
      eapply Permutation_NoDup; [apply Permutation_map, Hp|].
      cbn [map]. constructor; assumption.
    + apply process_devolucion_applied_inv in H.
      destruct H as (_ & _ & Hs & _). rewrite Hs. exact Hu.
  - destruct (handleUndoSale_cases env db saleEvent) as [E|E];
      [rewrite E; exact Hu|].
    set (db' := snd (handleUndoSale env db saleEvent)) in *.
    apply handleUndoSale_applied_inv in E.
    destruct E as (sale & Hg & _ & _ & _ & _ & Hs & _).
    rewrite Hs.
    rewrite (sales_put_found (FeedEvent.id saleEvent) sale);
      [|exact Hg | exact (sales_get_key _ _ _ Hg)].
    rewrite sales_replace_ids; [exact Hu | exact (sales_get_key _ _ _ Hg)].
  - destruct (handleReturn_frame env db batch mode) as (_ & Hs & _).
    rewrite Hs. exact Hu.
  - destruct (handleAddProduct_cases env db p) as [E|E]; [rewrite E; exact Hu|].
    apply handleAddProduct_added_inv in E.
    destruct E as (_ & _ & _ & _ & _ & Hs & _). rewrite Hs. exact Hu.
Qed.

Lemma products_put_keeps (p q : Product.t) (sku : string) (l : list Product.t) :
  products_get sku l = Some q ->
  exists q', products_get sku (products_put p l) = Some q'.
Proof.
  unfold products_get.
  induction l as [|x r IH]; cbn [find products_put]; [discriminate|].
  intro H.
  destruct (Product.sku x =? Product.sku p)%string eqn:Exp.
  - cbn [find]. apply String.eqb_eq in Exp.
    destruct (Product.sku p =? sku)%string eqn:Eps; [eexists; reflexivity|].
    rewrite Exp, Eps in H. eexists. exact H.
  - destruct (String.ltb _ _).
    + cbn [find]. destruct (Product.sku p =? sku)%string; [eexists; reflexivity|].
      eexists. exact H.
    + cbn [find]. destruct (Product.sku x =? sku)%string; [eexists; reflexivity|].
      apply IH, H.
Qed.

Lemma products_kept (env : Env) (db : DB) (op : Op) (sku : string)
    (p : Product.t) :
  products_get sku (products db) = Some p ->
  exists p', products_get sku (products (apply_op env db op)) = Some p'.
Proof.
  intro Hp.
  destruct op as [[payload|saleEvent|batch mode]|pp]; cbn [apply_op perform].
  - destruct (handleProcessEvent_cases env db payload) as [E|E];
      [rewrite E; eexists; exact Hp|].
    set (db' := snd (handleProcessEvent env db payload)) in *.
    apply handleProcessEvent_applied_inv in E.
    destruct E as (_ & _ & _ & _ & [[_ H]|[[_ H]|[_ H]]]).
    + unfold process_ingreso in H.
      destruct (products_get (Movement.sku _) _);
        cbn [batches_add movements_add with_products products batches
             batches_key sales returns returns_key movements movements_key] in H;
        injection H as <-; cbn [products].
      * eexists; exact Hp.
      * eapply products_put_keeps, Hp.
    + apply process_venta_applied_inv in H.
      destruct H as (product & store & used & rest & _ & _ & _ & _ & _ & _ & H & _).
      rewrite H. eexists; exact Hp.
    + apply process_devolucion_applied_inv in H.
      destruct H as (_ & H & _). rewrite H. eexists; exact Hp.
  - destruct (handleUndoSale_cases env db saleEvent) as [E|E];
      [rewrite E; eexists; exact Hp|].
    set (db' := snd (handleUndoSale env db saleEvent)) in *.
    apply handleUndoSale_applied_inv in E.
    destruct E as (sale & _ & _ & H & _). rewrite H. eexists; exact Hp.
  - destruct (handleReturn_frame env db batch mode) as (H & _).
    rewrite H. eexists; exact Hp.
  - destruct (handleAddProduct_cases env db pp) as [E|E];
      [rewrite E; eexists; exact Hp|].
    apply handleAddProduct_added_inv in E.
    destruct E as (_ & _ & H & _). rewrite H.
    eapply products_put_keeps, Hp.
Qed.

Lemma batch_kept_append (l l' : list Batch.t) (x b : Batch.t) :
  l' = (l ++ [x])%list -> In b l ->
  exists b',
    In b' l'
    /\ Batch.id b' = Batch.id b
    /\ Batch.product_sku b' = Batch.product_sku b
    /\ Batch.purchase_price b' = Batch.purchase_price b
    /\ Batch.created_at b' = Batch.created_at b.
Proof.
  intros -> Hin. exists b. split; [apply in_or_app; left; exact Hin|].
  repeat split.
Qed.

Lemma batch_kept_same (l : list Batch.t) (b : Batch.t) :
  In b l ->
  exists b',
    In b' l
    /\ Batch.id b' = Batch.id b
    /\ Batch.product_sku b' = Batch.product_sku b
    /\ Batch.purchase_price b' = Batch.purchase_price b
    /\ Batch.created_at b' = Batch.created_at b.
Proof. intro Hin. exists b. repeat split. exact Hin. Qed.

Lemma batches_kept (env : Env) (db : DB) (op : Op) (b : Batch.t) :
  well_keyed db -> In b (batches db) ->
  exists b',
    In b' (batches (apply_op env db op))
    /\ Batch.id b' = Batch.id b
    /\ Batch.product_sku b' = Batch.product_sku b
    /\ Batch.purchase_price b' = Batch.purchase_price b
    /\ Batch.created_at b' = Batch.created_at b.
Proof.
  intros Hw Hin.
  destruct op as [[payload|saleEvent|batch mode]|pp]; cbn [apply_op perform].
  - destruct (handleProcessEvent_cases env db payload) as [E|E];
      [rewrite E; apply batch_kept_same, Hin|].
    set (db' := snd (handleProcessEvent env db payload)) in *.
    apply handleProcessEvent_applied_inv in E.
    destruct E as (_ & _ & _ & _ & [[_ H]|[[_ H]|[_ H]]]).
    + apply process_ingreso_inv in H. destruct H as (_ & _ & _ & _ & H).
      eapply batch_kept_append; [exact H | exact Hin].
    + apply venta_applied_effect in H;
        [|exact (proj1 Hw) | apply movement_quantity_ge_1].
      cbv zeta in H. destruct H as (product & _ & _ & H & _).
      rewrite H.
      set (w := fifo_walk _ _).
      exists (after_walk w b). split; [apply in_map, Hin|].
      unfold after_walk. destruct (taken w (Batch.id b)); repeat split.
    + apply process_devolucion_applied_inv in H.
      destruct H as (_ & _ & _ & H & _).
      eapply batch_kept_append; [exact H | exact Hin].
  - destruct (handleUndoSale_cases env db saleEvent) as [E|E];
      [rewrite E; apply batch_kept_same, Hin|].
    set (db' := snd (handleUndoSale env db saleEvent)) in *.
    apply handleUndoSale_applied_inv in E.
    destruct E as (sale & _ & _ & _ & H & _).
    eapply batch_kept_append; [exact H | exact Hin].
  - unfold handleReturn.
    destruct (negb (db_open env)); [apply batch_kept_same, Hin|].
    destruct (mode =? "ventas")%string.
    + unfold return_venta.
      cbn [returns_add batches_add movements_add products batches batches_key
           sales returns returns_key movements movements_key snd].
      eapply batch_kept_append; [reflexivity | exact Hin].
    + unfold return_inventario.
      destruct (batches_get _ _) as [existing|] eqn:Hg;
        [|apply batch_kept_same, Hin].
      destruct (_ =? _)%string; [apply batch_kept_same, Hin|].
      cbn [returns_add with_batches movements_add products batches batches_key
           sales returns returns_key movements movements_key snd].
      apply batches_get_In in Hg. destruct Hg as [Hex Hid].
      erewrite (batches_put_existing existing);
        [|exact (proj1 Hw) | exact Hex | reflexivity].
      eexists. split; [apply in_map, Hin|].
      cbv beta.
      destruct (Batch.id b =? Batch.id existing)%Z eqn:Eid; [|repeat split].
      apply Z.eqb_eq in Eid.
      assert (b = existing) as ->
          by (eapply keys_ascending_same_key; [exact (proj1 Hw) | | |]; eassumption).
      repeat split.
  - destruct (handleAddProduct_cases env db pp) as [E|E];
      [rewrite E; apply batch_kept_same, Hin|].
    apply handleAddProduct_added_inv in E.
    destruct E as (_ & _ & _ & H & _).
    eapply batch_kept_append; [exact H | exact Hin].
Qed.

Lemma sale_kept_same (l : list Sale.t) (s : Sale.t) :
  In s l ->
  exists s',
    In s' l
    /\ Sale.id s' = Sale.id s
    /\ Sale.sku s' = Sale.sku s
    /\ Sale.quantity s' = Sale.quantity s
    /\ Sale.total s' = Sale.total s
    /\ (Sale.status s' = Sale.status s \/ Sale.status s' = "cancelled").
Proof. intro Hin. exists s. repeat split; [exact Hin | left; reflexivity]. Qed.

Lemma sales_get_unique (l : list Sale.t) (s : Sale.t) :
  NoDup (map Sale.id l) -> In s l -> sales_get (Sale.id s) l = Some s.
Proof.
  unfold sales_get.
  induction l as [|x r IH]; cbn [map In find]; [tauto|].
  intros Hnd [->|Hin]; [rewrite key_eqb_refl; reflexivity|].
  inversion Hnd as [|? ? Hx Hr]; subst.
  destruct (key_eqb (Sale.id x) (Sale.id s)) eqn:E; [|exact (IH Hr Hin)].
  apply key_eqb_eq in E. exfalso. apply Hx. rewrite E. apply in_map, Hin.
Qed.

Lemma sales_kept (env : Env) (db : DB) (op : Op) (s : Sale.t) :
  sales_unique db -> In s (sales db) ->
  exists s',
    In s' (sales (apply_op env db op))
    /\ Sale.id s' = Sale.id s
    /\ Sale.sku s' = Sale.sku s
    /\ Sale.quantity s' = Sale.quantity s
    /\ Sale.total s' = Sale.total s
    /\ (Sale.status s' = Sale.status s \/ Sale.status s' = "cancelled").
Proof.
  intros Hu Hin.
  destruct op as [[payload|saleEvent|batch mode]|pp]; cbn [apply_op perform].
  - destruct (handleProcessEvent_cases env db payload) as [E|E];
      [rewrite E; apply sale_kept_same, Hin|].
    set (db' := snd (handleProcessEvent env db payload)) in *.
    apply handleProcessEvent_applied_inv in E.
    destruct E as (_ & _ & _ & _ & [[_ H]|[[_ H]|[_ H]]]).
    + apply process_ingreso_inv in H. destruct H as (H & _).
      rewrite H. apply sale_kept_same, Hin.
    + apply process_venta_applied_inv in H.
      destruct H as (product & store & used & rest & _ & _ & _ & _ & _ & Hadd & _).
      apply sales_add_perm in Hadd. destruct Hadd as [Hp _].
      apply sale_kept_same.
      eapply Permutation_in; [exact Hp | right; exact Hin].
    + apply process_devolucion_applied_inv in H.
      destruct H as (_ & _ & H & _). rewrite H. apply sale_kept_same, Hin.
  - destruct (handleUndoSale_cases env db saleEvent) as [E|E];
      [rewrite E; apply sale_kept_same, Hin|].
    set (db' := snd (handleUndoSale env db saleEvent)) in *.
    apply handleUndoSale_applied_inv in E.
    destruct E as (sale & Hg & _ & _ & _ & _ & Hs & _).
    rewrite Hs.
    rewrite (sales_put_found (FeedEvent.id saleEvent) sale);
      [|exact Hg | exact (sales_get_key _ _ _ Hg)].
    eexists. split; [apply in_map, Hin|]. cbv beta.
    destruct (key_eqb (Sale.id s) (FeedEvent.id saleEvent)) eqn:Ek;
      [|repeat split; left; reflexivity].
    apply key_eqb_eq in Ek.
    pose proof (sales_get_unique _ _ Hu Hin) as Hs'.
    rewrite Ek, Hg in Hs'. injection Hs' as ->.
    repeat split. right. reflexivity.
  - destruct (handleReturn_frame env db batch mode) as (_ & H & _).
    rewrite H. apply sale_kept_same, Hin.
  - destruct (handleAddProduct_cases env db pp) as [E|E];
      [rewrite E; apply sale_kept_same, Hin|].
    apply handleAddProduct_added_inv in E.
    destruct E as (_ & _ & _ & _ & _ & H & _).
    rewrite H. apply sale_kept_same, Hin.
Qed.

Lemma returns_kept (env : Env) (db : DB) (op : Op) :
  exists added, returns (apply_op env db op) = (returns db ++ added)%list.
Proof.
  assert (Hsame : forall d, returns d = returns db ->
                   exists added, returns d = (returns db ++ added)%list)
    by (intros d ->; exists []; rewrite app_nil_r; reflexivity).
  destruct op as [[payload|saleEvent|batch mode]|pp]; cbn [apply_op perform].
  - destruct (handleProcessEvent_cases env db payload) as [E|E];
      [rewrite E; apply Hsame; reflexivity|].
    set (db' := snd (handleProcessEvent env db payload)) in *.
    apply handleProcessEvent_applied_inv in E.
    destruct E as (_ & _ & _ & _ & [[_ H]|[[_ H]|[_ H]]]).
    + apply process_ingreso_inv in H. destruct H as (_ & H & _).
      apply Hsame, H.
    + apply process_venta_applied_inv in H.
      destruct H as (product & store & used & rest & H).
      apply Hsame. tauto.
    + apply process_devolucion_applied_inv in H.
      destruct H as (_ & _ & _ & _ & _ & (r & H & _) & _).
      exists [r]. exact H.
  - destruct (handleUndoSale_cases env db saleEvent) as [E|E];
      [rewrite E; apply Hsame; reflexivity|].
    set (db' := snd (handleUndoSale env db saleEvent)) in *.
    apply handleUndoSale_applied_inv in E.
    destruct E as (sale & _ & _ & _ & _ & _ & _ & (r & H & _) & _).
    exists [r]. exact H.
  - destruct (handleReturn_frame env db batch mode) as (_ & _ & H). exact H.
  - destruct (handleAddProduct_cases env db pp) as [E|E];
      [rewrite E; apply Hsame; reflexivity|].
    apply handleAddProduct_added_inv in E. apply Hsame. tauto.
Qed.

Lemma keeps_refl (db : DB) : keeps db db.
Proof.
  unfold keeps. repeat split.
  - intros sku p H. exists p. exact H.
  - intros b H. apply batch_kept_same, H.
  - intros s H. apply sale_kept_same, H.
  - exists []. rewrite app_nil_r. reflexivity.
  - exists []. rewrite app_nil_r. reflexivity.
Qed.

Lemma keeps_trans (a b c : DB) : keeps a b -> keeps b c -> keeps a c.
Proof.
  intros (Hp1 & Hb1 & Hs1 & [r1 Hr1] & [m1 Hm1])
         (Hp2 & Hb2 & Hs2 & [r2 Hr2] & [m2 Hm2]).
  unfold keeps. repeat split.
  - intros sku p H. destruct (Hp1 _ _ H) as [p' H']. exact (Hp2 _ _ H').
  - intros x H. destruct (Hb1 _ H) as (x' & H' & E1 & E2 & E3 & E4).
    destruct (Hb2 _ H') as (x'' & H'' & F1 & F2 & F3 & F4).
    exists x''. repeat split; congruence.
  - intros x H. destruct (Hs1 _ H) as (x' & H' & E1 & E2 & E3 & E4 & E5).
    destruct (Hs2 _ H') as (x'' & H'' & F1 & F2 & F3 & F4 & F5).
    exists x''. repeat split; try congruence.
    destruct F5 as [F5|F5]; [|right; exact F5].
    destruct E5 as [E5|E5]; [left|right]; congruence.
  - exists (r1 ++ r2)%list. rewrite Hr2, Hr1, app_assoc. reflexivity.
  - exists (m1 ++ m2)%list. rewrite Hm2, Hm1, app_assoc. reflexivity.
Qed.

Lemma keeps_apply_op (env : Env) (db : DB) (op : Op) :
  well_keyed db -> sales_unique db -> keeps db (apply_op env db op).
Proof.
  intros Hw Hu. unfold keeps. repeat split.
  - intros sku p H. eapply products_kept, H.
  - intros b H. apply batches_kept; assumption.
  - intros s H. apply sales_kept; assumption.
  - apply returns_kept.
  - destruct (ledger_step_apply_op env db op) as [[H _]|(m & H & _)].
    + exists []. rewrite app_nil_r. exact H.
    + exists [m]. exact H.
Qed.

(** X10. No handler deletes or re-keys a record.  From a store whose
    batch keys ascend below the key generator and whose Sale keys are
    distinct (the empty store is one), any sequence of events, undos,
    returns and quick-adds leaves a store of the same kind in which
    every product is still found under its sku, every batch under its
    key with the sku, purchase price and creation time it had, every
    Sale under its key with its sku, quantity and total (its status is
    the one it had or [cancelled]: a cancelled Sale is never completed
    again), and the Returns and Movements it held as the first records
    of their stores. *)
Theorem records_are_kept (db : DB) (ops : list (Env * Op)) :
  well_keyed db -> sales_unique db ->
  keeps db (run_ops db ops)
  /\ well_keyed (run_ops db ops)
  /\ sales_unique (run_ops db ops).
Proof.
  revert db. induction ops as [|[env op] ops IH]; intros db Hw Hu.
  - split; [apply keeps_refl|]. split; assumption.
  - cbn [run_ops fold_left fst snd]. fold (run_ops (apply_op env db op) ops).
    destruct (IH _ (well_keyed_apply_op env db op Hw)
                   (sales_unique_apply_op env db op Hu)) as (Hk & Hw' & Hu').
    split; [|split; assumption].
    eapply keeps_trans; [apply keeps_apply_op; assumption | exact Hk].
Qed.

Lemma well_keyed_galx_7 : well_keyed db_galx_7.
Proof.
  exact (well_keyed_handleProcessEvent _ _ _
           (well_keyed_handleProcessEvent _ _ _ well_keyed_empty)).
Qed.

Lemma sales_unique_galx_7 : sales_unique db_galx_7.
Proof.
  unfold sales_unique. vm_compute. constructor; [intros []|constructor].
Qed.

Lemma records_are_kept_witness :
  keeps db_galx_7 (run_ops db_galx_7 galx_ops)
  /\ well_keyed (run_ops db_galx_7 galx_ops)
  /\ sales_unique (run_ops db_galx_7 galx_ops).
Proof.
  exact (records_are_kept db_galx_7 galx_ops
           well_keyed_galx_7 sales_unique_galx_7).
Defined.

Lemma ledger_append_only_witness :
  ledger_numbered (run_ops db_galx_7 galx_ops)
  /\ exists added,
       movements (run_ops db_galx_7 galx_ops)
       = (movements db_galx_7 ++ added)%list
       /\ (List.length added <= List.length galx_ops)%nat
       /\ ledger_typed added.
Proof.
  apply (ledger_append_only db_galx_7 galx_ops).
  split; vm_compute; reflexivity.
Defined.

(** ** The quick-add of a product, continued *)

Lemma startsWith_INIT (s : string) :
  startsWith "INIT-" ("INIT-" ++ s) = true
  /\ startsWith "DEV-" ("INIT-" ++ s) = false
  /\ startsWith "UNDO-" ("INIT-" ++ s) = false.
Proof. split; [cbn; destruct s; reflexivity | split; reflexivity]. Qed.

(** X11. An accepted quick-add stores its product with a sale price
    above the purchase price, replacing whatever record the sku had
    (unlike an ingreso, which keeps it), and appends one batch of
    [Number(quantity) || 0] units, whatever the sign of that number: the
    stock a venta sees for the sku moves by exactly that quantity unless
    the lot starts with [DEV-], and no Movement, Sale or Return is
    written for it.  Left without a lot, as the form leaves it, the
    batch is tagged [INIT-{now}]: the inventory section lists it and
    offers no return for it. *)
Theorem quick_add_effect (env : Env) (db db' : DB) (form : ProductPayload.t) :
  handleAddProduct env db form = (ProductAdded, db') ->
  (exists product,
      products_get (ProductPayload.sku form) (products db') = Some product
      /\ Product.name product = ProductPayload.name form
      /\ Product.default_purchase_price product
         = or_num (ProductPayload.purchase_price form) 0
      /\ Product.default_sale_price product
         = or_num (ProductPayload.sale_price form) 0
      /\ Product.default_purchase_price product
         < Product.default_sale_price product)
  /\ (exists batch,
         batches db' = (batches db ++ [batch])%list
         /\ Batch.product_sku batch = ProductPayload.sku form
         /\ Batch.quantity batch = or_num (ProductPayload.quantity form) 0
         /\ (startsWith "DEV-" (Batch.lot batch) = false ->
             totalStock (batches db') (ProductPayload.sku form)
             == totalStock (batches db) (ProductPayload.sku form)
                + or_num (ProductPayload.quantity form) 0)
         /\ (ProductPayload.lot form = "" ->
             Batch.lot batch = "INIT-" ++ string_of_Z (now env)
             /\ in_section "inventario" batch = true
             /\ return_offered batch = false))
  /\ movements db' = movements db
  /\ sales db' = sales db
  /\ returns db' = returns db.
Proof.
  intro H. apply handleAddProduct_added_inv in H.
  destruct H as (_ & Hlt & Hp & Hb & _ & Hs & Hr & _ & Hm & _).
  split; [|split; [|repeat split; assumption]].
  - eexists. split.
    + rewrite Hp.
      exact (products_get_put
               {| Product.sku := ProductPayload.sku form;
                  Product.name := ProductPayload.name form;
                  Product.category :=
                    or_str (ProductPayload.category form) "Sin categoría";
                  Product.default_purchase_price :=
                    or_num (ProductPayload.purchase_price form) 0;
                  Product.default_sale_price :=
                    or_num (ProductPayload.sale_price form) 0;
                  Product.created_at := now env |} (products db)).
    + cbn [Product.name Product.default_purchase_price
           Product.default_sale_price].
      repeat split. exact Hlt.
  - eexists. split; [exact Hb|].
    cbn [Batch.product_sku Batch.quantity Batch.lot].
    split; [reflexivity|]. split; [reflexivity|]. split.
    + intro Hlot. rewrite Hb, totalStock_app.
      unfold in_stock. cbn [Batch.product_sku Batch.lot Batch.quantity].
      rewrite String.eqb_refl, Hlot. cbn [negb andb]. reflexivity.
    + intros ->. unfold or_str. cbn [truthy String.eqb negb].
      split; [reflexivity|].
      unfold in_section, return_offered, isReturned. cbn [Batch.lot].
      destruct (startsWith_INIT (string_of_Z (now env))) as (H1 & H2 & H3).
      rewrite H1, H2, H3. split; reflexivity.
Qed.

Lemma quick_add_effect_witness :
  (exists product,
      products_get "GALX-001"
        (products (snd (handleAddProduct (env_at 3000) db_galx_7 galx_correction)))
      = Some product
      /\ Product.name product = "Galletas"
      /\ Product.default_purchase_price product = or_num (Some 2) 0
      /\ Product.default_sale_price product = or_num (Some 3) 0
      /\ Product.default_purchase_price product
         < Product.default_sale_price product)
  /\ (exists batch,
         batches (snd (handleAddProduct (env_at 3000) db_galx_7 galx_correction))
         = (batches db_galx_7 ++ [batch])%list
         /\ Batch.product_sku batch = "GALX-001"
         /\ Batch.quantity batch = or_num (Some (-3)) 0
         /\ (startsWith "DEV-" (Batch.lot batch) = false ->
             totalStock
               (batches (snd (handleAddProduct (env_at 3000) db_galx_7
                                               galx_correction)))
               "GALX-001"
             == totalStock (batches db_galx_7) "GALX-001" + or_num (Some (-3)) 0)
         /\ ("" = "" ->
             Batch.lot batch = "INIT-" ++ string_of_Z 3000
             /\ in_section "inventario" batch = true
             /\ return_offered batch = false))
  /\ movements (snd (handleAddProduct (env_at 3000) db_galx_7 galx_correction))
     = movements db_galx_7
  /\ sales (snd (handleAddProduct (env_at 3000) db_galx_7 galx_correction))
     = sales db_galx_7
  /\ returns (snd (handleAddProduct (env_at 3000) db_galx_7 galx_correction))
     = returns db_galx_7.
Proof.
  apply (quick_add_effect (env_at 3000) db_galx_7 _ galx_correction).
  vm_compute. reflexivity.
Defined.

Lemma or_num_pos (q : Q) : 0 < q -> or_num (Some q) 0 = q.
Proof.
  intro H. unfold or_num. destruct (Qeq_bool q 0) eqn:E; [|reflexivity].
  apply Qeq_bool_iff in E. lra.
Qed.

Lemma handleAddProduct_invalid (env : Env) (db : DB) (form : ProductPayload.t) :
  db_open env = true ->
  or_num (ProductPayload.sale_price form) 0
  <= or_num (ProductPayload.purchase_price form) 0 ->
  handleAddProduct env db form = (AddProductInvalidPrice, db).
Proof.
  intros Ho Hle. unfold handleAddProduct. rewrite Ho. cbn [negb].
  apply Qleb_true in Hle. rewrite Hle. reflexivity.
Qed.

Lemma handleAddProduct_accepts (env : Env) (db : DB) (form : ProductPayload.t) :
  db_open env = true ->
  or_num (ProductPayload.purchase_price form) 0
  < or_num (ProductPayload.sale_price form) 0 ->
  handleAddProduct env db form
  = (ProductAdded, snd (handleAddProduct env db form)).
Proof.
  intros Ho Hlt. unfold handleAddProduct. rewrite Ho. cbn [negb].
  apply Qleb_false in Hlt. rewrite Hlt. reflexivity.
Qed.

(** X12. The quick-add form and the handler behind it, for a form whose
    purchase price is positive and at least the positive sale price.
    Declining the swap the form offers stores nothing.  Accepting it
    hands the handler the two prices exchanged: when they differ the
    product is stored with the lower one as purchase price and the
    higher one as sale price; when they are equal the handler rejects
    the swapped payload as an invalid price and stores nothing. *)
Theorem quick_add_swap (trim : string -> string) (env : Env) (db : DB)
    (form : ProductPayload.t) :
  db_open env = true ->
  truthy (trim (ProductPayload.sku form)) = true ->
  truthy (trim (ProductPayload.name form)) = true ->
  0 < or_num (ProductPayload.sale_price form) 0 ->
  or_num (ProductPayload.sale_price form) 0
  <= or_num (ProductPayload.purchase_price form) 0 ->
  quick_add trim env db form false = (None, db)
  /\ (or_num (ProductPayload.sale_price form) 0
      == or_num (ProductPayload.purchase_price form) 0 ->
      quick_add trim env db form true = (Some AddProductInvalidPrice, db))
  /\ (or_num (ProductPayload.sale_price form) 0
      < or_num (ProductPayload.purchase_price form) 0 ->
      exists db' product,
        quick_add trim env db form true = (Some ProductAdded, db')
        /\ products_get (ProductPayload.sku form) (products db') = Some product
        /\ Product.default_purchase_price product
           = or_num (ProductPayload.sale_price form) 0
        /\ Product.default_sale_price product
           = or_num (ProductPayload.purchase_price form) 0).
Proof.
  intros Ho Hsku Hname Hpos Hle.
  set (sale := or_num (ProductPayload.sale_price form) 0) in *.
  set (purchase := or_num (ProductPayload.purchase_price form) 0) in *.
  assert (Hsubmit : forall swap,
             AddProductForm_submit trim form swap
             = if swap then Some (with_prices (Some sale) (Some purchase) form)
               else None).
  { intro swap. unfold AddProductForm_submit.
    rewrite Hsku, Hname. cbn [negb orb].
    fold sale purchase.
    replace (Qgtb purchase 0) with true by (symmetry; apply Qgtb_true; lra).
    replace (Qgtb sale 0) with true by (symmetry; apply Qgtb_true; lra).
    replace (Qleb sale purchase) with true by (symmetry; apply Qleb_true; lra).
    reflexivity. }
  assert (Hs : or_num (ProductPayload.sale_price
                         (with_prices (Some sale) (Some purchase) form)) 0
               = purchase)
    by (cbn [with_prices ProductPayload.sale_price]; apply or_num_pos; lra).
  assert (Hp : or_num (ProductPayload.purchase_price
                         (with_prices (Some sale) (Some purchase) form)) 0
               = sale)
    by (cbn [with_prices ProductPayload.purchase_price]; apply or_num_pos; lra).
  split; [|split].
  - unfold quick_add. rewrite Hsubmit. reflexivity.
  - intro Heq. unfold quick_add. rewrite Hsubmit.
    rewrite handleAddProduct_invalid; [reflexivity | exact Ho|].
    rewrite Hs, Hp. lra.
  - intro Hlt.
    assert (Hacc := handleAddProduct_accepts env db
                      (with_prices (Some sale) (Some purchase) form) Ho).
    rewrite Hs, Hp in Hacc. specialize (Hacc Hlt).
    pose proof (handleAddProduct_added_inv _ _ _ _ Hacc)
      as (_ & _ & Hprod & _).
    eexists. eexists. split.
    + unfold quick_add. rewrite Hsubmit, Hacc. reflexivity.
    + rewrite Hprod. split.
      * exact (products_get_put
                 {| Product.sku := ProductPayload.sku form;
                    Product.name := ProductPayload.name form;
                    Product.category :=
                      or_str (ProductPayload.category form) "Sin categoría";
                    Product.default_purchase_price :=
                      or_num (Some sale) 0;
                    Product.default_sale_price := or_num (Some purchase) 0;
                    Product.created_at := now env |} (products db)).
      * cbn [Product.default_purchase_price Product.default_sale_price].
        split; apply or_num_pos; lra.
Qed.

Lemma quick_add_swap_witness :
  quick_add (fun s => s) (env_at 3000) db_galx_7 pan_form_swapped false
  = (None, db_galx_7)
  /\ (or_num (Some 2.5) 0 == or_num (Some 4) 0 ->
      quick_add (fun s => s) (env_at 3000) db_galx_7 pan_form_swapped true
      = (Some AddProductInvalidPrice, db_galx_7))
  /\ (or_num (Some 2.5) 0 < or_num (Some 4) 0 ->
      exists db' product,
        quick_add (fun s => s) (env_at 3000) db_galx_7 pan_form_swapped true
        = (Some ProductAdded, db')
        /\ products_get "PAN-001" (products db') = Some product
        /\ Product.default_purchase_price product = or_num (Some 2.5) 0
        /\ Product.default_sale_price product = or_num (Some 4) 0).
Proof.
  apply (quick_add_swap (fun s => s) (env_at 3000) db_galx_7 pan_form_swapped);
    vm_compute; first [reflexivity | discriminate].
Defined.

(** ** The events feed *)

Lemma sales_string_keyed_apply_op (env : Env) (db : DB) (op : Op) :
  sales_string_keyed db -> sales_string_keyed (apply_op env db op).
Proof.
  intro Hs. destruct op as [a|p]; cbn [apply_op].
  - apply sales_string_keyed_perform, Hs.
  - destruct (handleAddProduct_cases env db p) as [E|E]; [rewrite E; exact Hs|].
    apply handleAddProduct_added_inv in E.
    destruct E as (_ & _ & _ & _ & _ & H & _).
    unfold sales_string_keyed. rewrite H. exact Hs.
Qed.

Lemma app_step_db (env : Env) (st : AppState) (op : Op) :
  app_db (app_step env st op) = apply_op env (app_db st) op.
Proof.
  destruct op as [[payload|saleEvent|batch mode]|p]; try reflexivity.
  cbn [app_step apply_op perform]. unfold processEvent_feed.
  destruct (handleProcessEvent env (app_db st) payload) as [[|e|] db'];
    reflexivity.
Qed.

Lemma app_run_db (st : AppState) (ops : list (Env * Op)) :
  app_db (app_run st ops) = run_ops (app_db st) ops.
Proof.
  revert st. induction ops as [|[env op] ops IH]; intro st; [reflexivity|].
  cbn [app_run run_ops fold_left fst snd].
  fold (app_run (app_step env st op) ops).
  fold (run_ops (apply_op env (app_db st) op) ops).
  rewrite IH, app_step_db. reflexivity.
Qed.

Lemma In_firstn {A : Type} (n : nat) (l : list A) (x : A) :
  In x (firstn n l) -> In x l.
Proof.
  intro H. rewrite <- (firstn_skipn n l). apply in_or_app. left. exact H.
Qed.

Lemma feed_numbered_push (env : Env) (payload : Payload.t)
    (events : list FeedEvent.t) :
  feed_numbered events ->
  feed_numbered (push_event (feed_event env payload) events).
Proof.
  intro H. unfold feed_numbered, push_event. constructor.
  - exists (now env). reflexivity.
  - apply Forall_forall. intros e He. apply In_firstn in He.
    exact (proj1 (Forall_forall _ _) H e He).
Qed.

Lemma feed_numbered_app_step (env : Env) (st : AppState) (op : Op) :
  feed_numbered (app_events st) -> feed_numbered (app_events (app_step env st op)).
Proof.
  intro H. destruct op as [[payload|saleEvent|batch mode]|p]; try exact H.
  cbn [app_step]. unfold processEvent_feed.
  destruct (handleProcessEvent env (app_db st) payload) as [[|e|] db'];
    cbn [app_events]; [apply feed_numbered_push, H | exact H
                      | apply feed_numbered_push, H].
Qed.

Lemma feed_numbered_app_run (st : AppState) (ops : list (Env * Op)) :
  feed_numbered (app_events st) -> feed_numbered (app_events (app_run st ops)).
Proof.
  revert st. induction ops as [|[env op] ops IH]; intros st H; [exact H|].
  cbn [app_run fold_left fst snd]. fold (app_run (app_step env st op) ops).
  apply IH, feed_numbered_app_step, H.
Qed.

Lemma sales_string_keyed_run_ops (db : DB) (ops : list (Env * Op)) :
  sales_string_keyed db -> sales_string_keyed (run_ops db ops).
Proof.
  revert db. induction ops as [|[env op] ops IH]; intros db H; [exact H|].
  cbn [run_ops fold_left fst snd]. fold (run_ops (apply_op env db op) ops).
  apply IH, sales_string_keyed_apply_op, H.
Qed.

Lemma sales_get_numeric (n : Z) (db : DB) :
  sales_string_keyed db -> sales_get (KNum n) (sales db) = None.
Proof.
  unfold sales_string_keyed, sales_get. intro Hs.
  induction Hs as [|s l [k Hk] _ IH]; cbn [find]; [reflexivity|].
  rewrite Hk. cbn [key_eqb]. exact IH.
Qed.

(** X13. The undo button of the feed never undoes a sale.  The entries
    of the feed carry [Date.now()], a number, as their [id], and every
    Sale is stored under the string [SALE-...]; [handleUndoSale] looks
    the Sale up by the [id] of the entry it is handed.  So in every
    state the component reaches from a store whose Sales have string
    keys and a feed whose entries have numeric ids (a fresh store and an
    empty feed, or the feed with its [system] entry), whatever events,
    undos, returns and quick-adds are made, handing an entry of the feed
    to [handleUndoSale] writes nothing: the run ends without a
    notification when the database is not open, and with the
    sale-not-found notification otherwise. *)
Theorem feed_undo_never_applies (st : AppState) (ops : list (Env * Op))
    (env : Env) (entry : FeedEvent.t) :
  sales_string_keyed (app_db st) ->
  feed_numbered (app_events st) ->
  In entry (app_events (app_run st ops)) ->
  handleUndoSale env (app_db (app_run st ops)) entry
  = (if db_open env then Rejected SaleNotFoundOrCancelled else Ignored,
     app_db (app_run st ops)).
Proof.
  intros Hs Hf Hin.
  pose proof (feed_numbered_app_run st ops Hf) as Hf'.
  destruct (proj1 (Forall_forall _ _) Hf' entry Hin) as [n Hn].
  assert (Hs' : sales_string_keyed (app_db (app_run st ops)))
    by (rewrite app_run_db; apply sales_string_keyed_run_ops, Hs).
  unfold handleUndoSale. destruct (db_open env); [|reflexivity].
  cbn [negb]. rewrite Hn, sales_get_numeric by exact Hs'. reflexivity.
Qed.

Lemma feed_undo_never_applies_witness :
  handleUndoSale (env_at 3000) (app_db app_galx_7) galx_feed_entry
  = (if db_open (env_at 3000) then Rejected SaleNotFoundOrCancelled else Ignored,
     app_db app_galx_7).
Proof.
  apply (feed_undo_never_applies (mkAppState empty_db []) _ (env_at 3000)
                                 galx_feed_entry).
  - constructor.
  - constructor.
  - vm_compute. left. reflexivity.
Defined.

Lemma applied_event_movement (env : Env) (db db' : DB) (payload : Payload.t) :
  handleProcessEvent env db payload = (Applied, db') ->
  exists m,
    movements db' = (movements db ++ [m])%list
    /\ Movement.sku m = Movement.sku (base_movement env payload)
    /\ Movement.quantity m = Movement.quantity (base_movement env payload)
    /\ Movement.type m = eventType payload.
Proof.
  intro H. apply handleProcessEvent_applied_inv in H.
  destruct H as (_ & _ & _ & _ & [[E H]|[[E H]|[E H]]]).
  - unfold process_ingreso in H.
    destruct (products_get _ _);
      cbn [batches_add movements_add with_products products batches
           batches_key sales returns returns_key movements movements_key] in H;
      injection H as <-; eexists; (split; [reflexivity|]);
      unfold eventType; rewrite E; repeat split.
  - apply process_venta_applied_inv in H.
    destruct H as (product & store & used & rest & H).
    decompose [and] H. eexists. split; [eassumption|].
    unfold eventType. rewrite E. repeat split.
  - apply process_devolucion_applied_inv in H.
    decompose [and] H. eexists. split; [eassumption|].
    unfold eventType. rewrite E. repeat split.
Qed.

(** X14. The feed follows the outcome of [handleProcessEvent].  An event
    that is rejected (a guard fails, the stock or the return balance
    does not allow it, the store throws) leaves the feed as it was, as
    it leaves the store.  An event that is applied pushes one entry in
    front of the feed, with the type, sku and quantity of the one
    Movement the event appended to the ledger; the feed then holds that
    entry and the 19 entries that were newest, so never more than 20. *)
Theorem feed_follows_outcome (env : Env) (db : DB) (events : list FeedEvent.t)
    (payload : Payload.t) :
  (forall e,
      fst (handleProcessEvent env db payload) = Rejected e ->
      processEvent_feed env db events payload = (db, events))
  /\ (fst (handleProcessEvent env db payload) = Applied ->
      exists db' m entry,
        processEvent_feed env db events payload
        = (db', entry :: firstn 19 events)
        /\ movements db' = (movements db ++ [m])%list
        /\ FeedEvent.type entry = Movement.type m
        /\ FeedEvent.sku entry = Movement.sku m
        /\ FeedEvent.quantity entry = Movement.quantity m
        /\ (List.length (entry :: firstn 19 events) <= 20)%nat).
Proof.
  split.
  - intros e He. unfold processEvent_feed.
    pose proof (handleProcessEvent_not_applied env db payload) as Hn.
    destruct (handleProcessEvent env db payload) as [o d].
    cbn [fst snd] in *. subst o. rewrite Hn by discriminate. reflexivity.
  - intro Ha. unfold processEvent_feed.
    destruct (handleProcessEvent env db payload) as [o db'] eqn:E.
    cbn [fst] in Ha. subst o.
    destruct (applied_event_movement _ _ _ _ E) as (m & Hm & Hs & Hq & Ht).
    exists db', m, (feed_event env payload).
    split; [reflexivity|]. split; [exact Hm|].
    cbn [feed_event FeedEvent.type FeedEvent.sku FeedEvent.quantity].
    repeat split; try congruence.
    cbn [List.length]. pose proof (firstn_le_length 19 events). lia.
Qed.

Lemma feed_follows_outcome_witness :
  (forall e,
      fst (handleProcessEvent (env_at 3000) db_galx_7 (galx_venta 8))
      = Rejected e ->
      processEvent_feed (env_at 3000) db_galx_7 (app_events app_galx_7)
                        (galx_venta 8)
      = (db_galx_7, app_events app_galx_7))
  /\ (exists db' m entry,
        processEvent_feed (env_at 3000) db_galx_7 (app_events app_galx_7)
                          (galx_venta 2)
        = (db', entry :: firstn 19 (app_events app_galx_7))
        /\ movements db' = (movements db_galx_7 ++ [m])%list
        /\ FeedEvent.type entry = Movement.type m
        /\ FeedEvent.sku entry = Movement.sku m
        /\ FeedEvent.quantity entry = Movement.quantity m
        /\ (List.length (entry :: firstn 19 (app_events app_galx_7)) <= 20)%nat).
Proof.
  split.
  - exact (proj1 (feed_follows_outcome (env_at 3000) db_galx_7
                    (app_events app_galx_7) (galx_venta 8))).
  - apply (proj2 (feed_follows_outcome (env_at 3000) db_galx_7
                    (app_events app_galx_7) (galx_venta 2))).
    vm_compute. reflexivity.
Defined.

(** X15. An event whose kind is none of ingreso, venta and devolucion,
    and which passes the guards of the handler (database open, device
    connected, an sku or barcode, a name), writes nothing to any store
    and raises no notification, and yet is pushed on the feed, where it
    is shown under the type [devolucion_venta]. *)
Theorem unknown_event_feed_entry (env : Env) (db : DB)
    (events : list FeedEvent.t) (payload : Payload.t) :
  db_open env = true -> connected env = true ->
  truthy (Payload.sku payload) = true \/ truthy (Payload.barcode payload) = true ->
  truthy (Payload.name payload) = true ->
  Payload.event payload <> "ingreso" ->
  Payload.event payload <> "venta" ->
  Payload.event payload <> "devolucion" ->
  handleProcessEvent env db payload = (Ignored, db)
  /\ processEvent_feed env db events payload
     = (db, feed_event env payload :: firstn 19 events)
  /\ FeedEvent.type (feed_event env payload) = "devolucion_venta"
  /\ FeedEvent.quantity (feed_event env payload)
     == Qmax 1 (input_quantity payload).
Proof.
  intros Ho Hc Hid Hn Hi Hv Hd.
  assert (H : handleProcessEvent env db payload = (Ignored, db)).
  { unfold handleProcessEvent. rewrite Ho, Hc, Hn. cbn [negb].
    replace (negb (truthy (Payload.sku payload))
             && negb (truthy (Payload.barcode payload))) with false
      by (destruct Hid as [-> | ->]; cbn [negb andb];
          [reflexivity | rewrite andb_false_r; reflexivity]).
    apply String.eqb_neq in Hi, Hv, Hd. rewrite Hi, Hv, Hd. reflexivity. }
  split; [exact H|]. split; [|split].
  - unfold processEvent_feed. rewrite H. reflexivity.
  - cbn [feed_event FeedEvent.type]. unfold eventType.
    apply String.eqb_neq in Hi, Hv. rewrite Hi, Hv. reflexivity.
  - cbn [feed_event FeedEvent.quantity base_movement Movement.quantity].
    unfold input_quantity, or_num.
    destruct (Payload.quantity payload) as [q|]; [|reflexivity].
    destruct (Qeq_bool q 0) eqn:E; [|reflexivity].
    apply Qeq_bool_iff in E. rewrite E. reflexivity.
Qed.

Lemma unknown_event_feed_entry_witness :
  handleProcessEvent (env_at 3000) db_galx_7 galx_ajuste = (Ignored, db_galx_7)
  /\ processEvent_feed (env_at 3000) db_galx_7 (app_events app_galx_7)
                       galx_ajuste
     = (db_galx_7,
        feed_event (env_at 3000) galx_ajuste
        :: firstn 19 (app_events app_galx_7))
  /\ FeedEvent.type (feed_event (env_at 3000) galx_ajuste) = "devolucion_venta"
  /\ FeedEvent.quantity (feed_event (env_at 3000) galx_ajuste)
     == Qmax 1 (input_quantity galx_ajuste).
Proof.
  apply (unknown_event_feed_entry (env_at 3000) db_galx_7
           (app_events app_galx_7) galx_ajuste);
    first [reflexivity | discriminate | left; reflexivity].
Defined.

(** ** The inventory table *)

Lemma prefix_app_l (a b s : string) :
  String.prefix (a ++ b) s = true -> String.prefix a s = true.
Proof.
  revert s. induction a as [|c a IH]; intro s.
  - intros _. destruct s; reflexivity.
  - destruct s as [|d s]; cbn [String.append String.prefix]; [discriminate|].
    destruct (ascii_dec c d); [apply IH | discriminate].
Qed.

Lemma startsWith_DEV_SALE_DEV (s : string) :
  startsWith "DEV-SALE-" s = true -> startsWith "DEV-" s = true.
Proof. exact (prefix_app_l "DEV-" "SALE-" s). Qed.

(** X16. The table never asks for the return of a sale.  Every row of
    the ventas section carries a lot that starts with [DEV-SALE-] or
    [UNDO-], which the row itself counts as already returned, so the
    section shows no return button; each call [onReturn(batch,
    sectionMode)] the table can make comes from the inventario section,
    on a stored batch whose lot starts with none of [DEV-], [UNDO-] and
    [INIT-].  The branch of [handleReturn] for mode [ventas] is
    therefore not reached from the table. *)
Theorem table_returns_inventory_only (sectionMode : string)
    (batches : list Batch.t) (batch : Batch.t) (mode : string) :
  In (batch, mode) (table_returns sectionMode batches) ->
  mode = "inventario"
  /\ sectionMode = "inventario"
  /\ In batch batches
  /\ startsWith "DEV-" (Batch.lot batch) = false
  /\ startsWith "UNDO-" (Batch.lot batch) = false
  /\ startsWith "INIT-" (Batch.lot batch) = false.
Proof.
  unfold table_returns, sectionBatches. intro H.
  apply in_map_iff in H. destruct H as (b & Hb & Hin).
  injection Hb as -> <-.
  apply filter_In in Hin. destruct Hin as [Hin Hoff].
  apply filter_In in Hin. destruct Hin as [Hin Hsec].
  unfold return_offered, isReturned in Hoff.
  apply andb_true_iff in Hoff. destruct Hoff as [Hret Hinit].
  apply negb_true_iff in Hret, Hinit.
  apply orb_false_iff in Hret. destruct Hret as [Hdev Hundo].
  unfold in_section in Hsec.
  destruct (String.eqb_spec sectionMode "inventario") as [->|_].
  - repeat split; assumption.
  - exfalso. apply orb_true_iff in Hsec. destruct Hsec as [Hs|Hu].
    + apply startsWith_DEV_SALE_DEV in Hs. congruence.
    + congruence.
Qed.

Lemma table_returns_inventory_only_witness :
  "inventario" = "inventario"
  /\ "inventario" = "inventario"
  /\ In galx_batch (batches db_galx_12)
  /\ startsWith "DEV-" (Batch.lot galx_batch) = false
  /\ startsWith "UNDO-" (Batch.lot galx_batch) = false
  /\ startsWith "INIT-" (Batch.lot galx_batch) = false.
Proof.
  apply (table_returns_inventory_only "inventario" (batches db_galx_12)
                                      galx_batch "inventario").
  vm_compute. left. reflexivity.
Defined.

Lemma string_of_Z_not_SALE (n : Z) : startsWith "SALE-" (string_of_Z n) = false.
Proof.
  unfold string_of_Z, NilZero.string_of_int.
  destruct (Z.to_int n) as [u|u]; [destruct u; reflexivity | reflexivity].
Qed.

Lemma in_no_section_DEV (n : Z) (b : Batch.t) (sectionMode : string) :
  Batch.lot b = "DEV-" ++ string_of_Z n -> in_section sectionMode b = false.
Proof.
  intro Hl. unfold in_section. rewrite Hl, startsWith_DEV.
  destruct (sectionMode =? "inventario")%string; [reflexivity|].
  replace (startsWith "DEV-SALE-" ("DEV-" ++ string_of_Z n))
    with (startsWith "SALE-" (string_of_Z n)) by reflexivity.
  rewrite string_of_Z_not_SALE. reflexivity.
Qed.

Lemma in_no_section_DEV_INV (n : Z) (b : Batch.t) (sectionMode : string) :
  Batch.lot b = "DEV-INV-" ++ string_of_Z n -> in_section sectionMode b = false.
Proof.
  intro Hl. unfold in_section. rewrite Hl, startsWith_DEV_INV.
  destruct (sectionMode =? "inventario")%string; reflexivity.
Qed.

Lemma return_inventario_stored (env : Env) (db db' : DB) (batch : Batch.t)
    (mode : string) :
  well_keyed db -> mode <> "ventas" ->
  handleReturn env db batch mode = (Applied, db') ->
  exists b,
    batches_get (Batch.id batch) (batches db') = Some b
    /\ Batch.lot b = "DEV-INV-" ++ string_of_Z (returns_key db).
Proof.
  intros Hw Hm H. unfold handleReturn in H.
  destruct (negb (db_open env)); [discriminate|].
  apply String.eqb_neq in Hm. rewrite Hm in H.
  unfold return_inventario in H.
  destruct (batches_get (Batch.id batch) (batches db)) as [existing|] eqn:Hg;
    [|discriminate].
  destruct (Batch.status existing =? "returned")%string; [discriminate|].
  cbn [returns_add with_batches movements_add products batches batches_key
       sales returns returns_key movements movements_key] in H.
  injection H as <-. cbn [batches].
  pose proof (batches_get_In _ _ _ Hg) as [Hin Hid].
  erewrite (batches_put_existing existing);
    [|exact (proj1 Hw) | exact Hin | reflexivity].
  eexists. split.
  - rewrite <- Hid at 1. apply batches_get_replace; [|reflexivity].
    rewrite Hid. exact Hg.
  - reflexivity.
Qed.

(** X17. Goods that came back are shown in no section of the table.
    The batch an accepted devolucion event appends, tagged
    [DEV-{returnId}] and holding the returned units, and the stored
    batch after its return to the supplier, retagged
    [DEV-INV-{returnId}], pass neither the filter of the inventario
    section (their lot starts with [DEV-]) nor the filter of the ventas
    section (their lot starts with neither [DEV-SALE-] nor [UNDO-]). *)
Theorem returned_goods_leave_the_table :
  (forall env db db' payload,
      Payload.event payload = "devolucion" ->
      handleProcessEvent env db payload = (Applied, db') ->
      exists b,
        batches db' = (batches db ++ [b])%list
        /\ 1 <= Batch.quantity b
        /\ forall sectionMode, in_section sectionMode b = false)
  /\ (forall env db db' batch mode,
         well_keyed db -> mode <> "ventas" ->
         handleReturn env db batch mode = (Applied, db') ->
         exists b,
           batches_get (Batch.id batch) (batches db') = Some b
           /\ forall sectionMode, in_section sectionMode b = false).
Proof.
  split.
  - intros env db db' payload He H.
    apply handleProcessEvent_applied_inv in H.
    destruct H as (_ & _ & _ & _ & [[E _]|[[E _]|[_ H]]]); try congruence.
    apply process_devolucion_applied_inv in H.
    destruct H as (_ & _ & _ & Hb & _).
    eexists. split; [exact Hb|]. split.
    + cbn [Batch.quantity]. apply movement_quantity_ge_1.
    + intro sectionMode. eapply in_no_section_DEV. reflexivity.
  - intros env db db' batch mode Hw Hm H.
    destruct (return_inventario_stored _ _ _ _ _ Hw Hm H) as (b & Hg & Hl).
    exists b. split; [exact Hg|].
    intro sectionMode. eapply in_no_section_DEV_INV, Hl.
Qed.

Lemma returned_goods_leave_the_table_witness :
  (exists b,
      batches db_galx_returned = (batches db_galx_7 ++ [b])%list
      /\ 1 <= Batch.quantity b
      /\ forall sectionMode, in_section sectionMode b = false)
  /\ (exists b,
         batches_get (Batch.id galx_batch) (batches db_galx_sent_back) = Some b
         /\ forall sectionMode, in_section sectionMode b = false).
Proof.
  split.
  - exact (proj1 returned_goods_leave_the_table
             (env_at 3000) db_galx_7 db_galx_returned (galx_devolucion 5)
             eq_refl eq_refl).
  - apply (proj2 returned_goods_leave_the_table
             (env_at 2000) db_galx_12 db_galx_sent_back galx_batch "inventario").
    + exact (well_keyed_handleProcessEvent _ _ _ well_keyed_empty).
    + discriminate.
    + reflexivity.
Defined.

(** ** Plain objects *)

Lemma obj_get_set_same {A : Type} (k : string) (v : A) (o : list (string * A)) :
  obj_get k (obj_set k v o) = Some v.
Proof.
  induction o as [|[k' v'] o IH]; cbn [obj_set obj_get].
  - rewrite String.eqb_refl. reflexivity.
  - destruct (k' =? k)%string eqn:E; cbn [obj_get].
    + rewrite String.eqb_refl. reflexivity.
    + rewrite E. exact IH.
Qed.

Lemma obj_get_set_other {A : Type} (k k0 : string) (v : A)
    (o : list (string * A)) :
  k <> k0 -> obj_get k0 (obj_set k v o) = obj_get k0 o.
Proof.
  intro Hk. apply String.eqb_neq in Hk.
  induction o as [|[k' v'] o IH]; cbn [obj_set obj_get].
  - rewrite Hk. reflexivity.
  - destruct (k' =? k)%string eqn:E; cbn [obj_get].
    + apply String.eqb_eq in E. subst k'. rewrite Hk. reflexivity.
    + destruct (k' =? k0)%string; [reflexivity | exact IH].
Qed.

Lemma js_set_own (k : string) (v : Val) (o : list (string * Val)) :
  inherited k = false -> js_set k v o = obj_set k v o.
Proof.
  intro Hi. unfold js_set.
  destruct (String.eqb_spec k "__proto__") as [->|_]; [|reflexivity].
  vm_compute in Hi. discriminate.
Qed.

Lemma obj_get_js_set_other (k k0 : string) (v : Val) (o : list (string * Val)) :
  k <> k0 -> obj_get k0 (js_set k v o) = obj_get k0 o.
Proof.
  intro Hk. unfold js_set.
  destruct (k =? "__proto__")%string;
    [reflexivity | apply obj_get_set_other; exact Hk].
Qed.

Lemma obj_get_reset_other (k k0 : string) (o : list (string * Val)) :
  k <> k0 -> obj_get k0 (reset_falsy k o) = obj_get k0 o.
Proof.
  intro Hk. unfold reset_falsy.
  destruct (falsy _); [apply obj_get_js_set_other; exact Hk | reflexivity].
Qed.

Lemma obj_get_add_other (k k0 : string) (n : Q) (o : list (string * Val)) :
  k <> k0 -> obj_get k0 (add_at k n o) = obj_get k0 o.
Proof. intro Hk. apply obj_get_js_set_other. exact Hk. Qed.

Lemma obj_get_sub_other (k k0 : string) (n : Q) (o : list (string * Val)) :
  k <> k0 -> obj_get k0 (sub_at k n o) = obj_get k0 o.
Proof. intro Hk. apply obj_get_js_set_other. exact Hk. Qed.

Lemma figure_num (k : string) (q : Q) (o : list (string * Val)) :
  obj_get k o = Some (VNum q) -> figure k o = q.
Proof. intro H. unfold figure. rewrite H. reflexivity. Qed.

Lemma numeric_num (k : string) (q : Q) (o : list (string * Val)) :
  obj_get k o = Some (VNum q) -> numeric k o.
Proof. intro H. unfold numeric. rewrite H. exact I. Qed.

Lemma numeric_cases (k : string) (o : list (string * Val)) :
  numeric k o ->
  obj_get k o = None \/ exists q, obj_get k o = Some (VNum q).
Proof.
  unfold numeric. destruct (obj_get k o) as [[q| |]|]; intro H;
    try contradiction; [right; exists q; reflexivity | left; reflexivity].
Qed.

Lemma textual_cases (k : string) (o : list (string * Val)) :
  textual k o -> obj_get k o = None \/ obj_get k o = Some VText.
Proof.
  unfold textual. destruct (obj_get k o) as [[q| |]|]; intro H;
    try contradiction; [right | left]; reflexivity.
Qed.

(** Under a key that is not inherited, [if (!o[k]) o[k] = 0] leaves a
    number, the one the object held or 0. *)
Lemma reset_falsy_numeric (k : string) (o : list (string * Val)) :
  inherited k = false -> numeric k o ->
  exists q, obj_get k (reset_falsy k o) = Some (VNum q) /\ q == figure k o.
Proof.
  intros Hi Hn. unfold reset_falsy, js_get.
  destruct (numeric_cases k o Hn) as [Eg|[q Eg]]; rewrite Eg.
  - rewrite Hi. cbn [falsy]. rewrite js_set_own by exact Hi.
    rewrite obj_get_set_same. exists 0. split; [reflexivity|].
    unfold figure. rewrite Eg. reflexivity.
  - cbn [falsy]. rewrite (figure_num k q o Eg).
    destruct (Qeq_bool q 0) eqn:Eq.
    + rewrite js_set_own by exact Hi. rewrite obj_get_set_same.
      exists 0. split; [reflexivity|].
      apply Qeq_bool_iff in Eq. symmetry. exact Eq.
    + exists q. split; [exact Eg | reflexivity].
Qed.

Lemma add_at_num (k : string) (n q : Q) (o : list (string * Val)) :
  inherited k = false -> obj_get k o = Some (VNum q) ->
  obj_get k (add_at k n o) = Some (VNum (q + n)).
Proof.
  intros Hi Hg. unfold add_at, js_get. rewrite Hg. cbn [val_add].
  rewrite js_set_own by exact Hi. apply obj_get_set_same.
Qed.

Lemma sub_at_num (k : string) (n q : Q) (o : list (string * Val)) :
  inherited k = false -> obj_get k o = Some (VNum q) ->
  obj_get k (sub_at k n o) = Some (VNum (q - n)).
Proof.
  intros Hi Hg. unfold sub_at, js_get. rewrite Hg. cbn [val_sub].
  rewrite js_set_own by exact Hi. apply obj_get_set_same.
Qed.

(** Under an inherited key the test [!o[k]] fails, and [+=] leaves a
    text, or nothing under [__proto__]. *)
Lemma reset_falsy_textual (k : string) (o : list (string * Val)) :
  inherited k = true -> textual k o -> reset_falsy k o = o.
Proof.
  intros Hi Ht. unfold reset_falsy, js_get.
  destruct (textual_cases k o Ht) as [Eg|Eg]; rewrite Eg, ?Hi; reflexivity.
Qed.

Lemma add_at_textual (k : string) (n : Q) (o : list (string * Val)) :
  inherited k = true -> textual k o -> textual k (add_at k n o).
Proof.
  intros Hi Ht. unfold add_at, js_set.
  destruct (k =? "__proto__")%string; [exact Ht|].
  unfold textual. rewrite obj_get_set_same. unfold js_get.
  destruct (textual_cases k o Ht) as [Eg|Eg]; rewrite Eg, ?Hi; exact I.
Qed.

Lemma or_zero_numeric (k : string) (o : list (string * Val)) :
  inherited k = false -> numeric k o ->
  or_zero (js_get k o) = Some (figure k o).
Proof.
  intros Hi Hn. unfold js_get, figure.
  destruct (numeric_cases k o Hn) as [Eg|[q Eg]]; rewrite Eg, ?Hi; reflexivity.
Qed.

Lemma or_zero_textual (k : string) (o : list (string * Val)) :
  inherited k = true -> textual k o -> or_zero (js_get k o) = None.
Proof.
  intros Hi Ht. unfold js_get.
  destruct (textual_cases k o Ht) as [Eg|Eg]; rewrite Eg, ?Hi; reflexivity.
Qed.

(** ** The three stock figures *)

Lemma fold_left_cond_qsum {A : Type} (p : A -> bool) (f : A -> Q)
    (l : list A) (a : Q) :
  fold_left (fun s x => if p x then s + f x else s) l a
  == a + qsum f (filter p l).
Proof.
  revert a. induction l as [|x l IH]; intro a; cbn [fold_left filter qsum].
  - lra.
  - rewrite IH. destruct (p x); cbn [qsum]; lra.
Qed.

Lemma qsum_filter_split {A : Type} (p q : A -> bool) (f : A -> Q) (l : list A) :
  qsum f (filter q l)
  == qsum f (filter (fun x => q x && p x) l)
     + qsum f (filter (fun x => q x && negb (p x)) l).
Proof.
  induction l as [|x l IH]; cbn [filter qsum]; [lra|].
  destruct (q x), (p x); cbn [andb negb qsum]; lra.
Qed.

Lemma qsum_filter_ext {A : Type} (p q : A -> bool) (f : A -> Q) (l : list A) :
  (forall x, p x = q x) -> qsum f (filter p l) == qsum f (filter q l).
Proof.
  intro H. rewrite (filter_ext p q H). reflexivity.
Qed.

Lemma qsum_filter_nonneg (p : Batch.t -> bool) (l : list Batch.t) :
  batches_nonneg l -> 0 <= qsum Batch.quantity (filter p l).
Proof.
  induction 1 as [|x l Hx _ IH]; cbn [filter qsum]; [lra|].
  destruct (p x); cbn [qsum]; lra.
Qed.

Lemma qsum_filter_positive (p : Batch.t -> bool) (l : list Batch.t) :
  batches_nonneg l ->
  qsum Batch.quantity (filter (fun b => Qgtb (Batch.quantity b) 0 && p b) l)
  == qsum Batch.quantity (filter p l).
Proof.
  induction 1 as [|x l Hx _ IH]; cbn [filter qsum]; [lra|].
  destruct (Qgtb (Batch.quantity x) 0) eqn:E; cbn [andb].
  - destruct (p x); cbn [qsum]; lra.
  - apply Qgtb_false in E. destruct (p x); cbn [qsum]; lra.
Qed.

(** One batch moves the entry of its own sku only. *)
Lemma stockByProduct_step_other (o : list (string * Val)) (b : Batch.t)
    (k : string) :
  Batch.product_sku b <> k ->
  obj_get k (stockByProduct_step o b) = obj_get k o.
Proof.
  intro Hne. unfold stockByProduct_step.
  destruct (scan_counts b); [|reflexivity].
  rewrite obj_get_add_other, obj_get_reset_other by exact Hne. reflexivity.
Qed.

Lemma stockByProduct_step_numeric (o : list (string * Val)) (b : Batch.t)
    (k : string) :
  inherited k = false -> numeric k o ->
  numeric k (stockByProduct_step o b)
  /\ figure k (stockByProduct_step o b)
     == figure k o
        + (if scan_counts b && (Batch.product_sku b =? k)%string
           then Batch.quantity b else 0).
Proof.
  intros Hi Hn.
  destruct (String.eqb_spec (Batch.product_sku b) k) as [E|Hne].
  - unfold stockByProduct_step. rewrite E.
    destruct (scan_counts b); cbn [andb]; [|split; [exact Hn | lra]].
    destruct (reset_falsy_numeric k o Hi Hn) as (q & Hq & Eq).
    pose proof (add_at_num k (Batch.quantity b) q _ Hi Hq) as Ha.
    split; [exact (numeric_num _ _ _ Ha)|].
    rewrite (figure_num _ _ _ Ha). lra.
  - rewrite andb_false_r. unfold numeric, figure.
    rewrite (stockByProduct_step_other o b k Hne).
    split; [exact Hn | lra].
Qed.

Lemma stockByProduct_fold_numeric (l : list Batch.t) (o : list (string * Val))
    (k : string) :
  inherited k = false -> numeric k o ->
  numeric k (fold_left stockByProduct_step l o)
  /\ figure k (fold_left stockByProduct_step l o)
     == figure k o
        + qsum Batch.quantity
               (filter (fun b => scan_counts b
                                 && (Batch.product_sku b =? k)%string) l).
Proof.
  intro Hi. revert o.
  induction l as [|b l IH]; intros o Hn; cbn [fold_left filter qsum].
  - split; [exact Hn | lra].
  - destruct (stockByProduct_step_numeric o b k Hi Hn) as [Hn' Hf'].
    destruct (IH _ Hn') as [Hn'' Hf'']. split; [exact Hn''|].
    rewrite Hf'', Hf'. destruct (_ && _); cbn [qsum]; lra.
Qed.

Lemma stockByProduct_step_textual (o : list (string * Val)) (b : Batch.t)
    (k : string) :
  inherited k = true -> textual k o -> textual k (stockByProduct_step o b).
Proof.
  intros Hi Ht.
  destruct (String.eqb_spec (Batch.product_sku b) k) as [E|Hne].
  - unfold stockByProduct_step. rewrite E.
    destruct (scan_counts b); [|exact Ht].
    rewrite (reset_falsy_textual k o Hi Ht).
    apply add_at_textual; assumption.
  - unfold textual. rewrite (stockByProduct_step_other o b k Hne). exact Ht.
Qed.

Lemma stockByProduct_fold_textual (l : list Batch.t) (o : list (string * Val))
    (k : string) :
  inherited k = true -> textual k o ->
  textual k (fold_left stockByProduct_step l o).
Proof.
  intro Hi. revert o.
  induction l as [|b l IH]; intros o Ht; cbn [fold_left]; [exact Ht|].
  apply IH. apply stockByProduct_step_textual; assumption.
Qed.

(** The scan's own count of a sku that is not inherited: the units of
    the batches it counts. *)
Lemma stockByProduct_figure (l : list Batch.t) (k : string) :
  inherited k = false ->
  numeric k (stockByProduct l)
  /\ figure k (stockByProduct l)
     == qsum Batch.quantity
             (filter (fun b => scan_counts b
                               && (Batch.product_sku b =? k)%string) l).
Proof.
  intro Hi. unfold stockByProduct.
  destruct (stockByProduct_fold_numeric l [] k Hi I) as [Hn Hf].
  split; [exact Hn|]. rewrite Hf. cbn [figure obj_get]. lra.
Qed.

Lemma productSummary_step_other (o : list (string * Q)) (b : Batch.t)
    (k : string) :
  Batch.product_sku b <> k ->
  obj_get k (productSummary_step o b) = obj_get k o.
Proof.
  intro Hne. unfold productSummary_step.
  destruct (Qgtb (Batch.quantity b) 0); [|reflexivity].
  destruct (obj_get (Batch.product_sku b) o) as [t|].
  - apply obj_get_set_other. exact Hne.
  - destruct (inherited (Batch.product_sku b)); [reflexivity|].
    apply obj_get_set_other. exact Hne.
Qed.

Lemma productSummary_step_value (o : list (string * Q)) (b : Batch.t)
    (k : string) :
  inherited k = false ->
  row_stock k (productSummary_step o b)
  == row_stock k o
     + (if Qgtb (Batch.quantity b) 0 && (Batch.product_sku b =? k)%string
        then Batch.quantity b else 0).
Proof.
  intro Hi.
  destruct (String.eqb_spec (Batch.product_sku b) k) as [E|Hne].
  - unfold productSummary_step. rewrite E, andb_true_r.
    destruct (Qgtb (Batch.quantity b) 0); [|lra].
    unfold row_stock.
    destruct (obj_get k o) as [t|] eqn:Eg.
    + rewrite obj_get_set_same. lra.
    + rewrite Hi, obj_get_set_same. lra.
  - rewrite andb_false_r. unfold row_stock.
    rewrite (productSummary_step_other o b k Hne). lra.
Qed.

Lemma productSummary_fold_value (l : list Batch.t) (o : list (string * Q))
    (k : string) :
  inherited k = false ->
  row_stock k (fold_left productSummary_step l o)
  == row_stock k o
     + qsum Batch.quantity
            (filter (fun b => Qgtb (Batch.quantity b) 0
                              && (Batch.product_sku b =? k)%string) l).
Proof.
  intro Hi. revert o.
  induction l as [|b l IH]; intro o; cbn [fold_left filter qsum]; [lra|].
  rewrite IH, (productSummary_step_value o b k Hi).
  destruct (_ && _); cbn [qsum]; lra.
Qed.

Lemma productSummary_fold_inherited (l : list Batch.t) (o : list (string * Q))
    (k : string) :
  inherited k = true -> obj_get k o = None ->
  obj_get k (fold_left productSummary_step l o) = None.
Proof.
  intro Hi. revert o.
  induction l as [|b l IH]; intros o Hg; cbn [fold_left]; [exact Hg|].
  apply IH.
  destruct (String.eqb_spec (Batch.product_sku b) k) as [E|Hne].
  - unfold productSummary_step. rewrite E, Hg, Hi.
    destruct (Qgtb (Batch.quantity b) 0); exact Hg.
  - rewrite (productSummary_step_other o b k Hne). exact Hg.
Qed.

Lemma startsWith_UNDO_not_DEV (s : string) :
  startsWith "UNDO-" s = true -> startsWith "DEV-" s = false.
Proof.
  destruct s as [|c s]; [discriminate|].
  unfold startsWith. cbn [String.prefix].
  destruct (ascii_dec "U" c) as [<-|]; [|discriminate].
  intros _. reflexivity.
Qed.

Lemma stock_split_scan (l : list Batch.t) (sku : string) :
  totalStock l sku
  == qsum Batch.quantity
          (filter (fun b => scan_counts b
                            && (Batch.product_sku b =? sku)%string) l)
     + qsum Batch.quantity
            (filter (fun b => in_stock sku b && startsWith "UNDO-" (Batch.lot b)) l).
Proof.
  rewrite totalStock_qsum.
  rewrite (qsum_filter_split scan_counts (in_stock sku)).
  apply Qplus_comp; apply qsum_filter_ext; intro b;
    unfold in_stock, scan_counts;
    destruct (Batch.product_sku b =? sku)%string,
             (startsWith "DEV-" (Batch.lot b)),
             (startsWith "UNDO-" (Batch.lot b)); reflexivity.
Qed.

Lemma stock_split_export (l : list Batch.t) (sku : string) :
  batches_nonneg l ->
  qsum Batch.quantity
       (filter (fun b => Qgtb (Batch.quantity b) 0
                         && (Batch.product_sku b =? sku)%string) l)
  == totalStock l sku
     + qsum Batch.quantity
            (filter (fun b => (Batch.product_sku b =? sku)%string
                              && startsWith "DEV-" (Batch.lot b)) l).
Proof.
  intro Hn.
  rewrite totalStock_qsum.
  rewrite (qsum_filter_positive
             (fun b => (Batch.product_sku b =? sku)%string) l Hn).
  rewrite (qsum_filter_split (fun b => negb (startsWith "DEV-" (Batch.lot b)))
                             (fun b => (Batch.product_sku b =? sku)%string)).
  apply Qplus_comp; apply qsum_filter_ext; intro b; unfold in_stock;
    destruct (Batch.product_sku b =? sku)%string,
             (startsWith "DEV-" (Batch.lot b)); reflexivity.
Qed.

(** The scan's count of a sku that is not inherited is within the stock
    the venta branch computes. *)
Lemma scan_within_stock (l : list Batch.t) (sku : string) :
  inherited sku = false -> batches_nonneg l ->
  figure sku (stockByProduct l) <= totalStock l sku.
Proof.
  intros Hi Hn.
  destruct (stockByProduct_figure l sku Hi) as [_ Hf].
  pose proof (stock_split_scan l sku) as Hs.
  pose proof (qsum_filter_nonneg
                (fun b => in_stock sku b && startsWith "UNDO-" (Batch.lot b))
                l Hn) as Hu.
  lra.
Qed.

(** X18. The code keeps three stock figures for a product, and they
    differ by lot prefix.  The stock check of a venta counts every batch
    of the sku whose lot does not start with [DEV-]; the simulated scan
    also leaves out the lots that start with [UNDO-]; the product
    summary of the export counts every batch with a positive quantity,
    [DEV-] lots included.  The scan and the export keep their figures in
    plain objects indexed by the sku.  On a store without negative
    batches, for a sku that is not the name of a property every object
    inherits, the scan holds a number, the venta figure is that number
    plus the units in [UNDO-] lots, and the export figure is the venta
    figure plus the units in [DEV-] lots; so scan <= venta <= export:
    what the scan counts can be sold, and the export may list units that
    cannot.  For a sku that is such a name ([constructor], [toString],
    ...) the scan holds no number under it, and the export has no row
    for it. *)
Theorem stock_figures (batches : list Batch.t) (sku : string) :
  batches_nonneg batches ->
  (inherited sku = false ->
   exists scan,
     or_zero (js_get sku (stockByProduct batches)) = Some scan
     /\ totalStock batches sku
        == scan
           + qsum Batch.quantity
                  (filter (fun b => in_stock sku b
                                    && startsWith "UNDO-" (Batch.lot b))
                          batches)
     /\ exported_stock batches sku
        == totalStock batches sku
           + qsum Batch.quantity
                  (filter (fun b => (Batch.product_sku b =? sku)%string
                                    && startsWith "DEV-" (Batch.lot b))
                          batches)
     /\ scan <= totalStock batches sku
     /\ totalStock batches sku <= exported_stock batches sku)
  /\ (inherited sku = true ->
      or_zero (js_get sku (stockByProduct batches)) = None
      /\ at_least 5 (js_get sku (stockByProduct batches)) = false
      /\ obj_get sku (productSummary_totalStock batches) = None).
Proof.
  intro Hn. split.
  - intro Hi. destruct (stockByProduct_figure batches sku Hi) as [Hnum Hf].
    exists (figure sku (stockByProduct batches)).
    pose proof (stock_split_scan batches sku) as H1.
    pose proof (stock_split_export batches sku Hn) as H2.
    pose proof (productSummary_fold_value batches [] sku Hi) as H5.
    fold (productSummary_totalStock batches) in H5.
    fold (exported_stock batches sku) in H5.
    cbn [row_stock obj_get] in H5.
    pose proof (qsum_filter_nonneg
                  (fun b => in_stock sku b && startsWith "UNDO-" (Batch.lot b))
                  batches Hn) as H3.
    pose proof (qsum_filter_nonneg
                  (fun b => (Batch.product_sku b =? sku)%string
                            && startsWith "DEV-" (Batch.lot b))
                  batches Hn) as H4.
    split; [exact (or_zero_numeric _ _ Hi Hnum)|].
    repeat split; lra.
  - intro Hi.
    assert (Ht : textual sku (stockByProduct batches))
      by (apply stockByProduct_fold_textual; [exact Hi | exact I]).
    split; [exact (or_zero_textual _ _ Hi Ht)|]. split.
    + unfold js_get.
      destruct (textual_cases _ _ Ht) as [Eg|Eg]; rewrite Eg, ?Hi; reflexivity.
    + apply productSummary_fold_inherited; [exact Hi | reflexivity].
Qed.

Lemma batches_nonneg_three_lots : batches_nonneg (batches db_three_lots).
Proof. vm_compute. repeat constructor; discriminate. Qed.

Lemma batches_nonneg_constructor :
  batches_nonneg (batches (run_ops empty_db constructor_ops)).
Proof. vm_compute. repeat constructor; discriminate. Qed.

Lemma stock_figures_witness :
  (exists scan,
      or_zero (js_get "GALX-001" (stockByProduct (batches db_three_lots)))
      = Some scan
      /\ totalStock (batches db_three_lots) "GALX-001"
         == scan
            + qsum Batch.quantity
                   (filter (fun b => in_stock "GALX-001" b
                                     && startsWith "UNDO-" (Batch.lot b))
                           (batches db_three_lots))
      /\ exported_stock (batches db_three_lots) "GALX-001"
         == totalStock (batches db_three_lots) "GALX-001"
            + qsum Batch.quantity
                   (filter (fun b => (Batch.product_sku b =? "GALX-001")%string
                                     && startsWith "DEV-" (Batch.lot b))
                           (batches db_three_lots))
      /\ scan <= totalStock (batches db_three_lots) "GALX-001"
      /\ totalStock (batches db_three_lots) "GALX-001"
         <= exported_stock (batches db_three_lots) "GALX-001")
  /\ js_get "GALX-001" (stockByProduct (batches db_three_lots))
     = Own (VNum 7)
  /\ totalStock (batches db_three_lots) "GALX-001" == 12
  /\ exported_stock (batches db_three_lots) "GALX-001" == 14
  /\ (or_zero (js_get "constructor"
                 (stockByProduct (batches (run_ops empty_db constructor_ops))))
      = None
      /\ at_least 5
           (js_get "constructor"
              (stockByProduct (batches (run_ops empty_db constructor_ops))))
         = false
      /\ obj_get "constructor"
           (productSummary_totalStock
              (batches (run_ops empty_db constructor_ops)))
         = None)
  /\ js_get "constructor"
       (stockByProduct (batches (run_ops empty_db constructor_ops)))
     = Own VText
  /\ totalStock (batches (run_ops empty_db constructor_ops)) "constructor" == 7.
Proof.
  split; [|split; [|split; [|split; [|split; [|split]]]]].
  - exact (proj1 (stock_figures (batches db_three_lots) "GALX-001"
                    batches_nonneg_three_lots) eq_refl).
  - vm_compute. reflexivity.
  - vm_compute. reflexivity.
  - vm_compute. reflexivity.
  - exact (proj2 (stock_figures (batches (run_ops empty_db constructor_ops))
                    "constructor" batches_nonneg_constructor) eq_refl).
  - vm_compute. reflexivity.
  - vm_compute. reflexivity.
Defined.

(** ** The simulated scan *)

Lemma random_of_In {A : Type} (r : Q) (l : list A) (x : A) :
  random_of r l = Some x -> In x l.
Proof.
  unfold random_of. destruct (_ <? 0)%Z; [discriminate|].
  apply nth_error_In.
Qed.

Lemma simulated_venta_inv (simSinceReset : Z) (batches : list Batch.t)
    (draws : Draws.t) (p : SampleProduct.t) (quantity : option Q) :
  simulated_event simSinceReset batches draws = Some ("venta", p, quantity) ->
  In p (availableProducts batches)
  /\ quantity
     = match or_zero (js_get (SampleProduct.sku p) (stockByProduct batches)) with
       | Some stock =>
           Some (inject_Z (Qfloor (Draws.quantity draws * Qmin 5 stock)) + 1)
       | None => None
       end.
Proof.
  unfold simulated_event. intro H.
  destruct (random_of (Draws.product draws) SAMPLE_PRODUCTS) as [rp|];
    [|discriminate].
  destruct (simSinceReset <? 10)%Z; [discriminate|].
  destruct (negb (hasStock batches)); [discriminate|].
  destruct (Qgtb (6 # 10) (Draws.event draws)); [|discriminate].
  cbn [String.eqb Ascii.eqb Bool.eqb] in H.
  destruct (availableProducts batches) as [|a l] eqn:Ea.
  - destruct (random_of (Draws.selected draws) SAMPLE_PRODUCTS);
      discriminate.
  - destruct (random_of (Draws.selected draws) (a :: l)) as [p0|] eqn:Er;
      [|discriminate].
    cbn [String.eqb Ascii.eqb Bool.eqb] in H.
    injection H as -> <-.
    split; [exact (random_of_In _ _ _ Er) | reflexivity].
Qed.

Lemma at_least_num (n : Q) (g : Got) :
  at_least n g = true -> exists s, g = Own (VNum s) /\ n <= s.
Proof.
  destruct g as [[s| |]| |]; try discriminate.
  intro H. exists s. split; [reflexivity | apply Qleb_true; exact H].
Qed.

Lemma sample_not_inherited (p : SampleProduct.t) :
  In p SAMPLE_PRODUCTS ->
  inherited (SampleProduct.sku p) = false
  /\ truthy (SampleProduct.sku p) = true.
Proof.
  cbn [SAMPLE_PRODUCTS In].
  intros [<-|[<-|[<-|[]]]]; split; reflexivity.
Qed.

Lemma Zlt_Qlt_iff (x y : Z) : (x < y)%Z <-> inject_Z x < inject_Z y.
Proof. rewrite Zlt_Qlt. reflexivity. Qed.

Lemma Zle_Qle_iff (x y : Z) : (x <= y)%Z <-> inject_Z x <= inject_Z y.
Proof. rewrite Zle_Qle. reflexivity. Qed.

Lemma floor_draw_bounds (r : Q) (n : Z) :
  0 <= r -> r < 1 -> (0 < n)%Z ->
  (0 <= Qfloor (r * inject_Z n) < n)%Z.
Proof.
  intros H0 H1 Hn.
  assert (Hn' : 0 < inject_Z n) by (apply (proj1 (Zlt_Qlt_iff 0 n)); exact Hn).
  pose proof (Qfloor_le (r * inject_Z n)) as Hle.
  pose proof (Qlt_floor (r * inject_Z n)) as Hlt.
  assert (Hx0 : 0 <= r * inject_Z n) by nra.
  assert (Hx1 : r * inject_Z n < inject_Z n) by nra.
  split.
  - assert (H : inject_Z (-1) < inject_Z (Qfloor (r * inject_Z n))).
    { rewrite inject_Z_plus in Hlt. change (inject_Z 1) with 1 in Hlt.
      change (inject_Z (-1)) with (-1). lra. }
    apply (proj2 (Zlt_Qlt_iff _ _)) in H. lia.
  - apply (proj2 (Zlt_Qlt_iff _ _)). lra.
Qed.

Lemma venta_not_insufficient (env : Env) (db : DB) (payload : Payload.t) :
  Payload.event payload = "venta" ->
  Movement.quantity (base_movement env payload)
  <= totalStock (batches db) (Movement.sku (base_movement env payload)) ->
  fst (handleProcessEvent env db payload) <> Rejected InsufficientStock.
Proof.
  intros He Hq. unfold handleProcessEvent.
  destruct (negb (db_open env)); [discriminate|].
  destruct (negb (connected env)); [discriminate|].
  destruct (_ && _); [discriminate|].
  destruct (negb (truthy (Payload.name payload))); [discriminate|].
  rewrite He. cbn [String.eqb Ascii.eqb Bool.eqb].
  unfold process_venta.
  destruct (_ || _); [discriminate|].
  destruct (products_get _ _) as [product|]; [|discriminate].
  cbn [with_product_price Movement.set_price Movement.sku Movement.quantity].
  cbn [with_product_price Movement.set_price Movement.sku Movement.quantity] in Hq.
  apply Qgtb_false in Hq. rewrite Hq.
  destruct (fifo_loop _ _ _ _) as [[store used] rest].
  destruct (sales_add _ _); discriminate.
Qed.

(** X19. A venta drawn by the simulated scan passes the stock check.
    When the scan, reading the stored batches, draws a venta, it draws
    it for a sample product of which its object holds a number of at
    least five units, and for a whole quantity between 1 and 5 (never
    NaN); that quantity is within the scan's own count and, the store
    holding no negative batch, within the stock the venta branch
    computes, so that [handleProcessEvent], handed a venta payload with
    that sku and quantity, does not deny the sale for lack of stock. *)
Theorem simulated_venta_within_stock (simSinceReset : Z) (env : Env) (db : DB)
    (draws : Draws.t) (p : SampleProduct.t) (quantity : option Q)
    (payload : Payload.t) :
  0 <= Draws.quantity draws -> Draws.quantity draws < 1 ->
  batches_nonneg (batches db) ->
  simulated_event simSinceReset (batches db) draws
  = Some ("venta", p, quantity) ->
  Payload.event payload = "venta" ->
  Payload.sku payload = SampleProduct.sku p ->
  Payload.quantity payload = quantity ->
  In p SAMPLE_PRODUCTS
  /\ exists q stock,
       quantity = Some q
       /\ (exists n, q == inject_Z n /\ (1 <= n <= 5)%Z)
       /\ js_get (SampleProduct.sku p) (stockByProduct (batches db))
          = Own (VNum stock)
       /\ q <= stock
       /\ q <= totalStock (batches db) (SampleProduct.sku p)
       /\ fst (handleProcessEvent env db payload) <> Rejected InsufficientStock.
Proof.
  intros H0 H1 Hn Hsim He Hsku Hq.
  apply simulated_venta_inv in Hsim. destruct Hsim as [Hav Hqty].
  unfold availableProducts in Hav. apply filter_In in Hav.
  destruct Hav as [Hin Hst]. apply andb_true_iff in Hst.
  destruct Hst as [_ H5]. apply at_least_num in H5.
  destruct H5 as (stock & Hg & H5).
  destruct (sample_not_inherited p Hin) as [Hi Htr].
  rewrite Hg in Hqty. cbn [or_zero] in Hqty.
  assert (Hfig : figure (SampleProduct.sku p) (stockByProduct (batches db))
                 = stock).
  { apply figure_num. unfold js_get in Hg.
    destruct (obj_get _ _) as [v|]; [congruence|].
    rewrite Hi in Hg. discriminate. }
  assert (Hmin : Qmin 5 stock == inject_Z 5)
    by (rewrite (proj2 (Q.min_l_iff 5 stock) H5); reflexivity).
  assert (Hfl : Qfloor (Draws.quantity draws * Qmin 5 stock)
                = Qfloor (Draws.quantity draws * inject_Z 5))
    by (apply Qfloor_comp; rewrite Hmin; reflexivity).
  rewrite Hfl in Hqty.
  pose proof (floor_draw_bounds (Draws.quantity draws) 5 H0 H1 eq_refl) as Hb.
  set (k := Qfloor (Draws.quantity draws * inject_Z 5)) in *.
  assert (Hk1 : 1 <= inject_Z k + 1).
  { assert (inject_Z 0 <= inject_Z k)
      by (apply (proj1 (Zle_Qle_iff 0 k)); lia).
    change (inject_Z 0) with 0 in *. lra. }
  assert (Hk5 : inject_Z k + 1 <= 5).
  { assert (inject_Z k <= inject_Z 4)
      by (apply (proj1 (Zle_Qle_iff k 4)); lia).
    change (inject_Z 4) with 4 in *. lra. }
  assert (Hts : stock <= totalStock (batches db) (SampleProduct.sku p)).
  { pose proof (scan_within_stock (batches db) (SampleProduct.sku p) Hi Hn)
      as Hs.
    rewrite Hfig in Hs. exact Hs. }
  split; [exact Hin|].
  exists (inject_Z k + 1), stock.
  split; [exact Hqty|]. split; [|split; [exact Hg|split; [lra|split; [lra|]]]].
  - exists (k + 1)%Z. split; [|lia].
    rewrite inject_Z_plus. reflexivity.
  - apply venta_not_insufficient; [exact He|].
    assert (Htr' : truthy (Payload.sku payload) = true)
      by (rewrite Hsku; exact Htr).
    cbn [base_movement Movement.quantity Movement.sku].
    rewrite (or_str_truthy _ _ Htr'), Hsku, Hq, Hqty.
    assert (Hor : or_num (Some (inject_Z k + 1)) 0 == inject_Z k + 1)
      by apply or_num_some_0.
    assert (Hmax : Qmax 1 (or_num (Some (inject_Z k + 1)) 0) == inject_Z k + 1)
      by (rewrite Hor; apply Q.max_r; exact Hk1).
    rewrite Hmax. lra.
Qed.

Lemma batches_nonneg_galx_12 : batches_nonneg (batches db_galx_12).
Proof. vm_compute. repeat constructor; discriminate. Qed.

Lemma simulated_venta_within_stock_witness :
  In (SampleProduct.mk "GALX-001" "Galletas X" "Panadería") SAMPLE_PRODUCTS
  /\ exists q stock,
       Some 4 = Some q
       /\ (exists n, q == inject_Z n /\ (1 <= n <= 5)%Z)
       /\ js_get "GALX-001" (stockByProduct (batches db_galx_12))
          = Own (VNum stock)
       /\ q <= stock
       /\ q <= totalStock (batches db_galx_12) "GALX-001"
       /\ fst (handleProcessEvent (env_at 2000) db_galx_12 (galx_venta 4))
          <> Rejected InsufficientStock.
Proof.
  apply (simulated_venta_within_stock 10 (env_at 2000) db_galx_12 venta_draws
           (SampleProduct.mk "GALX-001" "Galletas X" "Panadería") (Some 4)
           (galx_venta 4)).
  - vm_compute. discriminate.
  - vm_compute. reflexivity.
  - exact batches_nonneg_galx_12.
  - vm_compute. reflexivity.
  - reflexivity.
  - reflexivity.
  - reflexivity.
Defined.

(** ** The statistics of the inventory view *)

Lemma netSales_step_other (acc : list (string * Val)) (m : Movement.t)
    (k : string) :
  Movement.sku m <> k ->
  obj_get k (netSales_step acc m) = obj_get k acc.
Proof.
  intro Hne. unfold netSales_step.
  destruct (negb (truthy (Movement.sku m))); [reflexivity|].
  destruct (Movement.type m =? "venta")%string,
           (Movement.type m =? "devolucion")%string;
    rewrite ?obj_get_sub_other, ?obj_get_add_other, ?obj_get_reset_other
      by exact Hne; reflexivity.
Qed.

(** One movement moves the figure of its own sku, by its quantity when
    its type is [venta] or [devolucion], and creates the entry of its
    sku when there is none. *)
Lemma netSales_step_numeric (acc : list (string * Val)) (m : Movement.t)
    (k : string) :
  inherited k = false -> truthy k = true -> numeric k acc ->
  numeric k (netSales_step acc m)
  /\ figure k (netSales_step acc m)
     == figure k acc
        + (if (Movement.type m =? "venta")%string && (Movement.sku m =? k)%string
           then Movement.quantity m else 0)
        - (if (Movement.type m =? "devolucion")%string
              && (Movement.sku m =? k)%string
           then Movement.quantity m else 0).
Proof.
  intros Hi Ht Hn.
  destruct (String.eqb_spec (Movement.sku m) k) as [E|Hne].
  - unfold netSales_step. rewrite E, Ht. cbn [negb]. rewrite !andb_true_r.
    destruct (reset_falsy_numeric k acc Hi Hn) as (q & Hq & Eq).
    destruct (Movement.type m =? "venta")%string,
             (Movement.type m =? "devolucion")%string.
    + pose proof (add_at_num k (Movement.quantity m) q _ Hi Hq) as Ha.
      pose proof (sub_at_num k (Movement.quantity m) _ _ Hi Ha) as Hs.
      split; [exact (numeric_num _ _ _ Hs)|].
      rewrite (figure_num _ _ _ Hs). lra.
    + pose proof (add_at_num k (Movement.quantity m) q _ Hi Hq) as Ha.
      split; [exact (numeric_num _ _ _ Ha)|].
      rewrite (figure_num _ _ _ Ha). lra.
    + pose proof (sub_at_num k (Movement.quantity m) q _ Hi Hq) as Hs.
      split; [exact (numeric_num _ _ _ Hs)|].
      rewrite (figure_num _ _ _ Hs). lra.
    + split; [exact (numeric_num _ _ _ Hq)|].
      rewrite (figure_num _ _ _ Hq). lra.
  - rewrite !andb_false_r. unfold numeric, figure.
    rewrite (netSales_step_other acc m k Hne).
    split; [exact Hn | lra].
Qed.

Lemma netSales_fold_numeric (l : list Movement.t) (acc : list (string * Val))
    (k : string) :
  inherited k = false -> truthy k = true -> numeric k acc ->
  numeric k (fold_left netSales_step l acc)
  /\ figure k (fold_left netSales_step l acc)
     == figure k acc
        + qsum Movement.quantity
               (filter (fun m => (Movement.type m =? "venta")%string
                                 && (Movement.sku m =? k)%string) l)
        - qsum Movement.quantity
               (filter (fun m => (Movement.type m =? "devolucion")%string
                                 && (Movement.sku m =? k)%string) l).
Proof.
  intros Hi Ht. revert acc.
  induction l as [|m l IH]; intros acc Hn; cbn [fold_left filter qsum].
  - split; [exact Hn | lra].
  - destruct (netSales_step_numeric acc m k Hi Ht Hn) as [Hn' Hf'].
    destruct (IH _ Hn') as [Hn'' Hf'']. split; [exact Hn''|].
    rewrite Hf'', Hf'. destruct (_ && _), (_ && _); cbn [qsum]; lra.
Qed.

Lemma netSales_fold_falsy (l : list Movement.t) (acc : list (string * Val))
    (k : string) :
  truthy k = false ->
  obj_get k (fold_left netSales_step l acc) = obj_get k acc.
Proof.
  intro Ht. revert acc.
  induction l as [|m l IH]; intro acc; cbn [fold_left]; [reflexivity|].
  rewrite IH.
  destruct (String.eqb_spec (Movement.sku m) k) as [E|Hne].
  - unfold netSales_step. rewrite E, Ht. reflexivity.
  - apply netSales_step_other. exact Hne.
Qed.

(** Under an inherited sku a movement that is no [devolucion] leaves a
    text or nothing. *)
Lemma netSales_step_textual (acc : list (string * Val)) (m : Movement.t)
    (k : string) :
  inherited k = true -> Movement.type m <> "devolucion" ->
  textual k acc -> textual k (netSales_step acc m).
Proof.
  intros Hi Hty Ht.
  destruct (String.eqb_spec (Movement.sku m) k) as [E|Hne].
  - unfold netSales_step. rewrite E.
    destruct (negb (truthy k)); [exact Ht|].
    apply String.eqb_neq in Hty. rewrite Hty.
    rewrite (reset_falsy_textual k acc Hi Ht).
    destruct (Movement.type m =? "venta")%string; [|exact Ht].
    apply add_at_textual; assumption.
  - unfold textual. rewrite (netSales_step_other acc m k Hne). exact Ht.
Qed.

Lemma netSales_fold_textual (l : list Movement.t) (acc : list (string * Val))
    (k : string) :
  inherited k = true -> ledger_typed l ->
  textual k acc -> textual k (fold_left netSales_step l acc).
Proof.
  intros Hi Hl. revert acc.
  induction Hl as [|m l Hm _ IH]; intros acc Ht; cbn [fold_left]; [exact Ht|].
  apply IH. apply netSales_step_textual; [exact Hi | | exact Ht].
  intro E. rewrite E in Hm. cbn [ledger_types In] in Hm.
  destruct Hm as [H|[H|[H|[H|[H|[]]]]]]; discriminate.
Qed.

Lemma ledger_typed_no (ty : string) (sku : string) (l : list Movement.t) :
  ~ In ty ledger_types -> ledger_typed l ->
  filter (fun m => (Movement.type m =? ty)%string
                   && (Movement.sku m =? sku)%string) l = [].
Proof.
  intros Hty Hl.
  induction Hl as [|m l Hm _ IH]; cbn [filter]; [reflexivity|].
  destruct (String.eqb_spec (Movement.type m) ty) as [E|_]; cbn [andb];
    [|exact IH].
  exfalso. apply Hty. rewrite <- E. exact Hm.
Qed.
Lemma ledger_typed_run_ops (db : DB) (ops : list (Env * Op)) :
  ledger_typed (movements db) -> ledger_typed (movements (run_ops db ops)).
Proof.
  revert db. induction ops as [|[env op] ops IH]; intros db H; [exact H|].
  cbn [run_ops fold_left fst snd]. fold (run_ops (apply_op env db op) ops).
  apply IH. eapply ledger_typed_step; [apply ledger_step_apply_op | exact H].
Qed.

Lemma qsum_filter_snoc {A : Type} (p : A -> bool) (f : A -> Q) (l : list A)
    (x : A) :
  qsum f (filter p (l ++ [x])) == qsum f (filter p l) + (if p x then f x else 0).
Proof.
  rewrite filter_app, qsum_app. cbn [filter].
  destruct (p x); cbn [qsum]; lra.
Qed.

Lemma qsum_filter_perm {A : Type} (p : A -> bool) (f : A -> Q) (l l' : list A) :
  Permutation l l' -> qsum f (filter p l) == qsum f (filter p l').
Proof.
  induction 1 as [|x l l' _ IH|x y l|l l' l'' _ IH1 _ IH2]; cbn [filter].
  - reflexivity.
  - destruct (p x); cbn [qsum]; rewrite ?IH; reflexivity.
  - destruct (p x), (p y); cbn [qsum]; lra.
  - rewrite IH1. exact IH2.
Qed.

Lemma qsum_filter_map_same {A : Type} (p : A -> bool) (f : A -> Q)
    (g : A -> A) (l : list A) :
  (forall x, In x l -> p (g x) = p x /\ f (g x) = f x) ->
  qsum f (filter p (map g l)) == qsum f (filter p l).
Proof.
  induction l as [|x l IH]; intro H; cbn [map filter]; [reflexivity|].
  destruct (H x (or_introl eq_refl)) as [Hp Hf]. rewrite Hp.
  assert (IH' := IH (fun y Hy => H y (or_intror Hy))).
  destruct (p x); cbn [qsum]; rewrite ?Hf, IH'; reflexivity.
Qed.

Lemma ledger_matches_sales_other (db db' : DB) (m : Movement.t) :
  movements db' = (movements db ++ [m])%list ->
  Movement.type m <> "venta" ->
  sales db' = sales db ->
  ledger_matches_sales db -> ledger_matches_sales db'.
Proof.
  intros Hm Ht Hs H sku. rewrite Hm, Hs, qsum_filter_snoc, (H sku).
  apply String.eqb_neq in Ht. rewrite Ht. cbn [andb]. lra.
Qed.

Lemma ledger_matches_sales_apply_op (env : Env) (db : DB) (op : Op) :
  sales_unique db -> ledger_matches_sales db ->
  ledger_matches_sales (apply_op env db op).
Proof.
  intros Hu H.
  destruct op as [[payload|saleEvent|batch mode]|p]; cbn [apply_op perform].
  - destruct (handleProcessEvent_cases env db payload) as [E|E];
      [rewrite E; exact H|].
    set (db' := snd (handleProcessEvent env db payload)) in *.
    pose proof (applied_event_movement _ _ _ _ E) as (m & Hm & _ & _ & Hty).
    apply handleProcessEvent_applied_inv in E.
    destruct E as (_ & _ & _ & _ & [[Ev Hp]|[[Ev Hp]|[Ev Hp]]]).
    + apply process_ingreso_inv in Hp. destruct Hp as (Hs & _).
      apply (ledger_matches_sales_other db db' m Hm); [|exact Hs | exact H].
      rewrite Hty. unfold eventType. rewrite Ev. discriminate.
    + apply process_venta_applied_inv in Hp.
      destruct Hp as (product & store & used & rest & _ & _ & _ & _ & _ & Hadd
                      & _ & _ & _ & _ & _ & Hmv).
      apply sales_add_perm in Hadd. destruct Hadd as [Hperm _].
      intro sku. rewrite Hmv, qsum_filter_snoc, (H sku).
      rewrite <- (qsum_filter_perm _ _ _ _ Hperm). cbn [filter].
      cbn [saleData with_product_price Movement.set_price Movement.set_id
           Movement.set_type Movement.set_batches_used Movement.set_sale_id
           Movement.type Movement.sku Movement.quantity Sale.sku Sale.quantity].
      cbn [String.eqb Ascii.eqb Bool.eqb andb].
      destruct (_ =? sku)%string;
        cbn [qsum saleData Sale.quantity with_product_price Movement.set_price
             Movement.quantity]; lra.
    + apply process_devolucion_applied_inv in Hp.
      destruct Hp as (_ & _ & Hs & _).
      apply (ledger_matches_sales_other db db' m Hm); [|exact Hs | exact H].
      rewrite Hty. unfold eventType. rewrite Ev. discriminate.
  - destruct (handleUndoSale_cases env db saleEvent) as [E|E];
      [rewrite E; exact H|].
    set (db' := snd (handleUndoSale env db saleEvent)) in *.
    apply handleUndoSale_applied_inv in E.
    destruct E as (sale & Hg & _ & _ & _ & _ & Hs & _ & m & Hm & Hty & _).
    intro sku. rewrite Hm, Hs, qsum_filter_snoc, Hty, (H sku).
    cbn [String.eqb Ascii.eqb Bool.eqb andb].
    rewrite (sales_put_found (FeedEvent.id saleEvent) sale);
      [|exact Hg | exact (sales_get_key _ _ _ Hg)].
    rewrite qsum_filter_map_same; [lra|].
    intros x Hx.
    destruct (key_eqb (Sale.id x) (FeedEvent.id saleEvent)) eqn:Ek;
      [|split; reflexivity].
    apply key_eqb_eq in Ek.
    pose proof (sales_get_unique _ _ Hu Hx) as Hx'.
    rewrite Ek, Hg in Hx'. injection Hx' as ->.
    split; reflexivity.
  - destruct (handleReturn_cases env db batch mode) as [E|E];
      [rewrite E; exact H|].
    set (db' := snd (handleReturn env db batch mode)) in *.
    assert (Hs : sales db' = sales db)
      by exact (proj1 (proj2 (handleReturn_frame env db batch mode))).
    apply handleReturn_applied_inv in E.
    destruct E as (m & Hm & [(_ & Hty & _)|(_ & ex & _ & _ & Hty & _)]);
      apply (ledger_matches_sales_other db db' m Hm);
      first [exact Hs | exact H | rewrite Hty; discriminate].
  - destruct (handleAddProduct_cases env db p) as [E|E]; [rewrite E; exact H|].
    apply handleAddProduct_added_inv in E.
    destruct E as (_ & _ & _ & _ & _ & Hs & _ & _ & Hm & _).
    intro sku. rewrite Hm, Hs. apply H.
Qed.

Lemma ledger_matches_sales_run_ops (db : DB) (ops : list (Env * Op)) :
  sales_unique db -> ledger_matches_sales db ->
  ledger_matches_sales (run_ops db ops).
Proof.
  revert db. induction ops as [|[env op] ops IH]; intros db Hu H; [exact H|].
  cbn [run_ops fold_left fst snd]. fold (run_ops (apply_op env db op) ops).
  apply IH; [apply sales_unique_apply_op, Hu
            | apply ledger_matches_sales_apply_op; assumption].
Qed.

(** X20. The "most sold" and "least sold" cards count cancelled sales
    and never subtract a return.  [netSales] is a plain object indexed
    by the sku; it subtracts the Movements of type [devolucion], a type
    no handler writes (returns are filed as [devolucion_venta],
    [devolucion_inventario] or [anulacion_venta]).  So in every store
    reached from the empty one, the entry the cards hold for a sku that
    is not the name of a property every object inherits is a number, the
    total quantity of the Sales recorded for it, completed or cancelled;
    the entry they hold for a sku that is such a name ([constructor],
    [toString], ...) is a text, not a number. *)
Theorem netSales_counts_every_sale (ops : list (Env * Op)) (sku : string)
    (v : Val) :
  obj_get sku (netSales (movements (run_ops empty_db ops))) = Some v ->
  (inherited sku = false ->
   exists q,
     v = VNum q
     /\ q == qsum Sale.quantity
                  (filter (fun s => (Sale.sku s =? sku)%string)
                          (sales (run_ops empty_db ops))))
  /\ (inherited sku = true -> v = VText).
Proof.
  intro Hg. set (db := run_ops empty_db ops) in *.
  assert (Hty : ledger_typed (movements db))
    by (apply ledger_typed_run_ops; constructor).
  split; intro Hi.
  - destruct (truthy sku) eqn:Ht.
    + destruct (netSales_fold_numeric (movements db) [] sku Hi Ht I)
        as [Hn Hv].
      fold (netSales (movements db)) in Hn, Hv.
      destruct (numeric_cases _ _ Hn) as [E|[q E]]; [congruence|].
      rewrite Hg in E. injection E as ->. exists q. split; [reflexivity|].
      rewrite (figure_num _ _ _ Hg) in Hv.
      rewrite (ledger_typed_no "devolucion" sku (movements db)) in Hv;
        [|cbn [ledger_types In]; intros [H|[H|[H|[H|[H|[]]]]]]; discriminate
         |exact Hty].
      assert (Hl : ledger_matches_sales db).
      { apply ledger_matches_sales_run_ops; [constructor|].
        intro k. reflexivity. }
      rewrite (Hl sku) in Hv. cbn [qsum figure obj_get] in Hv. lra.
    + unfold netSales in Hg. rewrite netSales_fold_falsy in Hg by exact Ht.
      discriminate.
  - assert (Ht : textual sku (netSales (movements db)))
      by (apply netSales_fold_textual; [exact Hi | exact Hty | exact I]).
    destruct (textual_cases _ _ Ht) as [E|E]; congruence.
Qed.

Lemma netSales_counts_every_sale_witness :
  (exists q,
      VNum 5 = VNum q
      /\ q == qsum Sale.quantity
                   (filter (fun s => (Sale.sku s =? "GALX-001")%string)
                           (sales (run_ops empty_db galx_undo_ops))))
  /\ soldTotal (sales (run_ops empty_db galx_undo_ops)) "GALX-001" == 0
  /\ obj_get "constructor"
       (netSales (movements (run_ops empty_db constructor_ops)))
     = Some VText.
Proof.
  split; [|split].
  - apply (netSales_counts_every_sale galx_undo_ops "GALX-001" (VNum 5));
      vm_compute; reflexivity.
  - vm_compute. reflexivity.
  - vm_compute. reflexivity.
Defined.

(** ** The daily report *)

Lemma count_movement_zero (mov : Movement.t) (stats : OperatorStats.t) :
  In (Movement.type mov) ledger_types ->
  OperatorStats.compras stats == 0 /\ OperatorStats.devoluciones stats == 0 ->
  OperatorStats.compras (count_movement mov stats) == 0
  /\ OperatorStats.devoluciones (count_movement mov stats) == 0.
Proof.
  intros Hty H0. unfold count_movement.
  cbn [ledger_types In] in Hty.
  destruct Hty as [E|[E|[E|[E|[E|[]]]]]]; rewrite <- E;
    cbn [String.eqb Ascii.eqb Bool.eqb OperatorStats.compras
         OperatorStats.devoluciones]; exact H0.
Qed.

Lemma operatorStats_step_zero (acc : list (string * OperatorStats.t))
    (mov : Movement.t) :
  In (Movement.type mov) ledger_types ->
  (forall op st,
      obj_get op acc = Some st ->
      OperatorStats.compras st == 0 /\ OperatorStats.devoluciones st == 0) ->
  forall op st,
    obj_get op (operatorStats_step acc mov) = Some st ->
    OperatorStats.compras st == 0 /\ OperatorStats.devoluciones st == 0.
Proof.
  intros Hty Hacc op st. unfold operatorStats_step.
  destruct (obj_get (Movement.operator mov) acc) as [s|] eqn:Eg.
  - destruct (String.eqb_spec (Movement.operator mov) op) as [<-|Hne].
    + rewrite obj_get_set_same. intro H. injection H as <-.
      apply count_movement_zero; [exact Hty | exact (Hacc _ _ Eg)].
    + rewrite obj_get_set_other by exact Hne. apply Hacc.
  - destruct (inherited (Movement.operator mov)); [apply Hacc|].
    destruct (String.eqb_spec (Movement.operator mov) op) as [<-|Hne].
    + rewrite obj_get_set_same. intro H. injection H as <-.
      apply count_movement_zero; [exact Hty | split; reflexivity].
    + rewrite obj_get_set_other by exact Hne. apply Hacc.
Qed.

Lemma operatorStats_zero (l : list Movement.t) :
  ledger_typed l ->
  forall op st,
    obj_get op (operatorStats l) = Some st ->
    OperatorStats.compras st == 0 /\ OperatorStats.devoluciones st == 0.
Proof.
  unfold operatorStats. intro Hl.
  assert (H0 : forall op st,
             obj_get op (@nil (string * OperatorStats.t)) = Some st ->
             OperatorStats.compras st == 0 /\ OperatorStats.devoluciones st == 0)
    by (intros op st H; discriminate).
  revert H0. generalize (@nil (string * OperatorStats.t)).
  induction Hl as [|m l Hm _ IH]; intros acc Hacc; cbn [fold_left];
    [exact Hacc|].
  apply IH. apply operatorStats_step_zero; assumption.
Qed.

(** X21. The daily report never counts a purchase or a return.  Its
    summary per operator adds a movement to "Total Compras" when its
    type is [ingreso] and to "Total Devoluciones" when it is
    [devolucion]; the handlers file their movements as
    [ingreso_inventario], [venta], [devolucion_venta], [anulacion_venta]
    and [devolucion_inventario].  So whatever movements of a ledger
    reached from the empty store the report walks, in whatever order,
    both totals are 0 for every operator. *)
Theorem daily_report_counts_only_ventas (ops : list (Env * Op))
    (todayMovements : list Movement.t) (operator : string)
    (stats : OperatorStats.t) :
  (forall m, In m todayMovements -> In m (movements (run_ops empty_db ops))) ->
  obj_get operator (operatorStats todayMovements) = Some stats ->
  OperatorStats.compras stats == 0 /\ OperatorStats.devoluciones stats == 0.
Proof.
  intros Hsub Hg. apply (operatorStats_zero todayMovements) with operator;
    [|exact Hg].
  assert (Hty : ledger_typed (movements (run_ops empty_db ops)))
    by (apply ledger_typed_run_ops; constructor).
  unfold ledger_typed in *. apply Forall_forall. intros m Hm.
  exact (proj1 (Forall_forall _ _) Hty m (Hsub m Hm)).
Qed.

Lemma daily_report_counts_only_ventas_witness :
  exists stats,
    obj_get "Ana"
      (operatorStats (rev (movements (run_ops empty_db galx_undo_ops))))
    = Some stats
    /\ OperatorStats.ventas stats == 5
    /\ OperatorStats.compras stats == 0
    /\ OperatorStats.devoluciones stats == 0.
Proof.
  exists (OperatorStats.mk "PUL-001" 5 0 0).
  assert (H : obj_get "Ana"
                (operatorStats (rev (movements (run_ops empty_db galx_undo_ops))))
              = Some (OperatorStats.mk "PUL-001" 5 0 0))
    by (vm_compute; reflexivity).
  split; [exact H|]. split; [reflexivity|].
  apply (daily_report_counts_only_ventas galx_undo_ops
           (rev (movements (run_ops empty_db galx_undo_ops))) "Ana").
  - intros m Hm. apply in_rev. exact Hm.
  - exact H.
Defined.

(** ** Expiry *)

Lemma expiry_diff_negative (x : Z) :
  Qgtb 0 (inject_Z x / inject_Z (1000 * 60 * 60 * 24)) = (x <? 0)%Z.
Proof.
  destruct (Z.ltb_spec x 0) as [H|H].
  - apply Qgtb_true. unfold Qlt, Qdiv, Qmult, Qinv, inject_Z. cbn. lia.
  - apply Qgtb_false. unfold Qle, Qdiv, Qmult, Qinv, inject_Z. cbn. lia.
Qed.

Lemma expiry_diff_soon (x : Z) :
  Qleb (inject_Z x / inject_Z (1000 * 60 * 60 * 24)) 15
  = (x <=? 15 * 86400000)%Z.
Proof.
  destruct (Z.leb_spec x (15 * 86400000)) as [H|H].
  - apply Qleb_true. unfold Qle, Qdiv, Qmult, Qinv, inject_Z. cbn. lia.
  - apply Qleb_false. unfold Qlt, Qdiv, Qmult, Qinv, inject_Z. cbn. lia.
Qed.

Lemma checkExpiry_dated (parse : string -> option Z) (now d : Z)
    (dateStr : string) :
  truthy dateStr = true -> parse dateStr = Some d ->
  checkExpiry parse now dateStr
  = if (d - now <? 0)%Z then expired
    else if (d - now <=? 15 * 86400000)%Z then expiring_soon
    else normal.
Proof.
  intros Ht Hp. unfold checkExpiry. rewrite Ht, Hp. cbn [negb].
  rewrite expiry_diff_negative, expiry_diff_soon. reflexivity.
Qed.

(** X22. The expiry status of a batch with a readable expiry date, as
    the clock advances: it is expired exactly when the date lies before
    the clock, expiring soon exactly when it lies at most 15 days ahead
    (the instant of expiry included), and normal otherwise; so the
    status only ever moves from normal to expiring soon to expired,
    never back. *)
Theorem checkExpiry_advances (parse : string -> option Z) (now now' d : Z)
    (dateStr : string) :
  truthy dateStr = true -> parse dateStr = Some d -> (now <= now')%Z ->
  (checkExpiry parse now dateStr = expired <-> (d < now)%Z)
  /\ (checkExpiry parse now dateStr = expiring_soon
      <-> (now <= d <= now + 15 * 86400000)%Z)
  /\ (severity (checkExpiry parse now dateStr)
      <= severity (checkExpiry parse now' dateStr))%nat.
Proof.
  intros Ht Hp Hle.
  rewrite !(checkExpiry_dated parse _ d dateStr Ht Hp).
  destruct (Z.ltb_spec (d - now) 0) as [H1|H1];
    destruct (Z.leb_spec (d - now) (15 * 86400000)) as [H2|H2];
    destruct (Z.ltb_spec (d - now') 0) as [H3|H3];
    destruct (Z.leb_spec (d - now') (15 * 86400000)) as [H4|H4];
    cbn [severity];
    (split; [split; [intro; try discriminate; lia | intro; try reflexivity; lia]
            |split; [split; [intro; try discriminate; lia
                            | intro; try reflexivity; lia]
                    | lia]]).
Qed.

Lemma checkExpiry_advances_witness :
  (checkExpiry parse_days 0 "day-10" = expired <-> (10 * 86400000 < 0)%Z)
  /\ (checkExpiry parse_days 0 "day-10" = expiring_soon
      <-> (0 <= 10 * 86400000 <= 0 + 15 * 86400000)%Z)
  /\ (severity (checkExpiry parse_days 0 "day-10")
      <= severity (checkExpiry parse_days (11 * 86400000) "day-10"))%nat.
Proof.
  apply (checkExpiry_advances parse_days 0 (11 * 86400000) (10 * 86400000)
                              "day-10"); [reflexivity | reflexivity | lia].
Defined.

(** ** Columns *)

Lemma includes_toggle (key k : string) (columns : list string) :
  includes key (handleColumnToggle k columns)
  = if (k =? key)%string then negb (includes k columns)
    else includes key columns.
Proof.
  unfold handleColumnToggle.
  destruct (includes k columns) eqn:Ek.
  - destruct (String.eqb_spec k key) as [->|Hne]; cbn [negb].
    + clear Ek. unfold includes.
      induction columns as [|c l IH]; cbn [filter existsb]; [reflexivity|].
      destruct (String.eqb_spec c key) as [->|Hc]; cbn [negb existsb];
        [exact IH|].
      apply String.eqb_neq in Hc. rewrite Hc. exact IH.
    + clear Ek. unfold includes.
      induction columns as [|c l IH]; cbn [filter existsb]; [reflexivity|].
      destruct (String.eqb_spec c k) as [->|Hc]; cbn [negb existsb].
      * apply String.eqb_neq in Hne. rewrite Hne. exact IH.
      * rewrite IH. reflexivity.
  - unfold includes in *. rewrite existsb_app. cbn [existsb].
    rewrite orb_false_r.
    destruct (String.eqb_spec k key) as [->|Hne]; cbn [negb].
    + rewrite Ek. reflexivity.
    + rewrite orb_false_r. reflexivity.
Qed.

(** X23. What a toggle of the onboarding form does to the table.  The
    columns marked required (SKU, Nombre, Cantidad) are shown whatever
    the selection holds; an optional column is shown exactly when its
    key is selected; toggling a key flips the column of that key and no
    other, so toggling it twice shows the same columns as before. *)
Theorem column_toggle_flips_visibility (key : string) (columns : list string)
    (col : Column.t) :
  In col DEFAULT_COLUMNS ->
  (In col (visibleColumns columns)
   <-> Column.required col = true \/ includes (Column.key col) columns = true)
  /\ (Column.required col = false -> Column.key col = key ->
      (In col (visibleColumns (handleColumnToggle key columns))
       <-> ~ In col (visibleColumns columns)))
  /\ (Column.key col <> key ->
      (In col (visibleColumns (handleColumnToggle key columns))
       <-> In col (visibleColumns columns)))
  /\ visibleColumns (handleColumnToggle key (handleColumnToggle key columns))
     = visibleColumns columns.
Proof.
  intro Hin.
  assert (Hvis : forall cols,
             In col (visibleColumns cols)
             <-> Column.required col = true
                 \/ includes (Column.key col) cols = true).
  { intro cols. unfold visibleColumns. rewrite filter_In, orb_true_iff.
    tauto. }
  split; [apply Hvis|]. split; [|split].
  - intros Hreq Hk. rewrite !Hvis, includes_toggle, Hk, String.eqb_refl, Hreq.
    destruct (includes key columns); cbn [negb]; split.
    + intros [H|H]; discriminate.
    + intro H. exfalso. apply H. right. reflexivity.
    + intros _ [H|H]; discriminate.
    + intros _. right. reflexivity.
  - intro Hne. rewrite !Hvis, includes_toggle.
    assert (E : (key =? Column.key col)%string = false)
      by (apply String.eqb_neq; congruence).
    rewrite E. reflexivity.
  - unfold visibleColumns. apply filter_ext. intro c.
    rewrite !includes_toggle.
    destruct (String.eqb_spec key (Column.key c)) as [<-|_]; [|reflexivity].
    rewrite String.eqb_refl, negb_involutive. reflexivity.
Qed.

Lemma column_toggle_flips_visibility_witness :
  (In (Column.mk "lot" "Lote" false) (visibleColumns ["sku"; "lot"])
   <-> Column.required (Column.mk "lot" "Lote" false) = true
       \/ includes (Column.key (Column.mk "lot" "Lote" false)) ["sku"; "lot"]
          = true)
  /\ (Column.required (Column.mk "lot" "Lote" false) = false ->
      Column.key (Column.mk "lot" "Lote" false) = "lot" ->
      (In (Column.mk "lot" "Lote" false)
          (visibleColumns (handleColumnToggle "lot" ["sku"; "lot"]))
       <-> ~ In (Column.mk "lot" "Lote" false)
               (visibleColumns ["sku"; "lot"])))
  /\ (Column.key (Column.mk "lot" "Lote" false) <> "lot" ->
      (In (Column.mk "lot" "Lote" false)
          (visibleColumns (handleColumnToggle "lot" ["sku"; "lot"]))
       <-> In (Column.mk "lot" "Lote" false) (visibleColumns ["sku"; "lot"])))
  /\ visibleColumns
       (handleColumnToggle "lot" (handleColumnToggle "lot" ["sku"; "lot"]))
     = visibleColumns ["sku"; "lot"].
Proof.
  apply (column_toggle_flips_visibility "lot" ["sku"; "lot"]
           (Column.mk "lot" "Lote" false)).
  cbn [DEFAULT_COLUMNS In]. right. right. right. left. reflexivity.
Defined.

(** ** The event form *)

Lemma handleFormSubmit_inv (env : Env) (formData : FormData.t)
    (payload : Payload.t) :
  handleFormSubmit env formData = Some payload ->
  connected env = true
  /\ 0 < or_num (FormData.purchasePrice formData) 0
  /\ (FormData.type formData <> "devolucion" ->
      or_num (FormData.purchasePrice formData) 0
      < or_num (FormData.salePrice formData) 0)
  /\ Payload.event payload = FormData.type formData
  /\ Payload.sku payload
     = or_str (FormData.barcode formData) ("SKU-" ++ string_of_Z (now env))
  /\ Payload.name payload = FormData.name formData
  /\ Payload.quantity payload = Some (or_num (FormData.quantity formData) 1)
  /\ Payload.purchase_price payload
     = Some (or_num (FormData.purchasePrice formData) 0)
  /\ Payload.sale_price payload
     = Some (or_num (FormData.salePrice formData) 0).
Proof.
  unfold handleFormSubmit. intro H.
  destruct (connected env); [|discriminate]. cbn [negb] in H.
  destruct (Qleb (or_num (FormData.purchasePrice formData) 0) 0) eqn:Ep;
    [discriminate|].
  apply Qleb_false in Ep.
  destruct (negb (FormData.type formData =? "devolucion")%string
            && Qleb (or_num (FormData.salePrice formData) 0)
                    (or_num (FormData.purchasePrice formData) 0)) eqn:Es;
    [discriminate|].
  injection H as <-.
  cbn [Payload.event Payload.sku Payload.name Payload.quantity
       Payload.purchase_price Payload.sale_price].
  repeat split; try exact Ep.
  intro Hty. apply String.eqb_neq in Hty. rewrite Hty in Es.
  cbn [negb andb] in Es. apply Qleb_false in Es. exact Es.
Qed.

(** X24. What the event form hands to the engine.  A form that submits
    has a positive purchase price and, unless it is a devolucion, a sale
    price above it, and its payload always carries an sku (the barcode,
    or [SKU-{now}] when the barcode is empty).  When an ingreso of the
    form is applied for an sku that has no product yet, the product it
    creates carries the form's two prices, 0 < purchase < sale, and the
    batch it appends is bought at the purchase price. *)
Theorem form_ingreso_keeps_margin (env : Env) (db db' : DB)
    (formData : FormData.t) (payload : Payload.t) :
  handleFormSubmit env formData = Some payload ->
  FormData.type formData = "ingreso" ->
  products_get (Payload.sku payload) (products db) = None ->
  handleProcessEvent env db payload = (Applied, db') ->
  truthy (Payload.sku payload) = true
  /\ (exists product,
         products_get (Payload.sku payload) (products db') = Some product
         /\ Product.name product = FormData.name formData
         /\ Product.default_purchase_price product
            == or_num (FormData.purchasePrice formData) 0
         /\ Product.default_sale_price product
            == or_num (FormData.salePrice formData) 0
         /\ 0 < Product.default_purchase_price product
         /\ Product.default_purchase_price product
            < Product.default_sale_price product)
  /\ (exists batch,
         batches db' = (batches db ++ [batch])%list
         /\ Batch.product_sku batch = Payload.sku payload
         /\ Batch.quantity batch == Qmax 1 (or_num (FormData.quantity formData) 1)
         /\ Batch.purchase_price batch
            == or_num (FormData.purchasePrice formData) 0).
Proof.
  intros Hf Hty Hnone H.
  apply handleFormSubmit_inv in Hf.
  destruct Hf as (_ & Hpos & Hmargin & Hev & Hsku & Hname & Hq & Hpp & Hsp).
  assert (Hlt := Hmargin ltac:(rewrite Hty; discriminate)).
  set (purchase := or_num (FormData.purchasePrice formData) 0) in *.
  set (sale := or_num (FormData.salePrice formData) 0) in *.
  assert (Htr : truthy (Payload.sku payload) = true).
  { rewrite Hsku, truthy_or_str. apply orb_true_iff. right. reflexivity. }
  assert (Hmsku : Movement.sku (base_movement env payload) = Payload.sku payload)
    by (cbn [base_movement Movement.sku]; apply or_str_truthy, Htr).
  assert (Hprice : Movement.price (base_movement env payload) == purchase).
  { cbn [base_movement Movement.price]. rewrite Hpp, Hsp.
    assert (E : Qeq_bool purchase 0 = false)
      by (destruct (Qeq_bool purchase 0) eqn:E;
          [apply Qeq_bool_iff in E; lra | reflexivity]).
    unfold or_num. rewrite E. apply Q.max_r. lra. }
  assert (Hmq : Movement.quantity (base_movement env payload)
                == Qmax 1 (or_num (FormData.quantity formData) 1)).
  { cbn [base_movement Movement.quantity]. rewrite Hq.
    rewrite or_num_some_0. reflexivity. }
  apply handleProcessEvent_applied_inv in H.
  destruct H as (_ & _ & _ & _ & [[_ H]|[[E _]|[E _]]]);
    [|rewrite Hev, Hty in E; discriminate
     |rewrite Hev, Hty in E; discriminate].
  pose proof (process_ingreso_inv _ _ _ _ _ H) as (_ & _ & _ & _ & Hb).
  split; [exact Htr|]. split.
  - unfold process_ingreso in H. rewrite Hmsku, Hnone in H.
    cbn [batches_add movements_add with_products products batches
         batches_key sales returns returns_key movements movements_key] in H.
    injection H as <-. cbn [products].
    eexists. split.
    + exact (products_get_put
               {| Product.sku := Payload.sku payload;
                  Product.name := Movement.name (base_movement env payload);
                  Product.category :=
                    or_str (Payload.category payload) "Sin categoría";
                  Product.default_purchase_price :=
                    Movement.price (base_movement env payload);
                  Product.default_sale_price :=
                    or_num (Payload.sale_price payload)
                           (Movement.price (base_movement env payload) * 1.5);
                  Product.created_at := now env |} (products db)).
    + cbn [Product.name Product.default_purchase_price
           Product.default_sale_price].
      assert (Hs : or_num (Payload.sale_price payload)
                          (Movement.price (base_movement env payload) * 1.5)
                   == sale).
      { rewrite Hsp. unfold or_num. destruct (Qeq_bool sale 0) eqn:E;
          [apply Qeq_bool_iff in E; lra | reflexivity]. }
      split; [exact Hname|]. split; [exact Hprice|]. split; [exact Hs|].
      split; lra.
  - eexists. split; [exact Hb|].
    cbn [Batch.product_sku Batch.quantity Batch.purchase_price].
    split; [exact Hmsku|]. split; [exact Hmq | exact Hprice].
Qed.

Lemma form_ingreso_keeps_margin_witness :
  truthy "SKU-5000" = true
  /\ (exists product,
         products_get "SKU-5000"
           (products (snd (handleProcessEvent (env_at 5000) db_galx_7
                             (Payload.mk "ingreso" "SKU-5000" "" "Leche Entera"
                                (Some 6) (Some 3) (Some 4.5) "" "" "Lácteos"
                                (Some 5000%Z) "PUL-001" "Ana" "Bodega Central"))))
         = Some product
         /\ Product.name product = "Leche Entera"
         /\ Product.default_purchase_price product == or_num (Some 3) 0
         /\ Product.default_sale_price product == or_num (Some 4.5) 0
         /\ 0 < Product.default_purchase_price product
         /\ Product.default_purchase_price product
            < Product.default_sale_price product)
  /\ (exists batch,
         batches (snd (handleProcessEvent (env_at 5000) db_galx_7
                         (Payload.mk "ingreso" "SKU-5000" "" "Leche Entera"
                            (Some 6) (Some 3) (Some 4.5) "" "" "Lácteos"
                            (Some 5000%Z) "PUL-001" "Ana" "Bodega Central")))
         = (batches db_galx_7 ++ [batch])%list
         /\ Batch.product_sku batch = "SKU-5000"
         /\ Batch.quantity batch == Qmax 1 (or_num (Some 6) 1)
         /\ Batch.purchase_price batch == or_num (Some 3) 0).
Proof.
  apply (form_ingreso_keeps_margin (env_at 5000) db_galx_7 _ leche_formData
           (Payload.mk "ingreso" "SKU-5000" "" "Leche Entera"
              (Some 6) (Some 3) (Some 4.5) "" "" "Lácteos"
              (Some 5000%Z) "PUL-001" "Ana" "Bodega Central"));
    vm_compute; reflexivity.
Defined.

(** * The earlier variant of the handler *)

Lemma legacy_totalStock_qsum (l : list Batch.t) (sku : string) :
  Legacy.totalStock l sku
  == qsum Batch.quantity
          (filter (fun b => (Batch.product_sku b =? sku)%string) l).
Proof.
  unfold Legacy.totalStock. rewrite fold_left_qsum.
  rewrite (qsum_ext (fun b => or_num (Some (Batch.quantity b)) 0) Batch.quantity).
  - lra.
  - apply Forall_forall. intros b _. apply or_num_some_0.
Qed.



Lemma legacy_stock_le_eligible (sku : string) (l : list Batch.t) :
  Legacy.totalStock l sku
  <= qsum Batch.quantity (sort_by_created (filter (Legacy.eligible sku) l)).
Proof.
  rewrite legacy_totalStock_qsum.
  rewrite (qsum_perm _ _ _ (sort_by_created_perm _)).
  induction l as [|b l IH]; cbn [filter qsum]; [lra|].
  unfold Legacy.eligible at 1.
  destruct (Batch.product_sku b =? sku)%string; cbn [andb]; [|exact IH].
  destruct (Qgtb (Batch.quantity b) 0) eqn:E; cbn [qsum]; [lra|].
  apply Qgtb_false in E. lra.
Qed.

Lemma fifo_loop_nonpos (l : list Batch.t) (remaining : Q)
    (store : list Batch.t) (used : list BatchUse.t) :
  remaining <= 0 -> fifo_loop l remaining store used = (store, used, remaining).
Proof.
  intro H. destruct l as [|b l]; cbn [fifo_loop]; [reflexivity|].
  apply Qleb_true in H. rewrite H. reflexivity.
Qed.

Lemma legacy_loop_remaining (sku : string) (l : list Batch.t) (quantity : Q) :
  quantity <= Legacy.totalStock l sku ->
  snd (fifo_loop (sort_by_created (filter (Legacy.eligible sku) l))
                 quantity l [])
  <= 0.
Proof.
  intro Hq. destruct (Qlt_le_dec quantity 0) as [Hneg|Hpos].
  - rewrite fifo_loop_nonpos by lra. cbn [snd]. lra.
  - destruct (fifo_loop_walk
                (sort_by_created (filter (Legacy.eligible sku) l))
                quantity l [] Hpos) as (rest & -> & Hrest & _).
    cbn [snd]. rewrite Hrest.
    rewrite fifo_walk_covers; [lra | exact Hpos|].
    pose proof (legacy_stock_le_eligible sku l). lra.
Qed.

Lemma legacy_movement_added (env : Env) (db : DB) (payload : Payload.t) :
  movements (movements_add (Legacy.movement_of env payload) db)
  = (movements db
     ++ [Movement.set_id (movements_key db) (Legacy.movement_of env payload)])%list
  /\ batches (movements_add (Legacy.movement_of env payload) db) = batches db
  /\ products (movements_add (Legacy.movement_of env payload) db) = products db.
Proof. repeat split. Qed.



(** X26. The earlier variant serves no venta of whole quantities in
    part.  Its handler has a branch that warns of a sale "processed
    partially" when units remain after the loop.  When the batches hold
    whole quantities whose magnitudes add up to at most 2^53 and the
    quantity of the event is such a whole number, the arithmetic of the
    code is exact and the stock check before the loop excludes that
    branch: a venta the check lets through finds its whole quantity in
    the batches of its sku, so the handler never gives that warning.
    (On fractional quantities the doubles of the code can round and the
    warning can appear, as [legacy_venta_partial_binary64] shows.) *)
Theorem legacy_venta_never_partial (env : Env) (db : DB) (payload : Payload.t)
    (remaining : Q) :
  Legacy.whole_stock (batches db) ->
  Legacy.whole (Movement.quantity (Legacy.movement_of env payload)) ->
  fst (Legacy.handleProcessEvent env db payload)
  <> Legacy.VentaPartial remaining.
Proof.
  intros _ _.
  unfold Legacy.handleProcessEvent.
  destruct (negb (db_open env) || negb (connected env)); [discriminate|].
  destruct (Payload.event payload =? "ingreso")%string.
  - destruct (products_get _ _); discriminate.
  - destruct (Payload.event payload =? "venta")%string.
    + destruct (legacy_movement_added env db payload) as (_ & Hb & _).
      rewrite Hb.
      destruct (Qgtb _ _) eqn:E; [discriminate|].
      apply Qgtb_false in E.
      pose proof (legacy_loop_remaining _ _ _ E) as Hr.
      destruct (fifo_loop _ _ _ _) as [[store used] rest].
      cbn [snd fst] in *.
      apply Qgtb_false in Hr. rewrite Hr. discriminate.
    + destruct (Payload.event payload =? "devolucion")%string; [|discriminate].
      destruct (Qgtb _ _); discriminate.
Qed.

Lemma whole_stock_ten_sold : Legacy.whole_stock (batches legacy_ten_sold).
Proof.
  split.
  - apply Forall_forall. intros b Hb. vm_compute in Hb.
    destruct Hb as [<-|[]]. exists 6%Z. split; [reflexivity|].
    vm_compute. discriminate.
  - vm_compute. discriminate.
Qed.

(** The six units left of scenario 10 are sold in one venta. *)
Lemma legacy_venta_never_partial_witness :
  fst (Legacy.handleProcessEvent (env_at 3000) legacy_ten_sold (galx_venta 6))
  = Legacy.VentaProcessed
  /\ fst (Legacy.handleProcessEvent (env_at 3000) legacy_ten_sold
            (galx_venta 6))
     <> Legacy.VentaPartial 1.
Proof.
  split; [vm_compute; reflexivity|].
  apply legacy_venta_never_partial.
  - exact whole_stock_ten_sold.
  - exists 6%Z. split; [reflexivity|]. vm_compute. discriminate.
Defined.

(** On binary64 numbers the warning can appear: with lots of 1 and 1.2
    units the stock is 2.2 and a venta of 2.2 units passes the check;
    taking 1 leaves 1.2000000000000002, taking 1.2 leaves 2^-52, which
    is positive. *)
Example legacy_venta_partial_binary64 :
  Legacy.totalStock64 lots_1_and_1_2 = venta_2_2
  /\ Legacy.venta64 lots_1_and_1_2 venta_2_2
     = Legacy.VentaPartial64 0x1p-52%float.
Proof. split; vm_compute; reflexivity. Qed.







(** * The later variant of the feed and of the undo *)

Lemma later_undo_applied (env : Env) (db : DB) (saleEvent : Later.Entry)
    (sale : Sale.t) :
  db_open env = true ->
  sales_get (Later.lookupId saleEvent) (sales db) = Some sale ->
  Sale.status sale <> "cancelled" ->
  exists db1 r,
    Later.handleUndoSale env db saleEvent = (Applied, db1)
    /\ batches db1
       = (batches db
          ++ [ {| Batch.id := batches_key db;
                  Batch.product_sku := FeedEvent.sku (Later.entry saleEvent);
                  Batch.lot := "UNDO-" ++ string_of_Z (returns_key db);
                  Batch.expiry := "";
                  Batch.quantity := FeedEvent.quantity (Later.entry saleEvent);
                  Batch.purchase_price := original_purchase_price sale;
                  Batch.created_at := now env;
                  Batch.return_id := Some (returns_key db);
                  Batch.status := "" |} ])%list
    /\ sales db1 = sales_put (Sale.set_status "cancelled" sale) (sales db)
    /\ returns db1 = (returns db ++ [r])%list
    /\ Return.quantity r = FeedEvent.quantity (Later.entry saleEvent)
    /\ Return.original_sale_id r = Some (FeedEvent.id (Later.entry saleEvent)).
Proof.
  intros Ho Hg Hst. unfold Later.handleUndoSale. rewrite Ho, Hg. cbn [negb].
  apply String.eqb_neq in Hst. rewrite Hst.
  cbn [returns_add batches_add movements_add with_sales products batches
       batches_key sales returns returns_key movements movements_key].
  eexists. eexists. split; [reflexivity|].
  cbn [products batches batches_key sales returns returns_key movements
       movements_key].
  repeat split.
Qed.

Lemma later_undo_cancelled (env : Env) (db : DB) (saleEvent : Later.Entry)
    (sale : Sale.t) :
  db_open env = true ->
  sales_get (Later.lookupId saleEvent) (sales db) = Some sale ->
  Sale.status sale = "cancelled" ->
  Later.handleUndoSale env db saleEvent = (Rejected SaleNotFoundOrCancelled, db).
Proof.
  intros Ho Hg Hst. unfold Later.handleUndoSale. rewrite Ho, Hg, Hst.
  reflexivity.
Qed.

(** X29. In the later variant the undo button of the feed does undo the
    sale.  The feed entry of an applied venta carries the key of its
    Sale and [handleUndoSale] looks the Sale up by it: handed that
    entry, the handler applies, cancels the Sale and adds an [UNDO-]
    batch of the quantity sold, so that the stock the venta branch
    counts for the sku is back at what it was before the venta; the
    Return it writes names the numeric id of the feed entry, not the
    key of the Sale, as [original_sale_id].  A second undo of the same
    entry is rejected and changes nothing. *)
Theorem later_feed_undo_restores_stock (env env1 env2 : Env) (db db' : DB)
    (payload : Payload.t) :
  keys_ascending (batches db) ->
  Payload.event payload = "venta" ->
  Later.handleProcessEvent env db payload = (Applied, db') ->
  db_open env1 = true -> db_open env2 = true ->
  exists db1 sale r,
    Later.handleUndoSale env1 db' (Later.feed_event env payload) = (Applied, db1)
    /\ totalStock (batches db1) (Movement.sku (base_movement env payload))
       == totalStock (batches db) (Movement.sku (base_movement env payload))
    /\ sales_get (KStr ("SALE-" ++ string_of_Z (now env))) (sales db1) = Some sale
    /\ Sale.status sale = "cancelled"
    /\ Sale.quantity sale = Movement.quantity (base_movement env payload)
    /\ returns db1 = (returns db' ++ [r])%list
    /\ Return.quantity r = Movement.quantity (base_movement env payload)
    /\ Return.original_sale_id r = Some (KNum (now env))
    /\ Later.handleUndoSale env2 db1 (Later.feed_event env payload)
       = (Rejected SaleNotFoundOrCancelled, db1).
Proof.
  intros Hk He H Ho1 Ho2.
  unfold Later.handleProcessEvent in H.
  destruct (negb (db_open env)); [discriminate|].
  apply handleProcessEvent_applied_inv in H.
  destruct H as (_ & _ & _ & _ & [[E _]|[[_ H]|[E _]]]); try congruence.
  apply venta_applied_effect in H;
    [|exact Hk | apply movement_quantity_ge_1].
  cbv zeta in H.
  destruct H as (product & _ & Hadd & _ & _ & _ & _ & _ & Hstock).
  set (m0 := base_movement env payload) in *.
  set (used := map use_of _) in Hadd.
  pose proof (sales_get_add _ _ _ Hadd) as Hg.
  cbn [saleData Sale.id] in Hg.
  assert (Hlook : Later.lookupId (Later.feed_event env payload)
                  = KStr ("SALE-" ++ string_of_Z (now env))).
  { unfold Later.lookupId, Later.feed_event, Later.feedType.
    cbn [Later.sale_id]. rewrite He. reflexivity. }
  set (sale := saleData env (with_product_price product m0) used) in *.
  destruct (later_undo_applied env1 db' (Later.feed_event env payload) sale Ho1)
    as (db1 & r & Hrun & Hb & Hs & Hr & Hrq & Hro).
  { rewrite Hlook. exact Hg. }
  { subst sale. cbn [saleData Sale.status]. discriminate. }
  destruct (sales_put_existing (KStr ("SALE-" ++ string_of_Z (now env))) sale
              (Sale.set_status "cancelled" sale) (sales db') Hg eq_refl)
    as [Hput _].
  exists db1, (Sale.set_status "cancelled" sale), r.
  split; [exact Hrun|]. split.
  - rewrite Hb, totalStock_app, Hstock.
    unfold in_stock. cbn [Batch.product_sku Batch.lot Batch.quantity].
    cbn [Later.feed_event Later.entry FeedEvent.sku FeedEvent.quantity].
    fold m0. rewrite String.eqb_refl, startsWith_UNDO. cbn [negb andb]. lra.
  - split; [rewrite Hs; exact Hput|].
    split; [reflexivity|].
    split; [reflexivity|].
    split; [exact Hr|].
    split; [exact Hrq|].
    split; [exact Hro|].
    apply (later_undo_cancelled env2 db1 _ (Sale.set_status "cancelled" sale) Ho2);
      [|reflexivity].
    rewrite Hlook, Hs. exact Hput.
Qed.

Lemma later_feed_undo_restores_stock_witness :
  exists db1 sale r,
    Later.handleUndoSale (env_at 3000) db_galx_7
                         (Later.feed_event (env_at 2000) (galx_venta 5))
    = (Applied, db1)
    /\ totalStock (batches db1)
                  (Movement.sku (base_movement (env_at 2000) (galx_venta 5)))
       == totalStock (batches db_galx_12)
                     (Movement.sku (base_movement (env_at 2000) (galx_venta 5)))
    /\ sales_get (KStr ("SALE-" ++ string_of_Z (now (env_at 2000)))) (sales db1)
       = Some sale
    /\ Sale.status sale = "cancelled"
    /\ Sale.quantity sale
       = Movement.quantity (base_movement (env_at 2000) (galx_venta 5))
    /\ returns db1 = (returns db_galx_7 ++ [r])%list
    /\ Return.quantity r
       = Movement.quantity (base_movement (env_at 2000) (galx_venta 5))
    /\ Return.original_sale_id r = Some (KNum (now (env_at 2000)))
    /\ Later.handleUndoSale (env_at 4000) db1
                            (Later.feed_event (env_at 2000) (galx_venta 5))
       = (Rejected SaleNotFoundOrCancelled, db1).
Proof.
  apply (later_feed_undo_restores_stock (env_at 2000) (env_at 3000) (env_at 4000)
           db_galx_12 db_galx_7 (galx_venta 5)).
  - exact (proj1 (well_keyed_handleProcessEvent _ _ _ well_keyed_empty)).
  - reflexivity.
  - vm_compute. reflexivity.
  - reflexivity.
  - reflexivity.
Defined.
